(** * SleepPilot: the apnea-diagnosis episode environments

    A shallow embedding of the two Gymnasium environments of the repository
    and of the calibration metric that goes with them:

    - [V1]    : [layer2RLdiagnosis-v1/apnea_env.py], class [ApneaDetectionEnv];
    - [M2]    : [layer2RLdiagnosis-model-2/apnea_detection_env.py], class
                [ApneaDetectionEnv];
    - [Utils] : [layer2RLdiagnosis-v1/utils.py], [calculate_ece].

    Conventions of the embedding.

    - Python floats are rationals ([Q]); equalities between floats are
      stated with [==] ([Qeq]).  Where the rounding of a float operation
      decides something discrete (the severity bucket of the events per
      hour, the truncation [int(x)] of a product, the test of the split
      ratios against [1e-6], the cast of an observation to [float32]) the
      operation is rounded to the nearest float, ties to even ([Np.double],
      [Np.float32], [Np.mul64] and the like).  The other float operations
      (the means, the rewards, the calibration error) are exact.  Where
      numpy would produce NaN (a mean over an empty array) or an infinity
      (an overflow) the statements below carry the hypothesis that excludes
      the case.
    - A method [m(self, args)] becomes a function from the object before the
      call to a [result] holding the object after the call and the returned
      value; a Python exception becomes [Raise].
    - The draws of the global numpy generator ([np.random.uniform],
      [np.random.randint]) are taken as an extra argument of the method that
      consumes them. *)

From Stdlib Require Import String.
From Stdlib Require Import QArith Qabs Qround Qpower ZArith List Sorted
  Permutation Bool Lia Lqa.
Import ListNotations.

Open Scope Q_scope.

(** ** Exceptions and the error monad *)

Inductive exn : Set :=
| IndexError
| KeyError
| AttributeError
| ValueError
| ZeroDivisionError.

Inductive result (A : Type) : Type :=
| Ok (a : A)
| Raise (e : exn).

Arguments Ok {A} a.
Arguments Raise {A} e.

Definition bind {A B : Type} (m : result A) (k : A -> result B) : result B :=
  match m with
  | Ok a => k a
  | Raise e => Raise e
  end.

Notation "x <- m ;; k" := (bind m (fun x => k))
  (at level 61, m at next level, right associativity).
Notation "' p <- m ;; k" := (bind m (fun p => k))
  (at level 61, p pattern, m at next level, right associativity).

Fixpoint mapM {A B : Type} (f : A -> result B) (xs : list A) : result (list B) :=
  match xs with
  | [] => Ok []
  | x :: xs' => y <- f x ;; ys <- mapM f xs' ;; Ok (y :: ys)
  end.

(** ** The fragment of Python and numpy the environments use *)

Module Np.

(** [xs[i]] for a non-negative index. *)
Definition index {A : Type} (xs : list A) (i : nat) : result A :=
  match nth_error xs i with
  | Some x => Ok x
  | None => Raise IndexError
  end.

(** [dict[key]] on a dictionary kept in insertion order. *)
Fixpoint getitem {V : Type} (d : list (string * V)) (key : string) : result V :=
  match d with
  | [] => Raise KeyError
  | (k, v) :: d' => if String.eqb k key then Ok v else getitem d' key
  end.

Definition keys {V : Type} (d : list (string * V)) : list string := map fst d.

(** [a > b], [a < b], [a <= b] on floats. *)
Definition gt (a b : Q) : bool := if Qlt_le_dec b a then true else false.
Definition lt (a b : Q) : bool := if Qlt_le_dec a b then true else false.
Definition le (a b : Q) : bool := if Qlt_le_dec b a then false else true.

(** [float(b)] and [int(b)] of a boolean. *)
Definition float_of_bool (b : bool) : Q := if b then 1 else 0.
Definition int_of_bool (b : bool) : Z := if b then 1%Z else 0%Z.

(** [float(n)] of an integer and of a length. *)
Definition float_of_int (z : Z) : Q := inject_Z z.
Definition float_of_len (n : nat) : Q := inject_Z (Z.of_nat n).

(** [int(x)] of a float: truncation towards zero. *)
Definition int_of_float (x : Q) : Z := Z.quot (Qnum x) (Zpos (Qden x)).

(** *** Rounding

    The value of a binary floating-point operation is the exact result
    rounded to the nearest number of the format, a tie going to the number
    with the even significand.  [round_to prec emin] is that rounding for a
    format with [prec] bits of significand whose smallest positive number is
    [2 ^ emin]; binary64 is [round_to 53 (-1074)] and binary32 is
    [round_to 24 (-149)].  A result beyond the largest number of the format,
    which the hardware turns into an infinity, is not a rational: the
    statements that use a rounding bound their operands. *)

(** The integer nearest to [x], a tie going to the even one. *)
Definition round_half_even (x : Q) : Z :=
  let f := Qfloor x in
  match Qcompare (x - inject_Z f) (1 # 2) with
  | Lt => f
  | Eq => if Z.even f then f else (f + 1)%Z
  | Gt => (f + 1)%Z
  end.

(** The exponent [e] with [2 ^ e <= x < 2 ^ (e + 1)], for a positive [x]. *)
Definition floor_log2 (x : Q) : Z :=
  let e := (Z.log2 (Qnum x) - Z.log2 (Zpos (Qden x)))%Z in
  if Qle_bool (2 ^ e) x then e else (e - 1)%Z.

(** The number of the format nearest to a positive [x]: the multiple of
    [2 ^ k] nearest to it, where [2 ^ k] is the spacing of the format around
    [x]. *)
Definition nearest (prec emin : Z) (x : Q) : Q :=
  let k := Z.max (floor_log2 x - prec + 1) emin in
  Qred (inject_Z (round_half_even (x / 2 ^ k)) * 2 ^ k).

(** A number of the format is returned as it is. *)
Definition round_to (prec emin : Z) (x : Q) : Q :=
  let r := if Qeq_bool x 0 then 0
           else if Qle_bool 0 x then nearest prec emin x
           else - nearest prec emin (- x) in
  if Qeq_bool r x then x else r.

(** The Python float (numpy [float64]) and the numpy [float32] nearest to a
    number; [float32] is also [x.astype(np.float32)]. *)
Definition double (x : Q) : Q := round_to 53 (-1074) x.
Definition float32 (x : Q) : Q := round_to 24 (-149) x.

(** The largest [float32]. *)
Definition float32_max : Q := inject_Z (2 ^ 24 - 1) * 2 ^ 104.

(** [a * b], [a / b], [a + b] and [a - b] on floats, rounded; an operand
    that is not a float (an integer, a decimal literal) is first converted
    to the float nearest to it. *)
Definition mul64 (a b : Q) : Q := double (double a * double b).
Definition div64 (a b : Q) : Q := double (double a / double b).
Definition add64 (a b : Q) : Q := double (double a + double b).
Definition sub64 (a b : Q) : Q := double (double a - double b).

(** The value an [int64] holds after an arithmetic overflow. *)
Definition int64 (z : Z) : Z := ((z + 2 ^ 63) mod 2 ^ 64 - 2 ^ 63)%Z.

(** Python's [max(a, b)]: [b] when [b > a], else [a]. *)
Definition max (a b : Q) : Q := if gt b a then b else a.

(** [np.sum] and [np.mean] of a float array. *)
Definition sum (xs : list Q) : Q := fold_right Qplus 0 xs.
Definition mean (xs : list Q) : Q := sum xs / float_of_len (length xs).

(** [np.sum] of an integer array. *)
Definition isum (xs : list Z) : Z := fold_right Z.add 0%Z xs.

(** [np.sum] of an [int64] array, which wraps around on overflow. *)
Definition sum_int64 (xs : list Z) : Z := int64 (isum xs).

(** [np.clip(x, lo, hi)]. *)
Definition clip (x lo hi : Q) : Q :=
  if lt x lo then lo else if gt x hi then hi else x.

(** [np.sum(mask)] of a boolean array. *)
Definition count_true (mask : list bool) : nat := length (filter (fun b => b) mask).

(** The elements of [xs] at the true positions of [mask]. *)
Fixpoint select {A : Type} (mask : list bool) (xs : list A) : list A :=
  match mask, xs with
  | b :: mask', x :: xs' => if b then x :: select mask' xs' else select mask' xs'
  | _, _ => []
  end.

(** [xs[mask]] with a boolean mask: numpy refuses a mask whose length differs
    from the length of the indexed axis. *)
Definition mask_index {A : Type} (xs : list A) (mask : list bool) : result (list A) :=
  if Nat.eqb (length mask) (length xs) then Ok (select mask xs) else Raise IndexError.

(** [np.where(mask)[0]]. *)
Fixpoint where_from (i : nat) (mask : list bool) : list nat :=
  match mask with
  | [] => []
  | b :: mask' => if b then i :: where_from (S i) mask' else where_from (S i) mask'
  end.
Definition where_true (mask : list bool) : list nat := where_from 0 mask.

(** [np.linspace(0, 1, n_bins + 1)]. *)
Definition linspace01 (n_bins : nat) : list Q :=
  map (fun k => float_of_len k / float_of_len n_bins) (seq 0 (S n_bins)).

(** [zip(b[:-1], b[1:])]. *)
Definition bins_of (boundaries : list Q) : list (Q * Q) :=
  combine (removelast boundaries) (tl boundaries).

(** [(confidences > lower) & (confidences <= upper)]. *)
Definition in_bin (confidences : list Q) (lower upper : Q) : list bool :=
  map (fun c => gt c lower && le c upper) confidences.

(** [np.median]: the middle of the sorted array, or the mean of the two
    middle values. *)
Fixpoint insert_sorted (x : Q) (xs : list Q) : list Q :=
  match xs with
  | [] => [x]
  | y :: ys => if le x y then x :: xs else y :: insert_sorted x ys
  end.
Definition sort (xs : list Q) : list Q := fold_right insert_sorted [] xs.
Definition median (xs : list Q) : Q :=
  let s := sort xs in
  let n := length xs in
  if Nat.even n
  then (nth (n / 2 - 1) s 0 + nth (n / 2) s 0) / 2
  else nth (n / 2) s 0.


(** [key in dict]. *)
Definition contains {V : Type} (d : list (string * V)) (key : string) : bool :=
  existsb (fun k => String.eqb k key) (keys d).

(** [a / b] on numpy floats: a zero divisor gives nan or an infinity, here
    [None], with a warning and no exception. *)
Definition fdiv (a b : Q) : option Q :=
  if Qeq_bool b 0 then None else Some (a / b).

(** [np.min] and [np.max] of a non-empty array. *)
Definition amin (xs : list Q) : Q :=
  match xs with
  | [] => 0
  | x :: xs' => fold_left (fun m y => if lt y m then y else m) xs' x
  end.

Definition amax (xs : list Q) : Q :=
  match xs with
  | [] => 0
  | x :: xs' => fold_left (fun m y => if gt y m then y else m) xs' x
  end.

(** [row op v] for two one-dimensional arrays, with numpy's broadcasting:
    the lengths are equal, or one of them is 1. *)
Definition broadcast_row {A B C : Type} (op : A -> B -> C)
    (row : list A) (v : list B) : result (list C) :=
  if Nat.eqb (length row) (length v)
  then Ok (map (fun '(a, b) => op a b) (combine row v))
  else match v, row with
       | [b], _ => Ok (map (fun a => op a b) row)
       | _, [a] => Ok (map (fun b => op a b) v)
       | _, _ => Raise ValueError
       end.

(** The position a slice bound [i] denotes in a list of [len] elements: a
    negative bound counts from the end, and bounds outside the list are
    clipped to it. *)
Definition clamp_index (len : nat) (i : Z) : nat :=
  if Z.ltb i 0 then Z.to_nat (Z.max (i + Z.of_nat len) 0)
  else Nat.min (Z.to_nat i) len.

(** [xs[start:stop]]; [None] is an omitted bound. *)
Definition slice {A : Type} (xs : list A) (start stop : option Z) : list A :=
  let len := length xs in
  let a := match start with None => 0%nat | Some i => clamp_index len i end in
  let b := match stop with None => len | Some i => clamp_index len i end in
  firstn (b - a) (skipn a xs).

End Np.

(** ** The calibration loop of the v1 code

    [utils.calculate_ece] (lines 25-31) and [get_episode_metrics] (lines
    253-259) contain the same loop over the bins; [ece_loop] is that loop,
    with the accumulator [ece] as an argument. *)

Fixpoint ece_loop (bins : list (Q * Q)) (confidences : list Q)
    (true_labels : list Z) (ece : Q) : result Q :=
  match bins with
  | [] => Ok ece
  | (bin_lower, bin_upper) :: bins' =>
      let in_bin := Np.in_bin confidences bin_lower bin_upper in
      if Nat.ltb 0 (Np.count_true in_bin) then
        conf_in_bin <- Np.mask_index confidences in_bin ;;
        labels_in_bin <- Np.mask_index true_labels in_bin ;;
        let bin_confidence := Np.mean conf_in_bin in
        let bin_accuracy := Np.mean (map Np.float_of_int labels_in_bin) in
        ece_loop bins' confidences true_labels
                 (ece + Np.float_of_len (Np.count_true in_bin)
                        * Qabs (bin_confidence - bin_accuracy))
      else ece_loop bins' confidences true_labels ece
  end.

(** ** [layer2RLdiagnosis-v1/utils.py] *)

Module Utils.

(** [calculate_ece].  The final division has the Python float [ece] on the
    left and the integer [len(confidences)] on the right, and Python raises
    [ZeroDivisionError] for a zero divisor. *)
Definition calculate_ece (confidences : list Q) (predictions : list Z)
    (true_labels : list Z) (n_bins : nat) : result Q :=
  let bin_boundaries := Np.linspace01 n_bins in
  ece <- ece_loop (Np.bins_of bin_boundaries) confidences true_labels 0 ;;
  if Nat.eqb (length confidences) 0 then Raise ZeroDivisionError
  else Ok (ece / Np.float_of_len (length confidences)).

(** [calculate_severity_scale]. *)
Definition calculate_severity_scale (apnea_events_per_hour : Q) : string :=
  if Np.lt apnea_events_per_hour 5 then "Normal"%string
  else if Np.lt apnea_events_per_hour 15 then "Mild"%string
  else if Np.lt apnea_events_per_hour 30 then "Moderate"%string
  else "Severe"%string.


(** A two-dimensional array is the list of its rows.  [width] is
    [shape[1]], read off the first row: an array without rows has no width
    here. *)
Definition width (features : list (list Q)) : nat :=
  match features with
  | [] => 0%nat
  | row :: _ => length row
  end.

Definition column (j : nat) (features : list (list Q)) : list Q :=
  map (fun row => nth j row 0) features.

(** A reduction along [axis=0]. *)
Definition along_axis0 (f : list Q -> Q) (features : list (list Q)) : list Q :=
  map (fun j => f (column j features)) (seq 0 (width features)).

(** [v[v == 0] = 1]. *)
Definition replace_zeros (v : list Q) : list Q :=
  map (fun x => if Qeq_bool x 0 then 1 else x) v.

(** [features - center] and [(features - center) / scale], the vectors
    being broadcast over the rows. *)
Definition sub_rows (features : list (list Q)) (center : list Q)
    : result (list (list Q)) :=
  mapM (fun row => Np.broadcast_row Qminus row center) features.

Definition div_rows (centered : list (list Q)) (scale : list Q)
    : result (list (list (option Q))) :=
  mapM (fun row => Np.broadcast_row Np.fdiv row scale) centered.

Definition center_and_scale (features : list (list Q)) (center scale : list Q)
    : result (list (list (option Q))) :=
  centered <- sub_rows features center ;;
  div_rows centered scale.

Section WithStd.

(** [np.std] of a column. *)
Variable std : list Q -> Q.

(** [normalize_features]; the parameters are the dictionary it returns.
    [np.min] refuses an array without rows. *)
Definition normalize_features (features : list (list Q)) (method : string)
    : result (list (list (option Q)) * list (string * list Q)) :=
  if String.eqb method "standard" then
    let mean := along_axis0 Np.mean features in
    let std := replace_zeros (along_axis0 std features) in
    normalized <- center_and_scale features mean std ;;
    Ok (normalized, [("mean"%string, mean); ("std"%string, std)])
  else if String.eqb method "minmax" then
    match features with
    | [] => Raise ValueError
    | _ :: _ =>
        let min_val := along_axis0 Np.amin features in
        let max_val := along_axis0 Np.amax features in
        range_val <- Np.broadcast_row Qminus max_val min_val ;;
        let range_val := replace_zeros range_val in
        normalized <- center_and_scale features min_val range_val ;;
        Ok (normalized, [("min"%string, min_val); ("max"%string, max_val)])
    end
  else if String.eqb method "robust" then
    let median := along_axis0 Np.median features in
    deviations <- sub_rows features median ;;
    let mad :=
      replace_zeros (along_axis0 Np.median (map (map Qabs) deviations)) in
    normalized <- center_and_scale features median mad ;;
    Ok (normalized, [("median"%string, median); ("mad"%string, mad)])
  else Raise ValueError.

End WithStd.

(** [apply_normalization]; the subscripts of [params] and the operations
    are in the order in which Python evaluates them. *)
Definition apply_normalization (features : list (list Q))
    (params : list (string * list Q)) (method : string)
    : result (list (list (option Q))) :=
  if String.eqb method "standard" then
    mean <- Np.getitem params "mean" ;;
    centered <- sub_rows features mean ;;
    std <- Np.getitem params "std" ;;
    div_rows centered std
  else if String.eqb method "minmax" then
    min_val <- Np.getitem params "min" ;;
    centered <- sub_rows features min_val ;;
    max_val <- Np.getitem params "max" ;;
    min_val <- Np.getitem params "min" ;;
    range_val <- Np.broadcast_row Qminus max_val min_val ;;
    div_rows centered range_val
  else if String.eqb method "robust" then
    median <- Np.getitem params "median" ;;
    centered <- sub_rows features median ;;
    mad <- Np.getitem params "mad" ;;
    div_rows centered mad
  else Raise ValueError.


End Utils.

(** ** [layer2RLdiagnosis-v1/apnea_env.py] *)

Module V1.

Definition feature_vector : Type := list Q.

(** One value of the dictionary [patient_data]. *)
Record PatientData : Type := mkPatientData {
  pd_features : list feature_vector;
  pd_labels : list Z;
  pd_indices : list nat
}.

(** One entry of [episode_event_details]. *)
Record EventDetail : Type := mkEventDetail {
  ev_timestamp : Q;
  ev_prediction : Z;
  ev_confidence : Q;
  ev_true_label : Z;
  ev_correctness : Q;
  ev_reward : Q
}.

(** The attributes of an [ApneaDetectionEnv] object.  [current_patient] is
    [None] until the first [reset]: [__init__] does not assign it.
    [observation_shape] is [observation_space.shape[0]]. *)
Record ApneaDetectionEnv : Type := mkEnv {
  features : list feature_vector;
  labels : list Z;
  patient_ids : list string;
  mode : string;
  max_episode_length : Z;
  observation_shape : nat;
  current_step : nat;
  current_patient_idx : nat;
  current_patient : option string;
  episode_predictions : list Z;
  episode_confidences : list Q;
  episode_rewards : list Q;
  episode_timestamps : list Q;
  episode_event_details : list EventDetail;
  patient_data : list (string * PatientData);
  patient_list : list string
}.

(** [_organize_by_patient].  The iteration order of [set(patient_ids)] is not
    fixed by Python; the order of first occurrence from the right, which is
    what [nodup] keeps, stands for it, and the statements about the
    constructor speak of the members of [patient_list], not of their
    order. *)
Definition _organize_by_patient
    (features : list feature_vector) (labels : list Z) (patient_ids : list string)
    : result (list (string * PatientData)) :=
  let unique_patients := nodup string_dec patient_ids in
  mapM (fun patient =>
          let patient_mask := map (fun pid => String.eqb pid patient) patient_ids in
          f <- Np.mask_index features patient_mask ;;
          l <- Np.mask_index labels patient_mask ;;
          Ok (patient, mkPatientData f l (Np.where_true patient_mask)))
       unique_patients.

(** [__init__]; [n_features] is [features.shape[1]]. *)
Definition init (features : list feature_vector) (n_features : nat)
    (labels : list Z) (patient_ids : list string)
    (mode : string) (max_episode_length : Z) : result ApneaDetectionEnv :=
  pdata <- _organize_by_patient features labels patient_ids ;;
  Ok (mkEnv features labels patient_ids mode max_episode_length n_features
            0 0 None [] [] [] [] [] pdata (Np.keys pdata)).

(** [self.patient_data[self.current_patient]]. *)
Definition current_data (env : ApneaDetectionEnv) : result PatientData :=
  match current_patient env with
  | None => Raise AttributeError
  | Some p => Np.getitem (patient_data env) p
  end.

(** [_get_observation]: the feature vector at the cursor, cast to
    [float32], or the zero vector past the end. *)
Definition _get_observation (env : ApneaDetectionEnv) : result feature_vector :=
  pd <- current_data env ;;
  if Nat.ltb (current_step env) (length (pd_features pd))
  then row <- Np.index (pd_features pd) (current_step env) ;;
       Ok (map Np.float32 row)
  else Ok (repeat 0 (observation_shape env)).

(** The [info] dictionaries returned by [reset] and by [step]. *)
Record ResetInfo : Type := mkResetInfo {
  ri_patient_id : option string;
  ri_step : nat;
  ri_total_steps : nat
}.

Record StepInfo : Type := mkStepInfo {
  si_patient_id : option string;
  si_step : nat;
  si_total_steps : nat;
  si_episode_predictions : list Z;
  si_episode_confidences : list Q;
  si_episode_rewards : list Q;
  si_episode_timestamps : list Q;
  si_episode_event_details : list EventDetail
}.

(** [reset]; [r] is the value of [np.random.randint(0, len(patient_list))],
    which raises [ValueError] on an empty range. *)
Definition reset (env : ApneaDetectionEnv) (r : nat)
    : result (ApneaDetectionEnv * (feature_vector * ResetInfo)) :=
  if Nat.eqb (length (patient_list env)) 0 then Raise ValueError else
  p <- Np.index (patient_list env) r ;;
  let env :=
    mkEnv (features env) (labels env) (patient_ids env) (mode env)
          (max_episode_length env) (observation_shape env)
          0 r (Some p) [] [] [] [] []
          (patient_data env) (patient_list env) in
  obs <- _get_observation env ;;
  pd <- current_data env ;;
  Ok (env, (obs, mkResetInfo (current_patient env) (current_step env)
                             (length (pd_features pd)))).

(** [_estimate_confidence]: the clipped mean magnitude of the feature vector
    of the segment. *)
Definition confidence_proxy (features : feature_vector) : Q :=
  Np.clip (Np.mean (map Qabs features) / 100) 0.1 0.9.

Definition _estimate_confidence (env : ApneaDetectionEnv) (step : nat) : result Q :=
  pd <- current_data env ;;
  features <- Np.index (pd_features pd) step ;;
  Ok (confidence_proxy features).

(** Assignment to [self.current_step]. *)
Definition set_current_step (env : ApneaDetectionEnv) (n : nat) : ApneaDetectionEnv :=
  mkEnv (features env) (labels env) (patient_ids env) (mode env)
        (max_episode_length env) (observation_shape env)
        n (current_patient_idx env) (current_patient env)
        (episode_predictions env) (episode_confidences env)
        (episode_rewards env) (episode_timestamps env)
        (episode_event_details env)
        (patient_data env) (patient_list env).

(** The five [append] calls of the DIAGNOSE branch. *)
Definition record_diagnosis (env : ApneaDetectionEnv) (d : EventDetail)
    : ApneaDetectionEnv :=
  mkEnv (features env) (labels env) (patient_ids env) (mode env)
        (max_episode_length env) (observation_shape env)
        (current_step env) (current_patient_idx env) (current_patient env)
        (episode_predictions env ++ [ev_prediction d])
        (episode_confidences env ++ [ev_confidence d])
        (episode_rewards env ++ [ev_reward d])
        (episode_timestamps env ++ [ev_timestamp d])
        (episode_event_details env ++ [d])
        (patient_data env) (patient_list env).

(** Lines 112-127 of [step]: the reward of a DIAGNOSE with the given
    confidence on a segment with the given label.  [true_label == (confidence
    > 0.5)] compares an integer with a boolean: it holds when the label is 1
    and the test is true, or the label is 0 and the test is false. *)
Definition correctness_of (confidence : Q) (true_label : Z) : Q :=
  Np.float_of_bool (Z.eqb true_label (Np.int_of_bool (Np.gt confidence 0.5))).

Definition diagnose_reward (confidence : Q) (true_label : Z) : Q :=
  let correctness := correctness_of confidence true_label in
  let base_reward := correctness in
  let calibration_penalty := 0.5 * (confidence - correctness) ^ 2 in
  let exploration_bonus := 0.1 in
  let reward := base_reward - calibration_penalty + exploration_bonus in
  Np.max reward (-0.5).

(** The value [step] returns. *)
Record StepResult : Type := mkStepResult {
  sr_obs : feature_vector;
  sr_reward : Q;
  sr_terminated : bool;
  sr_truncated : bool;
  sr_info : StepInfo
}.

(** The termination test, written twice in [step]: it updates the two local
    flags from the cursor. *)
Definition check_termination (env : ApneaDetectionEnv) (pd : PatientData)
    (terminated truncated : bool) : bool * bool :=
  if Nat.leb (length (pd_features pd)) (current_step env) then (true, truncated)
  else if Z.leb (max_episode_length env) (Z.of_nat (current_step env))
       then (terminated, true)
       else (terminated, truncated).

(** The confidence recorded by a DIAGNOSE: the estimate, or the draw [u] of
    [np.random.uniform(0.3, 0.9)] when the estimate is below 0.3. *)
Definition diagnose_confidence (estimate u : Q) : Q :=
  if Np.lt estimate 0.3 then u else estimate.

(** Lines 155-174 of [step]: the second termination test, the observation
    at the cursor and the [info] dictionary. *)
Definition step_info (env : ApneaDetectionEnv) (pd : PatientData) : StepInfo :=
  mkStepInfo (current_patient env) (current_step env)
             (length (pd_features pd))
             (episode_predictions env) (episode_confidences env)
             (episode_rewards env) (episode_timestamps env)
             (episode_event_details env).

Definition finish_step (env : ApneaDetectionEnv) (reward : Q)
    (terminated truncated : bool) : result (ApneaDetectionEnv * StepResult) :=
  pd <- current_data env ;;
  let flags := check_termination env pd terminated truncated in
  obs <- _get_observation env ;;
  Ok (env, mkStepResult obs reward (fst flags) (snd flags) (step_info env pd)).

(** The event recorded by a DIAGNOSE at the cursor of [env], on a segment
    with the given label and heuristic estimate. *)
Definition diagnosis_event (env : ApneaDetectionEnv) (true_label : Z)
    (estimate u : Q) : EventDetail :=
  let confidence := diagnose_confidence estimate u in
  let correctness := correctness_of confidence true_label in
  let reward := diagnose_reward confidence true_label in
  let prediction := Np.int_of_bool (Np.gt confidence 0.5) in
  let timestamp := Np.float_of_len (current_step env) * 10.0 in
  mkEventDetail timestamp prediction confidence true_label correctness reward.

(** [step(action)]; [u] is the value [np.random.uniform(0.3, 0.9)] returns if
    the call reaches it. *)
Definition step (env : ApneaDetectionEnv) (action : Z) (u : Q)
    : result (ApneaDetectionEnv * StepResult) :=
  let reward := 0.0 in
  let terminated := false in
  let truncated := false in
  if Z.eqb action 0 then
    let env := set_current_step env (S (current_step env)) in
    pd <- current_data env ;;
    let flags := check_termination env pd terminated truncated in
    finish_step env reward (fst flags) (snd flags)
  else if Z.eqb action 1 then
    pd <- current_data env ;;
    if Nat.ltb (current_step env) (length (pd_features pd)) then
      true_label <- Np.index (pd_labels pd) (current_step env) ;;
      estimate <- _estimate_confidence env (current_step env) ;;
      let event_detail := diagnosis_event env true_label estimate u in
      let env := record_diagnosis env event_detail in
      let env := set_current_step env (S (current_step env)) in
      finish_step env (ev_reward event_detail) terminated truncated
    else finish_step env reward terminated truncated
  else if Z.eqb action 2 then
    finish_step env (-0.1) true truncated
  else finish_step env reward terminated truncated.

(** Lines 208-219: the severity of an AHI value. *)
Definition severity_of_ahi (ahi : Q) : Q :=
  if Np.lt ahi 5 then 0.1
  else if Np.lt ahi 15 then 0.2
  else if Np.lt ahi 25 then 0.4
  else if Np.lt ahi 35 then 0.6
  else if Np.lt ahi 50 then 0.8
  else 1.0.

(** [_calculate_severity_score] (lines 183-221): the events are counted by
    [np.sum] on the [int64] predictions, and the duration and the events per
    hour are float expressions, rounded at each operation; [ahi] is
    compared with the thresholds as computed. *)
Definition _calculate_severity_score (predictions : list Z) (timestamps : list Q) : Q :=
  if Nat.eqb (length predictions) 0 then 0.0 else
  let n_apnea_events := Np.sum_int64 predictions in
  if Z.eqb n_apnea_events 0 then 0.0 else
  let total_duration_hours :=
    Np.div64 (Np.mul64 (Np.float_of_len (length predictions)) 10.0) 3600.0 in
  if Qeq_bool total_duration_hours 0 then 0.0 else
  let ahi := Np.div64 (Np.float_of_int n_apnea_events) total_duration_hours in
  severity_of_ahi ahi.

(** One entry of [apnea_event_details]. *)
Record ApneaEvent : Type := mkApneaEvent {
  ae_timestamp : Q;
  ae_confidence : Q;
  ae_step : nat
}.

(** The dictionary [get_episode_metrics] returns when it is not empty. *)
Record EpisodeMetrics : Type := mkEpisodeMetrics {
  em_patient_id : option string;
  em_accuracy : Q;
  em_ece : Q;
  em_mean_confidence : Q;
  em_n_predictions : nat;
  em_n_apnea_events : Z;
  em_severity_score : Q;
  em_ahi_score : Q;
  em_apnea_event_details : list ApneaEvent;
  em_total_duration_minutes : Q;
  em_apnea_frequency_per_hour : Q
}.

(** What [get_episode_metrics] returns: the dictionary [{}] or the eleven
    keys of [EpisodeMetrics]. *)
Inductive MetricsDict : Type :=
| EmptyDict
| Metrics (m : EpisodeMetrics).

(** [enumerate(zip(predictions, confidences, timestamps))], keeping the
    entries whose prediction is 1. *)
Fixpoint apnea_events_from (i : nat) (predictions : list Z)
    (confidences timestamps : list Q) : list ApneaEvent :=
  match predictions, confidences, timestamps with
  | pred :: ps, conf :: cs, ts :: tss =>
      if Z.eqb pred 1
      then mkApneaEvent ts conf i :: apnea_events_from (S i) ps cs tss
      else apnea_events_from (S i) ps cs tss
  | _, _, _ => []
  end.

(** [np.mean(predictions == true_labels)] on arrays of one length. *)
Definition accuracy_of (predictions true_labels : list Z) : Q :=
  Np.mean (map (fun '(p, l) => Np.float_of_bool (Z.eqb p l))
               (combine predictions true_labels)).

(** Lines 247-261: the copy of the calibration error written out in
    [get_episode_metrics]. *)
Definition episode_ece (confidences : list Q) (true_labels : list Z)
    (n_predictions : nat) : result Q :=
  let n_bins := 10%nat in
  let bin_boundaries := Np.linspace01 n_bins in
  ece <- ece_loop (Np.bins_of bin_boundaries) confidences true_labels 0.0 ;;
  Ok (ece / (if Nat.ltb 0 n_predictions then Np.float_of_len n_predictions else 1)).

(** [np.sum(predictions) / (n * 10.0 / 3600.0) if n > 0 else 0], the float
    expression of [ahi_score] and [apnea_frequency_per_hour]. *)
Definition ahi_of (predictions : list Z) (n_predictions : nat) : Q :=
  if Nat.ltb 0 n_predictions
  then Np.div64 (Np.float_of_int (Np.sum_int64 predictions))
                (Np.div64 (Np.mul64 (Np.float_of_len n_predictions) 10.0) 3600.0)
  else 0.

Definition get_episode_metrics (env : ApneaDetectionEnv) : result MetricsDict :=
  match episode_predictions env with
  | [] => Ok EmptyDict
  | _ :: _ =>
      let predictions := episode_predictions env in
      let confidences := episode_confidences env in
      let timestamps := episode_timestamps env in
      let n_predictions := length predictions in
      pd <- current_data env ;;
      let true_labels := firstn n_predictions (pd_labels pd) in
      let '(predictions, confidences, timestamps, n_predictions) :=
        if Nat.ltb (length true_labels) n_predictions
        then (firstn (length true_labels) predictions,
              firstn (length true_labels) confidences,
              firstn (length true_labels) timestamps,
              length true_labels)
        else (predictions, confidences, timestamps, n_predictions) in
      let accuracy := accuracy_of predictions true_labels in
      ece <- episode_ece confidences true_labels n_predictions ;;
      let severity_score := _calculate_severity_score predictions timestamps in
      let apnea_events := apnea_events_from 0 predictions confidences timestamps in
      Ok (Metrics
            (mkEpisodeMetrics
               (current_patient env) accuracy ece (Np.mean confidences)
               n_predictions (Np.isum predictions) severity_score
               (ahi_of predictions n_predictions)
               apnea_events
               (Np.float_of_len n_predictions * 10.0 / 60.0)
               (ahi_of predictions n_predictions)))
  end.

(** The episode loop of [rl_agent.py] (lines 101-112): step until a step
    returns [terminated] or [truncated].  The policy is replaced by a script
    of actions, each with the draw its step may consume; the loop also ends
    when the script does. *)
Fixpoint run_episode (env : ApneaDetectionEnv) (script : list (Z * Q))
    : result (ApneaDetectionEnv * list StepResult) :=
  match script with
  | [] => Ok (env, [])
  | (action, u) :: script' =>
      '(env, out) <- step env action u ;;
      if sr_terminated out || sr_truncated out then Ok (env, [out])
      else
        '(env, outs) <- run_episode env script' ;;
        Ok (env, out :: outs)
  end.

(** The parallel episode lists have one length. *)
Definition lists_aligned (env : ApneaDetectionEnv) : Prop :=
  length (episode_confidences env) = length (episode_predictions env) /\
  length (episode_rewards env) = length (episode_predictions env) /\
  length (episode_timestamps env) = length (episode_predictions env) /\
  length (episode_event_details env) = length (episode_predictions env).

(** The state [reset] leaves behind: a patient is selected, its label and
    feature arrays have one length, the cursor is 0 and nothing is
    recorded. *)
Definition freshly_reset (env : ApneaDetectionEnv) (pd : PatientData) : Prop :=
  current_data env = Ok pd /\
  length (pd_labels pd) = length (pd_features pd) /\
  current_step env = 0%nat /\
  episode_predictions env = [] /\
  episode_confidences env = [] /\
  episode_rewards env = [] /\
  episode_timestamps env = [] /\
  episode_event_details env = [].

(** What holds of the environment all along an episode: a patient is
    selected, its arrays have one length, the episode lists are parallel, and
    there are no more predictions than segments passed or segments at all. *)
Definition episode_invariant (env : ApneaDetectionEnv) (pd : PatientData) : Prop :=
  current_data env = Ok pd /\
  length (pd_labels pd) = length (pd_features pd) /\
  lists_aligned env /\
  (length (episode_predictions env) <= current_step env)%nat /\
  (length (episode_predictions env) <= length (pd_labels pd))%nat.

(** The number of segments the cursor has passed without a prediction. *)
Definition lag (env : ApneaDetectionEnv) : nat :=
  current_step env - length (episode_predictions env).

(** [env'] holds the timestamps and event details of [env], followed by
    further ones. *)
Definition records_extend (env env' : ApneaDetectionEnv) : Prop :=
  (exists ts, episode_timestamps env' = episode_timestamps env ++ ts) /\
  (exists ds, episode_event_details env' = episode_event_details env ++ ds).

End V1.

(** ** [layer2RLdiagnosis-v1/data_loader.py]: the splits by patient and the
    arrays of the environment *)

Module V1Loader.

(** One value of the dictionary [load_preprocessed_data] returns. *)
Record PatientRecord : Type := mkPatientRecord {
  rec_features : list V1.feature_vector;
  rec_labels : list Z;
  rec_n_apnea : nat;
  rec_n_normal : nat
}.

Section WithShuffle.

(** [np.random.seed(42); np.random.shuffle(patient_ids)]: the list after the
    shuffle in place. *)
Variable shuffle : list string -> list string.

(** [create_patient_wise_splits].  The sum of the ratios, its distance to
    1.0 and the products [n_patients * ratio] are float expressions, rounded
    at each operation, and [1e-6] is the float nearest to that decimal. *)
Definition create_patient_wise_splits (data : list (string * PatientRecord))
    (train_ratio val_ratio test_ratio : Q)
    : result (list string * list string * list string) :=
  let patient_ids := Np.keys data in
  let n_patients := length patient_ids in
  if Np.gt (Qabs (Np.sub64 (Np.add64 (Np.add64 train_ratio val_ratio) test_ratio)
                           1.0))
           (Np.double 1e-6)
  then Raise ValueError else
  let n_train :=
    Np.int_of_float (Np.mul64 (Np.float_of_len n_patients) train_ratio) in
  let n_val :=
    Np.int_of_float (Np.mul64 (Np.float_of_len n_patients) val_ratio) in
  let n_test := (Z.of_nat n_patients - n_train - n_val)%Z in
  let patient_ids := shuffle patient_ids in
  let train_patients := Np.slice patient_ids None (Some n_train) in
  let val_patients :=
    Np.slice patient_ids (Some n_train) (Some (n_train + n_val)%Z) in
  let test_patients := Np.slice patient_ids (Some (n_train + n_val)%Z) None in
  Ok (train_patients, val_patients, test_patients).

End WithShuffle.

(** Lines 129-140 of [prepare_features_from_preprocessed]: the loop over
    the patients; a patient that is not in [data] is skipped. *)
Fixpoint collect (data : list (string * PatientRecord)) (patient_list : list string)
    (all_features : list (list V1.feature_vector)) (all_labels : list (list Z))
    (all_patient_ids : list string)
    : result (list (list V1.feature_vector) * list (list Z) * list string) :=
  match patient_list with
  | [] => Ok (all_features, all_labels, all_patient_ids)
  | patient_id :: patient_list' =>
      if Np.contains data patient_id then
        patient_data <- Np.getitem data patient_id ;;
        let features := rec_features patient_data in
        let labels := rec_labels patient_data in
        let patient_ids := repeat patient_id (length features) in
        collect data patient_list' (all_features ++ [features])
                (all_labels ++ [labels]) (all_patient_ids ++ patient_ids)
      else collect data patient_list' all_features all_labels all_patient_ids
  end.

(** [np.vstack] of two-dimensional arrays given by their rows: the rows of
    all the arrays, which must have one width; numpy refuses an empty list
    of arrays.  An array without rows has no width here. *)
Definition vstack (arrays : list (list V1.feature_vector))
    : result (list V1.feature_vector) :=
  match arrays with
  | [] => Raise ValueError
  | _ :: _ =>
      let rows := concat arrays in
      match rows with
      | [] => Ok []
      | row :: _ =>
          if forallb (fun r => Nat.eqb (length r) (length row)) rows
          then Ok rows else Raise ValueError
      end
  end.

(** [prepare_features_from_preprocessed]. *)
Definition prepare_features_from_preprocessed
    (data : list (string * PatientRecord)) (patient_list : list string)
    : result (list V1.feature_vector * list Z * list string) :=
  '(all_features, all_labels, all_patient_ids) <-
    collect data patient_list [] [] [] ;;
  match all_features with
  | [] => Raise ValueError
  | _ :: _ =>
      features <- vstack all_features ;;
      let labels := concat all_labels in
      Ok (features, labels, all_patient_ids)
  end.

(** The arrays of a patient in [data], and none for an unknown patient. *)
Definition features_of (data : list (string * PatientRecord)) (patient_id : string)
    : list V1.feature_vector :=
  match Np.getitem data patient_id with
  | Ok patient_data => rec_features patient_data
  | Raise _ => []
  end.

Definition labels_of (data : list (string * PatientRecord)) (patient_id : string)
    : list Z :=
  match Np.getitem data patient_id with
  | Ok patient_data => rec_labels patient_data
  | Raise _ => []
  end.

(** Every patient of [data] has at least one sample, as many labels as
    samples, and samples of [width] features. *)
Definition records_ok (width : nat) (data : list (string * PatientRecord)) : Prop :=
  Forall (fun entry =>
            rec_features (snd entry) <> [] /\
            length (rec_labels (snd entry)) = length (rec_features (snd entry)) /\
            Forall (fun row => length row = width) (rec_features (snd entry)))
         data.

End V1Loader.

(** ** [layer2RLdiagnosis-v1/utils.py]: the aggregation of episode metrics *)

Module Aggregation.

(** The dictionary [aggregate_patient_metrics] returns when it is not
    empty. *)
Record AggregatedMetrics : Type := mkAggregatedMetrics {
  am_mean_accuracy : Q;
  am_std_accuracy : Q;
  am_mean_ece : Q;
  am_std_ece : Q;
  am_mean_confidence : Q;
  am_std_confidence : Q;
  am_mean_severity : Q;
  am_std_severity : Q;
  am_total_apnea_events : Z;
  am_mean_apnea_events_per_episode : Q;
  am_n_episodes : nat
}.

Inductive AggregatedDict : Type :=
| EmptyDict
| Aggregated (a : AggregatedMetrics).

(** [m[key]] on a dictionary of episode metrics: the empty dictionary has
    no key. *)
Definition item {A : Type} (m : V1.MetricsDict) (field : V1.EpisodeMetrics -> A)
    : result A :=
  match m with
  | V1.EmptyDict => Raise KeyError
  | V1.Metrics d => Ok (field d)
  end.

Section WithStd.

(** [np.std] of a list of floats. *)
Variable std : list Q -> Q.

Definition aggregate_patient_metrics (episode_metrics : list V1.MetricsDict)
    : result AggregatedDict :=
  match episode_metrics with
  | [] => Ok EmptyDict
  | _ :: _ =>
      accuracies <- mapM (fun m => item m V1.em_accuracy) episode_metrics ;;
      eces <- mapM (fun m => item m V1.em_ece) episode_metrics ;;
      confidences <- mapM (fun m => item m V1.em_mean_confidence) episode_metrics ;;
      severities <- mapM (fun m => item m V1.em_severity_score) episode_metrics ;;
      n_apnea_events <- mapM (fun m => item m V1.em_n_apnea_events) episode_metrics ;;
      Ok (Aggregated
            (mkAggregatedMetrics
               (Np.mean accuracies) (std accuracies)
               (Np.mean eces) (std eces)
               (Np.mean confidences) (std confidences)
               (Np.mean severities) (std severities)
               (Np.isum n_apnea_events)
               (Np.mean (map Np.float_of_int n_apnea_events))
               (length episode_metrics)))
  end.

End WithStd.

End Aggregation.

(** ** [layer2RLdiagnosis-model-2/apnea_detection_env.py] *)

Module M2.

Definition audio : Type := list Q.
Definition spectrogram : Type := list (list Q).

(** One entry of [diagnosed_segments]. *)
Record Diagnosis : Type := mkDiagnosis {
  dg_segment_idx : nat;
  dg_label : Z;
  dg_confidence : Q;
  dg_reward : Q
}.

(** The attributes of an [ApneaDetectionEnv] object. *)
Record ApneaDetectionEnv : Type := mkEnv {
  audio_segments : list audio;
  labels : list Z;
  segment_duration : Q;
  sample_rate : Z;
  current_segment_idx : nat;
  diagnosed_segments : list Diagnosis;
  escalated : bool;
  features : list spectrogram
}.

(** The [info] dictionaries of [reset] and [step]. *)
Record ResetInfo : Type := mkResetInfo {
  ri_current_segment : nat;
  ri_total_segments : nat;
  ri_diagnosed_count : nat;
  ri_escalated : bool
}.

Record StepInfo : Type := mkStepInfo {
  si_current_segment : nat;
  si_total_segments : nat;
  si_diagnosed_count : nat;
  si_escalated : bool;
  si_diagnosed_segments : list Diagnosis
}.

(** The tuple [step] returns; its fourth component is the constant [False]. *)
Record StepResult : Type := mkStepResult {
  sr_obs : spectrogram;
  sr_reward : Q;
  sr_done : bool;
  sr_truncated : bool;
  sr_info : StepInfo
}.

(** The dictionary [get_episode_results] returns when it is not empty. *)
Record EpisodeResults : Type := mkEpisodeResults {
  er_total_segments : nat;
  er_apnea_count : Z;
  er_normal_count : Z;
  er_severity : Q;
  er_median_confidence : Q;
  er_ece : Q;
  er_mean_reward : Q;
  er_diagnosed_segments : list Diagnosis
}.

Inductive ResultsDict : Type :=
| EmptyDict
| Results (r : EpisodeResults).

(** Lines 59-65 of [_extract_features]: the segment padded with zeros at its
    end, or cut, to the target length.  [segment[:target_length]] with a
    negative target drops that many samples from the end. *)
Definition fit_length (segment : audio) (target_length : Z) : audio :=
  if Z.ltb (Z.of_nat (length segment)) target_length
  then segment ++ repeat 0 (Z.to_nat (target_length - Z.of_nat (length segment)))
  else if Z.ltb target_length (Z.of_nat (length segment))
       then (if Z.leb 0 target_length
             then firstn (Z.to_nat target_length) segment
             else firstn (length segment - Z.to_nat (- target_length)) segment)
       else segment.

(** One value of the dictionary the wrapper is built from. *)
Record PatientInfo : Type := mkPatientInfo {
  pi_segments : list audio;
  pi_labels : list Z
}.

(** The attributes of an [ApneaDetectionEnvWrapper] object. *)
Record ApneaDetectionEnvWrapper : Type := mkWrapper {
  w_patient_data : list (string * PatientInfo);
  w_current_patient : option string;
  w_current_env : option ApneaDetectionEnv
}.

Section WithLibrosa.

(** The external signal processing of [_extract_features]: the normalised
    log mel-spectrogram ([librosa.feature.melspectrogram],
    [librosa.power_to_db], standardisation) of a segment of the target
    length at the given sample rate. *)
Variable mel_spectrogram_db : audio -> Z -> spectrogram.

(** [_extract_features]; the target length is the float product
    [segment_duration * sample_rate], rounded, then truncated by [int]. *)
Definition _extract_features (audio_segments : list audio)
    (segment_duration : Q) (sample_rate : Z) : list spectrogram :=
  map (fun segment =>
         let target_length :=
           Np.int_of_float
             (Np.mul64 segment_duration (Np.float_of_int sample_rate)) in
         let segment := fit_length segment target_length in
         mel_spectrogram_db segment sample_rate)
      audio_segments.

(** [__init__]. *)
Definition init (audio_segments : list audio) (labels : list Z)
    (segment_duration : Q) (sample_rate : Z) : ApneaDetectionEnv :=
  mkEnv audio_segments labels segment_duration sample_rate 0 [] false
        (_extract_features audio_segments segment_duration sample_rate).

(** [ApneaDetectionEnvWrapper.__init__], [reset_patient] and
    [get_patient_ids]; the environment is built with the default segment
    duration and sample rate. *)
Definition wrapper_init (patient_data : list (string * PatientInfo))
    : ApneaDetectionEnvWrapper :=
  mkWrapper patient_data None None.

Definition reset_patient (w : ApneaDetectionEnvWrapper) (patient_id : string)
    : result (ApneaDetectionEnvWrapper * ApneaDetectionEnv) :=
  if negb (Np.contains (w_patient_data w) patient_id) then Raise ValueError else
  patient_info <- Np.getitem (w_patient_data w) patient_id ;;
  let current_env :=
    init (pi_segments patient_info) (pi_labels patient_info) 10.0 16000 in
  Ok (mkWrapper (w_patient_data w) (Some patient_id) (Some current_env),
      current_env).

Definition get_patient_ids (w : ApneaDetectionEnvWrapper) : list string :=
  Np.keys (w_patient_data w).

End WithLibrosa.

Definition zeros_like (s : spectrogram) : spectrogram :=
  map (map (fun _ => 0)) s.

Definition reset (env : ApneaDetectionEnv)
    : result (ApneaDetectionEnv * (spectrogram * ResetInfo)) :=
  let env :=
    mkEnv (audio_segments env) (labels env) (segment_duration env)
          (sample_rate env) 0 [] false (features env) in
  observation <- Np.index (features env) 0 ;;
  Ok (env, (observation,
            mkResetInfo 0 (length (audio_segments env)) 0 false)).

(** Lines 120-124: the placeholder confidence and the reward of a DIAGNOSE
    on a segment with the given label. *)
Definition placeholder_confidence : Q := 0.7.

Definition diagnose_reward (confidence : Q) (current_label : Z) : Q :=
  let correctness := Np.float_of_int current_label in
  correctness - (confidence - correctness) ^ 2.

(** Assignments to [self.current_segment_idx] and [self.escalated], and the
    [append] to [self.diagnosed_segments]. *)
Definition set_current_segment_idx (env : ApneaDetectionEnv) (n : nat)
    : ApneaDetectionEnv :=
  mkEnv (audio_segments env) (labels env) (segment_duration env)
        (sample_rate env) n (diagnosed_segments env) (escalated env)
        (features env).

Definition set_escalated (env : ApneaDetectionEnv) (b : bool) : ApneaDetectionEnv :=
  mkEnv (audio_segments env) (labels env) (segment_duration env)
        (sample_rate env) (current_segment_idx env) (diagnosed_segments env)
        b (features env).

Definition record_diagnosis (env : ApneaDetectionEnv) (d : Diagnosis)
    : ApneaDetectionEnv :=
  mkEnv (audio_segments env) (labels env) (segment_duration env)
        (sample_rate env) (current_segment_idx env)
        (diagnosed_segments env ++ [d]) (escalated env) (features env).

(** Lines 141-160 of [step]: the end-of-record test, the next observation
    and the [info] dictionary. *)
Definition step_info (env : ApneaDetectionEnv) : StepInfo :=
  mkStepInfo (current_segment_idx env) (length (audio_segments env))
             (length (diagnosed_segments env)) (escalated env)
             (diagnosed_segments env).

Definition finish_step (env : ApneaDetectionEnv) (reward : Q) (done : bool)
    : result (ApneaDetectionEnv * StepResult) :=
  let done :=
    if Nat.leb (length (audio_segments env)) (current_segment_idx env)
    then true else done in
  observation <-
    (if negb done then Np.index (features env) (current_segment_idx env)
     else first <- Np.index (features env) 0 ;; Ok (zeros_like first)) ;;
  Ok (env, mkStepResult observation reward done false (step_info env)).

Definition step (env : ApneaDetectionEnv) (action : Z)
    : result (ApneaDetectionEnv * StepResult) :=
  let done := false in
  let reward := 0.0 in
  if Z.eqb action 0 then
    let reward := 0.0 in
    let env := set_current_segment_idx env (S (current_segment_idx env)) in
    finish_step env reward done
  else if Z.eqb action 1 then
    current_label <- Np.index (labels env) (current_segment_idx env) ;;
    let confidence := placeholder_confidence in
    let reward := diagnose_reward confidence current_label in
    let env :=
      record_diagnosis env
        (mkDiagnosis (current_segment_idx env) current_label confidence reward) in
    let env := set_current_segment_idx env (S (current_segment_idx env)) in
    finish_step env reward done
  else if Z.eqb action 2 then
    let reward := -0.1 in
    let env := set_escalated env true in
    finish_step env reward true
  else finish_step env reward done.

(** [_calculate_ece]. *)
Fixpoint ece_loop (bins : list (Q * Q)) (labels : list Z)
    (confidences : list Q) (ece : Q) : result Q :=
  match bins with
  | [] => Ok ece
  | (bin_lower, bin_upper) :: bins' =>
      let in_bin := Np.in_bin confidences bin_lower bin_upper in
      let bin_size := Np.count_true in_bin in
      if Nat.ltb 0 bin_size then
        labels_in_bin <- Np.mask_index labels in_bin ;;
        let bin_acc :=
          Np.float_of_int (Np.isum labels_in_bin) / Np.float_of_len bin_size in
        conf_in_bin <- Np.mask_index confidences in_bin ;;
        let bin_conf := Np.mean conf_in_bin in
        ece_loop bins' labels confidences
                 (ece + Np.float_of_len bin_size * Qabs (bin_acc - bin_conf))
      else ece_loop bins' labels confidences ece
  end.

Definition _calculate_ece (labels : list Z) (confidences : list Q)
    (n_bins : nat) : result Q :=
  let bin_boundaries := Np.linspace01 n_bins in
  ece <- ece_loop (Np.bins_of bin_boundaries) labels confidences 0.0 ;;
  if Nat.eqb (length labels) 0 then Raise ZeroDivisionError
  else Ok (ece / Np.float_of_len (length labels)).

Definition get_episode_results (env : ApneaDetectionEnv) : result ResultsDict :=
  match diagnosed_segments env with
  | [] => Ok EmptyDict
  | _ :: _ =>
      let labels := map dg_label (diagnosed_segments env) in
      let confidences := map dg_confidence (diagnosed_segments env) in
      let rewards := map dg_reward (diagnosed_segments env) in
      let apnea_count := Np.isum labels in
      let n := length (diagnosed_segments env) in
      let severity := Np.float_of_int apnea_count / Np.float_of_len n in
      let median_confidence := Np.median confidences in
      ece <- _calculate_ece labels confidences 10 ;;
      Ok (Results
            (mkEpisodeResults n apnea_count (Z.of_nat n - apnea_count)
                              severity median_confidence ece
                              (Np.mean rewards) (diagnosed_segments env)))
  end.

(** The episode loop of [demo.py] (lines 88-95) and [rl_agent.py] (lines
    183-186): step until a step returns [done], or the script ends. *)
Fixpoint run_episode (env : ApneaDetectionEnv) (script : list Z)
    : result (ApneaDetectionEnv * list StepResult) :=
  match script with
  | [] => Ok (env, [])
  | action :: script' =>
      '(env, out) <- step env action ;;
      if sr_done out then Ok (env, [out])
      else
        '(env, outs) <- run_episode env script' ;;
        Ok (env, out :: outs)
  end.

End M2.

(** ** [layer2RLdiagnosis-model-2/rl_agent.py]: the evaluation of an episode *)

Module M2Agent.

(** One entry of the list [predictions] of [evaluate_episode]. *)
Record Prediction : Type := mkPrediction {
  pr_action : Z;
  pr_confidence : Q;
  pr_reward : Q
}.

(** The lists of [training_history] that [evaluate_episode] appends to. *)
Record TrainingHistory : Type := mkTrainingHistory {
  th_episode_rewards : list Q;
  th_episode_lengths : list nat;
  th_training_timesteps : list nat;
  th_ece_scores : list Q;
  th_confidence_scores : list Q
}.

(** The dictionary [evaluate_episode] returns. *)
Record Evaluation : Type := mkEvaluation {
  ev_total_reward : Q;
  ev_episode_length : nat;
  ev_episode_results : M2.ResultsDict;
  ev_predictions : list Prediction
}.

Section WithPolicy.

(** [self.predict(obs, deterministic=True)]: the action and the confidence
    of the policy for an observation. *)
Variable predict : M2.spectrogram -> Z * Q.

(** Lines 310-333 of [evaluate_episode]: the loop [while not done].  [fuel]
    bounds the number of iterations; [None] is returned when it runs out
    with the loop still running. *)
Fixpoint episode_loop (fuel : nat) (env : M2.ApneaDetectionEnv)
    (obs : M2.spectrogram) (total_reward : Q) (episode_length : nat)
    (predictions : list Prediction)
    : result (option (M2.ApneaDetectionEnv * (Q * nat * list Prediction))) :=
  match fuel with
  | O => Ok None
  | S fuel' =>
      let '(action, confidence) := predict obs in
      '(env, out) <- M2.step env action ;;
      let predictions :=
        if Z.eqb action 1
        then predictions ++ [mkPrediction action confidence (M2.sr_reward out)]
        else predictions in
      let total_reward := total_reward + M2.sr_reward out in
      let episode_length := S episode_length in
      if M2.sr_done out
      then Ok (Some (env, (total_reward, episode_length, predictions)))
      else episode_loop fuel' env (M2.sr_obs out) total_reward episode_length
                        predictions
  end.

(** [evaluate_episode], with the training history of the agent before and
    after the call. *)
Definition evaluate_episode (fuel : nat) (history : TrainingHistory)
    (env : M2.ApneaDetectionEnv)
    : result (option (TrainingHistory * M2.ApneaDetectionEnv * Evaluation)) :=
  '(env, (obs, _)) <- M2.reset env ;;
  let total_reward := 0 in
  let episode_length := 0%nat in
  let predictions := [] in
  looped <- episode_loop fuel env obs total_reward episode_length predictions ;;
  match looped with
  | None => Ok None
  | Some (env, (total_reward, episode_length, predictions)) =>
      episode_results <- M2.get_episode_results env ;;
      let '(ece_scores, confidence_scores) :=
        match episode_results with
        | M2.EmptyDict => (th_ece_scores history, th_confidence_scores history)
        | M2.Results r =>
            (th_ece_scores history ++ [M2.er_ece r],
             th_confidence_scores history ++ [M2.er_median_confidence r])
        end in
      let history :=
        mkTrainingHistory
          (th_episode_rewards history ++ [total_reward])
          (th_episode_lengths history ++ [episode_length])
          (th_training_timesteps history ++ [episode_length])
          ece_scores confidence_scores in
      Ok (Some (history, env,
                mkEvaluation total_reward episode_length episode_results
                             predictions))
  end.

End WithPolicy.

End M2Agent.

(** ** [layer2RLdiagnosis-model-2/data_loader.py]: the audio preprocessor *)

Module M2Loader.

(** [range(0, stop, step)]: Python refuses a zero step. *)
Definition range0 (stop step : Z) : result (list Z) :=
  if Z.eqb step 0 then Raise ValueError
  else
    let n :=
      if Z.ltb 0 step then ((stop + step - 1) / step)%Z
      else ((stop + step + 1) / step)%Z in
    Ok (map (fun k => (Z.of_nat k * step)%Z) (seq 0 (Z.to_nat n))).

(** The attributes of an [AudioPreprocessor] object. *)
Record AudioPreprocessor : Type := mkAudioPreprocessor {
  target_sr : Z;
  segment_duration : Q;
  segment_length : Z
}.

(** [__init__]; [segment_length] is the float product
    [target_sr * segment_duration], rounded, then truncated by [int]. *)
Definition init (target_sr : Z) (segment_duration : Q) : AudioPreprocessor :=
  mkAudioPreprocessor target_sr segment_duration
    (Np.int_of_float (Np.mul64 (Np.float_of_int target_sr) segment_duration)).

Section WithLibrosa.

(** [librosa.resample(audio, orig_sr=sr, target_sr=target_sr)]. *)
Variable resample : M2.audio -> Z -> Z -> M2.audio.

(** [preprocess_audio]: resampling when the rates differ, then the padding
    or the cut to the segment length, written as in [_extract_features]. *)
Definition preprocess_audio (self : AudioPreprocessor) (audio : M2.audio) (sr : Z)
    : M2.audio :=
  let audio :=
    if negb (Z.eqb sr (target_sr self)) then resample audio sr (target_sr self)
    else audio in
  M2.fit_length audio (segment_length self).

(** [segment_audio].  [total_segments] is computed for the message only, but
    its floor division raises [ZeroDivisionError] for a zero segment
    length. *)
Definition segment_audio (self : AudioPreprocessor) (audio : M2.audio) (sr : Z)
    : result (list M2.audio) :=
  let audio := preprocess_audio self audio sr in
  if Z.eqb (segment_length self) 0 then Raise ZeroDivisionError else
  let total_segments := (Z.of_nat (length audio) / segment_length self)%Z in
  starts <- range0 (Z.of_nat (length audio)) (segment_length self) ;;
  Ok (fold_left
        (fun segments i =>
           let segment :=
             Np.slice audio (Some i) (Some (i + segment_length self)%Z) in
           if Z.eqb (Z.of_nat (length segment)) (segment_length self)
           then segments ++ [segment] else segments)
        starts []).

End WithLibrosa.

End M2Loader.

(** ** Predicates on the records of a model-2 episode *)

Module M2Records.

(** The environment has one spectrogram per segment, at least one segment,
    and a label for every segment. *)
Definition well_formed (env : M2.ApneaDetectionEnv) : Prop :=
  length (M2.features env) = length (M2.audio_segments env) /\
  M2.features env <> [] /\
  (length (M2.audio_segments env) <= length (M2.labels env))%nat.

(** An entry of [diagnosed_segments] as the DIAGNOSE branch writes it: the
    label of its segment, the placeholder confidence and the reward of the
    two, for a segment the cursor has passed. *)
Definition diagnosis_ok (env : M2.ApneaDetectionEnv) (d : M2.Diagnosis) : Prop :=
  nth_error (M2.labels env) (M2.dg_segment_idx d) = Some (M2.dg_label d) /\
  M2.dg_confidence d = M2.placeholder_confidence /\
  M2.dg_reward d = M2.diagnose_reward M2.placeholder_confidence (M2.dg_label d) /\
  (M2.dg_segment_idx d < M2.current_segment_idx env)%nat.

(** Every entry is such a diagnosis, and the segments come in increasing
    order. *)
Definition consistent (env : M2.ApneaDetectionEnv) : Prop :=
  Forall (diagnosis_ok env) (M2.diagnosed_segments env) /\
  StronglySorted (fun a b => (M2.dg_segment_idx a < M2.dg_segment_idx b)%nat)
                 (M2.diagnosed_segments env).

End M2Records.

(** ** The reward of the specification

    The DIAGNOSE reward as the specification words it, with the calibration
    weight [lambda] and the exploration bonus [eps] as parameters;
    [bool(true_label)] is true for a non-zero label. *)

Definition spec_correctness (confidence : Q) (true_label : Z) : Q :=
  if Bool.eqb (Np.gt confidence 0.5) (negb (Z.eqb true_label 0)) then 1 else 0.

Definition spec_reward (lambda eps confidence : Q) (true_label : Z) : Q :=
  let correctness := spec_correctness confidence true_label in
  correctness - lambda * (confidence - correctness) ^ 2 + eps.

(** ** Concrete environments used in the examples below *)

Module Examples.

Open Scope string_scope.

(** One patient, three segments of two features; the heuristic confidence of
    the segments is 0.9, 0.9 and 0.1. *)
Definition pd_a : V1.PatientData :=
  V1.mkPatientData [[90; 90]; [90; 90]; [0; 0]] [0; 1; 1]%Z [0; 1; 2]%nat.

Definition v1_fresh : V1.ApneaDetectionEnv :=
  V1.mkEnv [[90; 90]; [90; 90]; [0; 0]] [0; 1; 1]%Z ["a"; "a"; "a"] "train"
           100 2 0 0 None [] [] [] [] [] [("a", pd_a)] ["a"].

(** [v1_fresh] after [reset]. *)
Definition v1_ready : V1.ApneaDetectionEnv :=
  V1.mkEnv [[90; 90]; [90; 90]; [0; 0]] [0; 1; 1]%Z ["a"; "a"; "a"] "train"
           100 2 0 0 (Some "a") [] [] [] [] [] [("a", pd_a)] ["a"].

(** [v1_ready] with the cursor moved to segment [n]. *)
Definition v1_at (n : nat) : V1.ApneaDetectionEnv := V1.set_current_step v1_ready n.

(** [v1_ready] after a caller has appended four predictions, confidences and
    timestamps to the episode lists, as [test_severity.py] does: one more
    than the patient has labels. *)
Definition v1_overfull : V1.ApneaDetectionEnv :=
  V1.mkEnv [[90; 90]; [90; 90]; [0; 0]] [0; 1; 1]%Z ["a"; "a"; "a"] "train"
           100 2 0 0 (Some "a")
           [1; 0; 1; 1]%Z [0.8; 0.7; 0.8; 0.8] [] [0.0; 10.0; 20.0; 30.0] []
           [("a", pd_a)] ["a"].

(** [v1_ready] with [max_episode_length = 2]. *)
Definition v1_short : V1.ApneaDetectionEnv :=
  V1.mkEnv [[90; 90]; [90; 90]; [0; 0]] [0; 1; 1]%Z ["a"; "a"; "a"] "train"
           2 2 0 0 (Some "a") [] [] [] [] [] [("a", pd_a)] ["a"].

(** Two patients: "a" owns the samples 0 and 2, "b" the sample 1. *)
Definition v1_two : V1.ApneaDetectionEnv :=
  V1.mkEnv [[90; 90]; [40; 40]; [0; 0]] [0; 1; 1]%Z ["a"; "b"; "a"] "train"
           100 2 0 0 None [] [] [] [] []
           [("b", V1.mkPatientData [[40; 40]] [1]%Z [1]%nat);
            ("a", V1.mkPatientData [[90; 90]; [0; 0]] [0; 1]%Z [0; 2]%nat)]
           ["b"; "a"].

(** A model-2 environment with three segments whose spectrograms are given. *)
Definition m2_ready : M2.ApneaDetectionEnv :=
  M2.mkEnv [[0; 0]; [1; 1]; [2; 2]] [0; 1; 1]%Z 10.0 16000 0 [] false
           [[[1]]; [[2]]; [[3]]].

Definition m2_at (n : nat) : M2.ApneaDetectionEnv :=
  M2.mkEnv (M2.audio_segments m2_ready) (M2.labels m2_ready)
           (M2.segment_duration m2_ready) (M2.sample_rate m2_ready)
           n [] false (M2.features m2_ready).

End Examples.

(** ** [layer2RLdiagnosis-v1/rl_agent.py]: the evaluation loop *)

Module V1Agent.

Section WithModel.

(** [self.model.predict(obs, deterministic=True)[0]]: the action the trained
    policy chooses for an observation. *)
Variable predict : V1.feature_vector -> Z.

(** Lines 101-112 of [evaluate]: the loop [while True] of one episode, from
    the observation [reset] or the last step returned.  [fuel] bounds the
    number of iterations; [None] is returned when it runs out with the loop
    still running.  [draws k] is the value [np.random.uniform] returns if
    the step with number [k] of the episode reaches it. *)
Fixpoint episode_loop (fuel : nat) (env : V1.ApneaDetectionEnv)
    (obs : V1.feature_vector) (draws : nat -> Q)
    (episode_reward : Q) (episode_length : nat)
    : result (option (V1.ApneaDetectionEnv * (Q * nat * V1.MetricsDict))) :=
  match fuel with
  | O => Ok None
  | S fuel' =>
      let action := predict obs in
      '(env, out) <- V1.step env action (draws episode_length) ;;
      let episode_reward := episode_reward + V1.sr_reward out in
      let episode_length := S episode_length in
      if V1.sr_terminated out || V1.sr_truncated out then
        metrics <- V1.get_episode_metrics env ;;
        Ok (Some (env, (episode_reward, episode_length, metrics)))
      else
        episode_loop fuel' env (V1.sr_obs out) draws episode_reward episode_length
  end.

(** Lines 97-115: one pass of the loop over the episodes.  [r] is the draw
    of [reset]; the metrics are appended only when the dictionary is not
    empty. *)
Definition evaluate_episode (fuel : nat) (env : V1.ApneaDetectionEnv)
    (r : nat) (draws : nat -> Q)
    (episode_rewards : list Q) (episode_lengths : list nat)
    (episode_metrics : list V1.EpisodeMetrics)
    : result (option (V1.ApneaDetectionEnv
                      * (list Q * list nat * list V1.EpisodeMetrics))) :=
  '(env, (obs, _)) <- V1.reset env r ;;
  let episode_reward := 0 in
  let episode_length := 0%nat in
  looped <- episode_loop fuel env obs draws episode_reward episode_length ;;
  match looped with
  | None => Ok None
  | Some (env, (episode_reward, episode_length, metrics)) =>
      let episode_metrics :=
        match metrics with
        | V1.EmptyDict => episode_metrics
        | V1.Metrics m => episode_metrics ++ [m]
        end in
      Ok (Some (env, (episode_rewards ++ [episode_reward],
                      episode_lengths ++ [episode_length],
                      episode_metrics)))
  end.

(** Lines 96-115: the loop over the episodes.  [rs episode] is the draw of
    the [reset] of the episode and [draws episode] the draws of its
    steps. *)
Fixpoint evaluate_episodes (fuel : nat) (episodes : list nat)
    (env : V1.ApneaDetectionEnv) (rs : nat -> nat) (draws : nat -> nat -> Q)
    (episode_rewards : list Q) (episode_lengths : list nat)
    (episode_metrics : list V1.EpisodeMetrics)
    : result (option (V1.ApneaDetectionEnv
                      * (list Q * list nat * list V1.EpisodeMetrics))) :=
  match episodes with
  | [] => Ok (Some (env, (episode_rewards, episode_lengths, episode_metrics)))
  | episode :: episodes' =>
      looped <- evaluate_episode fuel env (rs episode) (draws episode)
                  episode_rewards episode_lengths episode_metrics ;;
      match looped with
      | None => Ok None
      | Some (env, (episode_rewards, episode_lengths, episode_metrics)) =>
          evaluate_episodes fuel episodes' env rs draws
                            episode_rewards episode_lengths episode_metrics
      end
  end.

(** Lines 127-132: [patient_metrics[patient_id].append(metrics)], with the
    list created when the key is new. *)
Definition patient_id_eqb (a b : option string) : bool :=
  match a, b with
  | Some x, Some y => String.eqb x y
  | None, None => true
  | _, _ => false
  end.

Fixpoint group_append
    (patient_metrics : list (option string * list V1.EpisodeMetrics))
    (metrics : V1.EpisodeMetrics)
    : list (option string * list V1.EpisodeMetrics) :=
  match patient_metrics with
  | [] => [(V1.em_patient_id metrics, [metrics])]
  | (patient_id, ms) :: rest =>
      if patient_id_eqb patient_id (V1.em_patient_id metrics)
      then (patient_id, ms ++ [metrics]) :: rest
      else (patient_id, ms) :: group_append rest metrics
  end.

Definition group_by_patient (episode_metrics : list V1.EpisodeMetrics)
    : list (option string * list V1.EpisodeMetrics) :=
  fold_left group_append episode_metrics [].

(** The keys [evaluate] adds when some episode produced metrics. *)
Record Aggregated : Type := mkAggregated {
  ag_mean_accuracy : Q;
  ag_mean_ece : Q;
  ag_mean_severity : Q;
  ag_mean_ahi_score : Q;
  ag_mean_confidence : Q;
  ag_patient_metrics : list (option string * list V1.EpisodeMetrics)
}.

(** The dictionary [evaluate] returns. *)
Record EvalResults : Type := mkEvalResults {
  res_mean_reward : Q;
  res_std_reward : Q;
  res_mean_episode_length : Q;
  res_n_episodes : Z;
  res_aggregated : option Aggregated
}.

(** [np.std] of a list of floats. *)
Variable std : list Q -> Q.

(** [evaluate] (lines 88-150). *)
Definition evaluate (fuel : nat) (env : V1.ApneaDetectionEnv)
    (n_eval_episodes : Z) (rs : nat -> nat) (draws : nat -> nat -> Q)
    : result (option (V1.ApneaDetectionEnv * EvalResults)) :=
  looped <- evaluate_episodes fuel (seq 0 (Z.to_nat n_eval_episodes)) env rs draws
              [] [] [] ;;
  match looped with
  | None => Ok None
  | Some (env, (episode_rewards, episode_lengths, episode_metrics)) =>
      let aggregated :=
        match episode_metrics with
        | [] => None
        | _ :: _ =>
            Some (mkAggregated
                    (Np.mean (map V1.em_accuracy episode_metrics))
                    (Np.mean (map V1.em_ece episode_metrics))
                    (Np.mean (map V1.em_severity_score episode_metrics))
                    (Np.mean (map V1.em_ahi_score episode_metrics))
                    (Np.mean (map V1.em_mean_confidence episode_metrics))
                    (group_by_patient episode_metrics))
        end in
      Ok (Some (env,
                mkEvalResults (Np.mean episode_rewards) (std episode_rewards)
                              (Np.mean (map Np.float_of_len episode_lengths))
                              n_eval_episodes aggregated))
  end.

End WithModel.

End V1Agent.

(** ** Predicates on the records of a v1 episode *)

Module V1Records.

(** An entry of [episode_event_details] as the DIAGNOSE branch writes it for
    some segment [s] of the patient: the timestamp of the segment, its label,
    and the prediction, correctness and reward computed from the recorded
    confidence. *)
Definition event_of_segment (pd : V1.PatientData) (s : nat)
    (ev : V1.EventDetail) : Prop :=
  V1.ev_timestamp ev = Np.float_of_len s * 10.0 /\
  nth_error (V1.pd_labels pd) s = Some (V1.ev_true_label ev) /\
  V1.ev_prediction ev = Np.int_of_bool (Np.gt (V1.ev_confidence ev) 0.5) /\
  V1.ev_correctness ev
  = V1.correctness_of (V1.ev_confidence ev) (V1.ev_true_label ev) /\
  V1.ev_reward ev = V1.diagnose_reward (V1.ev_confidence ev) (V1.ev_true_label ev).

(** The four episode lists are the columns of [episode_event_details], and
    every entry is the event of some segment. *)
Definition consistent (env : V1.ApneaDetectionEnv) (pd : V1.PatientData) : Prop :=
  Forall (fun ev => exists s, event_of_segment pd s ev)
         (V1.episode_event_details env) /\
  V1.episode_predictions env = map V1.ev_prediction (V1.episode_event_details env) /\
  V1.episode_confidences env = map V1.ev_confidence (V1.episode_event_details env) /\
  V1.episode_rewards env = map V1.ev_reward (V1.episode_event_details env) /\
  V1.episode_timestamps env = map V1.ev_timestamp (V1.episode_event_details env).

(** Every recorded confidence lies between [lo] and [hi]. *)
Definition confidences_within (lo hi : Q) (env : V1.ApneaDetectionEnv) : Prop :=
  Forall (fun c => lo <= c <= hi) (V1.episode_confidences env).

(** The feature vectors of the patient are not empty. *)
Definition rows_nonempty (pd : V1.PatientData) : Prop :=
  Forall (fun row => row <> []) (V1.pd_features pd).

(** The cursor has passed exactly the diagnosed segments: the [k]-th entry of
    [episode_event_details] is the event of segment [k]. *)
Definition in_step (env : V1.ApneaDetectionEnv) (pd : V1.PatientData) : Prop :=
  V1.current_step env = length (V1.episode_event_details env) /\
  forall k ev,
    nth_error (V1.episode_event_details env) k = Some ev ->
    event_of_segment pd k ev.

(** The dictionary [patient_data] as the constructor builds it: the keys
    are [patient_list], and every patient has as many labels as feature
    vectors, and at least one. *)
Definition dataset_ok (env : V1.ApneaDetectionEnv) : Prop :=
  V1.patient_list env = Np.keys (V1.patient_data env) /\
  Forall (fun entry =>
            length (V1.pd_labels (snd entry)) = length (V1.pd_features (snd entry))
            /\ V1.pd_features (snd entry) <> [])
         (V1.patient_data env).

(** What the lists [evaluate] accumulates satisfy after [k] episodes: one
    reward and one length per episode, every length between 1 and [fuel], at
    most one dictionary of metrics per episode, each with an accuracy in
    [[0, 1]]. *)
Definition accumulated (fuel k : nat) (episode_rewards : list Q)
    (episode_lengths : list nat) (episode_metrics : list V1.EpisodeMetrics) : Prop :=
  length episode_rewards = k /\
  length episode_lengths = k /\
  Forall (fun n => (1 <= n <= fuel)%nat) episode_lengths /\
  (length episode_metrics <= k)%nat /\
  Forall (fun m => 0 <= V1.em_accuracy m <= 1) episode_metrics.

(** The groups of [patient_metrics] hold metrics of their own patient. *)
Definition grouped
    (patient_metrics : list (option string * list V1.EpisodeMetrics)) : Prop :=
  Forall (fun g => Forall (fun m => V1.em_patient_id m = fst g) (snd g))
         patient_metrics.

End V1Records.

(** * Properties *)

(** ** Rounding to the nearest number of a binary format *)

Lemma two_pow_pos (k : Z) : 0 < 2 ^ k.
Proof. apply Qpower_0_lt. reflexivity. Qed.

Lemma two_pow_succ (k : Z) : 2 ^ (k + 1) == 2 * 2 ^ k.
Proof.
  rewrite Qpower_plus by (intro H; discriminate H).
  change (2 ^ 1) with 2. ring.
Qed.

Lemma two_pow_le (a b : Z) : (a <= b)%Z -> 2 ^ a <= 2 ^ b.
Proof. intro H. apply Qpower_le_compat_l; [exact H | discriminate]. Qed.

Lemma two_pow_lt_inv (a b : Z) : 2 ^ a < 2 ^ b -> (a < b)%Z.
Proof. intro H. apply (Qpower_lt_compat_l_inv 2); [exact H | reflexivity]. Qed.

Lemma two_pow_inject (n : Z) : (0 <= n)%Z -> inject_Z (2 ^ n) == 2 ^ n.
Proof. intro H. rewrite Zpower_Qpower by exact H. reflexivity. Qed.

Lemma two_pow_split (a b : Z) : 2 ^ a == 2 ^ (a - b) * 2 ^ b.
Proof.
  rewrite <- Qpower_plus by (intro H; discriminate H).
  replace (a - b + b)%Z with a by lia. reflexivity.
Qed.

(** [floor_log2 x] is the exponent of the binade of [x]. *)
Lemma floor_log2_spec (x : Q) :
  0 < x -> 2 ^ Np.floor_log2 x <= x /\ x < 2 ^ (Np.floor_log2 x + 1).
Proof.
  intro Hx. unfold Np.floor_log2.
  destruct x as [n d]. cbn [Qnum Qden].
  assert (Hn : (0 < n)%Z).
  { unfold Qlt in Hx. cbn in Hx. lia. }
  set (a := Z.log2 n). set (b := Z.log2 (Z.pos d)).
  assert (Ha : (0 <= a)%Z) by apply Z.log2_nonneg.
  assert (Hb : (0 <= b)%Z) by apply Z.log2_nonneg.
  destruct (Z.log2_spec n Hn) as [Ha1 Ha2]. fold a in Ha1, Ha2.
  destruct (Z.log2_spec (Z.pos d) (Pos2Z.is_pos d)) as [Hb1 Hb2].
  fold b in Hb1, Hb2.
  assert (QA1 : 2 ^ a <= inject_Z n).
  { rewrite <- two_pow_inject by exact Ha. rewrite <- Zle_Qle. exact Ha1. }
  assert (QA2 : inject_Z n < 2 * 2 ^ a).
  { rewrite <- two_pow_succ, <- two_pow_inject by lia.
    rewrite <- Zlt_Qlt. exact Ha2. }
  assert (QB1 : 2 ^ b <= inject_Z (Z.pos d)).
  { rewrite <- two_pow_inject by exact Hb. rewrite <- Zle_Qle. exact Hb1. }
  assert (QB2 : inject_Z (Z.pos d) < 2 * 2 ^ b).
  { rewrite <- two_pow_succ, <- two_pow_inject by lia.
    rewrite <- Zlt_Qlt. exact Hb2. }
  assert (HD : 0 < inject_Z (Z.pos d)).
  { change 0 with (inject_Z 0). rewrite <- Zlt_Qlt. apply Pos2Z.is_pos. }
  assert (Hsplit : 2 ^ a == 2 ^ (a - b) * 2 ^ b) by apply two_pow_split.
  assert (HP : 0 < 2 ^ (a - b)) by apply two_pow_pos.
  assert (HPb : 0 < 2 ^ b) by apply two_pow_pos.
  assert (Hx' : (n # d) * inject_Z (Z.pos d) == inject_Z n).
  { rewrite Qmake_Qdiv. field. intro H. rewrite H in HD.
    exact (Qlt_irrefl _ HD). }
  set (X := n # d) in *. set (D := inject_Z (Z.pos d)) in *.
  set (N := inject_Z n) in *. set (P := 2 ^ (a - b)) in *.
  set (A := 2 ^ a) in *. set (B := 2 ^ b) in *.
  assert (Hlow : (1 # 2) * P < X).
  { apply Qnot_le_lt. intro Hc.
    assert (X * D <= (1 # 2) * P * D) by (apply Qmult_le_compat_r; lra).
    assert ((1 # 2) * P * D < (1 # 2) * P * (2 * B)).
    { apply Qmult_lt_l; lra. }
    assert ((1 # 2) * P * (2 * B) == A) by (rewrite Hsplit; ring).
    lra. }
  assert (Hhigh : X < 2 * P).
  { apply Qnot_le_lt. intro Hc.
    assert (2 * P * D <= X * D) by (apply Qmult_le_compat_r; lra).
    assert (2 * P * B <= 2 * P * D).
    { apply Qmult_le_l; lra. }
    assert (2 * P * B == 2 * A) by (rewrite Hsplit; ring).
    lra. }
  destruct (Qle_bool P X) eqn:E.
  - apply Qle_bool_iff in E. split; [exact E |].
    rewrite two_pow_succ. exact Hhigh.
  - assert (Hlt : X < P).
    { apply Qnot_le_lt. intro Hc. apply Qle_bool_iff in Hc. congruence. }
    split.
    + assert (Hs : 2 ^ (a - b) == 2 * 2 ^ (a - b - 1)).
      { rewrite <- two_pow_succ. replace (a - b - 1 + 1)%Z with (a - b)%Z by lia.
        reflexivity. }
      fold P in Hs. set (T := 2 ^ (a - b - 1)) in *. lra.
    + replace (a - b - 1 + 1)%Z with (a - b)%Z by lia. exact Hlt.
Qed.

Lemma floor_log2_lower (x : Q) (c : Z) :
  0 < x -> 2 ^ c <= x -> (c <= Np.floor_log2 x)%Z.
Proof.
  intros Hx Hc. destruct (floor_log2_spec x Hx) as [_ H2].
  assert (H : 2 ^ c < 2 ^ (Np.floor_log2 x + 1)) by lra.
  apply two_pow_lt_inv in H. lia.
Qed.

Lemma floor_log2_upper (x : Q) (c : Z) :
  0 < x -> x < 2 ^ c -> (Np.floor_log2 x < c)%Z.
Proof.
  intros Hx Hc. destruct (floor_log2_spec x Hx) as [H1 _].
  assert (H : 2 ^ Np.floor_log2 x < 2 ^ c) by lra.
  apply two_pow_lt_inv in H. lia.
Qed.

Lemma floor_log2_monotone (x y : Q) :
  0 < x -> x <= y -> (Np.floor_log2 x <= Np.floor_log2 y)%Z.
Proof.
  intros Hx Hxy. apply floor_log2_lower; [lra |].
  destruct (floor_log2_spec x Hx) as [H1 _]. lra.
Qed.

(** [round_half_even] returns an integer at distance at most a half. *)
Lemma round_half_even_cases (x : Q) :
  let m := Np.round_half_even x in
  (m = Qfloor x /\ x - inject_Z (Qfloor x) <= 1 # 2) \/
  (m = (Qfloor x + 1)%Z /\ (1 # 2) <= x - inject_Z (Qfloor x)).
Proof.
  unfold Np.round_half_even.
  destruct (Qcompare (x - inject_Z (Qfloor x)) (1 # 2)) eqn:E.
  - apply Qeq_alt in E. destruct (Z.even (Qfloor x)).
    + left. split; [reflexivity | lra].
    + right. split; [reflexivity | lra].
  - apply Qlt_alt in E. left. split; [reflexivity | lra].
  - apply Qgt_alt in E. right. split; [reflexivity | lra].
Qed.

Lemma inject_Z_succ (z : Z) : inject_Z (z + 1) == inject_Z z + 1.
Proof. rewrite inject_Z_plus. reflexivity. Qed.

Lemma round_half_even_near (x : Q) :
  x - (1 # 2) <= inject_Z (Np.round_half_even x) /\
  inject_Z (Np.round_half_even x) <= x + (1 # 2).
Proof.
  pose proof (Qfloor_le x) as H1. pose proof (Qlt_floor x) as H2.
  rewrite inject_Z_succ in H2.
  destruct (round_half_even_cases x) as [[-> H] | [-> H]].
  - split; lra.
  - rewrite inject_Z_succ. split; lra.
Qed.

Lemma round_half_even_le_int (x : Q) (M : Z) :
  x <= inject_Z M -> (Np.round_half_even x <= M)%Z.
Proof.
  intro H. pose proof (Qfloor_le x) as H1.
  assert (HfM : (Qfloor x <= M)%Z).
  { rewrite <- (Qfloor_Z M). apply Qfloor_resp_le. exact H. }
  destruct (round_half_even_cases x) as [[-> _] | [-> Hh]]; [exact HfM |].
  destruct (Z.eq_dec (Qfloor x) M) as [E | E]; [| lia].
  rewrite E in Hh. lra.
Qed.

Lemma round_half_even_ge_int (x : Q) (M : Z) :
  inject_Z M <= x -> (M <= Np.round_half_even x)%Z.
Proof.
  intro H.
  assert (HfM : (M <= Qfloor x)%Z).
  { rewrite <- (Qfloor_Z M). apply Qfloor_resp_le. exact H. }
  destruct (round_half_even_cases x) as [[-> _] | [-> _]]; lia.
Qed.

Lemma round_half_even_monotone (x y : Q) :
  x <= y -> (Np.round_half_even x <= Np.round_half_even y)%Z.
Proof.
  intro Hxy.
  pose proof (Qfloor_resp_le x y Hxy) as Hf.
  destruct (Z.eq_dec (Qfloor x) (Qfloor y)) as [E | E].
  - unfold Np.round_half_even. rewrite <- E.
    destruct (Qcompare (x - inject_Z (Qfloor x)) (1 # 2)) eqn:E1;
      [apply Qeq_alt in E1 | apply Qlt_alt in E1 | apply Qgt_alt in E1];
      (destruct (Qcompare (y - inject_Z (Qfloor x)) (1 # 2)) eqn:E2;
       [apply Qeq_alt in E2 | apply Qlt_alt in E2 | apply Qgt_alt in E2]);
      try (exfalso; lra); destruct (Z.even (Qfloor x)); lia.
  - destruct (round_half_even_cases x) as [[-> _] | [-> _]];
      destruct (round_half_even_cases y) as [[-> _] | [-> _]]; lia.
Qed.

Lemma nearest_eq (prec emin : Z) (x : Q) :
  Np.nearest prec emin x
  == inject_Z (Np.round_half_even
                 (x / 2 ^ Z.max (Np.floor_log2 x - prec + 1) emin))
     * 2 ^ Z.max (Np.floor_log2 x - prec + 1) emin.
Proof. unfold Np.nearest. apply Qred_correct. Qed.

Lemma div_two_pow (x : Q) (k : Z) : x / 2 ^ k * 2 ^ k == x.
Proof.
  field. intro H. pose proof (two_pow_pos k) as Hk. rewrite H in Hk.
  exact (Qlt_irrefl _ Hk).
Qed.

Lemma div_two_pow_le (x y : Q) (k : Z) : x <= y -> x / 2 ^ k <= y / 2 ^ k.
Proof.
  intro H. unfold Qdiv. apply Qmult_le_compat_r; [exact H |].
  apply Qinv_le_0_compat. apply Qlt_le_weak, two_pow_pos.
Qed.

Lemma two_pow_div (a k : Z) : 2 ^ a / 2 ^ k == 2 ^ (a - k).
Proof. rewrite Qpower_minus by (intro H; discriminate H). reflexivity. Qed.

Lemma nearest_nonneg (prec emin : Z) (x : Q) :
  0 <= x -> 0 <= Np.nearest prec emin x.
Proof.
  intro Hx. rewrite nearest_eq.
  set (k := Z.max (Np.floor_log2 x - prec + 1) emin).
  apply Qmult_le_0_compat; [| apply Qlt_le_weak, two_pow_pos].
  change 0 with (inject_Z 0). rewrite <- Zle_Qle.
  apply round_half_even_ge_int.
  apply Qle_trans with (0 / 2 ^ k); [| apply div_two_pow_le; exact Hx].
  unfold Qdiv. rewrite Qmult_0_l. apply Qle_refl.
Qed.

(** Rounding to nearest is monotone. *)
Lemma nearest_monotone (prec emin : Z) (x y : Q) :
  (1 <= prec)%Z -> 0 < x -> x <= y ->
  Np.nearest prec emin x <= Np.nearest prec emin y.
Proof.
  intros Hp Hx Hxy. rewrite !nearest_eq.
  assert (Hy : 0 < y) by lra.
  pose proof (floor_log2_monotone x y Hx Hxy) as He.
  set (ex := Np.floor_log2 x) in *. set (ey := Np.floor_log2 y) in *.
  set (kx := Z.max (ex - prec + 1) emin).
  set (ky := Z.max (ey - prec + 1) emin).
  destruct (Z.eq_dec kx ky) as [E | E].
  - rewrite <- E. apply Qmult_le_compat_r; [| apply Qlt_le_weak, two_pow_pos].
    rewrite <- Zle_Qle. apply round_half_even_monotone.
    apply div_two_pow_le. exact Hxy.
  - assert (Hky : ky = (ey - prec + 1)%Z) by lia.
    assert (Hex : (ex < ey)%Z) by lia.
    assert (Hkx : (kx < ky)%Z) by lia.
    destruct (floor_log2_spec x Hx) as [_ Hx2]. fold ex in Hx2.
    destruct (floor_log2_spec y Hy) as [Hy1 _]. fold ey in Hy1.
    apply Qle_trans with (2 ^ ey).
    + rewrite (two_pow_split ey kx).
      apply Qmult_le_compat_r; [| apply Qlt_le_weak, two_pow_pos].
      rewrite <- (two_pow_inject (ey - kx)) by lia. rewrite <- Zle_Qle.
      apply round_half_even_le_int. rewrite two_pow_inject by lia.
      rewrite <- two_pow_div. apply div_two_pow_le.
      apply Qle_trans with (2 ^ (ex + 1)); [lra | apply two_pow_le; lia].
    + rewrite (two_pow_split ey ky) at 1.
      apply Qmult_le_compat_r; [| apply Qlt_le_weak, two_pow_pos].
      rewrite <- (two_pow_inject (ey - ky)) by lia. rewrite <- Zle_Qle.
      apply round_half_even_ge_int. rewrite two_pow_inject by lia.
      rewrite <- two_pow_div. apply div_two_pow_le. exact Hy1.
Qed.

(** In the normal range the error of a rounding is at most [2 ^ - prec]
    times the number that is rounded. *)
Lemma nearest_error (prec emin : Z) (x : Q) :
  2 ^ (emin + prec - 1) <= x ->
  x * (1 - 2 ^ (- prec)) <= Np.nearest prec emin x /\
  Np.nearest prec emin x <= x * (1 + 2 ^ (- prec)).
Proof.
  intro Hn.
  assert (Hx : 0 < x).
  { apply Qlt_le_trans with (2 ^ (emin + prec - 1)); [apply two_pow_pos | exact Hn]. }
  rewrite !nearest_eq.
  pose proof (floor_log2_lower x _ Hx Hn) as He.
  destruct (floor_log2_spec x Hx) as [Hx1 _].
  set (e := Np.floor_log2 x) in *.
  replace (Z.max (e - prec + 1) emin) with (e - prec + 1)%Z by lia.
  set (k := (e - prec + 1)%Z).
  destruct (round_half_even_near (x / 2 ^ k)) as [Hm1 Hm2].
  set (m := inject_Z (Np.round_half_even (x / 2 ^ k))) in *.
  pose proof (div_two_pow x k) as Hz.
  assert (HK : 0 < 2 ^ k) by apply two_pow_pos.
  assert (HU : 0 < 2 ^ (- prec)) by apply two_pow_pos.
  assert (HKU : (1 # 2) * 2 ^ k == 2 ^ e * 2 ^ (- prec)).
  { rewrite <- Qpower_plus by (intro H; discriminate H).
    replace (e + - prec)%Z with (k - 1)%Z by lia.
    rewrite <- (two_pow_div k 1). change (2 ^ 1) with 2. field. }
  assert (H1 : (x / 2 ^ k - (1 # 2)) * 2 ^ k <= m * 2 ^ k).
  { apply Qmult_le_compat_r; [exact Hm1 | lra]. }
  assert (H2 : m * 2 ^ k <= (x / 2 ^ k + (1 # 2)) * 2 ^ k).
  { apply Qmult_le_compat_r; [exact Hm2 | lra]. }
  assert (H3 : 2 ^ e * 2 ^ (- prec) <= x * 2 ^ (- prec)).
  { apply Qmult_le_compat_r; [exact Hx1 | lra]. }
  assert (E1 : (x / 2 ^ k - (1 # 2)) * 2 ^ k == x - (1 # 2) * 2 ^ k).
  { rewrite <- Hz at 2. ring. }
  assert (E2 : (x / 2 ^ k + (1 # 2)) * 2 ^ k == x + (1 # 2) * 2 ^ k).
  { rewrite <- Hz at 2. ring. }
  rewrite E1 in H1. rewrite E2 in H2.
  set (K := 2 ^ k) in *. set (U := 2 ^ (- prec)) in *. set (P := 2 ^ e) in *.
  split; lra.
Qed.

Lemma round_to_zero (prec emin : Z) (x : Q) :
  x == 0 -> Np.round_to prec emin x == 0.
Proof.
  intro H. unfold Np.round_to.
  assert (E : Qeq_bool x 0 = true) by (apply Qeq_bool_iff; exact H).
  rewrite E.
  destruct (Qeq_bool 0 x); [exact H | reflexivity].
Qed.

Lemma round_to_nearest (prec emin : Z) (x : Q) :
  0 < x -> Np.round_to prec emin x == Np.nearest prec emin x.
Proof.
  intro H. unfold Np.round_to.
  assert (E : Qeq_bool x 0 = false).
  { destruct (Qeq_bool x 0) eqn:E; [| reflexivity].
    apply Qeq_bool_iff in E. lra. }
  assert (E' : Qle_bool 0 x = true) by (apply Qle_bool_iff; lra).
  rewrite E, E'.
  destruct (Qeq_bool (Np.nearest prec emin x) x) eqn:E2; [| reflexivity].
  apply Qeq_bool_iff in E2. symmetry. exact E2.
Qed.

Lemma round_to_nonneg (prec emin : Z) (x : Q) :
  0 <= x -> 0 <= Np.round_to prec emin x.
Proof.
  intro H. destruct (Qlt_le_dec 0 x) as [Hpos | Hz].
  - rewrite round_to_nearest by exact Hpos. apply nearest_nonneg. exact H.
  - rewrite round_to_zero by lra. apply Qle_refl.
Qed.

Lemma round_to_monotone (prec emin : Z) (x y : Q) :
  (1 <= prec)%Z -> 0 <= x -> x <= y ->
  Np.round_to prec emin x <= Np.round_to prec emin y.
Proof.
  intros Hp Hx Hxy. destruct (Qlt_le_dec 0 x) as [Hpos | Hz].
  - rewrite !round_to_nearest by lra. apply nearest_monotone; assumption.
  - rewrite (round_to_zero prec emin x) by lra.
    apply round_to_nonneg. lra.
Qed.

Lemma round_to_error (prec emin : Z) (x : Q) :
  2 ^ (emin + prec - 1) <= x ->
  x * (1 - 2 ^ (- prec)) <= Np.round_to prec emin x /\
  Np.round_to prec emin x <= x * (1 + 2 ^ (- prec)).
Proof.
  intro Hn.
  assert (Hx : 0 < x).
  { apply Qlt_le_trans with (2 ^ (emin + prec - 1)); [apply two_pow_pos | exact Hn]. }
  rewrite round_to_nearest by exact Hx. apply nearest_error. exact Hn.
Qed.

(** A value of the format is left as it is. *)
Lemma round_to_fixed (prec emin : Z) (x : Q) :
  Np.round_to prec emin x == x -> Np.round_to prec emin x = x.
Proof.
  unfold Np.round_to. intro H.
  destruct (Qeq_bool _ x) eqn:E; [reflexivity |].
  apply Qeq_bool_iff in H. congruence.
Qed.

Lemma map_fixed {A : Type} (f : A -> A) (xs : list A) :
  Forall (fun x => f x = x) xs -> map f xs = xs.
Proof.
  induction 1 as [| x xs Hx _ IH]; [reflexivity |].
  cbn [map]. rewrite Hx, IH. reflexivity.
Qed.

(** ** Comparisons and elementary numpy facts *)

Lemma gt_true_iff (a b : Q) : Np.gt a b = true <-> b < a.
Proof.
  unfold Np.gt. destruct (Qlt_le_dec b a) as [H | H]; split; intro K;
    try reflexivity; try assumption; try discriminate.
  exfalso. apply (Qlt_irrefl a). apply Qle_lt_trans with b; assumption.
Qed.

Lemma gt_false_iff (a b : Q) : Np.gt a b = false <-> a <= b.
Proof.
  unfold Np.gt. destruct (Qlt_le_dec b a) as [H | H]; split; intro K;
    try reflexivity; try assumption; try discriminate.
  exfalso. apply (Qlt_irrefl a). apply Qle_lt_trans with b; assumption.
Qed.

Lemma lt_true_iff (a b : Q) : Np.lt a b = true <-> a < b.
Proof.
  unfold Np.lt. destruct (Qlt_le_dec a b) as [H | H]; split; intro K;
    try reflexivity; try assumption; try discriminate.
  exfalso. apply (Qlt_irrefl a). apply Qlt_le_trans with b; assumption.
Qed.

Lemma lt_false_iff (a b : Q) : Np.lt a b = false <-> b <= a.
Proof.
  unfold Np.lt. destruct (Qlt_le_dec a b) as [H | H]; split; intro K;
    try reflexivity; try assumption; try discriminate.
  exfalso. apply (Qlt_irrefl a). apply Qlt_le_trans with b; assumption.
Qed.

Lemma le_true_iff (a b : Q) : Np.le a b = true <-> a <= b.
Proof.
  unfold Np.le. destruct (Qlt_le_dec b a) as [H | H]; split; intro K;
    try reflexivity; try assumption; try discriminate.
  exfalso. apply (Qlt_irrefl a). apply Qle_lt_trans with b; assumption.
Qed.

Lemma clip_bounds (x lo hi : Q) : lo <= hi -> lo <= Np.clip x lo hi <= hi.
Proof.
  intro Hlh. unfold Np.clip.
  destruct (Np.lt x lo) eqn:E1.
  - split; [apply Qle_refl | assumption].
  - apply lt_false_iff in E1. destruct (Np.gt x hi) eqn:E2.
    + split; [assumption | apply Qle_refl].
    + apply gt_false_iff in E2. split; assumption.
Qed.

Lemma max_ge_r (a b : Q) : b <= Np.max a b.
Proof.
  unfold Np.max. destruct (Np.gt b a) eqn:E.
  - apply Qle_refl.
  - apply gt_false_iff in E. assumption.
Qed.

Lemma max_cases (a b : Q) : (b <= a /\ Np.max a b = a) \/ (a < b /\ Np.max a b = b).
Proof.
  unfold Np.max. destruct (Np.gt b a) eqn:E.
  - right. apply gt_true_iff in E. split; [assumption | reflexivity].
  - left. apply gt_false_iff in E. split; [assumption | reflexivity].
Qed.

Lemma index_Some {A : Type} (xs : list A) (i : nat) (x : A) :
  nth_error xs i = Some x -> Np.index xs i = Ok x.
Proof. intro H. unfold Np.index. rewrite H. reflexivity. Qed.

Lemma index_lt {A : Type} (xs : list A) (i : nat) :
  (i < length xs)%nat -> exists x, Np.index xs i = Ok x /\ nth_error xs i = Some x.
Proof.
  intro H. unfold Np.index. destruct (nth_error xs i) as [x |] eqn:E.
  - exists x. split; reflexivity.
  - apply nth_error_None in E. lia.
Qed.

(** ** The DIAGNOSE reward *)

Lemma correctness_of_cases (c : Q) (l : Z) :
  V1.correctness_of c l = 0 \/ V1.correctness_of c l = 1.
Proof.
  unfold V1.correctness_of, Np.float_of_bool.
  destruct (Z.eqb l (Np.int_of_bool (Np.gt c 0.5))); [right | left]; reflexivity.
Qed.

Lemma correctness_of_spec (c : Q) (l : Z) :
  (l = 0 \/ l = 1)%Z -> V1.correctness_of c l = spec_correctness c l.
Proof.
  intros [-> | ->]; unfold V1.correctness_of, spec_correctness;
    destruct (Np.gt c 0.5); reflexivity.
Qed.

Lemma v1_reward_unclamped (c : Q) (l : Z) :
  0 <= c <= 1 ->
  V1.diagnose_reward c l
  == V1.correctness_of c l - 0.5 * (c - V1.correctness_of c l) ^ 2 + 0.1.
Proof.
  intros Hc. unfold V1.diagnose_reward. cbv zeta.
  destruct (max_cases (V1.correctness_of c l
                       - 0.5 * (c - V1.correctness_of c l) ^ 2 + 0.1) (-0.5))
    as [[_ ->] | [Hlt _]].
  - reflexivity.
  - exfalso. destruct (correctness_of_cases c l) as [E | E]; rewrite E in Hlt; nra.
Qed.

Lemma v1_reward_bounds (c : Q) (l : Z) :
  -0.5 <= V1.diagnose_reward c l <= 1.0 + 0.1.
Proof.
  unfold V1.diagnose_reward. cbv zeta. split.
  - apply max_ge_r.
  - destruct (max_cases (V1.correctness_of c l
                         - 0.5 * (c - V1.correctness_of c l) ^ 2 + 0.1) (-0.5))
      as [[_ ->] | [_ ->]].
    + assert (Hsq : 0 <= (c - V1.correctness_of c l) ^ 2).
      { generalize (c - V1.correctness_of c l). intro d.
        change (d ^ 2) with (d * d). nra. }
      destruct (correctness_of_cases c l) as [E | E]; rewrite E in *; lra.
    + lra.
Qed.

Lemma m2_reward_spec (l : Z) :
  (l = 0 \/ l = 1)%Z ->
  M2.diagnose_reward M2.placeholder_confidence l
  == spec_reward 1 0 M2.placeholder_confidence l.
Proof. intros [-> | ->]; vm_compute; reflexivity. Qed.

Lemma m2_reward_bounds (l : Z) :
  (l = 0 \/ l = 1)%Z ->
  -0.5 <= M2.diagnose_reward M2.placeholder_confidence l <= 1.0 + 0.
Proof. intros [-> | ->]; split; vm_compute; discriminate. Qed.

(** ** One step of the v1 environment, action by action *)

Lemma v1_current_data_set_step (env : V1.ApneaDetectionEnv) (n : nat) :
  V1.current_data (V1.set_current_step env n) = V1.current_data env.
Proof. reflexivity. Qed.

Lemma v1_current_data_record (env : V1.ApneaDetectionEnv) (d : V1.EventDetail) :
  V1.current_data (V1.record_diagnosis env d) = V1.current_data env.
Proof. reflexivity. Qed.

Lemma v1_get_observation_total (env : V1.ApneaDetectionEnv) (pd : V1.PatientData) :
  V1.current_data env = Ok pd -> exists obs, V1._get_observation env = Ok obs.
Proof.
  intro Hpd. unfold V1._get_observation. rewrite Hpd. simpl.
  destruct (Nat.ltb (V1.current_step env) (length (V1.pd_features pd))) eqn:E.
  - apply Nat.ltb_lt in E. destruct (index_lt _ _ E) as [x [Hx _]].
    rewrite Hx. eexists. reflexivity.
  - eexists. reflexivity.
Qed.

Lemma v1_finish_step_ok (env : V1.ApneaDetectionEnv) (pd : V1.PatientData)
    (reward : Q) (terminated truncated : bool) :
  V1.current_data env = Ok pd ->
  exists obs,
    V1._get_observation env = Ok obs /\
    V1.finish_step env reward terminated truncated
    = Ok (env,
          V1.mkStepResult obs reward
            (fst (V1.check_termination env pd terminated truncated))
            (snd (V1.check_termination env pd terminated truncated))
            (V1.step_info env pd)).
Proof.
  intro Hpd. destruct (v1_get_observation_total env pd Hpd) as [obs Hobs].
  exists obs. split; [exact Hobs |].
  unfold V1.finish_step. rewrite Hpd. simpl. rewrite Hobs. reflexivity.
Qed.

Lemma v1_step_wait (env : V1.ApneaDetectionEnv) (u : Q) :
  V1.step env 0 u
  = (let env' := V1.set_current_step env (S (V1.current_step env)) in
     pd <- V1.current_data env' ;;
     let flags := V1.check_termination env' pd false false in
     V1.finish_step env' 0.0 (fst flags) (snd flags)).
Proof. reflexivity. Qed.

Lemma v1_step_escalate (env : V1.ApneaDetectionEnv) (u : Q) :
  V1.step env 2 u = V1.finish_step env (-0.1) true false.
Proof. reflexivity. Qed.

Lemma v1_step_other (env : V1.ApneaDetectionEnv) (action : Z) (u : Q) :
  action <> 0%Z -> action <> 1%Z -> action <> 2%Z ->
  V1.step env action u = V1.finish_step env 0.0 false false.
Proof.
  intros H0 H1 H2. unfold V1.step.
  apply Z.eqb_neq in H0, H1, H2. rewrite H0, H1, H2. reflexivity.
Qed.

Lemma v1_step_diagnose_past_end (env : V1.ApneaDetectionEnv)
    (pd : V1.PatientData) (u : Q) :
  V1.current_data env = Ok pd ->
  (length (V1.pd_features pd) <= V1.current_step env)%nat ->
  V1.step env 1 u = V1.finish_step env 0.0 false false.
Proof.
  intros Hpd Hlen. unfold V1.step. simpl. rewrite Hpd. simpl.
  apply Nat.ltb_ge in Hlen. rewrite Hlen. reflexivity.
Qed.

Lemma v1_step_diagnose_in_range (env : V1.ApneaDetectionEnv)
    (pd : V1.PatientData) (row : V1.feature_vector) (true_label : Z) (u : Q) :
  V1.current_data env = Ok pd ->
  nth_error (V1.pd_features pd) (V1.current_step env) = Some row ->
  nth_error (V1.pd_labels pd) (V1.current_step env) = Some true_label ->
  V1.step env 1 u
  = (let event_detail :=
       V1.diagnosis_event env true_label (V1.confidence_proxy row) u in
     V1.finish_step
       (V1.set_current_step (V1.record_diagnosis env event_detail)
                            (S (V1.current_step env)))
       (V1.ev_reward event_detail) false false).
Proof.
  intros Hpd Hrow Hlab. unfold V1.step. simpl. rewrite Hpd. simpl.
  assert (Hlt : (V1.current_step env < length (V1.pd_features pd))%nat).
  { apply nth_error_Some. rewrite Hrow. discriminate. }
  apply Nat.ltb_lt in Hlt. rewrite Hlt.
  rewrite (index_Some _ _ _ Hlab). simpl.
  unfold V1._estimate_confidence. rewrite Hpd. simpl.
  rewrite (index_Some _ _ _ Hrow). reflexivity.
Qed.

(** The confidence a DIAGNOSE records lies in [[0, 1]] whenever the draw
    does. *)
Lemma v1_recorded_confidence_range (row : V1.feature_vector) (u : Q) :
  0 <= u <= 1 ->
  0 <= V1.diagnose_confidence (V1.confidence_proxy row) u <= 1.
Proof.
  intro Hu. unfold V1.diagnose_confidence.
  destruct (Np.lt (V1.confidence_proxy row) 0.3).
  - exact Hu.
  - unfold V1.confidence_proxy.
    assert (H := clip_bounds (Np.mean (map Qabs row) / 100) 0.1 0.9).
    assert (Hlh : 0.1 <= 0.9) by lra. specialize (H Hlh). lra.
Qed.

(** ** One step of the model-2 environment, action by action *)

Lemma m2_finish_step_ok (env : M2.ApneaDetectionEnv) (reward : Q) (done : bool) :
  length (M2.features env) = length (M2.audio_segments env) ->
  M2.features env <> [] ->
  exists observation,
    M2.finish_step env reward done
    = Ok (env,
          M2.mkStepResult observation reward
            (Nat.leb (length (M2.audio_segments env)) (M2.current_segment_idx env)
             || done)
            false (M2.step_info env)).
Proof.
  intros Hlen Hne. unfold M2.finish_step.
  destruct (Nat.leb (length (M2.audio_segments env))
                    (M2.current_segment_idx env)) eqn:E; simpl.
  - destruct (M2.features env) as [| f fs] eqn:Ef; [contradiction |].
    simpl. eexists. reflexivity.
  - destruct done; simpl.
    + destruct (M2.features env) as [| f fs] eqn:Ef; [contradiction |].
      simpl. eexists. reflexivity.
    + apply Nat.leb_gt in E. rewrite <- Hlen in E.
      destruct (index_lt _ _ E) as [x [Hx _]]. rewrite Hx. simpl.
      eexists. reflexivity.
Qed.

Lemma m2_step_wait (env : M2.ApneaDetectionEnv) :
  M2.step env 0
  = M2.finish_step
      (M2.set_current_segment_idx env (S (M2.current_segment_idx env))) 0.0 false.
Proof. reflexivity. Qed.

Lemma m2_step_escalate (env : M2.ApneaDetectionEnv) :
  M2.step env 2 = M2.finish_step (M2.set_escalated env true) (-0.1) true.
Proof. reflexivity. Qed.

Lemma m2_step_other (env : M2.ApneaDetectionEnv) (action : Z) :
  action <> 0%Z -> action <> 1%Z -> action <> 2%Z ->
  M2.step env action = M2.finish_step env 0.0 false.
Proof.
  intros H0 H1 H2. unfold M2.step.
  apply Z.eqb_neq in H0, H1, H2. rewrite H0, H1, H2. reflexivity.
Qed.

Lemma m2_step_diagnose (env : M2.ApneaDetectionEnv) (current_label : Z) :
  nth_error (M2.labels env) (M2.current_segment_idx env) = Some current_label ->
  M2.step env 1
  = (let reward := M2.diagnose_reward M2.placeholder_confidence current_label in
     M2.finish_step
       (M2.set_current_segment_idx
          (M2.record_diagnosis env
             (M2.mkDiagnosis (M2.current_segment_idx env) current_label
                             M2.placeholder_confidence reward))
          (S (M2.current_segment_idx env)))
       reward false).
Proof.
  intro Hlab. unfold M2.step. simpl.
  rewrite (index_Some _ _ _ Hlab). reflexivity.
Qed.

Lemma m2_step_diagnose_past_labels (env : M2.ApneaDetectionEnv) :
  (length (M2.labels env) <= M2.current_segment_idx env)%nat ->
  M2.step env 1 = Raise IndexError.
Proof.
  intro H. unfold M2.step. simpl. unfold Np.index.
  apply nth_error_None in H. rewrite H. reflexivity.
Qed.

(** ** What a DIAGNOSE step returns and records *)

Lemma v1_diagnose_outcome (env : V1.ApneaDetectionEnv) (pd : V1.PatientData)
    (row : V1.feature_vector) (true_label : Z) (u : Q) :
  V1.current_data env = Ok pd ->
  nth_error (V1.pd_features pd) (V1.current_step env) = Some row ->
  nth_error (V1.pd_labels pd) (V1.current_step env) = Some true_label ->
  exists env' out,
    V1.step env 1 u = Ok (env', out) /\
    V1.episode_confidences env'
    = V1.episode_confidences env
      ++ [V1.diagnose_confidence (V1.confidence_proxy row) u] /\
    V1.episode_predictions env'
    = V1.episode_predictions env
      ++ [Np.int_of_bool
            (Np.gt (V1.diagnose_confidence (V1.confidence_proxy row) u) 0.5)] /\
    V1.sr_reward out
    = V1.diagnose_reward (V1.diagnose_confidence (V1.confidence_proxy row) u)
                         true_label.
Proof.
  intros Hpd Hrow Hlab.
  rewrite (v1_step_diagnose_in_range env pd row true_label u Hpd Hrow Hlab).
  cbv zeta.
  set (ev := V1.diagnosis_event env true_label (V1.confidence_proxy row) u).
  set (env' := V1.set_current_step (V1.record_diagnosis env ev)
                                   (S (V1.current_step env))).
  assert (Hpd' : V1.current_data env' = Ok pd) by exact Hpd.
  destruct (v1_finish_step_ok env' pd (V1.ev_reward ev) false false Hpd')
    as [obs [_ Hfin]].
  rewrite Hfin. eexists. eexists. split; [reflexivity |].
  split; [reflexivity |]. split; reflexivity.
Qed.

Lemma m2_diagnose_outcome (env : M2.ApneaDetectionEnv) (current_label : Z) :
  nth_error (M2.labels env) (M2.current_segment_idx env) = Some current_label ->
  length (M2.features env) = length (M2.audio_segments env) ->
  M2.features env <> [] ->
  exists env' out,
    M2.step env 1 = Ok (env', out) /\
    map M2.dg_confidence (M2.diagnosed_segments env')
    = map M2.dg_confidence (M2.diagnosed_segments env)
      ++ [M2.placeholder_confidence] /\
    M2.sr_reward out = M2.diagnose_reward M2.placeholder_confidence current_label.
Proof.
  intros Hlab Hlen Hne.
  rewrite (m2_step_diagnose env current_label Hlab). cbv zeta.
  match goal with
  | |- context [M2.finish_step ?e ?r ?d] =>
      destruct (m2_finish_step_ok e r d Hlen Hne) as [obs Hfin]; rewrite Hfin
  end.
  eexists. eexists. split; [reflexivity |].
  split; [| reflexivity].
  simpl. rewrite map_app. reflexivity.
Qed.

(** C1.  A DIAGNOSE step on a segment with a label in {0, 1} returns the
    reward [correctness - lambda * (confidence - correctness)^2 + eps] of the
    specification, where [confidence] is the confidence the step records (in
    [[0, 1]]) and [correctness] is 1 when [(confidence > 0.5) ==
    bool(true_label)] and 0 otherwise: in the v1 environment with lambda =
    0.5 and eps = 0.1 (the floor of -0.5 is never reached there), in the
    model-2 environment with lambda = 1 and eps = 0. *)
Theorem diagnose_reward_matches_spec
    (env : V1.ApneaDetectionEnv) (pd : V1.PatientData)
    (row : V1.feature_vector) (true_label : Z) (u : Q)
    (env2 : M2.ApneaDetectionEnv) (label2 : Z) :
  V1.current_data env = Ok pd ->
  nth_error (V1.pd_features pd) (V1.current_step env) = Some row ->
  row <> [] ->
  nth_error (V1.pd_labels pd) (V1.current_step env) = Some true_label ->
  (true_label = 0 \/ true_label = 1)%Z ->
  0 <= u <= 1 ->
  nth_error (M2.labels env2) (M2.current_segment_idx env2) = Some label2 ->
  length (M2.features env2) = length (M2.audio_segments env2) ->
  M2.features env2 <> [] ->
  (label2 = 0 \/ label2 = 1)%Z ->
  (exists env' out confidence,
      V1.step env 1 u = Ok (env', out) /\
      V1.episode_confidences env' = V1.episode_confidences env ++ [confidence] /\
      0 <= confidence <= 1 /\
      V1.sr_reward out == spec_reward 0.5 0.1 confidence true_label) /\
  (exists env2' out2 confidence2,
      M2.step env2 1 = Ok (env2', out2) /\
      map M2.dg_confidence (M2.diagnosed_segments env2')
      = map M2.dg_confidence (M2.diagnosed_segments env2) ++ [confidence2] /\
      0 <= confidence2 <= 1 /\
      M2.sr_reward out2 == spec_reward 1 0 confidence2 label2).
Proof.
  intros Hpd Hrow _ Hlab Hl Hu Hlab2 Hlen2 Hne2 Hl2. split.
  - destruct (v1_diagnose_outcome env pd row true_label u Hpd Hrow Hlab)
      as [env' [out [Hstep [Hconf [_ Hrew]]]]].
    exists env', out, (V1.diagnose_confidence (V1.confidence_proxy row) u).
    split; [exact Hstep |]. split; [exact Hconf |].
    assert (Hc := v1_recorded_confidence_range row u Hu).
    split; [exact Hc |].
    rewrite Hrew. rewrite (v1_reward_unclamped _ true_label Hc).
    unfold spec_reward. cbv zeta.
    rewrite (correctness_of_spec _ true_label Hl). reflexivity.
  - destruct (m2_diagnose_outcome env2 label2 Hlab2 Hlen2 Hne2)
      as [env2' [out2 [Hstep [Hconf Hrew]]]].
    exists env2', out2, M2.placeholder_confidence.
    split; [exact Hstep |]. split; [exact Hconf |].
    split; [unfold M2.placeholder_confidence; lra |].
    rewrite Hrew. apply m2_reward_spec. exact Hl2.
Qed.

Lemma diagnose_reward_matches_spec_witness :
  (exists env' out confidence,
      V1.step Examples.v1_ready 1 0.5 = Ok (env', out) /\
      V1.episode_confidences env'
      = V1.episode_confidences Examples.v1_ready ++ [confidence] /\
      0 <= confidence <= 1 /\
      V1.sr_reward out == spec_reward 0.5 0.1 confidence 0) /\
  (exists env2' out2 confidence2,
      M2.step Examples.m2_ready 1 = Ok (env2', out2) /\
      map M2.dg_confidence (M2.diagnosed_segments env2')
      = map M2.dg_confidence (M2.diagnosed_segments Examples.m2_ready)
        ++ [confidence2] /\
      0 <= confidence2 <= 1 /\
      M2.sr_reward out2 == spec_reward 1 0 confidence2 0).
Proof.
  apply (diagnose_reward_matches_spec
           Examples.v1_ready Examples.pd_a [90; 90] 0%Z 0.5
           Examples.m2_ready 0%Z).
  - reflexivity.
  - reflexivity.
  - discriminate.
  - reflexivity.
  - left; reflexivity.
  - split; vm_compute; discriminate.
  - reflexivity.
  - reflexivity.
  - discriminate.
  - left; reflexivity.
Defined.

(** C2.  The reward of a DIAGNOSE step lies between the floor and one plus
    the exploration bonus: in the v1 environment within [[-0.5, 1.0 + 0.1]],
    in the model-2 environment (no floor, no bonus, confidence 0.7) within
    [[-0.5, 1.0]]; so within [[-0.5, 1.1]] in both. *)
Theorem diagnose_reward_within_bounds
    (env : V1.ApneaDetectionEnv) (pd : V1.PatientData)
    (row : V1.feature_vector) (true_label : Z) (u : Q)
    (env2 : M2.ApneaDetectionEnv) (label2 : Z) :
  V1.current_data env = Ok pd ->
  nth_error (V1.pd_features pd) (V1.current_step env) = Some row ->
  row <> [] ->
  nth_error (V1.pd_labels pd) (V1.current_step env) = Some true_label ->
  (true_label = 0 \/ true_label = 1)%Z ->
  0 <= u <= 1 ->
  nth_error (M2.labels env2) (M2.current_segment_idx env2) = Some label2 ->
  length (M2.features env2) = length (M2.audio_segments env2) ->
  M2.features env2 <> [] ->
  (label2 = 0 \/ label2 = 1)%Z ->
  (exists env' out,
      V1.step env 1 u = Ok (env', out) /\
      -0.5 <= V1.sr_reward out <= 1.0 + 0.1) /\
  (exists env2' out2,
      M2.step env2 1 = Ok (env2', out2) /\
      -0.5 <= M2.sr_reward out2 <= 1.0 + 0) /\
  (forall confidence : Q,
      0 <= confidence <= 1 ->
      -0.5 <= V1.diagnose_reward confidence true_label <= 1.0 + 0.1).
Proof.
  intros Hpd Hrow _ Hlab Hl Hu Hlab2 Hlen2 Hne2 Hl2. split; [| split].
  - destruct (v1_diagnose_outcome env pd row true_label u Hpd Hrow Hlab)
      as [env' [out [Hstep [_ [_ Hrew]]]]].
    exists env', out. split; [exact Hstep |].
    rewrite Hrew. apply v1_reward_bounds.
  - destruct (m2_diagnose_outcome env2 label2 Hlab2 Hlen2 Hne2)
      as [env2' [out2 [Hstep [_ Hrew]]]].
    exists env2', out2. split; [exact Hstep |].
    rewrite Hrew. apply m2_reward_bounds. exact Hl2.
  - intros confidence _. apply v1_reward_bounds.
Qed.

Lemma diagnose_reward_within_bounds_witness :
  (exists env' out,
      V1.step (Examples.v1_at 2) 1 0.3 = Ok (env', out) /\
      -0.5 <= V1.sr_reward out <= 1.0 + 0.1) /\
  (exists env2' out2,
      M2.step (Examples.m2_at 1) 1 = Ok (env2', out2) /\
      -0.5 <= M2.sr_reward out2 <= 1.0 + 0) /\
  (forall confidence : Q,
      0 <= confidence <= 1 ->
      -0.5 <= V1.diagnose_reward confidence 1 <= 1.0 + 0.1).
Proof.
  apply (diagnose_reward_within_bounds
           (Examples.v1_at 2) Examples.pd_a [0; 0] 1%Z 0.3
           (Examples.m2_at 1) 1%Z).
  - reflexivity.
  - reflexivity.
  - discriminate.
  - reflexivity.
  - right; reflexivity.
  - split; vm_compute; discriminate.
  - reflexivity.
  - reflexivity.
  - discriminate.
  - right; reflexivity.
Defined.

(** ** Every step of a reset v1 environment returns

    Once [reset] has chosen a patient whose label and feature arrays have
    one length, [step] raises nothing, whatever the action and whatever an
    earlier step returned; the environment after the call is one of four. *)

Lemma v1_step_returns (env : V1.ApneaDetectionEnv) (pd : V1.PatientData)
    (action : Z) (u : Q) :
  V1.current_data env = Ok pd ->
  length (V1.pd_labels pd) = length (V1.pd_features pd) ->
  exists env' obs reward terminated,
    V1.step env action u
    = Ok (env',
          V1.mkStepResult obs reward
            (fst (V1.check_termination env' pd terminated false))
            (snd (V1.check_termination env' pd terminated false))
            (V1.step_info env' pd)) /\
    V1.current_data env' = Ok pd /\
    V1._get_observation env' = Ok obs /\
    ((action = 0%Z /\ reward = 0.0 /\
      env' = V1.set_current_step env (S (V1.current_step env)))
     \/
     (action = 1%Z /\ terminated = false /\
      exists row true_label,
        nth_error (V1.pd_features pd) (V1.current_step env) = Some row /\
        nth_error (V1.pd_labels pd) (V1.current_step env) = Some true_label /\
        let ev := V1.diagnosis_event env true_label (V1.confidence_proxy row) u in
        reward = V1.ev_reward ev /\
        env' = V1.set_current_step (V1.record_diagnosis env ev)
                                   (S (V1.current_step env)))
     \/
     (action = 1%Z /\ terminated = false /\ reward = 0.0 /\
      (length (V1.pd_features pd) <= V1.current_step env)%nat /\ env' = env)
     \/
     (action = 2%Z /\ terminated = true /\ reward = -0.1 /\ env' = env)
     \/
     (action <> 0%Z /\ action <> 1%Z /\ action <> 2%Z /\
      terminated = false /\ reward = 0.0 /\ env' = env)).
Proof.
  intros Hpd Hlen.
  destruct (Z.eq_dec action 0) as [-> | H0].
  { (* WAIT *)
    rewrite v1_step_wait. cbv zeta.
    set (env' := V1.set_current_step env (S (V1.current_step env))).
    assert (Hpd' : V1.current_data env' = Ok pd) by exact Hpd.
    rewrite Hpd'. simpl bind.
    destruct (v1_finish_step_ok env' pd 0.0
                (fst (V1.check_termination env' pd false false))
                (snd (V1.check_termination env' pd false false)) Hpd')
      as [obs [Hobs Hfin]].
    rewrite Hfin.
    exists env', obs, 0.0, false.
    split.
    - f_equal. f_equal. unfold V1.check_termination.
      destruct (Nat.leb (length (V1.pd_features pd)) (V1.current_step env'));
        [reflexivity |].
      destruct (Z.leb (V1.max_episode_length env')
                      (Z.of_nat (V1.current_step env'))); reflexivity.
    - split; [exact Hpd' |]. split; [exact Hobs |].
      left. repeat split. }
  destruct (Z.eq_dec action 1) as [-> | H1].
  { (* DIAGNOSE *)
    destruct (Nat.lt_ge_cases (V1.current_step env) (length (V1.pd_features pd)))
      as [Hin | Hout].
    - destruct (index_lt _ _ Hin) as [row [_ Hrow]].
      assert (Hin' : (V1.current_step env < length (V1.pd_labels pd))%nat)
        by (rewrite Hlen; exact Hin).
      destruct (index_lt _ _ Hin') as [true_label [_ Hlab]].
      rewrite (v1_step_diagnose_in_range env pd row true_label u Hpd Hrow Hlab).
      cbv zeta.
      set (ev := V1.diagnosis_event env true_label (V1.confidence_proxy row) u).
      set (env' := V1.set_current_step (V1.record_diagnosis env ev)
                                       (S (V1.current_step env))).
      assert (Hpd' : V1.current_data env' = Ok pd) by exact Hpd.
      destruct (v1_finish_step_ok env' pd (V1.ev_reward ev) false false Hpd')
        as [obs [Hobs Hfin]].
      rewrite Hfin. exists env', obs, (V1.ev_reward ev), false.
      split; [reflexivity |]. split; [exact Hpd' |]. split; [exact Hobs |].
      right; left. split; [reflexivity |]. split; [reflexivity |].
      exists row, true_label. repeat split; assumption.
    - rewrite (v1_step_diagnose_past_end env pd u Hpd Hout).
      destruct (v1_finish_step_ok env pd 0.0 false false Hpd) as [obs [Hobs Hfin]].
      rewrite Hfin. exists env, obs, 0.0, false.
      split; [reflexivity |]. split; [exact Hpd |]. split; [exact Hobs |].
      right; right; left. repeat split. exact Hout. }
  destruct (Z.eq_dec action 2) as [-> | H2].
  { (* ESCALATE *)
    rewrite v1_step_escalate.
    destruct (v1_finish_step_ok env pd (-0.1) true false Hpd) as [obs [Hobs Hfin]].
    rewrite Hfin. exists env, obs, (-0.1), true.
    split; [reflexivity |]. split; [exact Hpd |]. split; [exact Hobs |].
    right; right; right; left. repeat split. }
  rewrite (v1_step_other env action u H0 H1 H2).
  destruct (v1_finish_step_ok env pd 0.0 false false Hpd) as [obs [Hobs Hfin]].
  rewrite Hfin. exists env, obs, 0.0, false.
  split; [reflexivity |]. split; [exact Hpd |]. split; [exact Hobs |].
  right; right; right; right. repeat split; assumption.
Qed.

(** ** Every step of a model-2 environment returns, but a DIAGNOSE past the
    labels *)

Lemma m2_step_returns (env : M2.ApneaDetectionEnv) (action : Z) :
  length (M2.features env) = length (M2.audio_segments env) ->
  M2.features env <> [] ->
  (action = 1%Z -> (M2.current_segment_idx env < length (M2.labels env))%nat) ->
  exists env' obs reward done,
    M2.step env action
    = Ok (env',
          M2.mkStepResult obs reward
            (Nat.leb (length (M2.audio_segments env')) (M2.current_segment_idx env')
             || done)
            false (M2.step_info env')) /\
    M2.features env' = M2.features env /\
    M2.audio_segments env' = M2.audio_segments env /\
    M2.labels env' = M2.labels env /\
    ((action = 0%Z /\ done = false /\ reward = 0.0 /\
      env' = M2.set_current_segment_idx env (S (M2.current_segment_idx env)))
     \/
     (action = 1%Z /\ done = false /\
      exists current_label,
        nth_error (M2.labels env) (M2.current_segment_idx env) = Some current_label /\
        reward = M2.diagnose_reward M2.placeholder_confidence current_label /\
        env' = M2.set_current_segment_idx
                 (M2.record_diagnosis env
                    (M2.mkDiagnosis (M2.current_segment_idx env) current_label
                                    M2.placeholder_confidence reward))
                 (S (M2.current_segment_idx env)))
     \/
     (action = 2%Z /\ done = true /\ reward = -0.1 /\
      env' = M2.set_escalated env true)
     \/
     (action <> 0%Z /\ action <> 1%Z /\ action <> 2%Z /\
      done = false /\ reward = 0.0 /\ env' = env)).
Proof.
  intros Hlen Hne Hdiag.
  destruct (Z.eq_dec action 0) as [-> | H0].
  { rewrite m2_step_wait.
    set (env' := M2.set_current_segment_idx env (S (M2.current_segment_idx env))).
    destruct (m2_finish_step_ok env' 0.0 false Hlen Hne) as [obs Hfin].
    rewrite Hfin. exists env', obs, 0.0, false.
    split; [reflexivity |]. repeat (split; [reflexivity |]).
    left. repeat split. }
  destruct (Z.eq_dec action 1) as [-> | H1].
  { destruct (index_lt _ _ (Hdiag eq_refl)) as [current_label [_ Hlab]].
    rewrite (m2_step_diagnose env current_label Hlab). cbv zeta.
    set (reward := M2.diagnose_reward M2.placeholder_confidence current_label).
    set (env' := M2.set_current_segment_idx _ _).
    destruct (m2_finish_step_ok env' reward false Hlen Hne) as [obs Hfin].
    rewrite Hfin. exists env', obs, reward, false.
    split; [reflexivity |]. repeat (split; [reflexivity |]).
    right; left. split; [reflexivity |]. split; [reflexivity |].
    exists current_label. repeat split. exact Hlab. }
  destruct (Z.eq_dec action 2) as [-> | H2].
  { rewrite m2_step_escalate.
    set (env' := M2.set_escalated env true).
    destruct (m2_finish_step_ok env' (-0.1) true Hlen Hne) as [obs Hfin].
    rewrite Hfin. exists env', obs, (-0.1), true.
    split; [reflexivity |]. repeat (split; [reflexivity |]).
    right; right; left. repeat split. }
  rewrite (m2_step_other env action H0 H1 H2).
  destruct (m2_finish_step_ok env 0.0 false Hlen Hne) as [obs Hfin].
  rewrite Hfin. exists env, obs, 0.0, false.
  split; [reflexivity |]. repeat (split; [reflexivity |]).
  right; right; right. repeat split; assumption.
Qed.

(** ** Actions outside the three enumerated values *)

(** C3, as the code has it.  Neither [step] rejects an action outside {0, 1,
    2}: on an environment that has been reset the call returns a normal
    result with reward 0.0, the environment is left as it was, and the flags
    come from the cursor test alone. *)
Theorem unknown_action_returns_normally
    (env : V1.ApneaDetectionEnv) (pd : V1.PatientData) (action : Z) (u : Q)
    (env2 : M2.ApneaDetectionEnv) :
  action <> 0%Z -> action <> 1%Z -> action <> 2%Z ->
  V1.current_data env = Ok pd ->
  length (M2.features env2) = length (M2.audio_segments env2) ->
  M2.features env2 <> [] ->
  (exists obs,
      V1.step env action u
      = Ok (env,
            V1.mkStepResult obs 0.0
              (fst (V1.check_termination env pd false false))
              (snd (V1.check_termination env pd false false))
              (V1.step_info env pd))) /\
  (exists obs2,
      M2.step env2 action
      = Ok (env2,
            M2.mkStepResult obs2 0.0
              (Nat.leb (length (M2.audio_segments env2))
                       (M2.current_segment_idx env2))
              false (M2.step_info env2))).
Proof.
  intros H0 H1 H2 Hpd Hlen Hne. split.
  - rewrite (v1_step_other env action u H0 H1 H2).
    destruct (v1_finish_step_ok env pd 0.0 false false Hpd) as [obs [_ Hfin]].
    exists obs. exact Hfin.
  - rewrite (m2_step_other env2 action H0 H1 H2).
    destruct (m2_finish_step_ok env2 0.0 false Hlen Hne) as [obs Hfin].
    exists obs. rewrite Hfin. rewrite orb_false_r. reflexivity.
Qed.

Lemma unknown_action_returns_normally_witness :
  (exists obs,
      V1.step Examples.v1_ready 7 0.5
      = Ok (Examples.v1_ready,
            V1.mkStepResult obs 0.0
              (fst (V1.check_termination Examples.v1_ready Examples.pd_a false false))
              (snd (V1.check_termination Examples.v1_ready Examples.pd_a false false))
              (V1.step_info Examples.v1_ready Examples.pd_a))) /\
  (exists obs2,
      M2.step Examples.m2_ready 7
      = Ok (Examples.m2_ready,
            M2.mkStepResult obs2 0.0
              (Nat.leb (length (M2.audio_segments Examples.m2_ready))
                       (M2.current_segment_idx Examples.m2_ready))
              false (M2.step_info Examples.m2_ready))).
Proof.
  apply (unknown_action_returns_normally
           Examples.v1_ready Examples.pd_a 7%Z 0.5 Examples.m2_ready).
  - discriminate.
  - discriminate.
  - discriminate.
  - reflexivity.
  - reflexivity.
  - discriminate.
Defined.

(** C3 as the specification states it fails: with action 3, outside {0, 1,
    2}, both [step] functions return a normal five-tuple. *)
Lemma step_accepts_action_3 :
  (3 <> 0 /\ 3 <> 1 /\ 3 <> 2)%Z /\
  V1.step Examples.v1_ready 3 0.5
  = Ok (Examples.v1_ready,
        V1.mkStepResult [90; 90] 0.0 false false
          (V1.mkStepInfo (Some "a"%string) 0 3 [] [] [] [] [])) /\
  M2.step Examples.m2_ready 3
  = Ok (Examples.m2_ready,
        M2.mkStepResult [[1]] 0.0 false false (M2.mkStepInfo 0 3 0 false [])).
Proof.
  split; [repeat split; discriminate |]. split; reflexivity.
Qed.

(** ** Steps after the end of an episode *)

(** C4, as the code has it.  Neither environment keeps the flags a step
    returned, and neither [step] tests them: a [step] issued after an earlier
    step returned [terminated] or [truncated], with no [reset] in between, is
    processed like any other.  In v1 it returns a normal result for every
    action (a WAIT still advances the cursor, a DIAGNOSE inside the record
    still records a prediction).  In model-2 it returns a normal result,
    except that a DIAGNOSE with the cursor past the labels raises
    [IndexError]. *)
Theorem step_after_termination_is_processed
    (env0 env : V1.ApneaDetectionEnv) (a0 : Z) (u0 : Q) (out0 : V1.StepResult)
    (pd : V1.PatientData) (action : Z) (u : Q)
    (env20 env2 : M2.ApneaDetectionEnv) (a20 : Z) (out20 : M2.StepResult) :
  V1.step env0 a0 u0 = Ok (env, out0) ->
  V1.sr_terminated out0 = true \/ V1.sr_truncated out0 = true ->
  V1.current_data env = Ok pd ->
  length (V1.pd_labels pd) = length (V1.pd_features pd) ->
  M2.step env20 a20 = Ok (env2, out20) ->
  M2.sr_done out20 = true ->
  length (M2.features env2) = length (M2.audio_segments env2) ->
  M2.features env2 <> [] ->
  (exists env' out,
      V1.step env action u = Ok (env', out) /\
      (action = 0%Z -> V1.current_step env' = S (V1.current_step env)) /\
      (action = 1%Z ->
       (V1.current_step env < length (V1.pd_features pd))%nat ->
       length (V1.episode_predictions env')
       = S (length (V1.episode_predictions env)))) /\
  ((action = 1%Z ->
    (M2.current_segment_idx env2 < length (M2.labels env2))%nat) ->
   exists env2' out2,
     M2.step env2 action = Ok (env2', out2) /\
     (action = 0%Z ->
      M2.current_segment_idx env2' = S (M2.current_segment_idx env2)) /\
     (action = 1%Z ->
      length (M2.diagnosed_segments env2')
      = S (length (M2.diagnosed_segments env2)))) /\
  (action = 1%Z ->
   (length (M2.labels env2) <= M2.current_segment_idx env2)%nat ->
   M2.step env2 action = Raise IndexError).
Proof.
  intros _ _ Hpd Hlen _ _ Hlen2 Hne2. split; [| split].
  - destruct (v1_step_returns env pd action u Hpd Hlen)
      as [env' [obs [reward [terminated [Hstep [_ [_ Hcases]]]]]]].
    eexists. eexists. split; [exact Hstep |].
    destruct Hcases as [[Ha [_ He]] | [[Ha [_ [row [l [Hrow [_ [_ He]]]]]]]
                      | [[Ha [_ [_ [Hout He]]]] | [[Ha _] | [Ha0 [Ha1 _]]]]]];
      subst; split; intros; try discriminate; try contradiction; try lia.
    + reflexivity.
    + simpl. rewrite length_app. simpl. lia.
  - intro Hdiag.
    destruct (m2_step_returns env2 action Hlen2 Hne2 Hdiag)
      as [env2' [obs [reward [done [Hstep [_ [_ [_ Hcases]]]]]]]].
    eexists. eexists. split; [exact Hstep |].
    destruct Hcases as [[Ha [_ [_ He]]] | [[Ha [_ [l [_ [_ He]]]]]
                      | [[Ha _] | [Ha0 [Ha1 _]]]]];
      subst; split; intros; try discriminate; try contradiction.
    + reflexivity.
    + simpl. rewrite length_app. simpl. lia.
  - intros -> Hpast. apply m2_step_diagnose_past_labels. exact Hpast.
Qed.

Lemma step_after_termination_is_processed_witness :
  (exists env' out,
      V1.step Examples.v1_ready 1 0.5 = Ok (env', out) /\
      (1%Z = 0%Z -> V1.current_step env' = S (V1.current_step Examples.v1_ready)) /\
      (1%Z = 1%Z ->
       (V1.current_step Examples.v1_ready
        < length (V1.pd_features Examples.pd_a))%nat ->
       length (V1.episode_predictions env')
       = S (length (V1.episode_predictions Examples.v1_ready)))) /\
  ((1%Z = 1%Z ->
    (M2.current_segment_idx (M2.set_escalated Examples.m2_ready true)
     < length (M2.labels (M2.set_escalated Examples.m2_ready true)))%nat) ->
   exists env2' out2,
     M2.step (M2.set_escalated Examples.m2_ready true) 1 = Ok (env2', out2) /\
     (1%Z = 0%Z ->
      M2.current_segment_idx env2'
      = S (M2.current_segment_idx (M2.set_escalated Examples.m2_ready true))) /\
     (1%Z = 1%Z ->
      length (M2.diagnosed_segments env2')
      = S (length (M2.diagnosed_segments
                     (M2.set_escalated Examples.m2_ready true))))) /\
  (1%Z = 1%Z ->
   (length (M2.labels (M2.set_escalated Examples.m2_ready true))
    <= M2.current_segment_idx (M2.set_escalated Examples.m2_ready true))%nat ->
   M2.step (M2.set_escalated Examples.m2_ready true) 1 = Raise IndexError).
Proof.
  apply (step_after_termination_is_processed
           Examples.v1_ready Examples.v1_ready 2%Z 0.5
           (V1.mkStepResult [90; 90] (-0.1) true false
              (V1.step_info Examples.v1_ready Examples.pd_a))
           Examples.pd_a 1%Z 0.5
           Examples.m2_ready (M2.set_escalated Examples.m2_ready true) 2%Z
           (M2.mkStepResult [[0]] (-0.1) true false
              (M2.step_info (M2.set_escalated Examples.m2_ready true)))).
  - reflexivity.
  - left; reflexivity.
  - reflexivity.
  - reflexivity.
  - reflexivity.
  - reflexivity.
  - reflexivity.
  - discriminate.
Defined.

(** C4 as the specification states it fails: the ESCALATE below ends the
    episode ([terminated] is true), and the DIAGNOSE that follows without a
    [reset] is processed: it returns a reward and records a prediction. *)
Lemma step_after_escalate_is_accepted :
  V1.step Examples.v1_ready 2 0.5
  = Ok (Examples.v1_ready,
        V1.mkStepResult [90; 90] (-0.1) true false
          (V1.mkStepInfo (Some "a"%string) 0 3 [] [] [] [] [])) /\
  (exists env' out,
      V1.step Examples.v1_ready 1 0.5 = Ok (env', out) /\
      V1.episode_predictions env' = [1%Z] /\
      V1.current_step env' = 1%nat /\
      V1.sr_terminated out = false) /\
  M2.step Examples.m2_ready 2
  = Ok (M2.set_escalated Examples.m2_ready true,
        M2.mkStepResult [[0]] (-0.1) true false (M2.mkStepInfo 0 3 0 true [])) /\
  (exists env2' out2,
      M2.step (M2.set_escalated Examples.m2_ready true) 0 = Ok (env2', out2) /\
      M2.current_segment_idx env2' = 1%nat /\
      M2.sr_done out2 = false).
Proof.
  split; [reflexivity |]. split.
  - eexists. eexists. split; [reflexivity |]. repeat split.
  - split; [reflexivity |].
    eexists. eexists. split; [reflexivity |]. repeat split.
Qed.

(** ** The cursor *)

(** C5, as the code has it.  The cursor never decreases across a [step].  It
    grows by exactly 1 on a WAIT and on a DIAGNOSE issued inside the record,
    and every other call (ESCALATE among them) leaves it where it was. *)
Theorem cursor_advance_by_action
    (env : V1.ApneaDetectionEnv) (pd : V1.PatientData) (action : Z) (u : Q)
    (env2 : M2.ApneaDetectionEnv) :
  V1.current_data env = Ok pd ->
  length (V1.pd_labels pd) = length (V1.pd_features pd) ->
  length (M2.features env2) = length (M2.audio_segments env2) ->
  M2.features env2 <> [] ->
  (action = 1%Z -> (M2.current_segment_idx env2 < length (M2.labels env2))%nat) ->
  (exists env' out,
      V1.step env action u = Ok (env', out) /\
      (V1.current_step env <= V1.current_step env')%nat /\
      (action = 0%Z -> V1.current_step env' = S (V1.current_step env)) /\
      (action = 1%Z ->
       (V1.current_step env < length (V1.pd_features pd))%nat ->
       V1.current_step env' = S (V1.current_step env)) /\
      (action = 1%Z ->
       (length (V1.pd_features pd) <= V1.current_step env)%nat ->
       V1.current_step env' = V1.current_step env) /\
      (action <> 0%Z -> action <> 1%Z ->
       V1.current_step env' = V1.current_step env)) /\
  (exists env2' out2,
      M2.step env2 action = Ok (env2', out2) /\
      (M2.current_segment_idx env2 <= M2.current_segment_idx env2')%nat /\
      (action = 0%Z \/ action = 1%Z ->
       M2.current_segment_idx env2' = S (M2.current_segment_idx env2)) /\
      (action <> 0%Z -> action <> 1%Z ->
       M2.current_segment_idx env2' = M2.current_segment_idx env2)).
Proof.
  intros Hpd Hlen Hlen2 Hne2 Hdiag. split.
  - destruct (v1_step_returns env pd action u Hpd Hlen)
      as [env' [obs [reward [terminated [Hstep [_ [_ Hcases]]]]]]].
    eexists. eexists. split; [exact Hstep |].
    destruct Hcases as [[Ha [_ He]] | [[Ha [_ [row [l [Hrow [_ [_ He]]]]]]]
                      | [[Ha [_ [_ [Hout He]]]] | [[Ha [_ [_ He]]]
                      | [Ha0 [Ha1 [_ [_ [_ He]]]]]]]]];
      subst; simpl; repeat split; intros;
      try discriminate; try contradiction; try lia; try reflexivity.
    assert (Hlt : (V1.current_step env < length (V1.pd_features pd))%nat)
      by (apply nth_error_Some; rewrite Hrow; discriminate).
    lia.
  - destruct (m2_step_returns env2 action Hlen2 Hne2 Hdiag)
      as [env2' [obs [reward [done [Hstep [_ [_ [_ Hcases]]]]]]]].
    eexists. eexists. split; [exact Hstep |].
    destruct Hcases as [[Ha [_ [_ He]]] | [[Ha [_ [l [_ [_ He]]]]]
                      | [[Ha [_ [_ He]]] | [Ha0 [Ha1 [_ [_ [_ He]]]]]]]];
      subst; simpl; repeat split; intros;
      try discriminate; try contradiction; try lia; try reflexivity;
      match goal with H : _ \/ _ |- _ => destruct H; try discriminate; contradiction end.
Qed.

Lemma cursor_advance_by_action_witness :
  (exists env' out,
      V1.step (Examples.v1_at 1) 2 0.5 = Ok (env', out) /\
      (V1.current_step (Examples.v1_at 1) <= V1.current_step env')%nat /\
      (2%Z = 0%Z -> V1.current_step env' = S (V1.current_step (Examples.v1_at 1))) /\
      (2%Z = 1%Z ->
       (V1.current_step (Examples.v1_at 1)
        < length (V1.pd_features Examples.pd_a))%nat ->
       V1.current_step env' = S (V1.current_step (Examples.v1_at 1))) /\
      (2%Z = 1%Z ->
       (length (V1.pd_features Examples.pd_a)
        <= V1.current_step (Examples.v1_at 1))%nat ->
       V1.current_step env' = V1.current_step (Examples.v1_at 1)) /\
      (2%Z <> 0%Z -> 2%Z <> 1%Z ->
       V1.current_step env' = V1.current_step (Examples.v1_at 1))) /\
  (exists env2' out2,
      M2.step (Examples.m2_at 1) 2 = Ok (env2', out2) /\
      (M2.current_segment_idx (Examples.m2_at 1)
       <= M2.current_segment_idx env2')%nat /\
      (2%Z = 0%Z \/ 2%Z = 1%Z ->
       M2.current_segment_idx env2'
       = S (M2.current_segment_idx (Examples.m2_at 1))) /\
      (2%Z <> 0%Z -> 2%Z <> 1%Z ->
       M2.current_segment_idx env2' = M2.current_segment_idx (Examples.m2_at 1))).
Proof.
  apply (cursor_advance_by_action
           (Examples.v1_at 1) Examples.pd_a 2%Z 0.5 (Examples.m2_at 1)).
  - reflexivity.
  - reflexivity.
  - reflexivity.
  - discriminate.
  - discriminate.
Defined.

(** C5 as the specification states it fails: an ESCALATE is a [step] call,
    and the cursor is 0 before it and 0 after it, in both environments. *)
Lemma escalate_leaves_cursor :
  V1.current_step Examples.v1_ready = 0%nat /\
  (exists env' out,
      V1.step Examples.v1_ready 2 0.5 = Ok (env', out) /\
      V1.current_step env' = 0%nat) /\
  M2.current_segment_idx Examples.m2_ready = 0%nat /\
  (exists env2' out2,
      M2.step Examples.m2_ready 2 = Ok (env2', out2) /\
      M2.current_segment_idx env2' = 0%nat).
Proof.
  split; [reflexivity |]. split.
  - eexists. eexists. split; reflexivity.
  - split; [reflexivity |]. eexists. eexists. split; reflexivity.
Qed.

(** ** Severity *)

Lemma severity_of_ahi_monotone (a b : Q) :
  a <= b -> V1.severity_of_ahi a <= V1.severity_of_ahi b.
Proof.
  intro Hab. unfold V1.severity_of_ahi.
  repeat match goal with
         | |- context [Np.lt ?x ?y] =>
             let E := fresh "E" in
             destruct (Np.lt x y) eqn:E;
             [apply lt_true_iff in E | apply lt_false_iff in E]
         end;
    try lra.
Qed.

Lemma severity_of_ahi_buckets (ahi : Q) :
  (ahi < 5 -> V1.severity_of_ahi ahi = 0.1) /\
  (5 <= ahi -> ahi < 15 -> V1.severity_of_ahi ahi = 0.2) /\
  (15 <= ahi -> ahi < 25 -> V1.severity_of_ahi ahi = 0.4) /\
  (25 <= ahi -> ahi < 35 -> V1.severity_of_ahi ahi = 0.6) /\
  (35 <= ahi -> ahi < 50 -> V1.severity_of_ahi ahi = 0.8) /\
  (50 <= ahi -> V1.severity_of_ahi ahi = 1.0).
Proof.
  unfold V1.severity_of_ahi.
  repeat split; intros;
    repeat match goal with
           | |- context [Np.lt ?x ?y] =>
               let E := fresh "E" in
               destruct (Np.lt x y) eqn:E;
               [apply lt_true_iff in E | apply lt_false_iff in E]
           end;
    try reflexivity; exfalso; lra.
Qed.

Lemma float_of_len_pos (n : nat) : (0 < n)%nat -> 0 < Np.float_of_len n.
Proof.
  intro H. unfold Np.float_of_len. change 0 with (inject_Z 0).
  rewrite <- Zlt_Qlt. lia.
Qed.

Lemma float_of_len_nonneg (n : nat) : 0 <= Np.float_of_len n.
Proof.
  unfold Np.float_of_len. change 0 with (inject_Z 0).
  rewrite <- Zle_Qle. lia.
Qed.

(** ** Rounding to a Python float *)

Lemma closed_Qle (a b : Q) : Qle_bool a b = true -> a <= b.
Proof. apply Qle_bool_iff. Qed.

Lemma double_nonneg (x : Q) : 0 <= x -> 0 <= Np.double x.
Proof. apply round_to_nonneg. Qed.

Lemma double_monotone (x y : Q) : 0 <= x -> x <= y -> Np.double x <= Np.double y.
Proof. apply round_to_monotone. lia. Qed.

(** A rounding moves a bound [l * x <= y <= h * x] on a float of the normal
    range by the factor [1 - 2 ^ -53] below and [1 + 2 ^ -53] above. *)
Lemma double_between (l h x y : Q) :
  l * x <= y -> y <= h * x ->
  (1 # 2) <= l -> 2 ^ (-1021) <= x ->
  l * (1 - 2 ^ (-53)) * x <= Np.double y /\
  Np.double y <= h * (1 + 2 ^ (-53)) * x.
Proof.
  intros Hlo Hhi Hl Hx.
  assert (Hx0 : 0 < x).
  { apply Qlt_le_trans with (2 ^ (-1021)); [apply two_pow_pos | exact Hx]. }
  assert (Hn : 2 ^ (-1074 + 53 - 1) <= y).
  { change (-1074 + 53 - 1)%Z with (-1022)%Z.
    assert (H2 : 2 ^ (-1021) == 2 * 2 ^ (-1022)).
    { rewrite <- two_pow_succ. reflexivity. }
    assert (Hlx : (1 # 2) * x <= l * x).
    { apply Qmult_le_compat_r; [exact Hl | lra]. }
    set (a := 2 ^ (-1022)) in *. set (b := 2 ^ (-1021)) in *. lra. }
  destruct (round_to_error 53 (-1074) y Hn) as [E1 E2].
  fold (Np.double y) in E1, E2.
  assert (Hu : 0 < 2 ^ (- 53)) by apply two_pow_pos.
  assert (Hu1 : 2 ^ (- 53) <= 1 # 2).
  { apply closed_Qle. vm_compute. reflexivity. }
  set (u := 2 ^ (- 53)) in *.
  change (2 ^ (-53)) with u.
  assert (G1 : l * x * (1 - u) <= y * (1 - u)).
  { apply Qmult_le_compat_r; [exact Hlo | lra]. }
  assert (G2 : y * (1 + u) <= h * x * (1 + u)).
  { apply Qmult_le_compat_r; [exact Hhi | lra]. }
  split.
  - apply Qle_trans with (y * (1 - u)); [| exact E1].
    apply Qle_trans with (l * x * (1 - u)); [| exact G1].
    apply Qle_lteq. right. ring.
  - apply Qle_trans with (y * (1 + u)); [exact E2 |].
    apply Qle_trans with (h * x * (1 + u)); [exact G2 |].
    apply Qle_lteq. right. ring.
Qed.

(** The quotient of two bounded values. *)
Lemma div_between (l1 h1 l2 h2 x1 x2 y1 y2 : Q) :
  l1 * x1 <= y1 -> y1 <= h1 * x1 ->
  l2 * x2 <= y2 -> y2 <= h2 * x2 ->
  0 < l1 -> 0 < l2 -> 0 < x1 -> 0 < x2 ->
  l1 / h2 * (x1 / x2) <= y1 / y2 /\ y1 / y2 <= h1 / l2 * (x1 / x2).
Proof.
  intros A1 A2 B1 B2 Hl1 Hl2 Hx1 Hx2.
  assert (Hlx2 : 0 < l2 * x2) by (apply Qmult_lt_0_compat; assumption).
  assert (Hlx1 : 0 < l1 * x1) by (apply Qmult_lt_0_compat; assumption).
  assert (Hy2 : 0 < y2) by lra.
  assert (Hy1 : 0 < y1) by lra.
  assert (Hh2 : 0 < h2).
  { destruct (Qlt_le_dec 0 h2) as [H | H]; [exact H |].
    exfalso. assert (h2 * x2 <= 0 * x2) by (apply Qmult_le_compat_r; lra). lra. }
  assert (Hh1 : 0 < h1).
  { destruct (Qlt_le_dec 0 h1) as [H | H]; [exact H |].
    exfalso. assert (h1 * x1 <= 0 * x1) by (apply Qmult_le_compat_r; lra). lra. }
  split.
  - apply Qle_shift_div_l; [exact Hy2 |].
    apply Qle_trans with (l1 / h2 * (x1 / x2) * (h2 * x2)).
    + apply Qmult_le_l; [| exact B2].
      apply Qmult_lt_0_compat; apply Qlt_shift_div_l; lra.
    + apply Qle_trans with (l1 * x1); [| exact A1].
      apply Qle_lteq. right. field. split; lra.
  - apply Qle_shift_div_r; [exact Hy2 |].
    apply Qle_trans with (h1 * x1); [exact A2 |].
    apply Qle_trans with (h1 / l2 * (x1 / x2) * (l2 * x2)).
    + apply Qle_lteq. right. field. split; lra.
    + apply Qmult_le_l; [| exact B1].
      apply Qmult_lt_0_compat; apply Qlt_shift_div_l; lra.
Qed.

Lemma between_scale (l h x y c : Q) :
  0 <= c -> l * x <= y -> y <= h * x ->
  l * (x * c) <= y * c /\ y * c <= h * (x * c).
Proof.
  intros Hc H1 H2. split.
  - apply Qle_trans with (l * x * c); [apply Qle_lteq; right; ring |].
    apply Qmult_le_compat_r; assumption.
  - apply Qle_trans with (h * x * c); [| apply Qle_lteq; right; ring].
    apply Qmult_le_compat_r; assumption.
Qed.

Lemma double_10 : Np.double 10.0 = 10.0.
Proof. reflexivity. Qed.

Lemma double_3600 : Np.double 3600.0 = 3600.0.
Proof. reflexivity. Qed.

Lemma float_of_len_ge_1 (n : nat) : (0 < n)%nat -> 1 <= Np.float_of_len n.
Proof.
  intro H. unfold Np.float_of_len. change 1 with (inject_Z 1).
  rewrite <- Zle_Qle. lia.
Qed.

(** The duration in hours of [n] segments of ten seconds, as the code
    computes it: [n * 10.0 / 3600.0], within four roundings of [n / 360]. *)
Lemma duration_hours_between (n : nat) :
  (0 < n)%nat ->
  let hours := Np.div64 (Np.mul64 (Np.float_of_len n) 10.0) 3600.0 in
  let exact := Np.float_of_len n * 10.0 * / 3600.0 in
  let l := 1 * (1 - 2 ^ (-53)) * (1 - 2 ^ (-53)) * (1 - 2 ^ (-53)) * (1 - 2 ^ (-53)) in
  let h := 1 * (1 + 2 ^ (-53)) * (1 + 2 ^ (-53)) * (1 + 2 ^ (-53)) * (1 + 2 ^ (-53)) in
  l * exact <= hours /\ hours <= h * exact /\ 0 < hours.
Proof.
  intros Hn. cbv zeta.
  pose proof (float_of_len_ge_1 n Hn) as HN.
  set (N := Np.float_of_len n) in *.
  assert (Htiny : 2 ^ (-1021) <= 1 # 360).
  { apply closed_Qle. vm_compute. reflexivity. }
  set (tiny := 2 ^ (-1021)) in *.
  destruct (double_between 1 1 N N) as [A1 A2];
    [lra | lra | apply closed_Qle; vm_compute; reflexivity | fold tiny; lra |].
  destruct (between_scale _ _ N (Np.double N) 10.0 ltac:(lra) A1 A2) as [B1 B2].
  destruct (double_between _ _ _ _ B1 B2) as [C1 C2];
    [apply closed_Qle; vm_compute; reflexivity | fold tiny; clear - HN Htiny; lra |].
  destruct (double_between _ _ _ _ C1 C2) as [D1 D2];
    [apply closed_Qle; vm_compute; reflexivity | fold tiny; clear - HN Htiny; lra |].
  destruct (between_scale _ _ (N * 10.0) _ (/ 3600.0)
              ltac:(apply closed_Qle; reflexivity) D1 D2) as [E1 E2].
  assert (Hx : tiny <= N * 10.0 * / 3600.0).
  { assert (N * 10.0 * / 3600.0 == N * (1 # 360)) by field.
    clear - HN Htiny H. lra. }
  destruct (double_between _ _ _ _ E1 E2) as [F1 F2];
    [apply closed_Qle; vm_compute; reflexivity | exact Hx |].
  unfold Np.div64, Np.mul64. rewrite double_10, double_3600.
  unfold Qdiv. split; [exact F1 |]. split; [exact F2 |].
  eapply Qlt_le_trans; [| exact F1].
  apply Qmult_lt_0_compat.
  - apply Qlt_le_trans with (1 # 2); [reflexivity |].
    apply closed_Qle. vm_compute. reflexivity.
  - apply Qlt_le_trans with tiny; [apply two_pow_pos | exact Hx].
Qed.

(** The events per hour as the code computes them,
    [events / (n * 10.0 / 3600.0)], are within [2 ^ -50] of the exact
    quotient, relatively. *)
Lemma ahi_between (events : Z) (n : nat) :
  (0 < events)%Z -> (0 < n)%nat -> (Z.of_nat n < 2 ^ 63)%Z ->
  let hours := Np.div64 (Np.mul64 (Np.float_of_len n) 10.0) 3600.0 in
  let ahi := Np.div64 (Np.float_of_int events) hours in
  let exact := Np.float_of_int events / (Np.float_of_len n * 10.0 / 3600.0) in
  exact * (1 - 2 ^ (-50)) <= ahi /\ ahi <= exact * (1 + 2 ^ (-50)).
Proof.
  intros He Hn Hbig. cbv zeta.
  destruct (duration_hours_between n Hn) as [H1 [H2 Hpos]]. cbv zeta in H1, H2, Hpos.
  set (hours := Np.div64 (Np.mul64 (Np.float_of_len n) 10.0) 3600.0) in *.
  pose proof (float_of_len_ge_1 n Hn) as HN.
  assert (HN2 : Np.float_of_len n <= 2 ^ 63).
  { unfold Np.float_of_len. rewrite <- (two_pow_inject 63) by lia.
    rewrite <- Zle_Qle. lia. }
  set (N := Np.float_of_len n) in *.
  assert (HE : 1 <= Np.float_of_int events).
  { unfold Np.float_of_int. change 1 with (inject_Z 1). rewrite <- Zle_Qle. lia. }
  set (E := Np.float_of_int events) in *.
  set (X := N * 10.0 * / 3600.0) in *.
  assert (HX : X == N * (1 # 360)) by (unfold X; field).
  assert (Htiny : 2 ^ (-1021) <= 1 # 360).
  { apply closed_Qle. vm_compute. reflexivity. }
  assert (Htiny2 : 2 ^ (-1021) * 2 ^ 63 <= 360).
  { apply closed_Qle. vm_compute. reflexivity. }
  assert (HtX : 2 ^ (-1021) <= X).
  { set (tiny := 2 ^ (-1021)) in *. clear - HX HN Htiny. lra. }
  assert (HX0 : 0 < X).
  { apply Qlt_le_trans with (2 ^ (-1021)); [apply two_pow_pos | exact HtX]. }
  assert (HtE : 2 ^ (-1021) <= E).
  { set (tiny := 2 ^ (-1021)) in *. clear - HE Htiny. lra. }
  assert (HtQ : 2 ^ (-1021) <= E / X).
  { apply Qle_shift_div_l; [exact HX0 |].
    set (tiny := 2 ^ (-1021)) in *. set (B := 2 ^ 63) in *.
    assert (tiny * N <= tiny * B).
    { apply Qmult_le_l; [apply two_pow_pos | exact HN2]. }
    clear - HX H Htiny2 HE. nra. }
  destruct (double_between 1 1 E E) as [A1 A2];
    [clear; lra | clear; lra | apply closed_Qle; vm_compute; reflexivity
     | exact HtE |].
  destruct (double_between _ _ _ _ H1 H2) as [B1 B2];
    [apply closed_Qle; vm_compute; reflexivity | exact HtX |].
  destruct (div_between _ _ _ _ _ _ _ _ A1 A2 B1 B2) as [C1 C2];
    [vm_compute; reflexivity | vm_compute; reflexivity | clear - HE; lra
     | exact HX0 |].
  destruct (double_between _ _ _ _ C1 C2) as [D1 D2];
    [apply closed_Qle; vm_compute; reflexivity | exact HtQ |].
  fold (Np.div64 E hours) in D1, D2.
  assert (Hex : E / (N * 10.0 / 3600.0) == E / X).
  { unfold X. field. clear - HN. lra. }
  rewrite Hex.
  assert (HQ0 : 0 <= E / X).
  { apply Qle_shift_div_l; [exact HX0 |]. clear - HE. lra. }
  split.
  - eapply Qle_trans; [| exact D1].
    rewrite (Qmult_comm (E / X)).
    apply Qmult_le_compat_r; [| exact HQ0].
    apply closed_Qle. vm_compute. reflexivity.
  - eapply Qle_trans; [exact D2 |].
    rewrite (Qmult_comm (E / X)).
    apply Qmult_le_compat_r; [| exact HQ0].
    apply closed_Qle. vm_compute. reflexivity.
Qed.

Lemma int64_fits (z : Z) : (- 2 ^ 63 <= z < 2 ^ 63)%Z -> Np.int64 z = z.
Proof. intro H. unfold Np.int64. rewrite Z.mod_small; lia. Qed.

Lemma double_of_zero (x : Q) : x == 0 -> Np.double x == 0.
Proof. apply round_to_zero. Qed.

(** The float quotient is monotone in a non-negative numerator. *)
Lemma div64_monotone (a b c : Q) :
  0 <= a -> a <= b -> 0 <= c -> Np.div64 a c <= Np.div64 b c.
Proof.
  intros Ha Hab Hc. unfold Np.div64.
  pose proof (double_nonneg a Ha) as Ha'.
  pose proof (double_monotone a b Ha Hab) as Hab'.
  pose proof (double_nonneg c Hc) as Hc'.
  assert (Hinv : 0 <= / Np.double c) by (apply Qinv_le_0_compat; exact Hc').
  apply double_monotone.
  - unfold Qdiv. apply Qmult_le_0_compat; assumption.
  - unfold Qdiv. apply Qmult_le_compat_r; assumption.
Qed.

Lemma severity_score_cases (predictions : list Z) (timestamps : list Q) :
  predictions <> [] ->
  (Np.sum_int64 predictions = 0%Z ->
   V1._calculate_severity_score predictions timestamps = 0.0) /\
  (Np.sum_int64 predictions <> 0%Z ->
   V1._calculate_severity_score predictions timestamps
   = V1.severity_of_ahi
       (Np.div64 (Np.float_of_int (Np.sum_int64 predictions))
          (Np.div64 (Np.mul64 (Np.float_of_len (length predictions)) 10.0)
                    3600.0))).
Proof.
  intro Hne. unfold V1._calculate_severity_score.
  assert (Hn : (0 < length predictions)%nat).
  { destruct predictions; [contradiction | simpl; lia]. }
  destruct (Nat.eqb (length predictions) 0) eqn:E0;
    [apply Nat.eqb_eq in E0; lia |].
  cbv zeta. split; intro Hs.
  - rewrite Hs. reflexivity.
  - apply Z.eqb_neq in Hs. rewrite Hs.
    destruct (duration_hours_between (length predictions) Hn) as [_ [_ Hpos]].
    cbv zeta in Hpos.
    destruct (Qeq_bool _ 0) eqn:E; [| reflexivity].
    apply Qeq_bool_eq in E. rewrite E in Hpos.
    exfalso. exact (Qlt_irrefl _ Hpos).
Qed.

Lemma severity_of_ahi_lower (ahi : Q) : 0.1 <= V1.severity_of_ahi ahi.
Proof.
  unfold V1.severity_of_ahi.
  repeat match goal with
         | |- context [Np.lt ?x ?y] => destruct (Np.lt x y)
         end; lra.
Qed.

Lemma ahi_monotone (e1 e2 : Z) (n : nat) :
  (0 < n)%nat -> (0 <= e1)%Z -> (e1 <= e2)%Z ->
  Np.div64 (Np.float_of_int e1)
           (Np.div64 (Np.mul64 (Np.float_of_len n) 10.0) 3600.0)
  <= Np.div64 (Np.float_of_int e2)
              (Np.div64 (Np.mul64 (Np.float_of_len n) 10.0) 3600.0).
Proof.
  intros Hn H0 He.
  destruct (duration_hours_between n Hn) as [_ [_ Hpos]]. cbv zeta in Hpos.
  apply div64_monotone.
  - unfold Np.float_of_int. change 0 with (inject_Z 0). rewrite <- Zle_Qle.
    exact H0.
  - unfold Np.float_of_int. rewrite <- Zle_Qle. exact He.
  - apply Qlt_le_weak. exact Hpos.
Qed.

(** C7, as the code has it.  The predictions are an [int64] array, not
    empty, whose sum [events] is not negative.  [_calculate_severity_score]
    returns 0.0 when [events] is zero.  Otherwise it computes
    [ahi = events / (n * 10.0 / 3600.0)] in floats, which is the exact
    quotient of the events by the hours up to a relative error of
    [2 ^ -50], and maps the computed [ahi] through the buckets <5 -> 0.1,
    <15 -> 0.2, <25 -> 0.4, <35 -> 0.6, <50 -> 0.8, else 1.0.  The bucket
    map is non-decreasing in AHI, and so is the score in the event count at
    a fixed duration. *)
Theorem severity_score_by_buckets (predictions : list Z) (timestamps : list Q) :
  predictions <> [] ->
  (Z.of_nat (length predictions) < 2 ^ 63)%Z ->
  Forall (fun p => (- 2 ^ 63 <= p < 2 ^ 63)%Z) predictions ->
  (0 <= Np.sum_int64 predictions)%Z ->
  let events := Np.sum_int64 predictions in
  let hours :=
    Np.div64 (Np.mul64 (Np.float_of_len (length predictions)) 10.0) 3600.0 in
  let ahi := Np.div64 (Np.float_of_int events) hours in
  let exact_ahi :=
    Np.float_of_int events
    / (Np.float_of_len (length predictions) * 10.0 / 3600.0) in
  let score := V1._calculate_severity_score predictions timestamps in
  (events = 0%Z -> score = 0.0) /\
  ((0 < events)%Z ->
   score = V1.severity_of_ahi ahi /\
   exact_ahi * (1 - 2 ^ (-50)) <= ahi /\
   ahi <= exact_ahi * (1 + 2 ^ (-50)) /\
   (ahi < 5 -> score = 0.1) /\
   (5 <= ahi -> ahi < 15 -> score = 0.2) /\
   (15 <= ahi -> ahi < 25 -> score = 0.4) /\
   (25 <= ahi -> ahi < 35 -> score = 0.6) /\
   (35 <= ahi -> ahi < 50 -> score = 0.8) /\
   (50 <= ahi -> score = 1.0)) /\
  (forall a b : Q, a <= b -> V1.severity_of_ahi a <= V1.severity_of_ahi b) /\
  (forall (predictions2 : list Z) (timestamps2 : list Q),
      length predictions2 = length predictions ->
      (events <= Np.sum_int64 predictions2)%Z ->
      score <= V1._calculate_severity_score predictions2 timestamps2).
Proof.
  intros Hne Hlen _ Hsum events hours ahi exact_ahi score.
  assert (Hn : (0 < length predictions)%nat).
  { destruct predictions; [contradiction | simpl; lia]. }
  destruct (severity_score_cases predictions timestamps Hne) as [Hzero Hpos].
  split; [exact Hzero |]. split; [| split].
  - intro Hgt. assert (Hnz : events <> 0%Z) by lia.
    unfold score. rewrite (Hpos Hnz). fold events. fold hours. fold ahi.
    split; [reflexivity |].
    destruct (ahi_between events (length predictions) Hgt Hn Hlen) as [Hlo Hhi].
    split; [exact Hlo |]. split; [exact Hhi |].
    apply severity_of_ahi_buckets.
  - exact severity_of_ahi_monotone.
  - intros predictions2 timestamps2 Hlen2 Hle.
    assert (Hne2 : predictions2 <> []).
    { destruct predictions2; [| discriminate].
      destruct predictions; [contradiction | discriminate]. }
    destruct (severity_score_cases predictions2 timestamps2 Hne2) as [Hzero2 Hpos2].
    destruct (Z.eq_dec events 0) as [Ez | Enz].
    + unfold score. rewrite (Hzero Ez).
      destruct (Z.eq_dec (Np.sum_int64 predictions2) 0) as [Ez2 | Enz2].
      * rewrite (Hzero2 Ez2). apply Qle_refl.
      * rewrite (Hpos2 Enz2).
        apply Qle_trans with 0.1; [lra | apply severity_of_ahi_lower].
    + assert (Enz2 : Np.sum_int64 predictions2 <> 0%Z) by (unfold events in *; lia).
      unfold score. rewrite (Hpos Enz), (Hpos2 Enz2), Hlen2.
      apply severity_of_ahi_monotone. apply ahi_monotone; [exact Hn | | exact Hle].
      exact Hsum.
Qed.

Lemma severity_score_by_buckets_witness :
  let events := Np.sum_int64 [1; 0; 1]%Z in
  let hours :=
    Np.div64 (Np.mul64 (Np.float_of_len (length [1; 0; 1]%Z)) 10.0) 3600.0 in
  let ahi := Np.div64 (Np.float_of_int events) hours in
  let exact_ahi :=
    Np.float_of_int events
    / (Np.float_of_len (length [1; 0; 1]%Z) * 10.0 / 3600.0) in
  let score := V1._calculate_severity_score [1; 0; 1]%Z [0; 10; 20] in
  (events = 0%Z -> score = 0.0) /\
  ((0 < events)%Z ->
   score = V1.severity_of_ahi ahi /\
   exact_ahi * (1 - 2 ^ (-50)) <= ahi /\
   ahi <= exact_ahi * (1 + 2 ^ (-50)) /\
   (ahi < 5 -> score = 0.1) /\
   (5 <= ahi -> ahi < 15 -> score = 0.2) /\
   (15 <= ahi -> ahi < 25 -> score = 0.4) /\
   (25 <= ahi -> ahi < 35 -> score = 0.6) /\
   (35 <= ahi -> ahi < 50 -> score = 0.8) /\
   (50 <= ahi -> score = 1.0)) /\
  (forall a b : Q, a <= b -> V1.severity_of_ahi a <= V1.severity_of_ahi b) /\
  (forall (predictions2 : list Z) (timestamps2 : list Q),
      length predictions2 = length [1; 0; 1]%Z ->
      (events <= Np.sum_int64 predictions2)%Z ->
      score <= V1._calculate_severity_score predictions2 timestamps2).
Proof.
  apply (severity_score_by_buckets [1; 0; 1]%Z [0; 10; 20]).
  - discriminate.
  - reflexivity.
  - repeat constructor; discriminate.
  - vm_compute. discriminate.
Defined.

(** The rounding decides the bucket at a threshold: 55 events in 396
    predictions are exactly 50 events per hour, the float quotient is just
    below 50, and the score is 0.8. *)
Example severity_just_below_a_threshold :
  let predictions := repeat 1%Z 55 ++ repeat 0%Z 341 in
  Np.float_of_int (Np.sum_int64 predictions)
  / (Np.float_of_len (length predictions) * 10.0 / 3600.0) == 50 /\
  Np.div64 (Np.float_of_int (Np.sum_int64 predictions))
    (Np.div64 (Np.mul64 (Np.float_of_len (length predictions)) 10.0) 3600.0)
  < 50 /\
  V1._calculate_severity_score predictions [] = 0.8.
Proof.
  cbv zeta. split; [vm_compute; reflexivity |].
  split; vm_compute; reflexivity.
Qed.

(** C7 as the specification states it fails on its zero-event case: two
    predictions (twenty seconds, a positive duration) with no apnea event
    give the score 0.0, which is not the 0.1 of the lowest bucket. *)
Lemma severity_of_zero_events_is_zero :
  Np.isum [0; 0]%Z = 0%Z /\
  0 < Np.float_of_len (length [0; 0]%Z) * 10.0 / 3600.0 /\
  V1._calculate_severity_score [0; 0]%Z [0; 10] = 0.0 /\
  ~ V1._calculate_severity_score [0; 0]%Z [0; 10] == 0.1.
Proof.
  split; [reflexivity |]. split; [reflexivity |]. split; [reflexivity |].
  intro H. vm_compute in H. discriminate.
Qed.

(** ** The random draw of the v1 DIAGNOSE *)





(** ** Episodes without a DIAGNOSE *)

Lemma v1_step_keeps_records (env : V1.ApneaDetectionEnv) (pd : V1.PatientData)
    (action : Z) (u : Q) :
  V1.current_data env = Ok pd ->
  action <> 1%Z ->
  exists env' out,
    V1.step env action u = Ok (env', out) /\
    V1.current_data env' = Ok pd /\
    V1.episode_predictions env' = V1.episode_predictions env.
Proof.
  intros Hpd Ha.
  destruct (Z.eq_dec action 0) as [-> | H0].
  - rewrite v1_step_wait. cbv zeta.
    set (env' := V1.set_current_step env (S (V1.current_step env))).
    assert (Hpd' : V1.current_data env' = Ok pd) by exact Hpd.
    rewrite Hpd'. simpl bind.
    match goal with
    | |- context [V1.finish_step env' ?r ?t ?tr] =>
        destruct (v1_finish_step_ok env' pd r t tr Hpd') as [obs [_ Hfin]]
    end.
    rewrite Hfin. eexists. eexists. split; [reflexivity |].
    split; [exact Hpd' | reflexivity].
  - destruct (Z.eq_dec action 2) as [-> | H2].
    + rewrite v1_step_escalate.
      destruct (v1_finish_step_ok env pd (-0.1) true false Hpd) as [obs [_ Hfin]].
      rewrite Hfin. eexists. eexists. split; [reflexivity |].
      split; [exact Hpd | reflexivity].
    + rewrite (v1_step_other env action u H0 Ha H2).
      destruct (v1_finish_step_ok env pd 0.0 false false Hpd) as [obs [_ Hfin]].
      rewrite Hfin. eexists. eexists. split; [reflexivity |].
      split; [exact Hpd | reflexivity].
Qed.

Lemma v1_run_without_diagnose (script : list (Z * Q)) :
  forall (env : V1.ApneaDetectionEnv) (pd : V1.PatientData),
    V1.current_data env = Ok pd ->
    Forall (fun au => fst au <> 1%Z) script ->
    exists env' outs,
      V1.run_episode env script = Ok (env', outs) /\
      V1.episode_predictions env' = V1.episode_predictions env.
Proof.
  induction script as [| [action u] script IH]; intros env pd Hpd Hall.
  - exists env, []. split; reflexivity.
  - inversion Hall as [| x xs Ha Hrest]; subst. simpl in Ha.
    destruct (v1_step_keeps_records env pd action u Hpd Ha)
      as [env1 [out [Hstep [Hpd1 Hrec]]]].
    simpl. rewrite Hstep. simpl.
    destruct (V1.sr_terminated out || V1.sr_truncated out).
    + exists env1, [out]. split; [reflexivity | exact Hrec].
    + destruct (IH env1 pd Hpd1 Hrest) as [env' [outs [Hrun Hrec']]].
      rewrite Hrun. simpl. exists env', (out :: outs).
      split; [reflexivity |]. rewrite Hrec'. exact Hrec.
Qed.

Lemma m2_step_keeps_records (env : M2.ApneaDetectionEnv) (action : Z) :
  length (M2.features env) = length (M2.audio_segments env) ->
  M2.features env <> [] ->
  action <> 1%Z ->
  exists env' out,
    M2.step env action = Ok (env', out) /\
    length (M2.features env') = length (M2.audio_segments env') /\
    M2.features env' <> [] /\
    M2.diagnosed_segments env' = M2.diagnosed_segments env.
Proof.
  intros Hlen Hne Ha.
  assert (Hdiag : action = 1%Z ->
                  (M2.current_segment_idx env < length (M2.labels env))%nat)
    by (intro K; contradiction).
  destruct (m2_step_returns env action Hlen Hne Hdiag)
    as [env' [obs [reward [done [Hstep [Hf [Ha' [_ Hcases]]]]]]]].
  eexists. eexists. split; [exact Hstep |].
  rewrite Hf, Ha'. split; [exact Hlen |]. split; [exact Hne |].
  destruct Hcases as [[_ [_ [_ He]]] | [[Hc _] | [[_ [_ [_ He]]]
                    | [_ [_ [_ [_ [_ He]]]]]]]];
    try contradiction; subst; reflexivity.
Qed.

Lemma m2_run_without_diagnose (script : list Z) :
  forall env : M2.ApneaDetectionEnv,
    length (M2.features env) = length (M2.audio_segments env) ->
    M2.features env <> [] ->
    Forall (fun action => action <> 1%Z) script ->
    exists env' outs,
      M2.run_episode env script = Ok (env', outs) /\
      M2.diagnosed_segments env' = M2.diagnosed_segments env.
Proof.
  induction script as [| action script IH]; intros env Hlen Hne Hall.
  - exists env, []. split; reflexivity.
  - inversion Hall as [| x xs Ha Hrest]; subst.
    destruct (m2_step_keeps_records env action Hlen Hne Ha)
      as [env1 [out [Hstep [Hlen1 [Hne1 Hrec]]]]].
    simpl. rewrite Hstep. simpl.
    destruct (M2.sr_done out).
    + exists env1, [out]. split; [reflexivity | exact Hrec].
    + destruct (IH env1 Hlen1 Hne1 Hrest) as [env' [outs [Hrun Hrec']]].
      rewrite Hrun. simpl. exists env', (out :: outs).
      split; [reflexivity |]. rewrite Hrec'. exact Hrec.
Qed.

Lemma v1_metrics_of_no_prediction (env : V1.ApneaDetectionEnv) :
  V1.episode_predictions env = [] ->
  V1.get_episode_metrics env = Ok V1.EmptyDict.
Proof. intro H. unfold V1.get_episode_metrics. rewrite H. reflexivity. Qed.

Lemma m2_results_of_no_diagnosis (env : M2.ApneaDetectionEnv) :
  M2.diagnosed_segments env = [] ->
  M2.get_episode_results env = Ok M2.EmptyDict.
Proof. intro H. unfold M2.get_episode_results. rewrite H. reflexivity. Qed.

(** C8, as the code has it.  After an episode without a DIAGNOSE nothing is
    recorded, and both aggregations return the empty dictionary [{}], not a
    record of metrics.  This covers the episode whose first action is
    ESCALATE: that step returns the reward -0.1 with [terminated] (model-2:
    [done]) set, records no prediction, and the aggregation that follows
    returns [{}]. *)
Theorem metrics_of_episode_without_diagnose
    (env : V1.ApneaDetectionEnv) (pd : V1.PatientData)
    (script : list (Z * Q)) (u : Q)
    (env2 : M2.ApneaDetectionEnv) (script2 : list Z) :
  V1.freshly_reset env pd ->
  Forall (fun au => fst au <> 1%Z) script ->
  length (M2.features env2) = length (M2.audio_segments env2) ->
  M2.features env2 <> [] ->
  M2.diagnosed_segments env2 = [] ->
  Forall (fun action => action <> 1%Z) script2 ->
  (exists env' outs,
      V1.run_episode env script = Ok (env', outs) /\
      V1.episode_predictions env' = [] /\
      V1.get_episode_metrics env' = Ok V1.EmptyDict) /\
  (exists env' out,
      V1.run_episode env [(2%Z, u)] = Ok (env', [out]) /\
      V1.sr_reward out == -0.1 /\
      V1.sr_terminated out = true /\
      V1.episode_predictions env' = [] /\
      V1.get_episode_metrics env' = Ok V1.EmptyDict) /\
  (exists env2' outs2,
      M2.run_episode env2 script2 = Ok (env2', outs2) /\
      M2.diagnosed_segments env2' = [] /\
      M2.get_episode_results env2' = Ok M2.EmptyDict) /\
  (exists env2' out2,
      M2.run_episode env2 [2%Z] = Ok (env2', [out2]) /\
      M2.sr_reward out2 == -0.1 /\
      M2.sr_done out2 = true /\
      M2.diagnosed_segments env2' = [] /\
      M2.get_episode_results env2' = Ok M2.EmptyDict).
Proof.
  intros [Hpd [Hlen [_ [Hpred _]]]] Hall Hlen2 Hne2 Hdiag2 Hall2.
  split; [| split; [| split]].
  - destruct (v1_run_without_diagnose script env pd Hpd Hall)
      as [env' [outs [Hrun Hrec]]].
    exists env', outs. split; [exact Hrun |].
    rewrite Hpred in Hrec. split; [exact Hrec |].
    apply v1_metrics_of_no_prediction. exact Hrec.
  - simpl. rewrite v1_step_escalate.
    destruct (v1_finish_step_ok env pd (-0.1) true false Hpd) as [obs [_ Hfin]].
    rewrite Hfin. simpl.
    assert (Hterm : fst (V1.check_termination env pd true false) = true).
    { unfold V1.check_termination.
      destruct (Nat.leb (length (V1.pd_features pd)) (V1.current_step env));
        [reflexivity |].
      destruct (Z.leb (V1.max_episode_length env) (Z.of_nat (V1.current_step env)));
        reflexivity. }
    rewrite Hterm. simpl.
    eexists. eexists. split; [reflexivity |]. simpl.
    split; [reflexivity |]. split; [reflexivity |].
    split; [exact Hpred |]. apply v1_metrics_of_no_prediction. exact Hpred.
  - destruct (m2_run_without_diagnose script2 env2 Hlen2 Hne2 Hall2)
      as [env2' [outs2 [Hrun Hrec]]].
    exists env2', outs2. split; [exact Hrun |].
    rewrite Hdiag2 in Hrec. split; [exact Hrec |].
    apply m2_results_of_no_diagnosis. exact Hrec.
  - simpl. rewrite m2_step_escalate.
    destruct (m2_finish_step_ok (M2.set_escalated env2 true) (-0.1) true Hlen2 Hne2)
      as [obs Hfin].
    rewrite Hfin. simpl. rewrite orb_true_r.
    eexists. eexists. split; [reflexivity |]. simpl.
    split; [reflexivity |]. split; [reflexivity |].
    split; [exact Hdiag2 |]. apply m2_results_of_no_diagnosis. exact Hdiag2.
Qed.

Lemma metrics_of_episode_without_diagnose_witness :
  (exists env' outs,
      V1.run_episode Examples.v1_ready [(0%Z, 0.5); (2%Z, 0.5)] = Ok (env', outs) /\
      V1.episode_predictions env' = [] /\
      V1.get_episode_metrics env' = Ok V1.EmptyDict) /\
  (exists env' out,
      V1.run_episode Examples.v1_ready [(2%Z, 0.5)] = Ok (env', [out]) /\
      V1.sr_reward out == -0.1 /\
      V1.sr_terminated out = true /\
      V1.episode_predictions env' = [] /\
      V1.get_episode_metrics env' = Ok V1.EmptyDict) /\
  (exists env2' outs2,
      M2.run_episode Examples.m2_ready [0%Z; 2%Z] = Ok (env2', outs2) /\
      M2.diagnosed_segments env2' = [] /\
      M2.get_episode_results env2' = Ok M2.EmptyDict) /\
  (exists env2' out2,
      M2.run_episode Examples.m2_ready [2%Z] = Ok (env2', [out2]) /\
      M2.sr_reward out2 == -0.1 /\
      M2.sr_done out2 = true /\
      M2.diagnosed_segments env2' = [] /\
      M2.get_episode_results env2' = Ok M2.EmptyDict).
Proof.
  apply (metrics_of_episode_without_diagnose
           Examples.v1_ready Examples.pd_a [(0%Z, 0.5); (2%Z, 0.5)] 0.5
           Examples.m2_ready [0%Z; 2%Z]).
  - repeat split.
  - repeat constructor; discriminate.
  - reflexivity.
  - discriminate.
  - reflexivity.
  - repeat constructor; discriminate.
Defined.

(** C8 as the specification states it fails: after the one-step episode
    [ESCALATE] (reward -0.1, [terminated], no prediction) both aggregations
    return the empty dictionary, which is not a record of metrics. *)
Lemma metrics_after_escalate_are_empty :
  V1.step Examples.v1_ready 2 0.5
  = Ok (Examples.v1_ready,
        V1.mkStepResult [90; 90] (-0.1) true false
          (V1.mkStepInfo (Some "a"%string) 0 3 [] [] [] [] [])) /\
  V1.get_episode_metrics Examples.v1_ready = Ok V1.EmptyDict /\
  (forall m, V1.get_episode_metrics Examples.v1_ready <> Ok (V1.Metrics m)) /\
  M2.step Examples.m2_ready 2
  = Ok (M2.set_escalated Examples.m2_ready true,
        M2.mkStepResult [[0]] (-0.1) true false (M2.mkStepInfo 0 3 0 true [])) /\
  M2.get_episode_results (M2.set_escalated Examples.m2_ready true)
  = Ok M2.EmptyDict /\
  (forall r, M2.get_episode_results (M2.set_escalated Examples.m2_ready true)
             <> Ok (M2.Results r)).
Proof.
  split; [reflexivity |]. split; [reflexivity |].
  split; [intros m H; discriminate H |].
  split; [reflexivity |]. split; [reflexivity |].
  intros r H; discriminate H.
Qed.

(** ** The invariant of an episode of the v1 environment *)

Lemma v1_fresh_invariant (env : V1.ApneaDetectionEnv) (pd : V1.PatientData) :
  V1.freshly_reset env pd -> V1.episode_invariant env pd /\ V1.lag env = 0%nat.
Proof.
  intros [Hpd [Hlen [Hstep [Hp [Hc [Hr [Ht Hd]]]]]]].
  unfold V1.episode_invariant, V1.lists_aligned, V1.lag.
  rewrite Hp, Hc, Hr, Ht, Hd, Hstep. simpl.
  repeat split; try assumption; try reflexivity; lia.
Qed.

Lemma v1_not_terminated_in_range (env : V1.ApneaDetectionEnv)
    (pd : V1.PatientData) (terminated truncated : bool) :
  fst (V1.check_termination env pd terminated truncated) = false ->
  (V1.current_step env < length (V1.pd_features pd))%nat.
Proof.
  unfold V1.check_termination.
  destruct (Nat.leb (length (V1.pd_features pd)) (V1.current_step env)) eqn:E.
  - simpl. discriminate.
  - intros _. apply Nat.leb_gt in E. exact E.
Qed.

Lemma v1_step_invariant (env : V1.ApneaDetectionEnv) (pd : V1.PatientData)
    (action : Z) (u : Q) :
  V1.episode_invariant env pd ->
  exists env' out,
    V1.step env action u = Ok (env', out) /\
    V1.episode_invariant env' pd /\
    (V1.lag env <= V1.lag env')%nat /\
    V1.records_extend env env' /\
    (V1.sr_terminated out = false ->
     (V1.current_step env' < length (V1.pd_features pd))%nat) /\
    (action = 0%Z -> V1.lag env' = S (V1.lag env)).
Proof.
  intros [Hpd [Hlen [[Hc [Hr [Ht Hd]]] [Hn Hnl]]]].
  destruct (v1_step_returns env pd action u Hpd Hlen)
    as [env' [obs [reward [terminated [Hstep [Hpd' [_ Hcases]]]]]]].
  eexists. eexists. split; [exact Hstep |].
  assert (Hterm : V1.sr_terminated
                    (V1.mkStepResult obs reward
                       (fst (V1.check_termination env' pd terminated false))
                       (snd (V1.check_termination env' pd terminated false))
                       (V1.step_info env' pd)) = false ->
                  (V1.current_step env' < length (V1.pd_features pd))%nat).
  { simpl. apply v1_not_terminated_in_range. }
  assert (Hsame : env' = env ->
                  V1.episode_invariant env' pd /\
                  (V1.lag env <= V1.lag env')%nat /\
                  V1.records_extend env env').
  { intros ->. split; [repeat split; assumption |]. split; [lia |].
    split; exists []; rewrite app_nil_r; reflexivity. }
  destruct Hcases as [[Ha [_ He]] | [[Ha [_ [row [l [Hrow [_ [_ He]]]]]]]
                    | [[Ha [_ [_ [_ He]]]] | [[Ha [_ [_ He]]]
                    | [Ha0 [Ha1 [_ [_ [_ He]]]]]]]]].
  - (* WAIT *)
    split; [| split; [| split; [| split; [exact Hterm |]]]].
    + split; [exact Hpd' |]. split; [exact Hlen |].
      subst env'. unfold V1.lists_aligned. simpl.
      repeat split; try assumption; lia.
    + subst env'. unfold V1.lag, V1.set_current_step.
      cbn [V1.current_step V1.episode_predictions]. lia.
    + subst env'. split; exists []; rewrite app_nil_r; reflexivity.
    + intros _. subst env'. unfold V1.lag, V1.set_current_step.
      cbn [V1.current_step V1.episode_predictions]. lia.
  - (* DIAGNOSE inside the record *)
    assert (Hin : (V1.current_step env < length (V1.pd_features pd))%nat)
      by (apply nth_error_Some; rewrite Hrow; discriminate).
    split; [| split; [| split; [| split; [exact Hterm |]]]].
    + split; [exact Hpd' |]. split; [exact Hlen |].
      subst env'. unfold V1.lists_aligned. simpl. rewrite !length_app. simpl.
      repeat split; try lia.
    + subst env'. unfold V1.lag, V1.set_current_step, V1.record_diagnosis.
      cbn [V1.current_step V1.episode_predictions].
      rewrite length_app. cbn [length]. lia.
    + subst env'. split; eexists; reflexivity.
    + intro K. rewrite Ha in K. discriminate K.
  - destruct (Hsame He) as [H1 [H2 H3]].
    split; [exact H1 |]. split; [exact H2 |]. split; [exact H3 |].
    split; [exact Hterm |]. intro K. rewrite Ha in K. discriminate K.
  - destruct (Hsame He) as [H1 [H2 H3]].
    split; [exact H1 |]. split; [exact H2 |]. split; [exact H3 |].
    split; [exact Hterm |]. intro K. rewrite Ha in K. discriminate K.
  - destruct (Hsame He) as [H1 [H2 H3]].
    split; [exact H1 |]. split; [exact H2 |]. split; [exact H3 |].
    split; [exact Hterm |]. intro K. contradiction.
Qed.

Lemma v1_records_extend_refl (env : V1.ApneaDetectionEnv) :
  V1.records_extend env env.
Proof. split; exists []; rewrite app_nil_r; reflexivity. Qed.

Lemma v1_records_extend_trans (e1 e2 e3 : V1.ApneaDetectionEnv) :
  V1.records_extend e1 e2 -> V1.records_extend e2 e3 -> V1.records_extend e1 e3.
Proof.
  intros [[ts1 Ht1] [ds1 Hd1]] [[ts2 Ht2] [ds2 Hd2]]. split.
  - exists (ts1 ++ ts2). rewrite Ht2, Ht1, app_assoc. reflexivity.
  - exists (ds1 ++ ds2). rewrite Hd2, Hd1, app_assoc. reflexivity.
Qed.

Lemma v1_run_invariant (script : list (Z * Q)) :
  forall (env : V1.ApneaDetectionEnv) (pd : V1.PatientData),
    V1.episode_invariant env pd ->
    exists env' outs,
      V1.run_episode env script = Ok (env', outs) /\
      V1.episode_invariant env' pd /\
      V1.records_extend env env'.
Proof.
  induction script as [| [action u] script IH]; intros env pd Hinv.
  - exists env, []. split; [reflexivity |]. split; [exact Hinv |].
    apply v1_records_extend_refl.
  - destruct (v1_step_invariant env pd action u Hinv)
      as [env1 [out [Hstep [Hinv1 [_ [Hext1 _]]]]]].
    simpl. rewrite Hstep. simpl.
    destruct (V1.sr_terminated out || V1.sr_truncated out).
    + exists env1, [out]. split; [reflexivity |]. split; assumption.
    + destruct (IH env1 pd Hinv1) as [env' [outs [Hrun [Hinv' Hext']]]].
      rewrite Hrun. simpl. exists env', (out :: outs).
      split; [reflexivity |]. split; [exact Hinv' |].
      apply v1_records_extend_trans with env1; assumption.
Qed.


(** ** The calibration loop returns *)

Lemma in_bin_length (confidences : list Q) (lower upper : Q) :
  length (Np.in_bin confidences lower upper) = length confidences.
Proof. unfold Np.in_bin. apply length_map. Qed.

Lemma mask_index_ok {A : Type} (xs : list A) (mask : list bool) :
  length mask = length xs -> Np.mask_index xs mask = Ok (Np.select mask xs).
Proof.
  intro H. unfold Np.mask_index. rewrite H, Nat.eqb_refl. reflexivity.
Qed.

Lemma ece_loop_ok (bins : list (Q * Q)) (confidences : list Q) (true_labels : list Z) :
  length confidences = length true_labels ->
  forall ece, exists ece', ece_loop bins confidences true_labels ece = Ok ece'.
Proof.
  intro Hlen. induction bins as [| [lo hi] bins IH]; intro ece.
  - exists ece. reflexivity.
  - simpl.
    destruct (Nat.ltb 0 (Np.count_true (Np.in_bin confidences lo hi))).
    + rewrite (mask_index_ok confidences) by apply in_bin_length.
      rewrite (mask_index_ok true_labels)
        by (rewrite in_bin_length; exact Hlen).
      simpl. apply IH.
    + apply IH.
Qed.

(** ** The accuracy and the calibration error, written out *)










(** ** What [get_episode_metrics] scores the predictions against *)

Lemma v1_metrics_use_leading_labels (env : V1.ApneaDetectionEnv)
    (pd : V1.PatientData) :
  V1.episode_invariant env pd ->
  V1.episode_predictions env <> [] ->
  exists m,
    V1.get_episode_metrics env = Ok (V1.Metrics m) /\
    V1.em_n_predictions m = length (V1.episode_predictions env) /\
    V1.em_accuracy m
    = V1.accuracy_of (V1.episode_predictions env)
        (firstn (length (V1.episode_predictions env)) (V1.pd_labels pd)) /\
    V1.episode_ece (V1.episode_confidences env)
      (firstn (length (V1.episode_predictions env)) (V1.pd_labels pd))
      (length (V1.episode_predictions env))
    = Ok (V1.em_ece m).
Proof.
  intros [Hpd [Hlen [[Hc _] [_ Hnl]]]] Hne.
  unfold V1.get_episode_metrics.
  destruct (V1.episode_predictions env) as [| p ps] eqn:Ep; [contradiction |].
  rewrite Hpd. cbn [bind]. cbv zeta.
  set (n := length (p :: ps)) in *.
  assert (Hfirst : length (firstn n (V1.pd_labels pd)) = n).
  { rewrite length_firstn. lia. }
  rewrite Hfirst. rewrite Nat.ltb_irrefl.
  assert (Hece : exists e,
             V1.episode_ece (V1.episode_confidences env)
                            (firstn n (V1.pd_labels pd)) n = Ok e).
  { unfold V1.episode_ece. cbv zeta.
    destruct (ece_loop_ok (Np.bins_of (Np.linspace01 10))
                (V1.episode_confidences env) (firstn n (V1.pd_labels pd))
                (eq_trans Hc (eq_sym Hfirst)) 0.0) as [e He].
    rewrite He. simpl. eexists. reflexivity. }
  destruct Hece as [e He]. rewrite He. cbn [bind].
  eexists. split; [reflexivity |]. cbn [V1.em_n_predictions V1.em_accuracy V1.em_ece].
  split; [reflexivity |]. split; reflexivity.
Qed.


(** ** What a DIAGNOSE inside the record writes down *)



(** ** Predictions are scored against the leading labels *)



(** The episode WAIT, DIAGNOSE on the example patient (labels 0, 1, 1): the
    DIAGNOSE is issued at segment 1, predicts 1 against the true label 1 and
    is rewarded as correct, and [get_episode_metrics] compares the
    prediction with the label 0 of segment 0 and reports the accuracy 0. *)
Example wait_then_diagnose_is_scored_against_segment_0 :
  exists env' out1 out2 m,
    V1.run_episode Examples.v1_ready [(0%Z, 0.5); (1%Z, 0.5)]
    = Ok (env', [out1; out2]) /\
    V1.episode_predictions env' = [1%Z] /\
    V1.episode_timestamps env' = [Np.float_of_len 1 * 10.0] /\
    map V1.ev_true_label (V1.episode_event_details env') = [1%Z] /\
    map V1.ev_correctness (V1.episode_event_details env') = [1] /\
    V1.get_episode_metrics env' = Ok (V1.Metrics m) /\
    V1.em_accuracy m == 0.
Proof.
  eexists. eexists. eexists. eexists.
  split; [vm_compute; reflexivity |].
  split; [reflexivity |]. split; [reflexivity |].
  split; [reflexivity |]. split; [reflexivity |].
  split; [vm_compute; reflexivity |]. reflexivity.
Qed.

(** The episode WAIT, DIAGNOSE, DIAGNOSE on the example patient: the two
    diagnoses are issued at the segments 1 and 2, whose labels are 1 and 1,
    and both predict 1, so that both are correct.  The metrics compare them
    with the labels 0 and 1 of the segments 0 and 1: the accuracy they
    report is a half, and the calibration error 0.55 where the labels of
    the diagnosed segments give 0.15. *)
Example wait_shifts_the_labels_of_the_metrics :
  exists env' out1 out2 out3 m e,
    V1.run_episode Examples.v1_ready [(0%Z, 0.5); (1%Z, 0.5); (1%Z, 0.8)]
    = Ok (env', [out1; out2; out3]) /\
    V1.episode_predictions env' = [1%Z; 1%Z] /\
    V1.episode_timestamps env'
    = [Np.float_of_len 1 * 10.0; Np.float_of_len 2 * 10.0] /\
    map V1.ev_true_label (V1.episode_event_details env') = [1%Z; 1%Z] /\
    map V1.ev_correctness (V1.episode_event_details env') = [1; 1] /\
    firstn 2 (V1.pd_labels Examples.pd_a) = [0%Z; 1%Z] /\
    V1.get_episode_metrics env' = Ok (V1.Metrics m) /\
    V1.em_accuracy m == 1 # 2 /\
    V1.em_ece m == 0.55 /\
    Utils.calculate_ece (V1.episode_confidences env')
      (V1.episode_predictions env') [1%Z; 1%Z] 10
    = Ok e /\
    e == 0.15.
Proof.
  eexists. eexists. eexists. eexists. eexists. eexists.
  split; [vm_compute; reflexivity |].
  split; [reflexivity |]. split; [reflexivity |]. split; [reflexivity |].
  split; [reflexivity |]. split; [reflexivity |].
  split; [vm_compute; reflexivity |].
  split; [vm_compute; reflexivity |].
  split; [vm_compute; reflexivity |].
  split; vm_compute; reflexivity.
Qed.

(** ** Bounds on the calibration error *)

Lemma count_true_le_length (mask : list bool) :
  (Np.count_true mask <= length mask)%nat.
Proof. unfold Np.count_true. apply filter_length_le. Qed.

Lemma select_length {A : Type} (mask : list bool) :
  forall xs : list A,
    length mask = length xs -> length (Np.select mask xs) = Np.count_true mask.
Proof.
  unfold Np.count_true.
  induction mask as [| b mask IH]; intros [| x xs] H; simpl in *;
    try reflexivity; try discriminate.
  injection H as H. destruct b; simpl; rewrite (IH xs H); reflexivity.
Qed.

Lemma select_Forall {A : Type} (P : A -> Prop) (mask : list bool) :
  forall xs : list A, Forall P xs -> Forall P (Np.select mask xs).
Proof.
  induction mask as [| b mask IH]; intros [| x xs] H; simpl;
    try constructor.
  inversion H; subst. destruct b; [constructor; [assumption |] |]; apply IH; assumption.
Qed.

Lemma sum_unit_interval (xs : list Q) :
  Forall (fun x => 0 <= x <= 1) xs ->
  0 <= Np.sum xs <= Np.float_of_len (length xs).
Proof.
  unfold Np.sum, Np.float_of_len.
  induction 1 as [| x xs Hx _ IH].
  - simpl. split; apply Qle_refl.
  - cbn [fold_right length]. rewrite Nat2Z.inj_succ.
    unfold Z.succ. rewrite inject_Z_plus.
    change (inject_Z 1) with 1. lra.
Qed.

Lemma mean_unit_interval (xs : list Q) :
  xs <> [] ->
  Forall (fun x => 0 <= x <= 1) xs ->
  0 <= Np.mean xs <= 1.
Proof.
  intros Hne Hall. destruct (sum_unit_interval xs Hall) as [H0 H1].
  assert (Hpos : 0 < Np.float_of_len (length xs)).
  { apply float_of_len_pos. destruct xs; [contradiction | simpl; lia]. }
  unfold Np.mean. split.
  - apply Qle_shift_div_l; [exact Hpos |]. lra.
  - apply Qle_shift_div_r; [exact Hpos |]. lra.
Qed.

Lemma abs_diff_unit_interval (a b : Q) :
  0 <= a <= 1 -> 0 <= b <= 1 -> 0 <= Qabs (a - b) <= 1.
Proof.
  intros Ha Hb. split; [apply Qabs_nonneg |].
  apply Qabs_Qle_condition. lra.
Qed.

Lemma labels_as_floats (labels : list Z) :
  Forall (fun l => l = 0%Z \/ l = 1%Z) labels ->
  Forall (fun x => 0 <= x <= 1) (map Np.float_of_int labels).
Proof.
  induction 1 as [| l ls Hl _ IH]; simpl; constructor; [| exact IH].
  destruct Hl as [-> | ->]; unfold Np.float_of_int, Qle; simpl; lia.
Qed.

(** A bin with a midpoint is the disjoint union of its two halves. *)
Lemma count_in_bin_split (confidences : list Q) (lo mid hi : Q) :
  lo <= mid -> mid <= hi ->
  (Np.count_true (Np.in_bin confidences lo mid)
   + Np.count_true (Np.in_bin confidences mid hi))%nat
  = Np.count_true (Np.in_bin confidences lo hi).
Proof.
  intros H1 H2. unfold Np.count_true, Np.in_bin.
  induction confidences as [| c cs IH]; [reflexivity |].
  simpl.
  destruct (Np.gt c lo) eqn:Elo; destruct (Np.le c mid) eqn:Emid;
    destruct (Np.gt c mid) eqn:Emid'; destruct (Np.le c hi) eqn:Ehi;
    simpl; try lia;
    exfalso;
    repeat match goal with
           | H : Np.gt _ _ = true |- _ => apply gt_true_iff in H
           | H : Np.gt _ _ = false |- _ => apply gt_false_iff in H
           | H : Np.le _ _ = true |- _ => apply le_true_iff in H
           | H : Np.le ?a ?b = false |- _ =>
               assert (b < a)
                 by (destruct (Qlt_le_dec b a) as [K | K];
                     [exact K | apply le_true_iff in K; congruence]);
               clear H
           end;
    lra.
Qed.

Lemma bins_of_cons (x0 x1 : Q) (rest : list Q) :
  Np.bins_of (x0 :: x1 :: rest) = (x0, x1) :: Np.bins_of (x1 :: rest).
Proof. reflexivity. Qed.

Lemma last_default_irrelevant (rest : list Q) :
  forall y d1 d2 : Q, last (y :: rest) d1 = last (y :: rest) d2.
Proof.
  induction rest as [| z rest IH]; intros y d1 d2.
  - reflexivity.
  - change (last (z :: rest) d1 = last (z :: rest) d2). apply IH.
Qed.

Lemma sorted_head_le_last (rest : list Q) :
  forall x : Q, Sorted Qle (x :: rest) -> x <= last (x :: rest) x.
Proof.
  induction rest as [| y rest IH]; intros x Hs.
  - apply Qle_refl.
  - inversion Hs as [| a l Hs' Hhd]; subst.
    inversion Hhd as [| b l' Hxy]; subst.
    apply Qle_trans with y; [exact Hxy |].
    change (last (x :: y :: rest) x) with (last (y :: rest) x).
    rewrite (last_default_irrelevant rest y x y). apply IH. exact Hs'.
Qed.

Lemma float_of_len_add (a b : nat) :
  Np.float_of_len (a + b) == Np.float_of_len a + Np.float_of_len b.
Proof.
  unfold Np.float_of_len. rewrite Nat2Z.inj_add, inject_Z_plus. reflexivity.
Qed.

(** Over a chain of adjacent bins the loop adds, to the accumulator, at
    least 0 and at most the number of confidences the chain covers. *)
Lemma ece_loop_chain_bound (confidences : list Q) (true_labels : list Z) :
  length confidences = length true_labels ->
  Forall (fun c => 0 <= c <= 1) confidences ->
  Forall (fun l => l = 0%Z \/ l = 1%Z) true_labels ->
  forall (rest : list Q) (x0 ece : Q),
    Sorted Qle (x0 :: rest) ->
    exists ece',
      ece_loop (Np.bins_of (x0 :: rest)) confidences true_labels ece = Ok ece' /\
      ece <= ece' /\
      ece' <= ece + Np.float_of_len
                      (Np.count_true
                         (Np.in_bin confidences x0 (last (x0 :: rest) x0))).
Proof.
  intros Hlen Hconf Hlab.
  induction rest as [| x1 rest IH]; intros x0 ece Hs.
  - exists ece. split; [reflexivity |]. split; [apply Qle_refl |].
    assert (H := float_of_len_nonneg
                   (Np.count_true (Np.in_bin confidences x0 (last [x0] x0)))).
    lra.
  - inversion Hs as [| a l Hs' Hhd]; subst.
    inversion Hhd as [| b l' H01]; subst.
    assert (H1last : x1 <= last (x1 :: rest) x1)
      by (apply sorted_head_le_last; exact Hs').
    assert (Hlast : last (x0 :: x1 :: rest) x0 = last (x1 :: rest) x1).
    { change (last (x0 :: x1 :: rest) x0) with (last (x1 :: rest) x0).
      apply last_default_irrelevant. }
    rewrite Hlast.
    rewrite <- (count_in_bin_split confidences x0 x1 (last (x1 :: rest) x1) H01 H1last).
    rewrite bins_of_cons. cbn [ece_loop].
    set (mask := Np.in_bin confidences x0 x1).
    assert (Hadd := float_of_len_add
                      (Np.count_true mask)
                      (Np.count_true
                         (Np.in_bin confidences x1 (last (x1 :: rest) x1)))).
    destruct (Nat.ltb 0 (Np.count_true mask)) eqn:Ecnt.
    + apply Nat.ltb_lt in Ecnt.
      assert (Hm : length mask = length confidences) by apply in_bin_length.
      rewrite (mask_index_ok confidences mask Hm).
      rewrite (mask_index_ok true_labels mask (eq_trans Hm Hlen)).
      cbn [bind].
      set (term := Np.float_of_len (Np.count_true mask)
                   * Qabs (Np.mean (Np.select mask confidences)
                           - Np.mean (map Np.float_of_int
                                          (Np.select mask true_labels)))).
      assert (Hterm : 0 <= term <= Np.float_of_len (Np.count_true mask)).
      { assert (Hc : 0 <= Np.mean (Np.select mask confidences) <= 1).
        { apply mean_unit_interval.
          - intro K. apply (f_equal (@length Q)) in K.
            rewrite (select_length mask confidences Hm) in K. simpl in K. lia.
          - apply select_Forall. exact Hconf. }
        assert (Hl : 0 <= Np.mean (map Np.float_of_int
                                       (Np.select mask true_labels)) <= 1).
        { apply mean_unit_interval.
          - intro K. apply (f_equal (@length Q)) in K.
            rewrite length_map in K.
            rewrite (select_length mask true_labels (eq_trans Hm Hlen)) in K.
            simpl in K. lia.
          - apply labels_as_floats. apply select_Forall. exact Hlab. }
        assert (Habs := abs_diff_unit_interval _ _ Hc Hl).
        assert (Hn := float_of_len_nonneg (Np.count_true mask)).
        unfold term. split; nra. }
      destruct (IH x1 (ece + term) Hs') as [ece' [Hrun [Hlo Hhi]]].
      exists ece'. split; [exact Hrun |]. split; lra.
    + destruct (IH x1 ece Hs') as [ece' [Hrun [Hlo Hhi]]].
      exists ece'. split; [exact Hrun |]. split; [exact Hlo |].
      assert (Hn := float_of_len_nonneg (Np.count_true mask)). lra.
Qed.

Lemma linspace01_step_sorted (n_bins len : nat) :
  forall a : nat,
    Sorted Qle
      (map (fun k => Np.float_of_len k / Np.float_of_len n_bins) (seq a len)).
Proof.
  induction len as [| len IH]; intro a.
  - constructor.
  - cbn [seq map]. constructor; [apply IH |].
    destruct len as [| len]; cbn [seq map]; constructor.
    unfold Qdiv. apply Qmult_le_compat_r.
    + unfold Np.float_of_len. rewrite <- Zle_Qle. lia.
    + apply Qinv_le_0_compat. apply float_of_len_nonneg.
Qed.

Lemma linspace01_sorted (n_bins : nat) : Sorted Qle (Np.linspace01 n_bins).
Proof. unfold Np.linspace01. apply linspace01_step_sorted. Qed.

Lemma float_of_len_le (a b : nat) :
  (a <= b)%nat -> Np.float_of_len a <= Np.float_of_len b.
Proof. intro H. unfold Np.float_of_len. rewrite <- Zle_Qle. lia. Qed.

(** The sum the loop computes over the bins of [np.linspace(0, 1, n_bins +
    1)] lies between 0 and the number of samples. *)
Lemma ece_sum_bound (confidences : list Q) (true_labels : list Z)
    (n_bins : nat) (ece0 : Q) :
  length confidences = length true_labels ->
  Forall (fun c => 0 <= c <= 1) confidences ->
  Forall (fun l => l = 0%Z \/ l = 1%Z) true_labels ->
  exists ece,
    ece_loop (Np.bins_of (Np.linspace01 n_bins)) confidences true_labels ece0
    = Ok ece /\
    ece0 <= ece <= ece0 + Np.float_of_len (length confidences).
Proof.
  intros Hlen Hconf Hlab.
  assert (Hs := linspace01_sorted n_bins).
  unfold Np.linspace01 in *. cbn [seq map] in *.
  set (x0 := Np.float_of_len 0 / Np.float_of_len n_bins) in *.
  set (rest := map (fun k => Np.float_of_len k / Np.float_of_len n_bins)
                   (seq 1 n_bins)) in *.
  destruct (ece_loop_chain_bound confidences true_labels Hlen Hconf Hlab
              rest x0 ece0 Hs) as [ece [Hrun [Hlo Hhi]]].
  exists ece. split; [exact Hrun |]. split; [exact Hlo |].
  assert (Hcnt := float_of_len_le _ _
                    (count_true_le_length
                       (Np.in_bin confidences x0 (last (x0 :: rest) x0)))).
  rewrite in_bin_length in Hcnt. lra.
Qed.

(** On a non-empty input with confidences in [[0, 1]] and labels in {0, 1},
    [calculate_ece] returns a value in [[0, 1]], for every number of bins;
    a bin without a sample adds nothing and divides nothing. *)
Lemma calculate_ece_range (confidences : list Q) (predictions true_labels : list Z)
    (n_bins : nat) :
  confidences <> [] ->
  length confidences = length true_labels ->
  Forall (fun c => 0 <= c <= 1) confidences ->
  Forall (fun l => l = 0%Z \/ l = 1%Z) true_labels ->
  exists ece,
    Utils.calculate_ece confidences predictions true_labels n_bins = Ok ece /\
    0 <= ece <= 1.
Proof.
  intros Hne Hlen Hconf Hlab.
  destruct (ece_sum_bound confidences true_labels n_bins 0 Hlen Hconf Hlab)
    as [ece [Hrun [Hlo Hhi]]].
  unfold Utils.calculate_ece. cbv zeta. rewrite Hrun. cbn [bind].
  assert (Hpos : (0 < length confidences)%nat)
    by (destruct confidences; [contradiction | simpl; lia]).
  assert (Hnz : Nat.eqb (length confidences) 0 = false)
    by (apply Nat.eqb_neq; lia).
  rewrite Hnz. eexists. split; [reflexivity |].
  assert (Hq := float_of_len_pos _ Hpos).
  split.
  - apply Qle_shift_div_l; [exact Hq | lra].
  - apply Qle_shift_div_r; [exact Hq | lra].
Qed.

(** The copy of the computation in [get_episode_metrics] has the same range,
    and its guarded division returns 0 when there is no sample. *)
Lemma episode_ece_range (confidences : list Q) (true_labels : list Z) :
  length confidences = length true_labels ->
  Forall (fun c => 0 <= c <= 1) confidences ->
  Forall (fun l => l = 0%Z \/ l = 1%Z) true_labels ->
  exists ece,
    V1.episode_ece confidences true_labels (length confidences) = Ok ece /\
    0 <= ece <= 1.
Proof.
  intros Hlen Hconf Hlab.
  destruct (ece_sum_bound confidences true_labels 10 0.0 Hlen Hconf Hlab)
    as [ece [Hrun [Hlo Hhi]]].
  unfold V1.episode_ece. cbv zeta.
  rewrite Hrun. cbn [bind].
  eexists. split; [reflexivity |].
  destruct (Nat.ltb 0 (length confidences)) eqn:E.
  - apply Nat.ltb_lt in E. assert (Hq := float_of_len_pos _ E). split.
    + apply Qle_shift_div_l; [exact Hq | lra].
    + apply Qle_shift_div_r; [exact Hq | lra].
  - apply Nat.ltb_ge in E.
    assert (Hz : Np.float_of_len (length confidences) <= 0).
    { replace (length confidences) with 0%nat by lia. apply Qle_refl. }
    split.
    + apply Qle_shift_div_l; [reflexivity | lra].
    + apply Qle_shift_div_r; [reflexivity | lra].
Qed.

Lemma ece_loop_without_samples (bins : list (Q * Q)) (true_labels : list Z) :
  forall ece, ece_loop bins [] true_labels ece = Ok ece.
Proof.
  induction bins as [| [lo hi] bins IH]; intro ece; [reflexivity |].
  cbn [ece_loop]. change (Np.count_true (Np.in_bin [] lo hi)) with 0%nat.
  cbn [Nat.ltb Nat.leb]. apply IH.
Qed.

(** C6, where the code departs from it.  With no sample at all,
    [utils.calculate_ece] does not return 0.0: whatever the predictions, the
    labels and the number of bins, the loop leaves [ece] at 0.0 and the
    division by [len(confidences)] raises [ZeroDivisionError].  The copy of
    the computation in [get_episode_metrics] guards the division and
    returns 0 for the same input. *)
Theorem calculate_ece_without_samples
    (predictions true_labels : list Z) (n_bins : nat) :
  Utils.calculate_ece [] predictions true_labels n_bins = Raise ZeroDivisionError /\
  (exists ece, V1.episode_ece [] true_labels 0 = Ok ece /\ ece == 0).
Proof.
  split.
  - unfold Utils.calculate_ece. cbv zeta.
    rewrite ece_loop_without_samples. reflexivity.
  - unfold V1.episode_ece. cbv zeta.
    rewrite ece_loop_without_samples. cbn [bind].
    eexists. split; reflexivity.
Qed.

(** ** Construction and [reset] of the v1 environment *)

Lemma mapM_Forall {A B : Type} (f : A -> result B) (P : B -> Prop) :
  (forall x y, f x = Ok y -> P y) ->
  forall xs ys, mapM f xs = Ok ys -> Forall P ys.
Proof.
  intros Hf. induction xs as [| x xs IH]; intros ys H; simpl in H.
  - inversion H. constructor.
  - destruct (f x) as [y |] eqn:Ey; simpl in H; [| discriminate].
    destruct (mapM f xs) as [ys' |] eqn:Eys; simpl in H; [| discriminate].
    inversion H; subst. constructor; [apply (Hf x); exact Ey | apply IH; reflexivity].
Qed.

Lemma mapM_total {A B : Type} (f : A -> result B) (g : B -> A) :
  (forall x, exists y, f x = Ok y /\ g y = x) ->
  forall xs, exists ys, mapM f xs = Ok ys /\ map g ys = xs.
Proof.
  intros Hf. induction xs as [| x xs [ys [IH Hl]]]; simpl.
  - exists []. split; reflexivity.
  - destruct (Hf x) as [y [Hy Hg]]. rewrite Hy, IH. simpl.
    exists (y :: ys). split; [reflexivity | simpl; congruence].
Qed.

Lemma getitem_In {V : Type} (d : list (string * V)) (key : string) (v : V) :
  Np.getitem d key = Ok v -> In (key, v) d.
Proof.
  induction d as [| [k w] d IH]; simpl; intro H; [discriminate |].
  destruct (String.eqb k key) eqn:E.
  - apply String.eqb_eq in E. inversion H; subst. left. reflexivity.
  - right. apply IH. exact H.
Qed.

Lemma getitem_of_key {V : Type} (d : list (string * V)) (key : string) :
  In key (Np.keys d) -> exists v, Np.getitem d key = Ok v.
Proof.
  unfold Np.keys. induction d as [| [k w] d IH]; simpl; intro H; [contradiction |].
  destruct (String.eqb k key) eqn:E.
  - exists w. reflexivity.
  - destruct H as [H | H]; [apply String.eqb_neq in E; contradiction |].
    apply IH. exact H.
Qed.

(** [_organize_by_patient] gives every patient a label array and a feature
    array of one length. *)
Lemma v1_organize_aligned (features : list V1.feature_vector) (labels : list Z)
    (patient_ids : list string) (pdata : list (string * V1.PatientData)) :
  V1._organize_by_patient features labels patient_ids = Ok pdata ->
  Forall (fun entry =>
            length (V1.pd_labels (snd entry)) = length (V1.pd_features (snd entry)))
         pdata.
Proof.
  unfold V1._organize_by_patient. cbv zeta.
  apply mapM_Forall. intros patient [p pd] H.
  set (mask := map (fun pid => String.eqb pid patient) patient_ids) in H.
  unfold Np.mask_index in H.
  destruct (Nat.eqb (length mask) (length features)) eqn:Ef; simpl in H;
    [| discriminate].
  destruct (Nat.eqb (length mask) (length labels)) eqn:El; simpl in H;
    [| discriminate].
  apply Nat.eqb_eq in Ef, El. inversion H; subst. simpl.
  rewrite (select_length mask labels El), (select_length mask features Ef).
  reflexivity.
Qed.

(** The environment [reset] leaves behind, when the constructor and [reset]
    have both returned, is freshly reset. *)
Lemma v1_reset_after_init (features : list V1.feature_vector) (n_features : nat)
    (labels : list Z) (patient_ids : list string) (mode : string)
    (max_episode_length : Z) (env env' : V1.ApneaDetectionEnv) (r : nat)
    (obs : V1.feature_vector) (info : V1.ResetInfo) :
  V1.init features n_features labels patient_ids mode max_episode_length = Ok env ->
  V1.reset env r = Ok (env', (obs, info)) ->
  exists pd, V1.freshly_reset env' pd.
Proof.
  intros Hinit Hreset. unfold V1.init in Hinit.
  destruct (V1._organize_by_patient features labels patient_ids)
    as [pdata |] eqn:Eorg; simpl in Hinit; [| discriminate].
  inversion Hinit; subst env. clear Hinit.
  assert (Hal := v1_organize_aligned _ _ _ _ Eorg).
  unfold V1.reset in Hreset. cbn [V1.patient_list] in Hreset.
  destruct (Nat.eqb (length (Np.keys pdata)) 0); [discriminate |].
  destruct (Np.index (Np.keys pdata) r) as [p |]; simpl in Hreset; [| discriminate].
  match type of Hreset with
  | context [V1._get_observation ?e] => set (e1 := e) in *
  end.
  destruct (V1._get_observation e1) as [o |]; simpl in Hreset; [| discriminate].
  destruct (V1.current_data e1) as [pd |] eqn:Epd; simpl in Hreset; [| discriminate].
  inversion Hreset; subst env' obs info. clear Hreset.
  exists pd. unfold V1.freshly_reset. split; [exact Epd |].
  split; [| repeat split].
  unfold V1.current_data in Epd. simpl in Epd.
  apply getitem_In in Epd.
  rewrite Forall_forall in Hal. apply (Hal (p, pd) Epd).
Qed.

(** The constructor returns when the three arrays have one length, and
    [reset] returns when its draw selects one of the patients. *)
Lemma v1_init_then_reset_returns (features : list V1.feature_vector)
    (n_features : nat) (labels : list Z) (patient_ids : list string)
    (mode : string) (max_episode_length : Z) (r : nat) :
  length features = length patient_ids ->
  length labels = length patient_ids ->
  (r < length (nodup string_dec patient_ids))%nat ->
  exists env env' obs info pd,
    V1.init features n_features labels patient_ids mode max_episode_length = Ok env /\
    V1.reset env r = Ok (env', (obs, info)) /\
    V1.freshly_reset env' pd.
Proof.
  intros Hf Hl Hr.
  assert (Horg : exists pdata,
             V1._organize_by_patient features labels patient_ids = Ok pdata /\
             Np.keys pdata = nodup string_dec patient_ids).
  { unfold V1._organize_by_patient, Np.keys. cbv zeta.
    apply mapM_total. intro patient.
    rewrite (mask_index_ok features) by (rewrite length_map; congruence).
    rewrite (mask_index_ok labels) by (rewrite length_map; congruence).
    simpl. eexists. split; reflexivity. }
  destruct Horg as [pdata [Horg Hkeys]].
  assert (Hinit : V1.init features n_features labels patient_ids mode
                          max_episode_length
                  = Ok (V1.mkEnv features labels patient_ids mode
                          max_episode_length n_features 0 0 None [] [] [] [] []
                          pdata (Np.keys pdata))).
  { unfold V1.init. rewrite Horg. reflexivity. }
  rewrite <- Hkeys in Hr.
  destruct (index_lt _ _ Hr) as [p [Hp Hnth]].
  destruct (getitem_of_key pdata p (nth_error_In _ _ Hnth)) as [pd Hpd].
  set (env := V1.mkEnv features labels patient_ids mode max_episode_length
                n_features 0 0 None [] [] [] [] [] pdata (Np.keys pdata)) in *.
  set (env' := V1.mkEnv features labels patient_ids mode max_episode_length
                 n_features 0 r (Some p) [] [] [] [] [] pdata (Np.keys pdata)).
  assert (Hcur : V1.current_data env' = Ok pd) by exact Hpd.
  destruct (v1_get_observation_total env' pd Hcur) as [obs Hobs].
  assert (Hreset : V1.reset env r
                   = Ok (env', (obs, V1.mkResetInfo (Some p) 0
                                       (length (V1.pd_features pd))))).
  { unfold V1.reset. subst env env'.
    cbn [V1.features V1.labels V1.patient_ids V1.mode V1.max_episode_length
         V1.observation_shape V1.patient_data V1.patient_list].
    destruct (Nat.eqb (length (Np.keys pdata)) 0) eqn:E0.
    - apply Nat.eqb_eq in E0. lia.
    - rewrite Hp. cbn [bind]. rewrite Hobs. cbn [bind].
      rewrite Hcur. reflexivity. }
  exists env, env', obs, (V1.mkResetInfo (Some p) 0 (length (V1.pd_features pd))).
  destruct (v1_reset_after_init _ _ _ _ _ _ _ _ _ _ _ Hinit Hreset) as [pd' Hfresh].
  exists pd'. split; [exact Hinit |]. split; [exact Hreset | exact Hfresh].
Qed.

(** ** The example environments are what the constructors build *)

Example v1_example_is_constructed :
  V1.init [[90; 90]; [90; 90]; [0; 0]] 2 [0; 1; 1]%Z
          ["a"%string; "a"%string; "a"%string] "train"%string 100
  = Ok Examples.v1_fresh /\
  V1.reset Examples.v1_fresh 0
  = Ok (Examples.v1_ready, ([90; 90], V1.mkResetInfo (Some "a"%string) 0 3)) /\
  V1.freshly_reset Examples.v1_ready Examples.pd_a.
Proof. split; [reflexivity |]. split; [reflexivity |]. repeat split. Qed.

Example v1_step_before_reset_raises :
  V1.step Examples.v1_fresh 0 0.5 = Raise AttributeError.
Proof. reflexivity. Qed.

Lemma m2_init_features_length (mel_spectrogram_db : M2.audio -> Z -> M2.spectrogram)
    (audio_segments : list M2.audio) (labels : list Z)
    (segment_duration : Q) (sample_rate : Z) :
  length (M2.features
            (M2.init mel_spectrogram_db audio_segments labels
                     segment_duration sample_rate))
  = length (M2.audio_segments
              (M2.init mel_spectrogram_db audio_segments labels
                       segment_duration sample_rate)).
Proof. simpl. unfold M2._extract_features. apply length_map. Qed.

Example m2_example_reset :
  M2.reset Examples.m2_ready
  = Ok (Examples.m2_ready, ([[1]], M2.mkResetInfo 0 3 0 false)).
Proof. reflexivity. Qed.

(** * Further properties of the v1 environment *)

(** ** The parallel lists and the cursor *)

(** The four lists [step] appends to stay as long as [episode_predictions],
    and there are never more predictions than segments passed or segments in
    the record: this holds after [reset], is kept by every [step] (whatever
    the action, also after the episode has ended), and so holds at the end of
    every episode. *)
Theorem episode_lists_stay_parallel
    (env : V1.ApneaDetectionEnv) (pd : V1.PatientData)
    (action : Z) (u : Q) (script : list (Z * Q)) :
  (V1.freshly_reset env pd -> V1.episode_invariant env pd) /\
  (V1.episode_invariant env pd ->
   exists env' out,
     V1.step env action u = Ok (env', out) /\ V1.episode_invariant env' pd) /\
  (V1.episode_invariant env pd ->
   exists env' outs,
     V1.run_episode env script = Ok (env', outs) /\
     V1.lists_aligned env' /\
     (length (V1.episode_predictions env') <= V1.current_step env')%nat /\
     (length (V1.episode_predictions env') <= length (V1.pd_features pd))%nat).
Proof.
  split; [| split].
  - intro H. apply (v1_fresh_invariant env pd H).
  - intro H.
    destruct (v1_step_invariant env pd action u H) as [env' [out [Hs [Hi _]]]].
    exists env', out. split; assumption.
  - intro H.
    destruct (v1_run_invariant script env pd H) as [env' [outs [Hr [Hi _]]]].
    exists env', outs. split; [exact Hr |].
    destruct Hi as [_ [Hlen [Hal [Hc Hl]]]].
    split; [exact Hal |]. split; [exact Hc |]. rewrite <- Hlen. exact Hl.
Qed.

Lemma episode_lists_stay_parallel_witness :
  (V1.freshly_reset Examples.v1_ready Examples.pd_a ->
   V1.episode_invariant Examples.v1_ready Examples.pd_a) /\
  (V1.episode_invariant Examples.v1_ready Examples.pd_a ->
   exists env' out,
     V1.step Examples.v1_ready 1 0.5 = Ok (env', out) /\
     V1.episode_invariant env' Examples.pd_a) /\
  (V1.episode_invariant Examples.v1_ready Examples.pd_a ->
   exists env' outs,
     V1.run_episode Examples.v1_ready [(1%Z, 0.5); (0%Z, 0.5); (1%Z, 0.4)]
     = Ok (env', outs) /\
     V1.lists_aligned env' /\
     (length (V1.episode_predictions env') <= V1.current_step env')%nat /\
     (length (V1.episode_predictions env')
      <= length (V1.pd_features Examples.pd_a))%nat).
Proof.
  exact (episode_lists_stay_parallel
           Examples.v1_ready Examples.pd_a 1%Z 0.5
           [(1%Z, 0.5); (0%Z, 0.5); (1%Z, 0.4)]).
Defined.

(** ** The flags, the observation and the info of a step *)

Lemma v1_check_termination_idempotent (env : V1.ApneaDetectionEnv)
    (pd : V1.PatientData) (terminated truncated : bool) :
  V1.check_termination env pd
    (fst (V1.check_termination env pd terminated truncated))
    (snd (V1.check_termination env pd terminated truncated))
  = V1.check_termination env pd terminated truncated.
Proof.
  unfold V1.check_termination.
  destruct (Nat.leb (length (V1.pd_features pd)) (V1.current_step env));
    [reflexivity |].
  destruct (Z.leb (V1.max_episode_length env) (Z.of_nat (V1.current_step env)));
    reflexivity.
Qed.

(** Every [step] of a reset environment is the common tail of [step] run on
    the environment its branch leaves, with [terminated] preset by ESCALATE
    alone. *)
Lemma v1_step_normal_form (env : V1.ApneaDetectionEnv) (pd : V1.PatientData)
    (action : Z) (u : Q) :
  V1.current_data env = Ok pd ->
  length (V1.pd_labels pd) = length (V1.pd_features pd) ->
  exists env1 reward obs,
    V1.step env action u
    = Ok (env1,
          V1.mkStepResult obs reward
            (fst (V1.check_termination env1 pd (Z.eqb action 2) false))
            (snd (V1.check_termination env1 pd (Z.eqb action 2) false))
            (V1.step_info env1 pd)) /\
    V1._get_observation env1 = Ok obs /\
    V1.current_data env1 = Ok pd /\
    V1.max_episode_length env1 = V1.max_episode_length env /\
    V1.observation_shape env1 = V1.observation_shape env /\
    V1.patient_data env1 = V1.patient_data env /\
    V1.patient_list env1 = V1.patient_list env.
Proof.
  intros Hpd Hlen.
  destruct (Z.eq_dec action 0) as [-> | H0].
  { rewrite v1_step_wait. cbv zeta.
    set (env' := V1.set_current_step env (S (V1.current_step env))).
    assert (Hpd' : V1.current_data env' = Ok pd) by exact Hpd.
    rewrite Hpd'. cbn [bind].
    destruct (v1_finish_step_ok env' pd 0.0
                (fst (V1.check_termination env' pd false false))
                (snd (V1.check_termination env' pd false false)) Hpd')
      as [obs [Hobs Hfin]].
    rewrite Hfin. rewrite v1_check_termination_idempotent.
    exists env', 0.0, obs. repeat split; assumption. }
  destruct (Z.eq_dec action 1) as [-> | H1].
  { destruct (Nat.lt_ge_cases (V1.current_step env) (length (V1.pd_features pd)))
      as [Hin | Hout].
    - destruct (index_lt _ _ Hin) as [row [_ Hrow]].
      assert (Hin' : (V1.current_step env < length (V1.pd_labels pd))%nat)
        by (rewrite Hlen; exact Hin).
      destruct (index_lt _ _ Hin') as [true_label [_ Hlab]].
      rewrite (v1_step_diagnose_in_range env pd row true_label u Hpd Hrow Hlab).
      cbv zeta.
      set (ev := V1.diagnosis_event env true_label (V1.confidence_proxy row) u).
      set (env' := V1.set_current_step (V1.record_diagnosis env ev)
                                       (S (V1.current_step env))).
      assert (Hpd' : V1.current_data env' = Ok pd) by exact Hpd.
      destruct (v1_finish_step_ok env' pd (V1.ev_reward ev) false false Hpd')
        as [obs [Hobs Hfin]].
      rewrite Hfin. exists env', (V1.ev_reward ev), obs.
      repeat split; assumption.
    - rewrite (v1_step_diagnose_past_end env pd u Hpd Hout).
      destruct (v1_finish_step_ok env pd 0.0 false false Hpd) as [obs [Hobs Hfin]].
      rewrite Hfin. exists env, 0.0, obs. repeat split; assumption. }
  destruct (Z.eq_dec action 2) as [-> | H2].
  { rewrite v1_step_escalate.
    destruct (v1_finish_step_ok env pd (-0.1) true false Hpd) as [obs [Hobs Hfin]].
    rewrite Hfin. exists env, (-0.1), obs. repeat split; assumption. }
  rewrite (v1_step_other env action u H0 H1 H2).
  destruct (v1_finish_step_ok env pd 0.0 false false Hpd) as [obs [Hobs Hfin]].
  rewrite Hfin. apply Z.eqb_neq in H2. rewrite H2.
  exists env, 0.0, obs. repeat split; assumption.
Qed.

(** What a [step] of a reset environment returns, in terms of the cursor
    after the call: [terminated] exactly when the action was ESCALATE or the
    cursor is past the last segment; [truncated] exactly when the cursor is
    inside the record and has reached [max_episode_length]; the observation
    is the feature vector at the cursor cast to [float32] (for a vector
    within the [float32] range; it is the vector itself when its entries
    are [float32] numbers), or the zero vector of the observation shape past
    the end; [info] reports the cursor. *)
Theorem step_flags_and_observation
    (env : V1.ApneaDetectionEnv) (pd : V1.PatientData) (action : Z) (u : Q) :
  V1.current_data env = Ok pd ->
  length (V1.pd_labels pd) = length (V1.pd_features pd) ->
  exists env' out,
    V1.step env action u = Ok (env', out) /\
    (V1.sr_terminated out = true <->
     action = 2%Z \/ (length (V1.pd_features pd) <= V1.current_step env')%nat) /\
    (V1.sr_truncated out = true <->
     (V1.current_step env' < length (V1.pd_features pd))%nat /\
     (V1.max_episode_length env <= Z.of_nat (V1.current_step env'))%Z) /\
    (forall row,
        nth_error (V1.pd_features pd) (V1.current_step env') = Some row ->
        Forall (fun v => Qabs v <= Np.float32_max) row ->
        V1.sr_obs out = map Np.float32 row /\
        (Forall (fun v => Np.float32 v = v) row -> V1.sr_obs out = row)) /\
    ((length (V1.pd_features pd) <= V1.current_step env')%nat ->
     V1.sr_obs out = repeat 0 (V1.observation_shape env)) /\
    V1.si_step (V1.sr_info out) = V1.current_step env' /\
    V1.si_total_steps (V1.sr_info out) = length (V1.pd_features pd).
Proof.
  intros Hpd Hlen.
  destruct (v1_step_normal_form env pd action u Hpd Hlen)
    as [env' [reward [obs [Hstep [Hobs [Hpd' [Hmax [Hshape _]]]]]]]].
  eexists. eexists. split; [exact Hstep |].
  cbn [V1.sr_terminated V1.sr_truncated V1.sr_obs V1.sr_info
       V1.si_step V1.si_total_steps V1.step_info].
  unfold V1.check_termination. rewrite Hmax.
  unfold V1._get_observation in Hobs. rewrite Hpd' in Hobs. cbn [bind] in Hobs.
  rewrite Hshape in Hobs.
  destruct (Nat.leb (length (V1.pd_features pd)) (V1.current_step env')) eqn:Eend.
  - apply Nat.leb_le in Eend.
    assert (Hlt : Nat.ltb (V1.current_step env') (length (V1.pd_features pd)) = false)
      by (apply Nat.ltb_ge; exact Eend).
    rewrite Hlt in Hobs. inversion Hobs; subst obs. cbn [fst snd].
    split; [split; [intros _; right; exact Eend | reflexivity] |].
    split; [split; [discriminate | intros [K _]; lia] |].
    split.
    { intros row Hrow _. apply nth_error_None in Eend. congruence. }
    split; [reflexivity |]. split; reflexivity.
  - apply Nat.leb_gt in Eend.
    assert (Hlt : Nat.ltb (V1.current_step env') (length (V1.pd_features pd)) = true)
      by (apply Nat.ltb_lt; exact Eend).
    rewrite Hlt in Hobs. unfold Np.index in Hobs.
    destruct (nth_error (V1.pd_features pd) (V1.current_step env')) as [x |] eqn:Enth;
      [| discriminate].
    cbn [bind] in Hobs. inversion Hobs; subst obs.
    assert (Hrow : forall row,
               Some x = Some row ->
               Forall (fun v => Qabs v <= Np.float32_max) row ->
               map Np.float32 x = map Np.float32 row /\
               (Forall (fun v => Np.float32 v = v) row ->
                map Np.float32 x = row)).
    { intros row Hrow _. inversion Hrow; subst row.
      split; [reflexivity | apply map_fixed]. }
    destruct (Z.leb (V1.max_episode_length env) (Z.of_nat (V1.current_step env')))
      eqn:Emax; cbn [fst snd].
    + apply Z.leb_le in Emax.
      split.
      { split.
        - intro K. left. apply Z.eqb_eq. exact K.
        - intros [K | K]; [apply Z.eqb_eq; exact K | lia]. }
      split; [split; [intros _; split; assumption | reflexivity] |].
      split; [exact Hrow |]. split; [intro K; lia |]. split; reflexivity.
    + apply Z.leb_gt in Emax.
      split.
      { split.
        - intro K. left. apply Z.eqb_eq. exact K.
        - intros [K | K]; [apply Z.eqb_eq; exact K | lia]. }
      split; [split; [discriminate | intros [_ K]; lia] |].
      split; [exact Hrow |]. split; [intro K; lia |]. split; reflexivity.
Qed.

Lemma step_flags_and_observation_witness :
  exists env' out,
    V1.step (Examples.v1_at 2) 1 0.5 = Ok (env', out) /\
    (V1.sr_terminated out = true <->
     1%Z = 2%Z
     \/ (length (V1.pd_features Examples.pd_a) <= V1.current_step env')%nat) /\
    (V1.sr_truncated out = true <->
     (V1.current_step env' < length (V1.pd_features Examples.pd_a))%nat /\
     (V1.max_episode_length (Examples.v1_at 2)
      <= Z.of_nat (V1.current_step env'))%Z) /\
    (forall row,
        nth_error (V1.pd_features Examples.pd_a) (V1.current_step env') = Some row ->
        Forall (fun v => Qabs v <= Np.float32_max) row ->
        V1.sr_obs out = map Np.float32 row /\
        (Forall (fun v => Np.float32 v = v) row -> V1.sr_obs out = row)) /\
    ((length (V1.pd_features Examples.pd_a) <= V1.current_step env')%nat ->
     V1.sr_obs out = repeat 0 (V1.observation_shape (Examples.v1_at 2))) /\
    V1.si_step (V1.sr_info out) = V1.current_step env' /\
    V1.si_total_steps (V1.sr_info out) = length (V1.pd_features Examples.pd_a).
Proof.
  apply (step_flags_and_observation (Examples.v1_at 2) Examples.pd_a 1%Z 0.5).
  - reflexivity.
  - reflexivity.
Defined.

(** ** How the DIAGNOSE reward orders outcomes *)

(** For a confidence in [[0, 1]], a DIAGNOSE judged correct earns at least
    0.6 and one judged incorrect at most 0.1, so every correct DIAGNOSE is
    rewarded above every incorrect one, above WAIT (0) and above ESCALATE
    (-0.1); an incorrect DIAGNOSE is never rewarded below -0.4. *)
Theorem diagnose_reward_separates_outcomes (confidence : Q) (true_label : Z) :
  0 <= confidence <= 1 ->
  (V1.correctness_of confidence true_label = 1 ->
   0.6 <= V1.diagnose_reward confidence true_label <= 1.1) /\
  (V1.correctness_of confidence true_label = 0 ->
   -0.4 <= V1.diagnose_reward confidence true_label <= 0.1).
Proof.
  intro Hc.
  assert (Hr := v1_reward_unclamped confidence true_label Hc).
  split; intro E; rewrite E in Hr; rewrite Hr; split; nra.
Qed.

Lemma diagnose_reward_separates_outcomes_witness :
  (V1.correctness_of 0.7 1 = 1 -> 0.6 <= V1.diagnose_reward 0.7 1 <= 1.1) /\
  (V1.correctness_of 0.7 1 = 0 -> -0.4 <= V1.diagnose_reward 0.7 1 <= 0.1).
Proof.
  apply (diagnose_reward_separates_outcomes 0.7 1%Z).
  split; vm_compute; discriminate.
Defined.

(** Among the DIAGNOSE steps judged correct the reward grows with the
    confidence, and among those judged incorrect it falls with it, whatever
    the label.  For a segment labelled normal this means a correct call with
    confidence near 0.5 earns more than a correct call with confidence near
    0. *)
Theorem diagnose_reward_monotone_in_confidence
    (c1 c2 : Q) (true_label : Z) :
  0 <= c1 -> c1 <= c2 -> c2 <= 1 ->
  (V1.correctness_of c1 true_label = 1 ->
   V1.correctness_of c2 true_label = 1 ->
   V1.diagnose_reward c1 true_label <= V1.diagnose_reward c2 true_label) /\
  (V1.correctness_of c1 true_label = 0 ->
   V1.correctness_of c2 true_label = 0 ->
   V1.diagnose_reward c2 true_label <= V1.diagnose_reward c1 true_label).
Proof.
  intros H0 H12 H1.
  assert (Hr1 := v1_reward_unclamped c1 true_label (conj H0 (Qle_trans _ _ _ H12 H1))).
  assert (Hr2 := v1_reward_unclamped c2 true_label (conj (Qle_trans _ _ _ H0 H12) H1)).
  split; intros E1 E2; rewrite E1 in Hr1; rewrite E2 in Hr2;
    rewrite Hr1, Hr2; nra.
Qed.

Lemma diagnose_reward_monotone_in_confidence_witness :
  (V1.correctness_of 0.1 0 = 1 ->
   V1.correctness_of 0.4 0 = 1 ->
   V1.diagnose_reward 0.1 0 <= V1.diagnose_reward 0.4 0) /\
  (V1.correctness_of 0.1 0 = 0 ->
   V1.correctness_of 0.4 0 = 0 ->
   V1.diagnose_reward 0.4 0 <= V1.diagnose_reward 0.1 0).
Proof.
  apply (diagnose_reward_monotone_in_confidence 0.1 0.4 0%Z);
    vm_compute; discriminate.
Defined.

(** ** The records of an episode are consistent *)

Lemma v1_diagnosis_event_of_segment (env : V1.ApneaDetectionEnv)
    (pd : V1.PatientData) (true_label : Z) (estimate u : Q) :
  nth_error (V1.pd_labels pd) (V1.current_step env) = Some true_label ->
  V1Records.event_of_segment pd (V1.current_step env)
    (V1.diagnosis_event env true_label estimate u).
Proof.
  intro Hlab. unfold V1Records.event_of_segment, V1.diagnosis_event.
  cbn [V1.ev_timestamp V1.ev_true_label V1.ev_prediction V1.ev_confidence
       V1.ev_correctness V1.ev_reward].
  repeat split. exact Hlab.
Qed.

Lemma v1_recorded_confidence_window (row : V1.feature_vector) (u : Q) :
  0.3 <= u <= 0.9 ->
  0.3 <= V1.diagnose_confidence (V1.confidence_proxy row) u <= 0.9.
Proof.
  intro Hu. unfold V1.diagnose_confidence.
  destruct (Np.lt (V1.confidence_proxy row) 0.3) eqn:E.
  - exact Hu.
  - apply lt_false_iff in E. split; [exact E |].
    unfold V1.confidence_proxy.
    assert (Hlh : 0.1 <= 0.9) by lra.
    apply (clip_bounds (Np.mean (map Qabs row) / 100) 0.1 0.9 Hlh).
Qed.

Lemma v1_step_keeps_consistency (env : V1.ApneaDetectionEnv)
    (pd : V1.PatientData) (action : Z) (u : Q) :
  V1.current_data env = Ok pd ->
  length (V1.pd_labels pd) = length (V1.pd_features pd) ->
  exists env' out,
    V1.step env action u = Ok (env', out) /\
    (V1Records.consistent env pd -> V1Records.consistent env' pd) /\
    (0.3 <= u <= 0.9 ->
     V1Records.confidences_within 0.3 0.9 env ->
     V1Records.confidences_within 0.3 0.9 env') /\
    (action <> 0%Z -> V1Records.in_step env pd -> V1Records.in_step env' pd).
Proof.
  intros Hpd Hlen.
  destruct (v1_step_returns env pd action u Hpd Hlen)
    as [env' [obs [reward [terminated [Hstep [_ [_ Hcases]]]]]]].
  eexists. eexists. split; [exact Hstep |].
  destruct Hcases as [[Ha [_ He]] | [[Ha [_ [row [l [Hrow [Hlab [_ He]]]]]]]
                    | [[Ha [_ [_ [_ He]]]] | [[Ha [_ [_ He]]]
                    | [Ha0 [Ha1 [_ [_ [_ He]]]]]]]]]; subst env'.
  - (* WAIT *)
    split; [intro H; exact H |]. split; [intros _ H; exact H |].
    intro K. contradiction.
  - (* DIAGNOSE inside the record *)
    set (ev := V1.diagnosis_event env l (V1.confidence_proxy row) u).
    split; [| split].
    + intros [Hall [Hp [Hc [Hr Ht]]]].
      unfold V1Records.consistent. simpl.
      rewrite Hp, Hc, Hr, Ht, !map_app. simpl.
      split; [| repeat split].
      apply Forall_app. split; [exact Hall |].
      constructor; [| constructor].
      exists (V1.current_step env).
      apply v1_diagnosis_event_of_segment. exact Hlab.
    + intros Hu Hwithin. unfold V1Records.confidences_within in *. simpl.
      apply Forall_app. split; [exact Hwithin |].
      constructor; [| constructor].
      apply v1_recorded_confidence_window. exact Hu.
    + intros _ [Hcur Hev]. unfold V1Records.in_step. simpl.
      rewrite length_app. simpl. split; [lia |].
      intros k ev' Hnth.
      destruct (Nat.lt_ge_cases k (length (V1.episode_event_details env)))
        as [Hk | Hk].
      * rewrite nth_error_app1 in Hnth by exact Hk. apply Hev. exact Hnth.
      * rewrite nth_error_app2 in Hnth by exact Hk.
        destruct (k - length (V1.episode_event_details env))%nat as [| j] eqn:Ej.
        -- simpl in Hnth. inversion Hnth; subst ev'.
           replace k with (V1.current_step env) by lia.
           apply v1_diagnosis_event_of_segment. exact Hlab.
        -- simpl in Hnth. destruct j; discriminate.
  - split; [intro H; exact H |]. split; [intros _ H; exact H |].
    intros _ H; exact H.
  - split; [intro H; exact H |]. split; [intros _ H; exact H |].
    intros _ H; exact H.
  - split; [intro H; exact H |]. split; [intros _ H; exact H |].
    intros _ H; exact H.
Qed.

Lemma v1_run_keeps_consistency (script : list (Z * Q)) :
  forall (env : V1.ApneaDetectionEnv) (pd : V1.PatientData),
    V1.current_data env = Ok pd ->
    length (V1.pd_labels pd) = length (V1.pd_features pd) ->
    exists env' outs,
      V1.run_episode env script = Ok (env', outs) /\
      (V1Records.consistent env pd -> V1Records.consistent env' pd) /\
      (Forall (fun au => 0.3 <= snd au <= 0.9) script ->
       V1Records.confidences_within 0.3 0.9 env ->
       V1Records.confidences_within 0.3 0.9 env') /\
      (Forall (fun au => fst au <> 0%Z) script ->
       V1Records.in_step env pd -> V1Records.in_step env' pd).
Proof.
  induction script as [| [action u] script IH]; intros env pd Hpd Hlen.
  - exists env, []. split; [reflexivity |].
    split; [intro H; exact H |]. split; intros _ H; exact H.
  - destruct (v1_step_keeps_consistency env pd action u Hpd Hlen)
      as [env1 [out [Hstep [Hcons [Hwin Hin]]]]].
    assert (Hpd1 : V1.current_data env1 = Ok pd).
    { destruct (v1_step_returns env pd action u Hpd Hlen)
        as [e [o [r [t [Hs [Hp _]]]]]].
      rewrite Hstep in Hs. inversion Hs; subst. exact Hp. }
    simpl. rewrite Hstep. simpl.
    destruct (V1.sr_terminated out || V1.sr_truncated out).
    + exists env1, [out]. split; [reflexivity |].
      split; [exact Hcons |]. split.
      * intros Hall. inversion Hall; subst. apply Hwin. assumption.
      * intros Hall. inversion Hall; subst. apply Hin. assumption.
    + destruct (IH env1 pd Hpd1 Hlen) as [env' [outs [Hrun [Hc' [Hw' Hi']]]]].
      rewrite Hrun. simpl. exists env', (out :: outs).
      split; [reflexivity |].
      split; [intro H; apply Hc', Hcons, H |]. split.
      * intros Hall H. inversion Hall; subst.
        apply Hw'; [assumption |]. apply Hwin; assumption.
      * intros Hall H. inversion Hall; subst.
        apply Hi'; [assumption |]. apply Hin; assumption.
Qed.

Lemma v1_fresh_records (env : V1.ApneaDetectionEnv) (pd : V1.PatientData) :
  V1.freshly_reset env pd ->
  V1Records.consistent env pd /\
  V1Records.confidences_within 0.3 0.9 env /\
  V1Records.in_step env pd.
Proof.
  intros [_ [_ [Hs [Hp [Hc [Hr [Ht Hd]]]]]]].
  unfold V1Records.consistent, V1Records.confidences_within, V1Records.in_step.
  rewrite Hp, Hc, Hr, Ht, Hd, Hs. simpl.
  split; [repeat split; constructor |].
  split; [constructor |]. split; [reflexivity |].
  intros k ev H. destruct k; discriminate.
Qed.

(** Whatever the actions, as long as every draw of
    [np.random.uniform(0.3, 0.9)] lies in [[0.3, 0.9]], every confidence an
    episode records lies in [[0.3, 0.9]]: the environment never records the
    low end of its own heuristic.  Each recorded prediction is the
    thresholding of its confidence at 0.5, each recorded reward the DIAGNOSE
    reward of its confidence and of the label of the segment it was issued
    at. *)
Theorem recorded_confidences_stay_in_window
    (env : V1.ApneaDetectionEnv) (pd : V1.PatientData) (script : list (Z * Q)) :
  V1.freshly_reset env pd ->
  V1Records.rows_nonempty pd ->
  Forall (fun au => 0.3 <= snd au <= 0.9) script ->
  exists env' outs,
    V1.run_episode env script = Ok (env', outs) /\
    Forall (fun c => 0.3 <= c <= 0.9) (V1.episode_confidences env') /\
    V1.episode_predictions env'
    = map (fun c => Np.int_of_bool (Np.gt c 0.5)) (V1.episode_confidences env') /\
    Forall (fun ev =>
              exists s,
                nth_error (V1.pd_labels pd) s = Some (V1.ev_true_label ev) /\
                V1.ev_timestamp ev = Np.float_of_len s * 10.0 /\
                V1.ev_reward ev
                = V1.diagnose_reward (V1.ev_confidence ev) (V1.ev_true_label ev))
           (V1.episode_event_details env') /\
    V1.episode_rewards env' = map V1.ev_reward (V1.episode_event_details env').
Proof.
  intros Hfresh _ Hdraws.
  destruct (v1_fresh_records env pd Hfresh) as [Hcons [Hwin _]].
  destruct Hfresh as [Hpd [Hlen _]].
  destruct (v1_run_keeps_consistency script env pd Hpd Hlen)
    as [env' [outs [Hrun [Hc [Hw _]]]]].
  exists env', outs. split; [exact Hrun |].
  split; [apply Hw; assumption |].
  destruct (Hc Hcons) as [Hall [Hp [Hcf [Hr _]]]].
  split.
  - rewrite Hp, Hcf, map_map.
    clear - Hall. induction Hall as [| ev evs [s [_ [_ [Hpred _]]]] _ IH]; simpl.
    + reflexivity.
    + rewrite Hpred, IH. reflexivity.
  - split; [| exact Hr].
    eapply Forall_impl; [| exact Hall].
    intros ev [s [Ht [Hl [_ [_ Hrew]]]]]. exists s. repeat split; assumption.
Qed.

Lemma recorded_confidences_stay_in_window_witness :
  exists env' outs,
    V1.run_episode Examples.v1_ready [(1%Z, 0.5); (1%Z, 0.5); (1%Z, 0.4)]
    = Ok (env', outs) /\
    Forall (fun c => 0.3 <= c <= 0.9) (V1.episode_confidences env') /\
    V1.episode_predictions env'
    = map (fun c => Np.int_of_bool (Np.gt c 0.5)) (V1.episode_confidences env') /\
    Forall (fun ev =>
              exists s,
                nth_error (V1.pd_labels Examples.pd_a) s
                = Some (V1.ev_true_label ev) /\
                V1.ev_timestamp ev = Np.float_of_len s * 10.0 /\
                V1.ev_reward ev
                = V1.diagnose_reward (V1.ev_confidence ev) (V1.ev_true_label ev))
           (V1.episode_event_details env') /\
    V1.episode_rewards env' = map V1.ev_reward (V1.episode_event_details env').
Proof.
  apply (recorded_confidences_stay_in_window
           Examples.v1_ready Examples.pd_a
           [(1%Z, 0.5); (1%Z, 0.5); (1%Z, 0.4)]).
  - repeat split.
  - repeat constructor; discriminate.
  - repeat constructor; vm_compute; discriminate.
Defined.

(** ** Episodes without a WAIT are scored against the diagnosed labels *)

Lemma combine_of_maps {A B C : Type} (f : A -> B) (g : A -> C) (xs : list A) :
  combine (map f xs) (map g xs) = map (fun x => (f x, g x)) xs.
Proof. induction xs as [| x xs IH]; simpl; [| rewrite IH]; reflexivity. Qed.

Lemma v1_in_step_labels (env : V1.ApneaDetectionEnv) (pd : V1.PatientData) :
  V1Records.in_step env pd ->
  map V1.ev_true_label (V1.episode_event_details env)
  = firstn (length (V1.episode_event_details env)) (V1.pd_labels pd) /\
  map V1.ev_timestamp (V1.episode_event_details env)
  = map (fun k => Np.float_of_len k * 10.0)
        (seq 0 (length (V1.episode_event_details env))).
Proof.
  intros [_ Hev]. split.
  - apply nth_error_ext. intro k.
    rewrite nth_error_map, nth_error_firstn.
    destruct (nth_error (V1.episode_event_details env) k) as [ev |] eqn:E.
    + assert (Hk : (k < length (V1.episode_event_details env))%nat)
        by (apply nth_error_Some; rewrite E; discriminate).
      apply Nat.ltb_lt in Hk. rewrite Hk. simpl.
      destruct (Hev k ev E) as [_ [Hl _]]. symmetry. exact Hl.
    + apply nth_error_None in E. apply Nat.ltb_ge in E. rewrite E. reflexivity.
  - apply nth_error_ext. intro k.
    rewrite !nth_error_map.
    destruct (nth_error (V1.episode_event_details env) k) as [ev |] eqn:E.
    + assert (Hk : (k < length (V1.episode_event_details env))%nat)
        by (apply nth_error_Some; rewrite E; discriminate).
      rewrite (nth_error_nth' _ 0%nat)
        by (rewrite length_seq; exact Hk).
      rewrite seq_nth by exact Hk. simpl.
      destruct (Hev k ev E) as [Ht _]. rewrite Ht. reflexivity.
    + apply nth_error_None in E.
      assert (E' : nth_error (seq 0 (length (V1.episode_event_details env))) k = None)
        by (apply nth_error_None; rewrite length_seq; exact E).
      rewrite E'. reflexivity.
Qed.

Lemma v1_accuracy_is_mean_correctness (pd : V1.PatientData)
    (details : list V1.EventDetail) :
  Forall (fun ev => exists s, V1Records.event_of_segment pd s ev) details ->
  V1.accuracy_of (map V1.ev_prediction details) (map V1.ev_true_label details)
  = Np.mean (map V1.ev_correctness details).
Proof.
  intro Hall. unfold V1.accuracy_of. rewrite combine_of_maps, map_map.
  f_equal.
  induction Hall as [| ev evs [s [_ [_ [Hp [Hc _]]]]] _ IH]; simpl.
  - reflexivity.
  - rewrite IH. f_equal. rewrite Hc. unfold V1.correctness_of.
    rewrite <- Hp. rewrite Z.eqb_sym. reflexivity.
Qed.

(** In an episode without a WAIT the cursor passes exactly the diagnosed
    segments: the [k]-th prediction was issued at segment [k], at time [10 *
    k], the labels [get_episode_metrics] uses are the labels of the diagnosed
    segments, and the accuracy it reports is the mean of the correctness
    values the steps computed for their rewards. *)
Theorem metrics_without_wait_use_diagnosed_labels
    (env : V1.ApneaDetectionEnv) (pd : V1.PatientData) (script : list (Z * Q)) :
  V1.freshly_reset env pd ->
  Forall (fun au => fst au <> 0%Z) script ->
  exists env' outs,
    V1.run_episode env script = Ok (env', outs) /\
    V1.current_step env' = length (V1.episode_predictions env') /\
    map V1.ev_true_label (V1.episode_event_details env')
    = firstn (length (V1.episode_predictions env')) (V1.pd_labels pd) /\
    V1.episode_timestamps env'
    = map (fun k => Np.float_of_len k * 10.0)
          (seq 0 (length (V1.episode_predictions env'))) /\
    (V1.episode_predictions env' <> [] ->
     exists m,
       V1.get_episode_metrics env' = Ok (V1.Metrics m) /\
       V1.em_accuracy m
       = Np.mean (map V1.ev_correctness (V1.episode_event_details env'))).
Proof.
  intros Hfresh Hnowait.
  destruct (v1_fresh_records env pd Hfresh) as [Hcons [_ Hin]].
  destruct (v1_fresh_invariant env pd Hfresh) as [Hinv _].
  destruct Hfresh as [Hpd [Hlen _]].
  destruct (v1_run_keeps_consistency script env pd Hpd Hlen)
    as [env' [outs [Hrun [Hc [_ Hi]]]]].
  destruct (v1_run_invariant script env pd Hinv) as [env2 [outs2 [Hrun2 [Hinv' _]]]].
  rewrite Hrun in Hrun2. inversion Hrun2; subst env2 outs2. clear Hrun2.
  specialize (Hc Hcons). specialize (Hi Hnowait Hin).
  destruct Hc as [Hall [Hp [_ [_ Ht]]]].
  destruct (v1_in_step_labels env' pd Hi) as [Hlab Hts].
  assert (Hn : length (V1.episode_predictions env')
               = length (V1.episode_event_details env'))
    by (rewrite Hp; apply length_map).
  exists env', outs. split; [exact Hrun |].
  split; [rewrite Hn; apply Hi |].
  split; [rewrite Hn; exact Hlab |].
  split; [rewrite Hn, Ht; exact Hts |].
  intro Hne.
  destruct (v1_metrics_use_leading_labels env' pd Hinv' Hne)
    as [m [Hm [_ [Hacc _]]]].
  exists m. split; [exact Hm |].
  rewrite Hacc. rewrite Hn, <- Hlab. rewrite Hp.
  apply (v1_accuracy_is_mean_correctness pd). exact Hall.
Qed.

Lemma metrics_without_wait_use_diagnosed_labels_witness :
  exists env' outs,
    V1.run_episode Examples.v1_ready [(1%Z, 0.5); (1%Z, 0.5); (2%Z, 0.5)]
    = Ok (env', outs) /\
    V1.current_step env' = length (V1.episode_predictions env') /\
    map V1.ev_true_label (V1.episode_event_details env')
    = firstn (length (V1.episode_predictions env')) (V1.pd_labels Examples.pd_a) /\
    V1.episode_timestamps env'
    = map (fun k => Np.float_of_len k * 10.0)
          (seq 0 (length (V1.episode_predictions env'))) /\
    (V1.episode_predictions env' <> [] ->
     exists m,
       V1.get_episode_metrics env' = Ok (V1.Metrics m) /\
       V1.em_accuracy m
       = Np.mean (map V1.ev_correctness (V1.episode_event_details env'))).
Proof.
  apply (metrics_without_wait_use_diagnosed_labels
           Examples.v1_ready Examples.pd_a
           [(1%Z, 0.5); (1%Z, 0.5); (2%Z, 0.5)]).
  - repeat split.
  - repeat constructor; discriminate.
Defined.

(** ** The dictionary of metrics *)

Lemma v1_metrics_explicit (env : V1.ApneaDetectionEnv) (pd : V1.PatientData) :
  V1.episode_invariant env pd ->
  V1.episode_predictions env <> [] ->
  let n := length (V1.episode_predictions env) in
  let true_labels := firstn n (V1.pd_labels pd) in
  exists ece,
    V1.episode_ece (V1.episode_confidences env) true_labels n = Ok ece /\
    V1.get_episode_metrics env
    = Ok (V1.Metrics
            (V1.mkEpisodeMetrics
               (V1.current_patient env)
               (V1.accuracy_of (V1.episode_predictions env) true_labels)
               ece
               (Np.mean (V1.episode_confidences env))
               n
               (Np.isum (V1.episode_predictions env))
               (V1._calculate_severity_score (V1.episode_predictions env)
                                             (V1.episode_timestamps env))
               (V1.ahi_of (V1.episode_predictions env) n)
               (V1.apnea_events_from 0 (V1.episode_predictions env)
                                     (V1.episode_confidences env)
                                     (V1.episode_timestamps env))
               (Np.float_of_len n * 10.0 / 60.0)
               (V1.ahi_of (V1.episode_predictions env) n))).
Proof.
  intros [Hpd [Hlen [[Hc _] [_ Hnl]]]] Hne n true_labels.
  assert (Hfirst : length true_labels = n).
  { unfold true_labels. rewrite length_firstn. lia. }
  destruct (ece_loop_ok (Np.bins_of (Np.linspace01 10))
              (V1.episode_confidences env) true_labels
              (eq_trans Hc (eq_sym Hfirst)) 0.0) as [e He].
  assert (Hece : V1.episode_ece (V1.episode_confidences env) true_labels n
                 = Ok (e / (if Nat.ltb 0 n then Np.float_of_len n else 1))).
  { unfold V1.episode_ece. cbv zeta. rewrite He. reflexivity. }
  eexists. split; [exact Hece |].
  unfold V1.get_episode_metrics.
  destruct (V1.episode_predictions env) as [| p ps] eqn:Ep; [contradiction |].
  rewrite Hpd. cbn [bind]. cbv zeta.
  fold n. fold true_labels. rewrite Hfirst, Nat.ltb_irrefl.
  rewrite Hece. reflexivity.
Qed.

Lemma sum_window (lo hi : Q) (xs : list Q) :
  Forall (fun x => lo <= x <= hi) xs ->
  Np.float_of_len (length xs) * lo <= Np.sum xs
  /\ Np.sum xs <= Np.float_of_len (length xs) * hi.
Proof.
  unfold Np.sum, Np.float_of_len.
  induction 1 as [| x xs Hx _ IH].
  - cbn [fold_right length]. change (inject_Z (Z.of_nat 0)) with 0. split; lra.
  - cbn [fold_right length]. rewrite Nat2Z.inj_succ.
    unfold Z.succ. rewrite inject_Z_plus.
    change (inject_Z 1) with 1. split; nra.
Qed.

Lemma mean_window (lo hi : Q) (xs : list Q) :
  xs <> [] ->
  Forall (fun x => lo <= x <= hi) xs ->
  lo <= Np.mean xs <= hi.
Proof.
  intros Hne Hall. destruct (sum_window lo hi xs Hall) as [H0 H1].
  assert (Hpos : 0 < Np.float_of_len (length xs)).
  { apply float_of_len_pos. destruct xs; [contradiction | simpl; lia]. }
  unfold Np.mean. split.
  - apply Qle_shift_div_l; [exact Hpos |]. lra.
  - apply Qle_shift_div_r; [exact Hpos |]. lra.
Qed.

Lemma accuracy_unit_interval (predictions true_labels : list Z) :
  predictions <> [] -> true_labels <> [] ->
  0 <= V1.accuracy_of predictions true_labels <= 1.
Proof.
  intros Hp Hl. unfold V1.accuracy_of. apply mean_unit_interval.
  - destruct predictions; [contradiction |].
    destruct true_labels; [contradiction |]. discriminate.
  - apply Forall_map. apply Forall_forall. intros [p l] _.
    destruct (Z.eqb p l); simpl; lra.
Qed.

(** [np.sum(predictions)] counts the entries of [apnea_event_details] when
    the predictions are 0 or 1 and the three lists are parallel. *)
Lemma apnea_events_count (predictions : list Z) :
  Forall (fun p => p = 0%Z \/ p = 1%Z) predictions ->
  forall (i : nat) (confidences timestamps : list Q),
    length confidences = length predictions ->
    length timestamps = length predictions ->
    Np.isum predictions
    = Z.of_nat (length (V1.apnea_events_from i predictions confidences timestamps))
    /\ (0 <= Np.isum predictions <= Z.of_nat (length predictions))%Z.
Proof.
  induction 1 as [| p ps Hp _ IH]; intros i cs ts Hc Ht.
  - simpl. split; [reflexivity | lia].
  - destruct cs as [| c cs]; [discriminate |].
    destruct ts as [| t ts]; [discriminate |].
    injection Hc as Hc. injection Ht as Ht.
    destruct (IH (S i) cs ts Hc Ht) as [IH1 IH2].
    unfold Np.isum in *. cbn [fold_right V1.apnea_events_from].
    destruct Hp as [-> | ->].
    + change (Z.eqb 0 1) with false. cbv iota. cbn [length]. split; lia.
    + change (Z.eqb 1 1) with true. cbv iota. cbn [length]. split; lia.
Qed.

Lemma thresholded_predictions (confidences : list Q) :
  Forall (fun p => p = 0%Z \/ p = 1%Z)
         (map (fun c => Np.int_of_bool (Np.gt c 0.5)) confidences).
Proof.
  apply Forall_map. apply Forall_forall. intros c _.
  destruct (Np.gt c 0.5); [right | left]; reflexivity.
Qed.

Lemma Forall_of_firstn {A : Type} (P : A -> Prop) (n : nat) :
  forall xs : list A, Forall P xs -> Forall P (firstn n xs).
Proof.
  induction n as [| n IH]; intros xs H; [constructor |].
  destruct xs as [| x xs]; [constructor |].
  inversion H; subst. simpl. constructor; [assumption | apply IH; assumption].
Qed.

(** At the end of an episode with at least one DIAGNOSE, on a patient whose
    labels are 0 or 1 and with draws in [[0.3, 0.9]], [get_episode_metrics]
    returns a dictionary in which: [n_predictions] is the number of
    predictions; accuracy and ECE lie in [[0, 1]] and [mean_confidence] in
    [[0.3, 0.9]], widened by a relative [2 ^ -40] for the rounding of the
    float mean; [n_apnea_events] is the number of entries of
    [apnea_event_details] and at most [n_predictions]; [ahi_score] and
    [apnea_frequency_per_hour] are one float, the events per hour at ten
    seconds per prediction up to a relative error of [2 ^ -50];
    [severity_score] is 0 without events and the bucket of [ahi_score]
    otherwise; [total_duration_minutes] is a sixth of [n_predictions]. *)
Theorem episode_metrics_are_well_formed
    (env : V1.ApneaDetectionEnv) (pd : V1.PatientData) (script : list (Z * Q)) :
  V1.freshly_reset env pd ->
  V1Records.rows_nonempty pd ->
  (Z.of_nat (length (V1.pd_labels pd)) < 2 ^ 63)%Z ->
  Forall (fun l => l = 0%Z \/ l = 1%Z) (V1.pd_labels pd) ->
  Forall (fun au => 0.3 <= snd au <= 0.9) script ->
  exists env' outs,
    V1.run_episode env script = Ok (env', outs) /\
    (V1.episode_predictions env' <> [] ->
     exists m,
       V1.get_episode_metrics env' = Ok (V1.Metrics m) /\
       V1.em_n_predictions m = length (V1.episode_predictions env') /\
       0 <= V1.em_accuracy m <= 1 /\
       0 <= V1.em_ece m <= 1 /\
       0.3 * (1 - 2 ^ (-40)) <= V1.em_mean_confidence m
       <= 0.9 * (1 + 2 ^ (-40)) /\
       V1.em_n_apnea_events m
       = Z.of_nat (length (V1.em_apnea_event_details m)) /\
       (V1.em_n_apnea_events m <= Z.of_nat (V1.em_n_predictions m))%Z /\
       360 * inject_Z (V1.em_n_apnea_events m)
       / Np.float_of_len (V1.em_n_predictions m) * (1 - 2 ^ (-50))
       <= V1.em_ahi_score m /\
       V1.em_ahi_score m
       <= 360 * inject_Z (V1.em_n_apnea_events m)
          / Np.float_of_len (V1.em_n_predictions m) * (1 + 2 ^ (-50)) /\
       V1.em_apnea_frequency_per_hour m = V1.em_ahi_score m /\
       V1.em_severity_score m
       = (if Z.eqb (V1.em_n_apnea_events m) 0 then 0.0
          else V1.severity_of_ahi (V1.em_ahi_score m)) /\
       V1.em_total_duration_minutes m
       == Np.float_of_len (V1.em_n_predictions m) / 6).
Proof.
  intros Hfresh _ Hbig Hlabels Hdraws.
  destruct (v1_fresh_records env pd Hfresh) as [Hcons [Hwin _]].
  destruct (v1_fresh_invariant env pd Hfresh) as [Hinv _].
  destruct Hfresh as [Hpd [Hlen _]].
  destruct (v1_run_keeps_consistency script env pd Hpd Hlen)
    as [env' [outs [Hrun [Hc [Hw _]]]]].
  destruct (v1_run_invariant script env pd Hinv) as [env2 [outs2 [Hrun2 [Hinv' _]]]].
  rewrite Hrun in Hrun2. inversion Hrun2; subst env2 outs2. clear Hrun2.
  specialize (Hc Hcons). specialize (Hw Hdraws Hwin).
  exists env', outs. split; [exact Hrun |]. intro Hne.
  destruct (v1_metrics_explicit env' pd Hinv' Hne) as [ece [Hece Hm]].
  cbv zeta in Hece, Hm.
  set (n := length (V1.episode_predictions env')) in *.
  destruct Hinv' as [_ [_ [[Hlc [_ [Hlt _]]] [_ Hnl]]]]. fold n in Hlc, Hlt, Hnl.
  assert (Hnpos : (0 < n)%nat).
  { unfold n. destruct (V1.episode_predictions env'); [contradiction | simpl; lia]. }
  assert (Hfirst : length (firstn n (V1.pd_labels pd)) = n)
    by (rewrite length_firstn; lia).
  assert (Hpreds : Forall (fun p => p = 0%Z \/ p = 1%Z) (V1.episode_predictions env')).
  { destruct Hc as [Hall [Hp _]]. rewrite Hp. apply Forall_map.
    eapply Forall_impl; [| exact Hall].
    intros ev [s [_ [_ [Hpr _]]]]. rewrite Hpr.
    destruct (Np.gt (V1.ev_confidence ev) 0.5); [right | left]; reflexivity. }
  destruct (apnea_events_count _ Hpreds 0%nat _ _ Hlc Hlt) as [Hcount Hrange].
  fold n in Hrange.
  eexists. split; [exact Hm |].
  cbn [V1.em_n_predictions V1.em_accuracy V1.em_ece V1.em_mean_confidence
       V1.em_n_apnea_events V1.em_apnea_event_details V1.em_ahi_score
       V1.em_apnea_frequency_per_hour V1.em_severity_score
       V1.em_total_duration_minutes].
  split; [reflexivity |].
  split.
  { apply accuracy_unit_interval; [exact Hne |].
    intro K. rewrite K in Hfirst. simpl in Hfirst. lia. }
  split.
  { assert (Hconf01 : Forall (fun c => 0 <= c <= 1) (V1.episode_confidences env')).
    { eapply Forall_impl; [| exact Hw]. intros c Hcw. simpl in Hcw. lra. }
    assert (Hlab01 : Forall (fun l => l = 0%Z \/ l = 1%Z) (firstn n (V1.pd_labels pd)))
      by (apply Forall_of_firstn; exact Hlabels).
    destruct (episode_ece_range (V1.episode_confidences env')
                (firstn n (V1.pd_labels pd))
                (eq_trans Hlc (eq_sym Hfirst)) Hconf01 Hlab01)
      as [ece' [Hece' Hrng]].
    rewrite Hlc in Hece'. rewrite Hece in Hece'. inversion Hece'; subst ece'.
    exact Hrng. }
  split.
  { destruct (mean_window 0.3 0.9 (V1.episode_confidences env')) as [Hlo Hhi];
      [intro K; rewrite K in Hlc; simpl in Hlc; lia | exact Hw |].
    split.
    - eapply Qle_trans; [| exact Hlo]. apply closed_Qle. vm_compute. reflexivity.
    - eapply Qle_trans; [exact Hhi |]. apply closed_Qle. vm_compute. reflexivity. }
  split; [exact Hcount |].
  split; [lia |].
  assert (Hnq : 0 < Np.float_of_len n) by (apply float_of_len_pos; exact Hnpos).
  assert (Hfit : Np.sum_int64 (V1.episode_predictions env')
                 = Np.isum (V1.episode_predictions env')).
  { apply int64_fits. lia. }
  assert (Hahi : V1.ahi_of (V1.episode_predictions env') n
                 = Np.div64
                     (Np.float_of_int (Np.isum (V1.episode_predictions env')))
                     (Np.div64 (Np.mul64 (Np.float_of_len n) 10.0) 3600.0)).
  { unfold V1.ahi_of. apply Nat.ltb_lt in Hnpos. rewrite Hnpos, Hfit.
    reflexivity. }
  assert (Hexact : Np.float_of_int (Np.isum (V1.episode_predictions env'))
                   / (Np.float_of_len n * 10.0 / 3600.0)
                   == 360 * inject_Z (Np.isum (V1.episode_predictions env'))
                      / Np.float_of_len n).
  { unfold Np.float_of_int. field. lra. }
  assert (Hbounds :
            360 * inject_Z (Np.isum (V1.episode_predictions env'))
            / Np.float_of_len n * (1 - 2 ^ (-50))
            <= V1.ahi_of (V1.episode_predictions env') n /\
            V1.ahi_of (V1.episode_predictions env') n
            <= 360 * inject_Z (Np.isum (V1.episode_predictions env'))
               / Np.float_of_len n * (1 + 2 ^ (-50))).
  { rewrite Hahi.
    destruct (Z.eq_dec (Np.isum (V1.episode_predictions env')) 0) as [E | E].
    - rewrite E.
      assert (Hz : Np.div64 (Np.float_of_int 0)
                     (Np.div64 (Np.mul64 (Np.float_of_len n) 10.0) 3600.0) == 0).
      { unfold Np.div64 at 1. apply double_of_zero.
        rewrite (double_of_zero (Np.float_of_int 0)) by reflexivity.
        unfold Qdiv. apply Qmult_0_l. }
      rewrite Hz. change (inject_Z 0) with 0. unfold Qdiv.
      rewrite Qmult_0_r, !Qmult_0_l. split; apply Qle_refl.
    - assert (Hpos : (0 < Np.isum (V1.episode_predictions env'))%Z) by lia.
      destruct (ahi_between _ n Hpos Hnpos ltac:(lia)) as [Hlo Hhi].
      cbv zeta in Hlo, Hhi. rewrite Hexact in Hlo, Hhi. split; assumption. }
  split; [exact (proj1 Hbounds) |].
  split; [exact (proj2 Hbounds) |].
  split; [reflexivity |].
  split.
  { destruct (severity_score_cases (V1.episode_predictions env')
                (V1.episode_timestamps env') Hne) as [Hz Hnz].
    rewrite Hfit in Hz, Hnz.
    destruct (Z.eqb (Np.isum (V1.episode_predictions env')) 0) eqn:E.
    - apply Z.eqb_eq in E. apply Hz. exact E.
    - apply Z.eqb_neq in E. rewrite (Hnz E), Hahi. reflexivity. }
  field.
Qed.

Lemma episode_metrics_are_well_formed_witness :
  exists env' outs,
    V1.run_episode Examples.v1_ready [(0%Z, 0.5); (1%Z, 0.5); (1%Z, 0.4)]
    = Ok (env', outs) /\
    (V1.episode_predictions env' <> [] ->
     exists m,
       V1.get_episode_metrics env' = Ok (V1.Metrics m) /\
       V1.em_n_predictions m = length (V1.episode_predictions env') /\
       0 <= V1.em_accuracy m <= 1 /\
       0 <= V1.em_ece m <= 1 /\
       0.3 * (1 - 2 ^ (-40)) <= V1.em_mean_confidence m
       <= 0.9 * (1 + 2 ^ (-40)) /\
       V1.em_n_apnea_events m
       = Z.of_nat (length (V1.em_apnea_event_details m)) /\
       (V1.em_n_apnea_events m <= Z.of_nat (V1.em_n_predictions m))%Z /\
       360 * inject_Z (V1.em_n_apnea_events m)
       / Np.float_of_len (V1.em_n_predictions m) * (1 - 2 ^ (-50))
       <= V1.em_ahi_score m /\
       V1.em_ahi_score m
       <= 360 * inject_Z (V1.em_n_apnea_events m)
          / Np.float_of_len (V1.em_n_predictions m) * (1 + 2 ^ (-50)) /\
       V1.em_apnea_frequency_per_hour m = V1.em_ahi_score m /\
       V1.em_severity_score m
       = (if Z.eqb (V1.em_n_apnea_events m) 0 then 0.0
          else V1.severity_of_ahi (V1.em_ahi_score m)) /\
       V1.em_total_duration_minutes m
       == Np.float_of_len (V1.em_n_predictions m) / 6).
Proof.
  apply (episode_metrics_are_well_formed
           Examples.v1_ready Examples.pd_a
           [(0%Z, 0.5); (1%Z, 0.5); (1%Z, 0.4)]).
  - repeat split.
  - repeat constructor; discriminate.
  - reflexivity.
  - repeat constructor; (left; reflexivity) || (right; reflexivity).
  - repeat constructor; vm_compute; discriminate.
Defined.

(** ** More predictions than labels *)

(** When the episode lists hold more entries than the patient has labels (as
    when a caller appends to them directly), [get_episode_metrics] cuts the
    predictions, confidences and timestamps to the number of labels and
    computes every metric from the cut lists: [n_predictions] is the number
    of labels, the accuracy compares the first predictions with all the
    labels. *)
Theorem metrics_truncate_to_labels
    (env : V1.ApneaDetectionEnv) (pd : V1.PatientData) :
  V1.current_data env = Ok pd ->
  V1.pd_labels pd <> [] ->
  (length (V1.pd_labels pd) < length (V1.episode_predictions env))%nat ->
  (length (V1.pd_labels pd) <= length (V1.episode_confidences env))%nat ->
  exists m,
    V1.get_episode_metrics env = Ok (V1.Metrics m) /\
    V1.em_n_predictions m = length (V1.pd_labels pd) /\
    V1.em_accuracy m
    = V1.accuracy_of
        (firstn (length (V1.pd_labels pd)) (V1.episode_predictions env))
        (V1.pd_labels pd) /\
    V1.em_mean_confidence m
    = Np.mean (firstn (length (V1.pd_labels pd)) (V1.episode_confidences env)) /\
    V1.em_n_apnea_events m
    = Np.isum (firstn (length (V1.pd_labels pd)) (V1.episode_predictions env)) /\
    V1.em_total_duration_minutes m
    = Np.float_of_len (length (V1.pd_labels pd)) * 10.0 / 60.0.
Proof.
  intros Hpd Hne Hmore Hconf.
  unfold V1.get_episode_metrics.
  destruct (V1.episode_predictions env) as [| p ps] eqn:Ep;
    [simpl in Hmore; lia |].
  rewrite Hpd. cbn [bind]. cbv zeta.
  set (n := length (p :: ps)) in *.
  assert (Hall : firstn n (V1.pd_labels pd) = V1.pd_labels pd)
    by (apply firstn_all2; lia).
  rewrite Hall.
  assert (Hlt : Nat.ltb (length (V1.pd_labels pd)) n = true)
    by (apply Nat.ltb_lt; exact Hmore).
  rewrite Hlt.
  set (k := length (V1.pd_labels pd)) in *.
  assert (Hlenc : length (firstn k (V1.episode_confidences env)) = k)
    by (rewrite length_firstn; lia).
  destruct (ece_loop_ok (Np.bins_of (Np.linspace01 10))
              (firstn k (V1.episode_confidences env)) (V1.pd_labels pd)
              Hlenc 0.0) as [e He].
  unfold V1.episode_ece. cbv zeta. rewrite He. cbn [bind].
  eexists. split; [reflexivity |].
  cbn [V1.em_n_predictions V1.em_accuracy V1.em_mean_confidence
       V1.em_n_apnea_events V1.em_total_duration_minutes].
  repeat split.
Qed.

Lemma metrics_truncate_to_labels_witness :
  exists m,
    V1.get_episode_metrics Examples.v1_overfull = Ok (V1.Metrics m) /\
    V1.em_n_predictions m = length (V1.pd_labels Examples.pd_a) /\
    V1.em_accuracy m
    = V1.accuracy_of
        (firstn (length (V1.pd_labels Examples.pd_a))
                (V1.episode_predictions Examples.v1_overfull))
        (V1.pd_labels Examples.pd_a) /\
    V1.em_mean_confidence m
    = Np.mean (firstn (length (V1.pd_labels Examples.pd_a))
                      (V1.episode_confidences Examples.v1_overfull)) /\
    V1.em_n_apnea_events m
    = Np.isum (firstn (length (V1.pd_labels Examples.pd_a))
                      (V1.episode_predictions Examples.v1_overfull)) /\
    V1.em_total_duration_minutes m
    = Np.float_of_len (length (V1.pd_labels Examples.pd_a)) * 10.0 / 60.0.
Proof.
  apply (metrics_truncate_to_labels Examples.v1_overfull Examples.pd_a).
  - reflexivity.
  - discriminate.
  - simpl. lia.
  - simpl. lia.
Defined.

(** ** The evaluation loop of the v1 agent *)

Lemma v1_metrics_return (env : V1.ApneaDetectionEnv) (pd : V1.PatientData) :
  V1.episode_invariant env pd ->
  exists d, V1.get_episode_metrics env = Ok d.
Proof.
  intro Hinv.
  destruct (V1.episode_predictions env) as [| p ps] eqn:Ep.
  - exists V1.EmptyDict. apply v1_metrics_of_no_prediction. exact Ep.
  - assert (Hne : V1.episode_predictions env <> [])
      by (rewrite Ep; discriminate).
    destruct (v1_metrics_use_leading_labels env pd Hinv Hne) as [m [Hm _]].
    exists (V1.Metrics m). exact Hm.
Qed.

(** A step with one of the three actions either ends the episode or moves
    the cursor one segment on, inside the record. *)
Lemma v1_step_progress (env : V1.ApneaDetectionEnv) (pd : V1.PatientData)
    (action : Z) (u : Q) :
  V1.episode_invariant env pd ->
  action = 0%Z \/ action = 1%Z \/ action = 2%Z ->
  exists env' out,
    V1.step env action u = Ok (env', out) /\
    V1.episode_invariant env' pd /\
    (V1.sr_terminated out || V1.sr_truncated out = false ->
     V1.current_step env' = S (V1.current_step env) /\
     (V1.current_step env' < length (V1.pd_features pd))%nat).
Proof.
  intros Hinv Hact.
  destruct (v1_step_invariant env pd action u Hinv)
    as [env' [out [Hstep [Hinv' [_ [_ [Hterm _]]]]]]].
  exists env', out. split; [exact Hstep |]. split; [exact Hinv' |].
  intro Hrun. apply orb_false_elim in Hrun. destruct Hrun as [Hnt _].
  split; [| apply Hterm; exact Hnt].
  destruct Hinv as [Hpd [Hlen _]].
  destruct (v1_step_returns env pd action u Hpd Hlen)
    as [e [obs [reward [terminated [Hs [_ [_ Hcases]]]]]]].
  rewrite Hstep in Hs. inversion Hs; subst e out. clear Hs.
  cbn [V1.sr_terminated] in Hnt.
  destruct Hcases as [[Ha [_ He]] | [[Ha [_ [row [l [_ [_ [_ He]]]]]]]
                    | [[Ha [_ [_ [Hout He]]]] | [[Ha [Ht _]]
                    | [Ha0 [Ha1 [Ha2 _]]]]]]].
  - subst env'. reflexivity.
  - subst env'. reflexivity.
  - subst env'. exfalso. apply v1_not_terminated_in_range in Hnt. lia.
  - subst terminated. exfalso. unfold V1.check_termination in Hnt.
    destruct (Nat.leb (length (V1.pd_features pd)) (V1.current_step env'));
      [discriminate |].
    destruct (Z.leb (V1.max_episode_length env') (Z.of_nat (V1.current_step env')));
      discriminate.
  - exfalso. destruct Hact as [K | [K | K]]; contradiction.
Qed.

(** When the policy only chooses WAIT, DIAGNOSE or ESCALATE, the loop
    [while True] of [evaluate] ends: with as many iterations as there are
    segments left (and at least one) it has returned, after at most that
    many steps, and [get_episode_metrics] has returned the dictionary of the
    episode. *)
Theorem evaluation_loop_ends
    (predict : V1.feature_vector -> Z) (draws : nat -> Q) (fuel : nat) :
  (forall obs, predict obs = 0%Z \/ predict obs = 1%Z \/ predict obs = 2%Z) ->
  forall (env : V1.ApneaDetectionEnv) (pd : V1.PatientData)
         (obs : V1.feature_vector) (episode_reward : Q) (episode_length : nat),
    V1.episode_invariant env pd ->
    (1 <= fuel)%nat ->
    (length (V1.pd_features pd) - V1.current_step env <= fuel)%nat ->
    exists env' reward n metrics,
      V1Agent.episode_loop predict fuel env obs draws episode_reward episode_length
      = Ok (Some (env', (reward, n, metrics))) /\
      V1.get_episode_metrics env' = Ok metrics /\
      (episode_length < n)%nat /\
      (n <= episode_length
            + Nat.max 1 (length (V1.pd_features pd) - V1.current_step env))%nat.
Proof.
  intro Hpolicy.
  induction fuel as [| fuel IH];
    intros env pd obs episode_reward episode_length Hinv Hone Hfuel; [lia |].
  cbn [V1Agent.episode_loop]. cbv zeta.
  destruct (v1_step_progress env pd (predict obs) (draws episode_length) Hinv
              (Hpolicy obs)) as [env1 [out [Hstep [Hinv1 Hprog]]]].
  rewrite Hstep. cbn [bind].
  destruct (V1.sr_terminated out || V1.sr_truncated out) eqn:Eend.
  - destruct (v1_metrics_return env1 pd Hinv1) as [d Hd].
    rewrite Hd. cbn [bind].
    exists env1, (episode_reward + V1.sr_reward out), (S episode_length), d.
    split; [reflexivity |]. split; [exact Hd |]. split; lia.
  - destruct (Hprog eq_refl) as [Hcur Hin].
    assert (Hone' : (1 <= fuel)%nat) by lia.
    assert (Hfuel' : (length (V1.pd_features pd) - V1.current_step env1 <= fuel)%nat)
      by lia.
    destruct (IH env1 pd (V1.sr_obs out) (episode_reward + V1.sr_reward out)
                 (S episode_length) Hinv1 Hone' Hfuel')
      as [env' [reward [n [metrics [Hloop [Hm [Hlo Hhi]]]]]]].
    exists env', reward, n, metrics.
    split; [exact Hloop |]. split; [exact Hm |]. split; lia.
Qed.

Lemma evaluation_loop_ends_witness :
  exists env' reward n metrics,
    V1Agent.episode_loop (fun _ => 1%Z) 3 Examples.v1_ready [90; 90]
                         (fun _ => 0.5) 0 0
    = Ok (Some (env', (reward, n, metrics))) /\
    V1.get_episode_metrics env' = Ok metrics /\
    (0 < n)%nat /\
    (n <= 0 + Nat.max 1 (length (V1.pd_features Examples.pd_a)
                         - V1.current_step Examples.v1_ready))%nat.
Proof.
  apply (evaluation_loop_ends (fun _ => 1%Z) (fun _ => 0.5) 3).
  - intro obs. right; left; reflexivity.
  - apply v1_fresh_invariant. repeat split.
  - lia.
  - simpl. lia.
Defined.

(** A policy that answers with a value outside {0, 1, 2} makes no progress:
    while the cursor is inside the record and below [max_episode_length],
    every step leaves the environment as it is and reports neither
    [terminated] nor [truncated], so the loop of [evaluate] is still running
    after any number of iterations. *)
Theorem evaluation_loop_stalls_on_unknown_action
    (predict : V1.feature_vector -> Z) (draws : nat -> Q)
    (env : V1.ApneaDetectionEnv) (pd : V1.PatientData) :
  (forall obs, predict obs <> 0%Z /\ predict obs <> 1%Z /\ predict obs <> 2%Z) ->
  V1.current_data env = Ok pd ->
  (V1.current_step env < length (V1.pd_features pd))%nat ->
  (Z.of_nat (V1.current_step env) < V1.max_episode_length env)%Z ->
  forall (fuel : nat) (obs : V1.feature_vector)
         (episode_reward : Q) (episode_length : nat),
    V1Agent.episode_loop predict fuel env obs draws episode_reward episode_length
    = Ok None.
Proof.
  intros Hpolicy Hpd Hin Hmax.
  induction fuel as [| fuel IH]; intros obs episode_reward episode_length;
    [reflexivity |].
  cbn [V1Agent.episode_loop]. cbv zeta.
  destruct (Hpolicy obs) as [H0 [H1 H2]].
  rewrite (v1_step_other env (predict obs) (draws episode_length) H0 H1 H2).
  destruct (v1_finish_step_ok env pd 0.0 false false Hpd) as [o [_ Hfin]].
  rewrite Hfin. cbn [bind V1.sr_terminated V1.sr_truncated].
  unfold V1.check_termination.
  assert (E1 : Nat.leb (length (V1.pd_features pd)) (V1.current_step env) = false)
    by (apply Nat.leb_gt; exact Hin).
  assert (E2 : Z.leb (V1.max_episode_length env) (Z.of_nat (V1.current_step env))
               = false) by (apply Z.leb_gt; exact Hmax).
  rewrite E1, E2. cbn [fst snd orb]. apply IH.
Qed.

Lemma evaluation_loop_stalls_on_unknown_action_witness :
  V1Agent.episode_loop (fun _ => 3%Z) 5 Examples.v1_ready [90; 90]
                       (fun _ => 0.5) 0 0
  = Ok None.
Proof.
  apply (evaluation_loop_stalls_on_unknown_action
           (fun _ => 3%Z) (fun _ => 0.5) Examples.v1_ready Examples.pd_a).
  - intro obs. repeat split; discriminate.
  - reflexivity.
  - simpl. lia.
  - reflexivity.
Defined.

(** ** Episodes of WAIT alone *)

Lemma v1_wait_step (env : V1.ApneaDetectionEnv) (pd : V1.PatientData) (u : Q) :
  V1.current_data env = Ok pd ->
  exists obs,
    V1.step env 0 u
    = Ok (V1.set_current_step env (S (V1.current_step env)),
          V1.mkStepResult obs 0.0
            (Nat.leb (length (V1.pd_features pd)) (S (V1.current_step env)))
            (negb (Nat.leb (length (V1.pd_features pd)) (S (V1.current_step env)))
             && Z.leb (V1.max_episode_length env)
                      (Z.of_nat (S (V1.current_step env))))
            (V1.step_info (V1.set_current_step env (S (V1.current_step env))) pd)).
Proof.
  intro Hpd. rewrite v1_step_wait. cbv zeta.
  set (env' := V1.set_current_step env (S (V1.current_step env))).
  assert (Hpd' : V1.current_data env' = Ok pd) by exact Hpd.
  rewrite Hpd'. cbn [bind].
  destruct (v1_finish_step_ok env' pd 0.0
              (fst (V1.check_termination env' pd false false))
              (snd (V1.check_termination env' pd false false)) Hpd')
    as [obs [_ Hfin]].
  rewrite Hfin. rewrite v1_check_termination_idempotent.
  exists obs. f_equal. f_equal.
  unfold V1.check_termination. subst env'.
  cbn [V1.current_step V1.set_current_step V1.max_episode_length].
  destruct (Nat.leb (length (V1.pd_features pd)) (S (V1.current_step env)));
    [reflexivity |].
  destruct (Z.leb (V1.max_episode_length env) (Z.of_nat (S (V1.current_step env))));
    reflexivity.
Qed.

Lemma v1_wait_run (pd : V1.PatientData) (target : nat) (us : list Q) :
  forall env : V1.ApneaDetectionEnv,
    V1.current_data env = Ok pd ->
    target = Nat.min (length (V1.pd_features pd))
                     (Nat.max 1 (Z.to_nat (V1.max_episode_length env))) ->
    (V1.current_step env < target)%nat ->
    (target - V1.current_step env <= length us)%nat ->
    exists env' outs out,
      V1.run_episode env (map (fun u => (0%Z, u)) us) = Ok (env', outs ++ [out]) /\
      length outs = (target - V1.current_step env - 1)%nat /\
      V1.current_step env' = target /\
      V1.episode_predictions env' = V1.episode_predictions env /\
      V1.sr_terminated out = Nat.leb (length (V1.pd_features pd)) target /\
      V1.sr_truncated out = negb (Nat.leb (length (V1.pd_features pd)) target).
Proof.
  induction us as [| u us IH]; intros env Hpd Htarget Hcur Hlen;
    [simpl in Hlen; lia |].
  destruct (v1_wait_step env pd u Hpd) as [obs Hstep].
  cbn [map V1.run_episode]. rewrite Hstep. cbn [bind].
  cbn [V1.sr_terminated V1.sr_truncated].
  set (c := V1.current_step env) in *.
  set (len := length (V1.pd_features pd)) in *.
  destruct (Nat.eq_dec (S c) target) as [Elast | Emore].
  - (* the step that reaches the target ends the episode *)
    assert (Hflag : Nat.leb len (S c)
                    || (negb (Nat.leb len (S c))
                        && Z.leb (V1.max_episode_length env) (Z.of_nat (S c)))
                    = true).
    { destruct (Nat.leb len (S c)) eqn:E; [reflexivity |]. simpl.
      apply Nat.leb_gt in E. apply Z.leb_le. lia. }
    rewrite Hflag.
    eexists. exists []. eexists. split; [reflexivity |].
    split; [simpl; lia |]. split; [exact Elast |]. split; [reflexivity |].
    cbn [V1.sr_terminated V1.sr_truncated]. rewrite Elast.
    split; [reflexivity |].
    destruct (Nat.leb len target) eqn:E; [reflexivity |]. simpl.
    apply Nat.leb_gt in E. apply Z.leb_le. lia.
  - assert (Hflag : Nat.leb len (S c)
                    || (negb (Nat.leb len (S c))
                        && Z.leb (V1.max_episode_length env) (Z.of_nat (S c)))
                    = false).
    { assert (E : Nat.leb len (S c) = false) by (apply Nat.leb_gt; lia).
      rewrite E. simpl. apply Z.leb_gt. lia. }
    rewrite Hflag.
    set (env1 := V1.set_current_step env (S c)).
    assert (Hpd1 : V1.current_data env1 = Ok pd) by exact Hpd.
    assert (Hcur1 : (V1.current_step env1 < target)%nat) by (simpl; lia).
    assert (Hlen1 : (target - V1.current_step env1 <= length us)%nat)
      by (simpl in *; lia).
    destruct (IH env1 Hpd1 Htarget Hcur1 Hlen1)
      as [env' [outs [out [Hrun [Hl [Hc [Hp [Ht Htr]]]]]]]].
    rewrite Hrun. cbn [bind].
    eexists. eexists (_ :: outs). exists out. split; [reflexivity |].
    split; [simpl in *; lia |]. split; [exact Hc |]. split; [exact Hp |].
    split; assumption.
Qed.

(** An episode of WAIT alone, from [reset], lasts exactly [min(segments,
    max(1, max_episode_length))] steps and records nothing.  Its last step
    returns [terminated] when that number is the number of segments, and
    [truncated] (without [terminated]) when [max_episode_length] is reached
    first: with [max_episode_length = 3] and ten segments the third WAIT
    returns [truncated] with the cursor at 3. *)
Theorem wait_only_episode
    (env : V1.ApneaDetectionEnv) (pd : V1.PatientData) (us : list Q) :
  V1.freshly_reset env pd ->
  V1.pd_features pd <> [] ->
  let target :=
    Nat.min (length (V1.pd_features pd))
            (Nat.max 1 (Z.to_nat (V1.max_episode_length env))) in
  (target <= length us)%nat ->
  exists env' outs out,
    V1.run_episode env (map (fun u => (0%Z, u)) us) = Ok (env', outs ++ [out]) /\
    length (outs ++ [out]) = target /\
    V1.current_step env' = target /\
    V1.episode_predictions env' = [] /\
    V1.sr_terminated out = Nat.leb (length (V1.pd_features pd)) target /\
    V1.sr_truncated out = negb (Nat.leb (length (V1.pd_features pd)) target).
Proof.
  intros [Hpd [_ [Hcur [Hp _]]]] Hne target Hlen.
  assert (Hpos : (0 < length (V1.pd_features pd))%nat)
    by (destruct (V1.pd_features pd); [contradiction | simpl; lia]).
  assert (Hc : (V1.current_step env < target)%nat) by (unfold target; lia).
  assert (Hl : (target - V1.current_step env <= length us)%nat) by lia.
  destruct (v1_wait_run pd target us env Hpd eq_refl Hc Hl)
    as [env' [outs [out [Hrun [Hlo [Hcur' [Hp' [Ht Htr]]]]]]]].
  exists env', outs, out. split; [exact Hrun |].
  split; [rewrite length_app; simpl; lia |].
  split; [exact Hcur' |]. split; [rewrite Hp'; exact Hp |].
  split; assumption.
Qed.

Lemma wait_only_episode_witness :
  let target :=
    Nat.min (length (V1.pd_features Examples.pd_a))
            (Nat.max 1 (Z.to_nat (V1.max_episode_length Examples.v1_short))) in
  exists env' outs out,
    V1.run_episode Examples.v1_short
                   (map (fun u => (0%Z, u)) [0.5; 0.5; 0.5])
    = Ok (env', outs ++ [out]) /\
    length (outs ++ [out]) = target /\
    V1.current_step env' = target /\
    V1.episode_predictions env' = [] /\
    V1.sr_terminated out = Nat.leb (length (V1.pd_features Examples.pd_a)) target /\
    V1.sr_truncated out
    = negb (Nat.leb (length (V1.pd_features Examples.pd_a)) target).
Proof.
  apply (wait_only_episode Examples.v1_short Examples.pd_a [0.5; 0.5; 0.5]).
  - repeat split.
  - discriminate.
  - simpl. lia.
Defined.

(** ** The constructor of the v1 environment *)

Lemma count_true_of_mask (patient : string) (patient_ids : list string) :
  In patient patient_ids ->
  (0 < Np.count_true (map (fun pid => String.eqb pid patient) patient_ids))%nat.
Proof.
  unfold Np.count_true.
  induction patient_ids as [| x xs IH]; intro H; [contradiction |].
  simpl. destruct (String.eqb x patient) eqn:E.
  - simpl. lia.
  - destruct H as [H | H]; [subst; rewrite String.eqb_refl in E; discriminate |].
    apply IH. exact H.
Qed.

Lemma v1_organize_entries (features : list V1.feature_vector) (labels : list Z)
    (patient_ids : list string) (pdata : list (string * V1.PatientData)) :
  V1._organize_by_patient features labels patient_ids = Ok pdata ->
  Np.keys pdata = nodup string_dec patient_ids /\
  Forall (fun entry =>
            let mask := map (fun pid => String.eqb pid (fst entry)) patient_ids in
            length mask = length features /\
            length mask = length labels /\
            V1.pd_features (snd entry) = Np.select mask features /\
            V1.pd_labels (snd entry) = Np.select mask labels /\
            V1.pd_indices (snd entry) = Np.where_true mask)
         pdata.
Proof.
  unfold V1._organize_by_patient, Np.keys. cbv zeta.
  generalize (nodup string_dec patient_ids) as ps.
  intros ps. revert pdata.
  induction ps as [| p ps IH]; intros pdata H; simpl in H.
  - inversion H. split; [reflexivity | constructor].
  - unfold Np.mask_index in H at 1 2.
    set (mask := map (fun pid => String.eqb pid p) patient_ids) in *.
    destruct (Nat.eqb (length mask) (length features)) eqn:Ef; simpl in H;
      [| discriminate].
    destruct (Nat.eqb (length mask) (length labels)) eqn:El; simpl in H;
      [| discriminate].
    match type of H with
    | context [mapM ?f ps] => destruct (mapM f ps) as [rest |] eqn:Erest
    end; simpl in H; [| discriminate].
    inversion H; subst pdata. clear H.
    destruct (IH rest eq_refl) as [Hk Hall].
    apply Nat.eqb_eq in Ef, El.
    split; [simpl; rewrite Hk; reflexivity |].
    constructor; [| exact Hall].
    simpl. fold mask. repeat split; assumption.
Qed.

Lemma list_sum_cons (a : nat) (l : list nat) :
  list_sum (a :: l) = (a + list_sum l)%nat.
Proof. reflexivity. Qed.

Lemma indicator_sum (x : string) (ps : list string) :
  NoDup ps ->
  list_sum (map (fun p => if String.eqb x p then 1%nat else 0%nat) ps)
  = (if in_dec string_dec x ps then 1%nat else 0%nat).
Proof.
  induction 1 as [| p ps Hnotin Hnd IH]; [reflexivity |].
  cbn [map]. rewrite list_sum_cons, IH.
  destruct (String.eqb x p) eqn:E.
  - apply String.eqb_eq in E. subst p.
    destruct (in_dec string_dec x ps) as [K | K]; [contradiction |].
    destruct (in_dec string_dec x (x :: ps)) as [K' | K'];
      [reflexivity | exfalso; apply K'; left; reflexivity].
  - apply String.eqb_neq in E.
    destruct (in_dec string_dec x ps) as [K | K];
      destruct (in_dec string_dec x (p :: ps)) as [K' | K']; try reflexivity.
    + exfalso. apply K'. right. exact K.
    + exfalso. destruct K' as [K' | K']; [symmetry in K'; contradiction | contradiction].
Qed.

Lemma list_sum_add {A : Type} (f g : A -> nat) (xs : list A) :
  list_sum (map (fun x => (f x + g x)%nat) xs)
  = (list_sum (map f xs) + list_sum (map g xs))%nat.
Proof.
  induction xs as [| x xs IH]; [reflexivity |].
  cbn [map]. rewrite !list_sum_cons, IH. lia.
Qed.

Lemma sum_of_mask_counts (patient_ids : list string) :
  forall ps : list string,
    NoDup ps ->
    (forall p, In p patient_ids -> In p ps) ->
    list_sum
      (map (fun p => Np.count_true (map (fun pid => String.eqb pid p) patient_ids))
           ps)
    = length patient_ids.
Proof.
  unfold Np.count_true.
  induction patient_ids as [| x xs IH]; intros ps Hnd Hin.
  - simpl. induction ps as [| p ps IHp]; [reflexivity |].
    simpl. inversion Hnd; subst. apply IHp; [assumption |]. intros q [].
  - assert (Hx : In x ps) by (apply Hin; left; reflexivity).
    assert (Hxs : forall p, In p xs -> In p ps)
      by (intros p Hp; apply Hin; right; exact Hp).
    specialize (IH ps Hnd Hxs).
    assert (Hsplit : forall p,
               length (filter (fun b => b)
                         (map (fun pid => String.eqb pid p) (x :: xs)))
               = ((if String.eqb x p then 1 else 0)
                  + length (filter (fun b => b)
                              (map (fun pid => String.eqb pid p) xs)))%nat).
    { intro p. simpl. destruct (String.eqb x p); reflexivity. }
    rewrite (map_ext _ _ Hsplit).
    rewrite (list_sum_add (fun p => if String.eqb x p then 1%nat else 0%nat)).
    rewrite IH, (indicator_sum x ps Hnd).
    destruct (in_dec string_dec x ps); [reflexivity | contradiction].
Qed.

(** [_organize_by_patient] splits the samples among the patients without
    losing or repeating one: the keys of [patient_data] are the distinct
    patient ids; every patient has at least one sample, and as many labels
    and indices as feature vectors; the numbers of samples of the patients
    add up to the number of patient ids, which is the number of feature
    vectors and of labels as soon as there is one patient id. *)
Theorem organize_partitions_samples
    (features : list V1.feature_vector) (labels : list Z)
    (patient_ids : list string) (pdata : list (string * V1.PatientData)) :
  V1._organize_by_patient features labels patient_ids = Ok pdata ->
  NoDup (Np.keys pdata) /\
  (forall p, In p (Np.keys pdata) <-> In p patient_ids) /\
  Forall (fun entry =>
            V1.pd_features (snd entry) <> [] /\
            length (V1.pd_labels (snd entry)) = length (V1.pd_features (snd entry)) /\
            length (V1.pd_indices (snd entry)) = length (V1.pd_features (snd entry)))
         pdata /\
  list_sum (map (fun entry => length (V1.pd_features (snd entry))) pdata)
  = length patient_ids /\
  (patient_ids <> [] ->
   length features = length patient_ids /\ length labels = length patient_ids).
Proof.
  intro H. destruct (v1_organize_entries _ _ _ _ H) as [Hk Hall].
  assert (Hnd : NoDup (Np.keys pdata)) by (rewrite Hk; apply NoDup_nodup).
  assert (Hmem : forall p, In p (Np.keys pdata) <-> In p patient_ids)
    by (intro p; rewrite Hk; apply nodup_In).
  split; [exact Hnd |]. split; [exact Hmem |].
  assert (Hwhere : forall (mask : list bool) (i : nat),
             length (Np.where_from i mask) = Np.count_true mask).
  { unfold Np.count_true. induction mask as [| b mask IHm]; intro i; simpl.
    - reflexivity.
    - destruct b; simpl; rewrite IHm; reflexivity. }
  split; [| split].
  - apply Forall_forall. intros [p pd] Hin.
    rewrite Forall_forall in Hall. specialize (Hall (p, pd) Hin).
    cbv zeta in Hall. cbn [fst snd] in *.
    destruct Hall as [Hf [Hl [Ef [El Ei]]]].
    rewrite Ef, El, Ei. unfold Np.where_true. rewrite Hwhere.
    rewrite (select_length _ features Hf), (select_length _ labels Hl).
    split; [| split; reflexivity].
    intro K. apply (f_equal (@length V1.feature_vector)) in K.
    rewrite (select_length _ features Hf) in K. simpl in K.
    assert (Hp : In p patient_ids).
    { apply Hmem. unfold Np.keys. apply in_map_iff. exists (p, pd).
      split; [reflexivity | exact Hin]. }
    assert (Hc := count_true_of_mask p patient_ids Hp). lia.
  - rewrite <- (sum_of_mask_counts patient_ids (Np.keys pdata) Hnd
                  (fun p Hp => proj2 (Hmem p) Hp)).
    unfold Np.keys. rewrite map_map. clear H Hk Hnd Hmem.
    induction Hall as [| [p pd] rest Hhead _ IH]; [reflexivity |].
    cbn [map fst snd]. rewrite !list_sum_cons, IH.
    cbv zeta in Hhead. cbn [fst snd] in Hhead.
    destruct Hhead as [Hf [_ [Ef _]]].
    rewrite Ef, (select_length _ features Hf). reflexivity.
  - intro Hne. destruct patient_ids as [| x xs]; [contradiction |].
    assert (Hx : In x (Np.keys pdata)) by (apply Hmem; left; reflexivity).
    unfold Np.keys in Hx. apply in_map_iff in Hx. destruct Hx as [[p pd] [_ Hin]].
    rewrite Forall_forall in Hall. specialize (Hall (p, pd) Hin).
    cbv zeta in Hall. destruct Hall as [Hf [Hl _]].
    rewrite length_map in Hf, Hl. split; symmetry; assumption.
Qed.

Lemma organize_partitions_samples_witness :
  NoDup (Np.keys (V1.patient_data Examples.v1_two)) /\
  (forall p, In p (Np.keys (V1.patient_data Examples.v1_two))
             <-> In p ["a"%string; "b"%string; "a"%string]) /\
  Forall (fun entry =>
            V1.pd_features (snd entry) <> [] /\
            length (V1.pd_labels (snd entry)) = length (V1.pd_features (snd entry)) /\
            length (V1.pd_indices (snd entry)) = length (V1.pd_features (snd entry)))
         (V1.patient_data Examples.v1_two) /\
  list_sum (map (fun entry => length (V1.pd_features (snd entry)))
                (V1.patient_data Examples.v1_two))
  = length ["a"%string; "b"%string; "a"%string] /\
  (["a"%string; "b"%string; "a"%string] <> [] ->
   length [[90; 90]; [40; 40]; [0; 0]]
   = length ["a"%string; "b"%string; "a"%string] /\
   length [0; 1; 1]%Z = length ["a"%string; "b"%string; "a"%string]).
Proof.
  apply (organize_partitions_samples
           [[90; 90]; [40; 40]; [0; 0]] [0; 1; 1]%Z
           ["a"%string; "b"%string; "a"%string]
           (V1.patient_data Examples.v1_two)).
  reflexivity.
Defined.

Lemma v1_organize_patients_ok (features : list V1.feature_vector) (labels : list Z)
    (patient_ids : list string) (pdata : list (string * V1.PatientData)) :
  V1._organize_by_patient features labels patient_ids = Ok pdata ->
  Forall (fun entry =>
            length (V1.pd_labels (snd entry)) = length (V1.pd_features (snd entry))
            /\ V1.pd_features (snd entry) <> [])
         pdata.
Proof.
  intro H. destruct (v1_organize_entries _ _ _ _ H) as [Hk Hall].
  apply Forall_forall. intros [p pd] Hin.
  rewrite Forall_forall in Hall. specialize (Hall (p, pd) Hin).
  cbv zeta in Hall. cbn [fst snd] in *.
  destruct Hall as [Hf [Hl [Ef [El _]]]].
  rewrite Ef, El.
  rewrite (select_length _ features Hf), (select_length _ labels Hl).
  split; [reflexivity |].
  intro K. apply (f_equal (@length V1.feature_vector)) in K.
  rewrite (select_length _ features Hf) in K. simpl in K.
  assert (Hp : In p patient_ids).
  { apply (nodup_In string_dec). rewrite <- Hk. unfold Np.keys.
    apply in_map_iff. exists (p, pd). split; [reflexivity | exact Hin]. }
  assert (Hc := count_true_of_mask p patient_ids Hp). lia.
Qed.

Lemma v1_organize_total (features : list V1.feature_vector) (labels : list Z)
    (patient_ids : list string) :
  patient_ids = [] \/
  (length features = length patient_ids /\ length labels = length patient_ids) ->
  exists pdata,
    V1._organize_by_patient features labels patient_ids = Ok pdata /\
    Np.keys pdata = nodup string_dec patient_ids.
Proof.
  intros [Hnil | [Hf Hl]].
  - subst patient_ids. exists []. split; reflexivity.
  - unfold V1._organize_by_patient, Np.keys. cbv zeta.
    apply mapM_total. intro patient.
    rewrite (mask_index_ok features) by (rewrite length_map; congruence).
    rewrite (mask_index_ok labels) by (rewrite length_map; congruence).
    simpl. eexists. split; reflexivity.
Qed.

Lemma v1_organize_mismatch (features : list V1.feature_vector) (labels : list Z)
    (patient_ids : list string) :
  patient_ids <> [] ->
  length features <> length patient_ids \/ length labels <> length patient_ids ->
  V1._organize_by_patient features labels patient_ids = Raise IndexError.
Proof.
  intros Hne Hbad. unfold V1._organize_by_patient. cbv zeta.
  destruct (nodup string_dec patient_ids) as [| p ps] eqn:En.
  - exfalso. destruct patient_ids as [| x xs]; [contradiction |].
    assert (Hx : In x (nodup string_dec (x :: xs)))
      by (apply nodup_In; left; reflexivity).
    rewrite En in Hx. contradiction.
  - cbn [mapM]. unfold Np.mask_index. rewrite !length_map.
    destruct (Nat.eqb (length patient_ids) (length features)) eqn:Ef.
    + apply Nat.eqb_eq in Ef.
      destruct (Nat.eqb (length patient_ids) (length labels)) eqn:El.
      * apply Nat.eqb_eq in El. exfalso. destruct Hbad as [K | K]; congruence.
      * reflexivity.
    + reflexivity.
Qed.

(** The constructor raises exactly when there is a patient id and the
    feature or the label array has not as many rows as there are patient
    ids, and what it raises is numpy's [IndexError] for the boolean mask.
    Without any patient id it returns whatever the two arrays hold.  When
    it returns, no patient is selected, [patient_list] holds every patient
    id once (in the order in which the set of the ids is enumerated, which
    is not stated), and every patient has as many labels as feature
    vectors, and at least one. *)
Theorem constructor_checks_the_lengths
    (features : list V1.feature_vector) (n_features : nat) (labels : list Z)
    (patient_ids : list string) (mode : string) (max_episode_length : Z) :
  (patient_ids = [] \/
   (length features = length patient_ids /\ length labels = length patient_ids) ->
   exists env,
     V1.init features n_features labels patient_ids mode max_episode_length = Ok env /\
     V1.current_patient env = None /\
     NoDup (V1.patient_list env) /\
     (forall p, In p (V1.patient_list env) <-> In p patient_ids) /\
     V1Records.dataset_ok env) /\
  (patient_ids <> [] ->
   length features <> length patient_ids \/ length labels <> length patient_ids ->
   V1.init features n_features labels patient_ids mode max_episode_length
   = Raise IndexError).
Proof.
  split.
  - intro Hok. destruct (v1_organize_total features labels patient_ids Hok)
      as [pdata [Horg Hkeys]].
    unfold V1.init. rewrite Horg. cbn [bind]. eexists. split; [reflexivity |].
    cbn [V1.current_patient V1.patient_list]. split; [reflexivity |].
    split; [rewrite Hkeys; apply NoDup_nodup |].
    split; [intro p; rewrite Hkeys; apply nodup_In |].
    split; [reflexivity |]. cbn [V1.patient_data].
    apply (v1_organize_patients_ok _ _ _ _ Horg).
  - intros Hne Hbad. unfold V1.init.
    rewrite (v1_organize_mismatch features labels patient_ids Hne Hbad).
    reflexivity.
Qed.

Lemma constructor_checks_the_lengths_witness :
  (exists env,
     V1.init [[90; 90]; [40; 40]; [0; 0]] 2 [0; 1; 1]%Z
             ["a"%string; "b"%string; "a"%string] "train"%string 100 = Ok env /\
     V1.current_patient env = None /\
     NoDup (V1.patient_list env) /\
     (forall p, In p (V1.patient_list env)
                <-> In p ["a"%string; "b"%string; "a"%string]) /\
     V1Records.dataset_ok env) /\
  V1.init [[90; 90]] 2 [0; 1]%Z ["a"%string; "b"%string] "train"%string 100
  = Raise IndexError.
Proof.
  split.
  - apply (proj1 (constructor_checks_the_lengths
                    [[90; 90]; [40; 40]; [0; 0]] 2 [0; 1; 1]%Z
                    ["a"%string; "b"%string; "a"%string] "train"%string 100)).
    right. split; reflexivity.
  - apply (proj2 (constructor_checks_the_lengths
                    [[90; 90]] 2 [0; 1]%Z ["a"%string; "b"%string]
                    "train"%string 100)).
    + discriminate.
    + left. simpl. lia.
Defined.

(** Between the constructor and the first [reset] no patient is selected:
    [step] raises [AttributeError] whatever the action, and so does
    [_get_observation], while [get_episode_metrics] returns the empty
    dictionary. *)
Theorem methods_before_the_first_reset
    (features : list V1.feature_vector) (n_features : nat) (labels : list Z)
    (patient_ids : list string) (mode : string) (max_episode_length : Z)
    (env : V1.ApneaDetectionEnv) (action : Z) (u : Q) :
  V1.init features n_features labels patient_ids mode max_episode_length = Ok env ->
  V1.step env action u = Raise AttributeError /\
  V1._get_observation env = Raise AttributeError /\
  V1.get_episode_metrics env = Ok V1.EmptyDict.
Proof.
  intro Hinit. unfold V1.init in Hinit.
  destruct (V1._organize_by_patient features labels patient_ids) as [pdata |];
    simpl in Hinit; [| discriminate].
  inversion Hinit; subst env. clear Hinit.
  split; [| split; reflexivity].
  unfold V1.step. cbv zeta.
  destruct (Z.eqb action 0); [reflexivity |].
  destruct (Z.eqb action 1); [reflexivity |].
  destruct (Z.eqb action 2); reflexivity.
Qed.

Lemma methods_before_the_first_reset_witness :
  V1.step Examples.v1_two 2 0.5 = Raise AttributeError /\
  V1._get_observation Examples.v1_two = Raise AttributeError /\
  V1.get_episode_metrics Examples.v1_two = Ok V1.EmptyDict.
Proof.
  apply (methods_before_the_first_reset
           [[90; 90]; [40; 40]; [0; 0]] 2 [0; 1; 1]%Z
           ["a"%string; "b"%string; "a"%string] "train"%string 100).
  reflexivity.
Defined.

(** ** [reset] between episodes *)

Lemma v1_reset_ok (env : V1.ApneaDetectionEnv) (r : nat) :
  V1Records.dataset_ok env ->
  (r < length (V1.patient_list env))%nat ->
  exists env' obs pd p,
    V1.reset env r
    = Ok (env', (obs, V1.mkResetInfo (Some p) 0 (length (V1.pd_features pd)))) /\
    nth_error (V1.patient_list env) r = Some p /\
    V1.freshly_reset env' pd /\
    (exists row,
        nth_error (V1.pd_features pd) 0 = Some row /\
        obs = map Np.float32 row) /\
    V1.current_patient_idx env' = r /\
    V1.patient_data env' = V1.patient_data env /\
    V1.patient_list env' = V1.patient_list env /\
    V1.max_episode_length env' = V1.max_episode_length env.
Proof.
  intros [Hkeys Hall] Hr.
  destruct (index_lt _ _ Hr) as [p [Hp Hnth]].
  assert (Hin : In p (Np.keys (V1.patient_data env)))
    by (rewrite <- Hkeys; apply (nth_error_In _ _ Hnth)).
  destruct (getitem_of_key _ p Hin) as [pd Hpd].
  assert (Hentry := getitem_In _ _ _ Hpd).
  rewrite Forall_forall in Hall. destruct (Hall (p, pd) Hentry) as [Hal Hne].
  cbn [snd] in Hal, Hne.
  destruct (V1.pd_features pd) as [| row rows] eqn:Ef; [contradiction |].
  set (env' := V1.mkEnv (V1.features env) (V1.labels env) (V1.patient_ids env)
                 (V1.mode env) (V1.max_episode_length env)
                 (V1.observation_shape env) 0 r (Some p) [] [] [] [] []
                 (V1.patient_data env) (V1.patient_list env)).
  assert (Hcur : V1.current_data env' = Ok pd) by exact Hpd.
  assert (Hobs : V1._get_observation env' = Ok (map Np.float32 row)).
  { unfold V1._get_observation. rewrite Hcur. cbn [bind].
    rewrite Ef. reflexivity. }
  exists env', (map Np.float32 row), pd, p.
  split.
  - unfold V1.reset.
    destruct (Nat.eqb (length (V1.patient_list env)) 0) eqn:E0;
      [apply Nat.eqb_eq in E0; lia |].
    rewrite Hp. cbn [bind]. fold env'. rewrite Hobs. cbn [bind].
    rewrite Hcur. cbn [bind]. rewrite Ef. reflexivity.
  - split; [exact Hnth |]. split.
    + unfold V1.freshly_reset. rewrite Ef. split; [exact Hcur |].
      split; [rewrite Hal; reflexivity |]. repeat split.
    + rewrite Ef. split; [exists row; split; reflexivity |]. repeat split.
Qed.

(** [reset] raises [ValueError] when the data set has no patient.  On a
    data set as the constructor builds it, and whatever the episode lists
    held, it returns: the patient the draw selects is the current one, the
    observation is the first feature vector of that patient cast to
    [float32] (for a vector within the [float32] range; it is the vector
    itself when its entries are [float32] numbers),
    [info['total_steps']] is the (positive) number of segments, the cursor
    is 0, the episode lists are empty, so that [get_episode_metrics]
    returns the empty dictionary, and the data set is the one before. *)
Theorem reset_starts_a_new_episode (env : V1.ApneaDetectionEnv) (r : nat) :
  (V1.patient_list env = [] -> V1.reset env r = Raise ValueError) /\
  (V1Records.dataset_ok env ->
   (r < length (V1.patient_list env))%nat ->
   exists env' obs pd p,
     V1.reset env r
     = Ok (env', (obs, V1.mkResetInfo (Some p) 0 (length (V1.pd_features pd)))) /\
     nth_error (V1.patient_list env) r = Some p /\
     V1.current_patient env' = Some p /\
     V1.freshly_reset env' pd /\
     (exists row,
         nth_error (V1.pd_features pd) 0 = Some row /\
         (Forall (fun v => Qabs v <= Np.float32_max) row ->
          obs = map Np.float32 row /\
          (Forall (fun v => Np.float32 v = v) row -> obs = row))) /\
     (0 < length (V1.pd_features pd))%nat /\
     V1.get_episode_metrics env' = Ok V1.EmptyDict /\
     V1Records.dataset_ok env').
Proof.
  split.
  - intro Hnil. unfold V1.reset. rewrite Hnil. reflexivity.
  - intros Hok Hr.
    destruct (v1_reset_ok env r Hok Hr)
      as [env' [obs [pd [p [Hreset [Hnth [Hfresh [Hobs [_ [Hd [Hl _]]]]]]]]]]].
    exists env', obs, pd, p.
    split; [exact Hreset |]. split; [exact Hnth |].
    assert (Hcp : V1.current_patient env' = Some p).
    { unfold V1.reset in Hreset.
      destruct (Nat.eqb (length (V1.patient_list env)) 0); [discriminate |].
      rewrite (index_Some _ _ _ Hnth) in Hreset. cbn [bind] in Hreset.
      match type of Hreset with
      | context [V1._get_observation ?e] => set (e1 := e) in *
      end.
      destruct (V1._get_observation e1); cbn [bind] in Hreset; [| discriminate].
      destruct (V1.current_data e1); cbn [bind] in Hreset; [| discriminate].
      inversion Hreset. reflexivity. }
    split; [exact Hcp |]. split; [exact Hfresh |].
    destruct Hobs as [row [Hrow Hobs]].
    split.
    { exists row. split; [exact Hrow |]. intros _.
      split; [exact Hobs |]. intro Hfix. rewrite Hobs. apply map_fixed.
      exact Hfix. }
    split.
    { destruct (V1.pd_features pd); [discriminate | simpl; lia]. }
    split.
    { destruct Hfresh as [_ [_ [_ [Hp _]]]].
      unfold V1.get_episode_metrics. rewrite Hp. reflexivity. }
    destruct Hok as [Hkeys Hall]. split; [rewrite Hl, Hd; exact Hkeys |].
    rewrite Hd. exact Hall.
Qed.

Lemma reset_starts_a_new_episode_witness :
  exists env' obs pd p,
    V1.reset Examples.v1_overfull 0
    = Ok (env', (obs, V1.mkResetInfo (Some p) 0 (length (V1.pd_features pd)))) /\
    nth_error (V1.patient_list Examples.v1_overfull) 0 = Some p /\
    V1.current_patient env' = Some p /\
    V1.freshly_reset env' pd /\
    (exists row,
        nth_error (V1.pd_features pd) 0 = Some row /\
        (Forall (fun v => Qabs v <= Np.float32_max) row ->
         obs = map Np.float32 row /\
         (Forall (fun v => Np.float32 v = v) row -> obs = row))) /\
    (0 < length (V1.pd_features pd))%nat /\
    V1.get_episode_metrics env' = Ok V1.EmptyDict /\
    V1Records.dataset_ok env'.
Proof.
  apply (proj2 (reset_starts_a_new_episode Examples.v1_overfull 0)).
  - split; [reflexivity |]. repeat constructor; discriminate.
  - simpl. lia.
Defined.

(** The cast at work: 16777217 is not a [float32], and the observation
    holds 16777216 in its place, after a [reset] as after a [step]. *)
Example observation_is_cast_to_float32 :
  exists env env1 info1 env2 info2 env3 out,
    V1.init [[16777217; 3]; [0.1; 16777219]] 2 [0; 1]%Z
            ["a"%string; "a"%string] "train"%string 100 = Ok env /\
    V1.reset env 0 = Ok (env1, ([16777216; 3], info1)) /\
    V1.step env1 0 0.5 = Ok (env2, out) /\
    V1.sr_obs out = [Np.float32 0.1; 16777220] /\
    Np.float32 0.1 == 13421773 # 134217728 /\
    V1.reset env2 0 = Ok (env3, ([16777216; 3], info2)).
Proof.
  eexists. eexists. eexists. eexists. eexists. eexists. eexists.
  split; [reflexivity |].
  split; [vm_compute; reflexivity |].
  split; [vm_compute; reflexivity |].
  split; [vm_compute; reflexivity |].
  split; vm_compute; reflexivity.
Qed.

(** ** The evaluation of the v1 agent over several episodes *)

Lemma v1_loop_returns (predict : V1.feature_vector -> Z) (draws : nat -> Q)
    (fuel : nat) :
  (forall obs, predict obs = 0%Z \/ predict obs = 1%Z \/ predict obs = 2%Z) ->
  forall (env : V1.ApneaDetectionEnv) (pd : V1.PatientData)
         (obs : V1.feature_vector) (episode_reward : Q) (episode_length : nat),
    V1.episode_invariant env pd ->
    (1 <= fuel)%nat ->
    (length (V1.pd_features pd) - V1.current_step env <= fuel)%nat ->
    exists env' reward n metrics,
      V1Agent.episode_loop predict fuel env obs draws episode_reward episode_length
      = Ok (Some (env', (reward, n, metrics))) /\
      V1.get_episode_metrics env' = Ok metrics /\
      (episode_length < n)%nat /\
      (n <= episode_length
            + Nat.max 1 (length (V1.pd_features pd) - V1.current_step env))%nat /\
      V1.episode_invariant env' pd /\
      V1.patient_data env' = V1.patient_data env /\
      V1.patient_list env' = V1.patient_list env.
Proof.
  intro Hpolicy.
  induction fuel as [| fuel IH];
    intros env pd obs episode_reward episode_length Hinv Hone Hfuel; [lia |].
  cbn [V1Agent.episode_loop]. cbv zeta.
  destruct (v1_step_progress env pd (predict obs) (draws episode_length) Hinv
              (Hpolicy obs)) as [env1 [out [Hstep [Hinv1 Hprog]]]].
  assert (Hstatic : V1.patient_data env1 = V1.patient_data env /\
                    V1.patient_list env1 = V1.patient_list env).
  { destruct Hinv as [Hpd [Hlen _]].
    destruct (v1_step_normal_form env pd (predict obs) (draws episode_length)
                Hpd Hlen) as [e [rw [o [Hs [_ [_ [_ [_ [Hd Hl]]]]]]]]].
    rewrite Hstep in Hs. inversion Hs; subst e. split; assumption. }
  destruct Hstatic as [Hd1 Hl1].
  rewrite Hstep. cbn [bind].
  destruct (V1.sr_terminated out || V1.sr_truncated out) eqn:Eend.
  - destruct (v1_metrics_return env1 pd Hinv1) as [d Hd].
    rewrite Hd. cbn [bind].
    exists env1, (episode_reward + V1.sr_reward out), (S episode_length), d.
    split; [reflexivity |]. split; [exact Hd |].
    split; [lia |]. split; [lia |]. split; [exact Hinv1 |]. split; assumption.
  - destruct (Hprog eq_refl) as [Hcur Hin].
    assert (Hone' : (1 <= fuel)%nat) by lia.
    assert (Hfuel' : (length (V1.pd_features pd) - V1.current_step env1 <= fuel)%nat)
      by lia.
    destruct (IH env1 pd (V1.sr_obs out) (episode_reward + V1.sr_reward out)
                 (S episode_length) Hinv1 Hone' Hfuel')
      as [env' [reward [n [metrics [Hloop [Hm [Hlo [Hhi [Hinv' [Hd' Hl']]]]]]]]]].
    exists env', reward, n, metrics.
    split; [exact Hloop |]. split; [exact Hm |].
    split; [lia |]. split; [lia |]. split; [exact Hinv' |].
    split; congruence.
Qed.

Lemma v1_metrics_accuracy_range (env : V1.ApneaDetectionEnv) (pd : V1.PatientData)
    (m : V1.EpisodeMetrics) :
  V1.episode_invariant env pd ->
  V1.get_episode_metrics env = Ok (V1.Metrics m) ->
  0 <= V1.em_accuracy m <= 1 /\ V1.em_patient_id m = V1.current_patient env.
Proof.
  intros Hinv Hm.
  destruct (V1.episode_predictions env) as [| p ps] eqn:Ep.
  - unfold V1.get_episode_metrics in Hm. rewrite Ep in Hm. discriminate.
  - assert (Hne : V1.episode_predictions env <> []) by (rewrite Ep; discriminate).
    destruct (v1_metrics_explicit env pd Hinv Hne) as [ece [_ Hex]].
    cbv zeta in Hex. rewrite Hex in Hm. inversion Hm; subst m. clear Hm.
    cbn [V1.em_accuracy V1.em_patient_id]. split; [| reflexivity].
    apply accuracy_unit_interval; [exact Hne |].
    destruct Hinv as [_ [_ [_ [_ Hnl]]]].
    rewrite Ep in *. cbn [length] in *.
    destruct (V1.pd_labels pd); [simpl in Hnl; lia | simpl; discriminate].
Qed.

Lemma v1_evaluate_episode_ok (predict : V1.feature_vector -> Z) (draws : nat -> Q)
    (fuel : nat) (env : V1.ApneaDetectionEnv) (r k : nat)
    (episode_rewards : list Q) (episode_lengths : list nat)
    (episode_metrics : list V1.EpisodeMetrics) :
  (forall obs, predict obs = 0%Z \/ predict obs = 1%Z \/ predict obs = 2%Z) ->
  V1Records.dataset_ok env ->
  (r < length (V1.patient_list env))%nat ->
  Forall (fun entry => (length (V1.pd_features (snd entry)) <= fuel)%nat)
         (V1.patient_data env) ->
  V1Records.accumulated fuel k episode_rewards episode_lengths episode_metrics ->
  exists env' rewards' lengths' metrics',
    V1Agent.evaluate_episode predict fuel env r draws
      episode_rewards episode_lengths episode_metrics
    = Ok (Some (env', (rewards', lengths', metrics'))) /\
    V1Records.accumulated fuel (S k) rewards' lengths' metrics' /\
    V1Records.dataset_ok env' /\
    V1.patient_data env' = V1.patient_data env /\
    V1.patient_list env' = V1.patient_list env.
Proof.
  intros Hpolicy Hok Hr Hfuel [Hlr [Hll [Hfl [Hlm Hfm]]]].
  destruct (v1_reset_ok env r Hok Hr)
    as [env1 [obs [pd [p [Hreset [Hnth [Hfresh [Hobs [_ [Hd1 [Hl1 _]]]]]]]]]]].
  destruct (v1_fresh_invariant env1 pd Hfresh) as [Hinv1 _].
  assert (Hcur1 : V1.current_step env1 = 0%nat)
    by (destruct Hfresh as [_ [_ [H _]]]; exact H).
  assert (Hpd1 : V1.current_data env1 = Ok pd)
    by (destruct Hfresh as [H _]; exact H).
  assert (Hentry : exists key, In (key, pd) (V1.patient_data env)).
  { unfold V1.current_data in Hpd1.
    destruct (V1.current_patient env1) as [q |]; [| discriminate].
    exists q. rewrite <- Hd1. apply getitem_In. exact Hpd1. }
  destruct Hentry as [key Hentry].
  assert (Hsegs : (length (V1.pd_features pd) <= fuel)%nat).
  { rewrite Forall_forall in Hfuel. apply (Hfuel (key, pd) Hentry). }
  assert (Hpos : (0 < length (V1.pd_features pd))%nat).
  { destruct Hobs as [row [Hrow _]].
    destruct (V1.pd_features pd); [discriminate | simpl; lia]. }
  assert (Hone : (1 <= fuel)%nat) by lia.
  assert (Hleft : (length (V1.pd_features pd) - V1.current_step env1 <= fuel)%nat)
    by lia.
  destruct (v1_loop_returns predict draws fuel Hpolicy env1 pd obs 0 0%nat
              Hinv1 Hone Hleft)
    as [env' [reward [n [metrics [Hloop [Hm [Hlo [Hhi [Hinv' [Hd' Hl']]]]]]]]]].
  unfold V1Agent.evaluate_episode. rewrite Hreset. cbn [bind]. cbv zeta.
  rewrite Hloop. cbn [bind].
  eexists. eexists. eexists. eexists. split; [reflexivity |].
  assert (Hn : (1 <= n <= fuel)%nat) by lia.
  split.
  - unfold V1Records.accumulated. rewrite !length_app. cbn [length].
    split; [lia |]. split; [lia |].
    split; [apply Forall_app; split; [exact Hfl | constructor; [exact Hn | constructor]] |].
    destruct metrics as [| m].
    + split; [lia | exact Hfm].
    + rewrite length_app. cbn [length]. split; [lia |].
      apply Forall_app. split; [exact Hfm |].
      constructor; [| constructor].
      apply (v1_metrics_accuracy_range env' pd m Hinv' Hm).
  - destruct Hok as [Hkeys Hall].
    split; [split; [rewrite Hl', Hl1, Hd', Hd1; exact Hkeys
                   | rewrite Hd', Hd1; exact Hall] |].
    split; congruence.
Qed.

Lemma v1_evaluate_episodes_ok (predict : V1.feature_vector -> Z)
    (rs : nat -> nat) (draws : nat -> nat -> Q) (fuel : nat)
    (patient_data : list (string * V1.PatientData)) (patient_list : list string) :
  (forall obs, predict obs = 0%Z \/ predict obs = 1%Z \/ predict obs = 2%Z) ->
  (forall episode, (rs episode < length patient_list)%nat) ->
  Forall (fun entry => (length (V1.pd_features (snd entry)) <= fuel)%nat)
         patient_data ->
  forall (episodes : list nat) (env : V1.ApneaDetectionEnv) (k : nat)
         (episode_rewards : list Q) (episode_lengths : list nat)
         (episode_metrics : list V1.EpisodeMetrics),
    V1Records.dataset_ok env ->
    V1.patient_data env = patient_data ->
    V1.patient_list env = patient_list ->
    V1Records.accumulated fuel k episode_rewards episode_lengths episode_metrics ->
    exists env' rewards' lengths' metrics',
      V1Agent.evaluate_episodes predict fuel episodes env rs draws
        episode_rewards episode_lengths episode_metrics
      = Ok (Some (env', (rewards', lengths', metrics'))) /\
      V1Records.accumulated fuel (k + length episodes) rewards' lengths' metrics' /\
      V1Records.dataset_ok env'.
Proof.
  intros Hpolicy Hrs Hfuel.
  induction episodes as [| episode episodes IH];
    intros env k rewards lengths metrics Hok Hd Hl Hacc.
  - cbn [V1Agent.evaluate_episodes length]. rewrite Nat.add_0_r.
    eexists. eexists. eexists. eexists.
    split; [reflexivity |]. split; assumption.
  - cbn [V1Agent.evaluate_episodes].
    assert (Hr : (rs episode < length (V1.patient_list env))%nat)
      by (rewrite Hl; apply Hrs).
    assert (Hf : Forall (fun entry =>
                           (length (V1.pd_features (snd entry)) <= fuel)%nat)
                        (V1.patient_data env)) by (rewrite Hd; exact Hfuel).
    destruct (v1_evaluate_episode_ok predict (draws episode) fuel env (rs episode)
                k rewards lengths metrics Hpolicy Hok Hr Hf Hacc)
      as [env1 [rw1 [ln1 [ms1 [Hone [Hacc1 [Hok1 [Hd1 Hl1]]]]]]]].
    rewrite Hone. cbn [bind].
    destruct (IH env1 (S k) rw1 ln1 ms1 Hok1
                 (eq_trans Hd1 Hd) (eq_trans Hl1 Hl) Hacc1)
      as [env' [rw' [ln' [ms' [Hrest [Hacc' Hok']]]]]].
    exists env', rw', ln', ms'. split; [exact Hrest |].
    cbn [length]. replace (k + S (length episodes))%nat
      with (S k + length episodes)%nat by lia.
    split; assumption.
Qed.

Lemma group_append_sizes
    (patient_metrics : list (option string * list V1.EpisodeMetrics))
    (metrics : V1.EpisodeMetrics) :
  list_sum (map (fun g => length (snd g))
                (V1Agent.group_append patient_metrics metrics))
  = S (list_sum (map (fun g => length (snd g)) patient_metrics)).
Proof.
  induction patient_metrics as [| [pid ms] rest IH]; [reflexivity |].
  cbn [V1Agent.group_append].
  destruct (V1Agent.patient_id_eqb pid (V1.em_patient_id metrics)).
  - cbn [map snd]. rewrite !list_sum_cons, length_app. cbn [length]. lia.
  - cbn [map snd]. rewrite !list_sum_cons, IH. lia.
Qed.

Lemma group_by_patient_sizes (episode_metrics : list V1.EpisodeMetrics) :
  forall patient_metrics,
    list_sum (map (fun g => length (snd g))
                  (fold_left V1Agent.group_append episode_metrics patient_metrics))
    = (list_sum (map (fun g => length (snd g)) patient_metrics)
       + length episode_metrics)%nat.
Proof.
  induction episode_metrics as [| m ms IH]; intro patient_metrics.
  - cbn [fold_left length]. lia.
  - cbn [fold_left length]. rewrite IH, group_append_sizes. lia.
Qed.

Lemma patient_id_eqb_eq (a b : option string) :
  V1Agent.patient_id_eqb a b = true -> a = b.
Proof.
  destruct a as [x |], b as [y |]; simpl; intro H; try discriminate;
    [apply String.eqb_eq in H; subst |]; reflexivity.
Qed.

Lemma group_append_grouped
    (patient_metrics : list (option string * list V1.EpisodeMetrics))
    (metrics : V1.EpisodeMetrics) :
  V1Records.grouped patient_metrics ->
  V1Records.grouped (V1Agent.group_append patient_metrics metrics).
Proof.
  unfold V1Records.grouped.
  induction 1 as [| [pid ms] rest Hhead Hrest IH].
  - cbn [V1Agent.group_append]. repeat constructor.
  - cbn [V1Agent.group_append].
    destruct (V1Agent.patient_id_eqb pid (V1.em_patient_id metrics)) eqn:E.
    + apply patient_id_eqb_eq in E. constructor; [| assumption].
      cbn [fst snd] in *. apply Forall_app. split; [exact Hhead |].
      constructor; [symmetry; exact E | constructor].
    + constructor; assumption.
Qed.

Lemma group_by_patient_grouped (episode_metrics : list V1.EpisodeMetrics) :
  forall patient_metrics,
    V1Records.grouped patient_metrics ->
    V1Records.grouped (fold_left V1Agent.group_append episode_metrics patient_metrics).
Proof.
  induction episode_metrics as [| m ms IH]; intros patient_metrics H.
  - exact H.
  - cbn [fold_left]. apply IH. apply group_append_grouped. exact H.
Qed.

(** With a policy that only chooses WAIT, DIAGNOSE or ESCALATE, on a data
    set as the constructor builds it, [evaluate] returns after its
    [n_eval_episodes] episodes: every [while True] loop ends within as many
    steps as the longest record has segments.  The report carries
    [n_episodes] as given and a mean episode length of at least 1 and at
    most the length of the longest record.  When some episode produced
    metrics, [mean_accuracy] lies in [[0, 1]] and [patient_metrics] splits
    the metrics of the at most [n_eval_episodes] episodes by patient. *)
Theorem evaluate_returns_a_report
    (predict : V1.feature_vector -> Z) (std : list Q -> Q)
    (fuel : nat) (env : V1.ApneaDetectionEnv) (n_eval_episodes : Z)
    (rs : nat -> nat) (draws : nat -> nat -> Q) :
  (forall obs, predict obs = 0%Z \/ predict obs = 1%Z \/ predict obs = 2%Z) ->
  V1Records.dataset_ok env ->
  (forall episode, (rs episode < length (V1.patient_list env))%nat) ->
  Forall (fun entry => (length (V1.pd_features (snd entry)) <= fuel)%nat)
         (V1.patient_data env) ->
  (0 < n_eval_episodes)%Z ->
  exists env' report,
    V1Agent.evaluate predict std fuel env n_eval_episodes rs draws
    = Ok (Some (env', report)) /\
    V1Agent.res_n_episodes report = n_eval_episodes /\
    1 <= V1Agent.res_mean_episode_length report <= Np.float_of_len fuel /\
    match V1Agent.res_aggregated report with
    | None => True
    | Some aggregated =>
        0 <= V1Agent.ag_mean_accuracy aggregated <= 1 /\
        (list_sum (map (fun g => length (snd g))
                       (V1Agent.ag_patient_metrics aggregated))
         <= Z.to_nat n_eval_episodes)%nat /\
        V1Records.grouped (V1Agent.ag_patient_metrics aggregated)
    end.
Proof.
  intros Hpolicy Hok Hrs Hfuel Hn.
  assert (Hacc0 : V1Records.accumulated fuel 0 [] [] []).
  { unfold V1Records.accumulated. cbn [length].
    split; [reflexivity |]. split; [reflexivity |].
    split; [constructor |]. split; [lia | constructor]. }
  destruct (v1_evaluate_episodes_ok predict rs draws fuel
              (V1.patient_data env) (V1.patient_list env) Hpolicy Hrs Hfuel
              (seq 0 (Z.to_nat n_eval_episodes)) env 0%nat [] [] []
              Hok eq_refl eq_refl Hacc0)
    as [env' [rewards [lengths [metrics [Hrun [Hacc _]]]]]].
  rewrite length_seq in Hacc. cbn [Nat.add] in Hacc.
  destruct Hacc as [Hlr [Hll [Hfl [Hlm Hfm]]]].
  unfold V1Agent.evaluate. rewrite Hrun. cbn [bind]. cbv zeta.
  eexists. eexists. split; [reflexivity |].
  cbn [V1Agent.res_n_episodes V1Agent.res_mean_episode_length
       V1Agent.res_aggregated].
  split; [reflexivity |]. split.
  - apply mean_window.
    + destruct lengths; [simpl in Hll; lia | discriminate].
    + apply Forall_map. revert Hfl. apply Forall_impl. intros n [H1 H2].
      split; [apply (float_of_len_le 1 n H1) | apply float_of_len_le; exact H2].
  - destruct metrics as [| m ms]; [exact I |].
    cbn [V1Agent.ag_mean_accuracy V1Agent.ag_patient_metrics].
    split; [| split].
    + apply mean_unit_interval; [discriminate |].
      apply Forall_map. exact Hfm.
    + unfold V1Agent.group_by_patient. rewrite group_by_patient_sizes.
      cbn [map list_sum fold_right]. cbn [Nat.add]. exact Hlm.
    + unfold V1Agent.group_by_patient. apply group_by_patient_grouped.
      constructor.
Qed.

Lemma evaluate_returns_a_report_witness :
  exists env' report,
    V1Agent.evaluate (fun _ => 1%Z) (fun _ => 0) 3 Examples.v1_fresh 2
                     (fun _ => 0%nat) (fun _ _ => 0.5)
    = Ok (Some (env', report)) /\
    V1Agent.res_n_episodes report = 2%Z /\
    1 <= V1Agent.res_mean_episode_length report <= Np.float_of_len 3 /\
    match V1Agent.res_aggregated report with
    | None => True
    | Some aggregated =>
        0 <= V1Agent.ag_mean_accuracy aggregated <= 1 /\
        (list_sum (map (fun g => length (snd g))
                       (V1Agent.ag_patient_metrics aggregated))
         <= Z.to_nat 2)%nat /\
        V1Records.grouped (V1Agent.ag_patient_metrics aggregated)
    end.
Proof.
  apply (evaluate_returns_a_report (fun _ => 1%Z) (fun _ => 0) 3
           Examples.v1_fresh 2 (fun _ => 0%nat) (fun _ _ => 0.5)).
  - intro obs. right. left. reflexivity.
  - split; [reflexivity |]. repeat constructor; discriminate.
  - intro episode. simpl. lia.
  - repeat constructor.
  - lia.
Defined.

(** * Properties of [utils.py] *)

(** ** [extract_timestamps] *)




(** ** [calculate_severity_scale] and the severity score of the environment *)

(** The category [calculate_severity_scale] gives an AHI and the score
    [_calculate_severity_score] gives it agree on the two lowest classes:
    "Normal" is the score 0.1 and "Mild" the score 0.2.  Above 15 events per
    hour they use different thresholds: "Moderate" (below 30) covers the
    score 0.4 and a part of the score 0.6, and "Severe" the scores from 0.6
    on. *)
Theorem severity_scale_and_severity_score (ahi : Q) :
  (Utils.calculate_severity_scale ahi = "Normal"%string
   <-> V1.severity_of_ahi ahi = 0.1) /\
  (Utils.calculate_severity_scale ahi = "Mild"%string
   <-> V1.severity_of_ahi ahi = 0.2) /\
  (Utils.calculate_severity_scale ahi = "Moderate"%string
   <-> 15 <= ahi /\ ahi < 30) /\
  (Utils.calculate_severity_scale ahi = "Moderate"%string ->
   V1.severity_of_ahi ahi = 0.4 \/ V1.severity_of_ahi ahi = 0.6) /\
  (Utils.calculate_severity_scale ahi = "Severe"%string <-> 30 <= ahi) /\
  (Utils.calculate_severity_scale ahi = "Severe"%string ->
   V1.severity_of_ahi ahi = 0.6 \/ V1.severity_of_ahi ahi = 0.8
   \/ V1.severity_of_ahi ahi = 1.0).
Proof.
  unfold Utils.calculate_severity_scale, V1.severity_of_ahi.
  destruct (Np.lt ahi 5) eqn:E5;
    [apply lt_true_iff in E5 | apply lt_false_iff in E5];
  destruct (Np.lt ahi 15) eqn:E15;
    [apply lt_true_iff in E15 | apply lt_false_iff in E15
     | apply lt_true_iff in E15 | apply lt_false_iff in E15];
  destruct (Np.lt ahi 25) eqn:E25;
    try (apply lt_true_iff in E25); try (apply lt_false_iff in E25);
  destruct (Np.lt ahi 30) eqn:E30;
    try (apply lt_true_iff in E30); try (apply lt_false_iff in E30);
  destruct (Np.lt ahi 35) eqn:E35;
    try (apply lt_true_iff in E35); try (apply lt_false_iff in E35);
  destruct (Np.lt ahi 50) eqn:E50;
    try (apply lt_true_iff in E50); try (apply lt_false_iff in E50);
  try (exfalso; lra);
  repeat split; intros; try discriminate; try reflexivity; try lra;
    try (left; reflexivity); try (right; left; reflexivity);
    try (right; right; reflexivity); try (right; reflexivity);
    try (exfalso; lra);
    repeat match goal with H : _ /\ _ |- _ => destruct H end;
    try (exfalso; lra).
Qed.

(** ** [aggregate_patient_metrics] *)

Lemma mapM_item_metrics {A : Type} (field : V1.EpisodeMetrics -> A)
    (ds : list V1.EpisodeMetrics) :
  mapM (fun m => Aggregation.item m field) (map V1.Metrics ds) = Ok (map field ds).
Proof.
  induction ds as [| d ds IH]; [reflexivity |].
  cbn [map mapM Aggregation.item bind]. rewrite IH. reflexivity.
Qed.

Lemma mapM_item_empty {A : Type} (field : V1.EpisodeMetrics -> A)
    (ms : list V1.MetricsDict) :
  In V1.EmptyDict ms ->
  mapM (fun m => Aggregation.item m field) ms = Raise KeyError.
Proof.
  induction ms as [| m ms IH]; intro H; [contradiction |].
  cbn [mapM]. destruct m as [| d].
  - reflexivity.
  - destruct H as [H | H]; [discriminate |].
    cbn [Aggregation.item bind]. rewrite (IH H). reflexivity.
Qed.

Lemma isum_as_float (zs : list Z) :
  Np.sum (map Np.float_of_int zs) == inject_Z (Np.isum zs).
Proof.
  unfold Np.sum, Np.isum, Np.float_of_int.
  induction zs as [| z zs IH]; [reflexivity |].
  cbn [map fold_right]. rewrite IH, inject_Z_plus. reflexivity.
Qed.

(** [aggregate_patient_metrics] returns the empty dictionary for no episode
    and raises [KeyError] as soon as one of the dictionaries is the empty
    one [get_episode_metrics] returns for an episode without a DIAGNOSE.
    On dictionaries that all have their keys it returns [n_episodes] as
    their number, [total_apnea_events] as the sum of their events, a mean
    number of events that is that total over the number of episodes, and
    means of the accuracy and of the calibration error in [[0, 1]] when
    those of the episodes are. *)
Theorem aggregation_of_episode_metrics (std : list Q -> Q) :
  Aggregation.aggregate_patient_metrics std [] = Ok Aggregation.EmptyDict /\
  (forall episode_metrics,
     In V1.EmptyDict episode_metrics ->
     Aggregation.aggregate_patient_metrics std episode_metrics = Raise KeyError) /\
  (forall ds : list V1.EpisodeMetrics,
     ds <> [] ->
     exists a,
       Aggregation.aggregate_patient_metrics std (map V1.Metrics ds)
       = Ok (Aggregation.Aggregated a) /\
       Aggregation.am_n_episodes a = length ds /\
       Aggregation.am_total_apnea_events a
       = Np.isum (map V1.em_n_apnea_events ds) /\
       Aggregation.am_mean_apnea_events_per_episode a
       * Np.float_of_len (Aggregation.am_n_episodes a)
       == inject_Z (Aggregation.am_total_apnea_events a) /\
       (Forall (fun d => 0 <= V1.em_accuracy d <= 1) ds ->
        0 <= Aggregation.am_mean_accuracy a <= 1) /\
       (Forall (fun d => 0 <= V1.em_ece d <= 1) ds ->
        0 <= Aggregation.am_mean_ece a <= 1)).
Proof.
  split; [reflexivity |]. split.
  - intros ms Hin. unfold Aggregation.aggregate_patient_metrics.
    destruct ms as [| m ms]; [contradiction |].
    rewrite (mapM_item_empty V1.em_accuracy _ Hin). reflexivity.
  - intros ds Hne. unfold Aggregation.aggregate_patient_metrics.
    destruct ds as [| d ds]; [contradiction |].
    change (map V1.Metrics (d :: ds)) with (V1.Metrics d :: map V1.Metrics ds).
    cbv iota.
    change (V1.Metrics d :: map V1.Metrics ds) with (map V1.Metrics (d :: ds)).
    rewrite !mapM_item_metrics. cbn [bind].
    set (all := d :: ds).
    eexists. split; [reflexivity |].
    cbn [Aggregation.am_n_episodes Aggregation.am_total_apnea_events
         Aggregation.am_mean_apnea_events_per_episode
         Aggregation.am_mean_accuracy Aggregation.am_mean_ece].
    split; [apply length_map |]. split; [reflexivity |].
    assert (Hall : all <> []) by (unfold all; discriminate).
    split; [| split].
    + unfold Np.mean. rewrite !length_map.
      assert (Hpos : 0 < Np.float_of_len (length all)).
      { apply float_of_len_pos. unfold all. simpl. lia. }
      rewrite isum_as_float. field. lra.
    + intro H. apply mean_unit_interval.
      * unfold all. discriminate.
      * apply Forall_map. exact H.
    + intro H. apply mean_unit_interval.
      * unfold all. discriminate.
      * apply Forall_map. exact H.
Qed.

Lemma aggregation_of_episode_metrics_witness :
  Aggregation.aggregate_patient_metrics (fun _ => 0)
    [V1.Metrics (V1.mkEpisodeMetrics (Some "a"%string) 0.8 0.1 0.7 5 2 0.3 144 [] 0.5 144);
     V1.EmptyDict]
  = Raise KeyError /\
  exists a,
    Aggregation.aggregate_patient_metrics (fun _ => 0)
      (map V1.Metrics
         [V1.mkEpisodeMetrics (Some "a"%string) 0.8 0.1 0.7 5 2 0.3 144 [] 0.5 144;
          V1.mkEpisodeMetrics (Some "a"%string) 0.9 0.05 0.8 5 3 0.4 216 [] 0.5 216])
    = Ok (Aggregation.Aggregated a) /\
    Aggregation.am_n_episodes a = 2%nat /\
    Aggregation.am_total_apnea_events a = 5%Z.
Proof.
  split.
  - apply (proj1 (proj2 (aggregation_of_episode_metrics (fun _ => 0)))).
    right. left. reflexivity.
  - destruct (proj2 (proj2 (aggregation_of_episode_metrics (fun _ => 0)))
                [V1.mkEpisodeMetrics (Some "a"%string) 0.8 0.1 0.7 5 2 0.3 144 [] 0.5 144;
                 V1.mkEpisodeMetrics (Some "a"%string) 0.9 0.05 0.8 5 3 0.4 216 [] 0.5 216]
                ltac:(discriminate))
      as [a [Ha [Hn [Ht _]]]].
    exists a. split; [exact Ha |]. split; [exact Hn | exact Ht].
Defined.

(** ** [calculate_ece] outside the unit interval *)

Lemma In_removelast {A : Type} (x : A) (l : list A) :
  In x (removelast l) -> In x l.
Proof.
  induction l as [| y l IH]; [intros [] |].
  destruct l as [| z l]; [intros [] |].
  change (removelast (y :: z :: l)) with (y :: removelast (z :: l)).
  intros [H | H]; [left; exact H | right; apply IH; exact H].
Qed.

Lemma In_tl {A : Type} (x : A) (l : list A) : In x (tl l) -> In x l.
Proof. destruct l; [intros [] | intro H; right; exact H]. Qed.

Lemma linspace01_unit (n_bins : nat) (x : Q) :
  In x (Np.linspace01 n_bins) -> 0 <= x <= 1.
Proof.
  unfold Np.linspace01. intro H. apply in_map_iff in H.
  destruct H as [k [Hx Hk]]. apply in_seq in Hk. subst x.
  destruct n_bins as [| n].
  - assert (k = 0%nat) by lia. subst k. split; [apply Qle_refl | discriminate].
  - assert (Hpos : 0 < Np.float_of_len (S n)) by (apply float_of_len_pos; lia).
    assert (Hk0 := float_of_len_nonneg k).
    assert (Hkn : Np.float_of_len k <= Np.float_of_len (S n))
      by (apply float_of_len_le; lia).
    split.
    + apply Qle_shift_div_l; [exact Hpos | lra].
    + apply Qle_shift_div_r; [exact Hpos | lra].
Qed.

Lemma bins_of_linspace01_unit (n_bins : nat) (lo hi : Q) :
  In (lo, hi) (Np.bins_of (Np.linspace01 n_bins)) -> 0 <= lo /\ hi <= 1.
Proof.
  unfold Np.bins_of. intro H. split.
  - apply in_combine_l in H. apply In_removelast in H.
    apply (linspace01_unit n_bins lo H).
  - apply in_combine_r in H. apply In_tl in H.
    apply (linspace01_unit n_bins hi H).
Qed.

Lemma in_bin_outside (confidences : list Q) (lo hi : Q) :
  0 <= lo -> hi <= 1 ->
  Forall (fun c => c <= 0 \/ 1 < c) confidences ->
  Np.count_true (Np.in_bin confidences lo hi) = 0%nat.
Proof.
  intros Hlo Hhi. unfold Np.count_true, Np.in_bin.
  induction 1 as [| c cs Hc _ IH]; [reflexivity |].
  cbn [map filter].
  assert (E : Np.gt c lo && Np.le c hi = false).
  { destruct Hc as [Hc | Hc].
    - assert (G : Np.gt c lo = false) by (apply gt_false_iff; lra).
      rewrite G. reflexivity.
    - destruct (Np.le c hi) eqn:L.
      + apply le_true_iff in L. exfalso. lra.
      + apply andb_false_r. }
  rewrite E. exact IH.
Qed.

Lemma ece_loop_skips_empty_bins (confidences : list Q) (true_labels : list Z) :
  forall (bins : list (Q * Q)) (ece : Q),
    (forall lo hi, In (lo, hi) bins ->
                   Np.count_true (Np.in_bin confidences lo hi) = 0%nat) ->
    ece_loop bins confidences true_labels ece = Ok ece.
Proof.
  induction bins as [| [lo hi] bins IH]; intros ece H; [reflexivity |].
  cbn [ece_loop]. rewrite (H lo hi (or_introl eq_refl)).
  cbn [Nat.ltb Nat.leb]. apply IH.
  intros lo' hi' Hin. apply H. right. exact Hin.
Qed.

(** [calculate_ece] only looks at the confidences in (0, 1].  With
    confidences in [[0, 1]] and labels in {0, 1}, on a non-empty input, it
    returns a value in [[0, 1]].  Samples whose confidence is 0 or less, or
    more than 1, fall in no bin: when all of them are such, the result is 0
    whatever the labels, also when there are more or fewer labels than
    confidences. *)
Theorem calculate_ece_sees_the_unit_interval
    (confidences : list Q) (predictions true_labels : list Z) (n_bins : nat) :
  confidences <> [] ->
  (length confidences = length true_labels ->
   Forall (fun c => 0 <= c <= 1) confidences ->
   Forall (fun l => l = 0%Z \/ l = 1%Z) true_labels ->
   exists ece,
     Utils.calculate_ece confidences predictions true_labels n_bins = Ok ece /\
     0 <= ece <= 1) /\
  (Forall (fun c => c <= 0 \/ 1 < c) confidences ->
   exists ece,
     Utils.calculate_ece confidences predictions true_labels n_bins = Ok ece /\
     ece == 0).
Proof.
  intro Hne. split.
  - intros Hlen Hconf Hlab.
    apply calculate_ece_range; assumption.
  - intro Hout. unfold Utils.calculate_ece. cbv zeta.
    rewrite ece_loop_skips_empty_bins.
    + cbn [bind].
      destruct (Nat.eqb (length confidences) 0) eqn:E.
      * apply Nat.eqb_eq in E. destruct confidences; [contradiction | discriminate].
      * eexists. split; [reflexivity |]. unfold Qdiv. ring.
    + intros lo hi Hin.
      destruct (bins_of_linspace01_unit n_bins lo hi Hin) as [Hlo Hhi].
      apply in_bin_outside; assumption.
Qed.

Lemma calculate_ece_sees_the_unit_interval_witness :
  (exists ece,
     Utils.calculate_ece [0.1; 0.3; 0.5; 0.7; 0.9] [0; 0; 1; 1; 1]%Z
                         [0; 0; 1; 1; 1]%Z 10 = Ok ece /\
     0 <= ece <= 1) /\
  (exists ece,
     Utils.calculate_ece [0; 1.5] [0; 1]%Z [1]%Z 10 = Ok ece /\ ece == 0).
Proof.
  split.
  - apply (proj1 (calculate_ece_sees_the_unit_interval
                    [0.1; 0.3; 0.5; 0.7; 0.9] [0; 0; 1; 1; 1]%Z
                    [0; 0; 1; 1; 1]%Z 10 ltac:(discriminate))).
    + reflexivity.
    + repeat (constructor; [split; unfold Qle; simpl; lia |]). constructor.
    + repeat (constructor; [first [left; reflexivity | right; reflexivity] |]).
      constructor.
  - apply (proj2 (calculate_ece_sees_the_unit_interval
                    [0; 1.5] [0; 1]%Z [1]%Z 10 ltac:(discriminate))).
    constructor; [left; unfold Qle; simpl; lia |].
    constructor; [right; unfold Qlt; simpl; lia | constructor].
Defined.

(** * Properties of the model-2 environment *)

(** ** The diagnosed segments along an episode *)

Lemma StronglySorted_snoc {A : Type} (R : A -> A -> Prop) (l : list A) (x : A) :
  StronglySorted R l -> Forall (fun a => R a x) l -> StronglySorted R (l ++ [x]).
Proof.
  induction 1 as [| a l Hs IH Ha]; intro Hall.
  - simpl. constructor; constructor.
  - inversion Hall; subst. simpl. constructor.
    + apply IH. assumption.
    + apply Forall_app. split; [assumption | constructor; [assumption | constructor]].
Qed.

Lemma m2_diagnosis_ok_later (env env' : M2.ApneaDetectionEnv) (d : M2.Diagnosis) :
  M2.labels env' = M2.labels env ->
  (M2.current_segment_idx env <= M2.current_segment_idx env')%nat ->
  M2Records.diagnosis_ok env d -> M2Records.diagnosis_ok env' d.
Proof.
  intros Hl Hc [H1 [H2 [H3 H4]]]. unfold M2Records.diagnosis_ok.
  rewrite Hl. repeat split; try assumption. lia.
Qed.

(** One step of a well-formed environment whose cursor is inside the
    record: it returns, keeps the environment well formed and its
    diagnoses consistent, and reports what it did. *)
Lemma m2_step_consistent (env : M2.ApneaDetectionEnv) (action : Z) :
  M2Records.well_formed env ->
  M2Records.consistent env ->
  (M2.current_segment_idx env < length (M2.audio_segments env))%nat ->
  exists env' out,
    M2.step env action = Ok (env', out) /\
    M2Records.well_formed env' /\
    M2Records.consistent env' /\
    M2.audio_segments env' = M2.audio_segments env /\
    M2.labels env' = M2.labels env /\
    M2.sr_truncated out = false /\
    (M2.sr_done out = false ->
     (M2.current_segment_idx env' < length (M2.audio_segments env'))%nat /\
     M2.escalated env' = M2.escalated env) /\
    (action = 0%Z \/ action = 1%Z ->
     M2.current_segment_idx env' = S (M2.current_segment_idx env) /\
     M2.escalated env' = M2.escalated env) /\
    (action = 2%Z -> M2.sr_done out = true /\ M2.escalated env' = true /\
                     M2.sr_reward out = -0.1) /\
    (action <> 0%Z -> action <> 1%Z -> action <> 2%Z ->
     env' = env /\ M2.sr_done out = false) /\
    (action <> 1%Z ->
     M2.diagnosed_segments env' = M2.diagnosed_segments env /\
     (action <> 2%Z -> M2.sr_reward out = 0.0)) /\
    (action = 1%Z ->
     exists d,
       M2.diagnosed_segments env' = M2.diagnosed_segments env ++ [d] /\
       M2.dg_segment_idx d = M2.current_segment_idx env /\
       M2.sr_reward out = M2.dg_reward d).
Proof.
  intros [Hlen [Hne Hlab]] [Hall Hsorted] Hcur.
  assert (Hdiag : action = 1%Z ->
                  (M2.current_segment_idx env < length (M2.labels env))%nat)
    by (intros _; lia).
  destruct (m2_step_returns env action Hlen Hne Hdiag)
    as [env' [obs [reward [done [Hstep [Hf [Ha [Hl Hcases]]]]]]]].
  eexists. eexists. split; [exact Hstep |].
  cbn [M2.sr_done M2.sr_truncated M2.sr_reward].
  assert (Hwf : M2Records.well_formed env').
  { unfold M2Records.well_formed. rewrite Hf, Ha, Hl. repeat split; assumption. }
  split; [exact Hwf |].
  destruct Hcases as [[Ea [Ed [Er He]]] | [[Ea [Ed [l [Hnth [Er He]]]]]
                     | [[Ea [Ed [Er He]]] | [N0 [N1 [N2 [Ed [Er He]]]]]]]];
    subst done.
  - (* WAIT *)
    subst action reward env'.
    unfold M2.set_current_segment_idx in *.
    cbn [M2.current_segment_idx M2.audio_segments
         M2.labels M2.escalated M2.diagnosed_segments] in *.
    split.
    { split; [| exact Hsorted].
      revert Hall. apply Forall_impl. intro d.
      apply m2_diagnosis_ok_later; [reflexivity | simpl; lia]. }
    split; [reflexivity |]. split; [reflexivity |]. split; [reflexivity |].
    split.
    { intro Hd. rewrite orb_false_r in Hd. apply Nat.leb_gt in Hd.
      split; [exact Hd | reflexivity]. }
    split; [intros _; split; reflexivity |].
    split; [discriminate |].
    split; [intros K; contradiction |].
    split; [intros _; split; [reflexivity | intros _; reflexivity] |].
    discriminate.
  - (* DIAGNOSE *)
    subst action reward env'.
    unfold M2.set_current_segment_idx, M2.record_diagnosis in *.
    cbn [M2.current_segment_idx
         M2.audio_segments M2.labels M2.escalated M2.diagnosed_segments] in *.
    set (d := M2.mkDiagnosis (M2.current_segment_idx env) l
                M2.placeholder_confidence
                (M2.diagnose_reward M2.placeholder_confidence l)).
    split.
    { split.
      - apply Forall_app. split.
        + revert Hall. apply Forall_impl. intro d0.
          apply m2_diagnosis_ok_later; [reflexivity | simpl; lia].
        + constructor; [| constructor].
          unfold M2Records.diagnosis_ok. cbn [M2.labels M2.current_segment_idx].
          unfold d. cbn [M2.dg_segment_idx M2.dg_label M2.dg_confidence M2.dg_reward].
          split; [exact Hnth |]. split; [reflexivity |].
          split; [reflexivity | lia].
      - apply StronglySorted_snoc; [exact Hsorted |].
        revert Hall. apply Forall_impl. intros d0 [_ [_ [_ H4]]]. exact H4. }
    split; [reflexivity |]. split; [reflexivity |]. split; [reflexivity |].
    split.
    { intro Hd. rewrite orb_false_r in Hd. apply Nat.leb_gt in Hd.
      split; [exact Hd | reflexivity]. }
    split; [intros _; split; reflexivity |].
    split; [discriminate |].
    split; [intros _ K; contradiction |].
    split; [intros K; contradiction |].
    intros _. exists d. repeat split.
  - (* ESCALATE *)
    subst action reward env'.
    unfold M2.set_escalated in *.
    cbn [M2.current_segment_idx M2.audio_segments
         M2.labels M2.escalated M2.diagnosed_segments] in *.
    split.
    { split; [| exact Hsorted].
      revert Hall. apply Forall_impl. intro d.
      apply m2_diagnosis_ok_later; [reflexivity | simpl; lia]. }
    split; [reflexivity |]. split; [reflexivity |]. split; [reflexivity |].
    split; [rewrite orb_true_r; discriminate |].
    split; [intros [K | K]; discriminate |].
    split; [intros _; rewrite orb_true_r; repeat split |].
    split; [intros _ _ K; contradiction |].
    split; [intros _; split; [reflexivity | intro K; contradiction] |].
    discriminate.
  - (* any other value *)
    subst reward env'.
    split; [split; assumption |].
    split; [reflexivity |]. split; [reflexivity |]. split; [reflexivity |].
    assert (Hd : Nat.leb (length (M2.audio_segments env))
                         (M2.current_segment_idx env) || false = false).
    { rewrite orb_false_r. apply Nat.leb_gt. exact Hcur. }
    split; [intros _; split; [exact Hcur | reflexivity] |].
    split; [intros [K | K]; contradiction |].
    split; [intros K; contradiction |].
    split; [intros _ _ _; split; [reflexivity | exact Hd] |].
    split; [intros _; split; [reflexivity | intros _; reflexivity] |].
    intro K. contradiction.
Qed.

Lemma m2_reset_ok (env : M2.ApneaDetectionEnv) :
  M2Records.well_formed env ->
  exists env0 obs,
    M2.reset env
    = Ok (env0, (obs, M2.mkResetInfo 0 (length (M2.audio_segments env)) 0 false)) /\
    nth_error (M2.features env) 0 = Some obs /\
    M2Records.well_formed env0 /\
    M2Records.consistent env0 /\
    M2.current_segment_idx env0 = 0%nat /\
    M2.diagnosed_segments env0 = [] /\
    M2.escalated env0 = false /\
    M2.audio_segments env0 = M2.audio_segments env /\
    M2.labels env0 = M2.labels env /\
    (0 < length (M2.audio_segments env))%nat.
Proof.
  intros [Hlen [Hne Hlab]]. unfold M2.reset.
  destruct (M2.features env) as [| f fs] eqn:Ef; [contradiction |].
  cbn [Np.index nth_error bind].
  eexists. eexists. split; [reflexivity |].
  split; [reflexivity |].
  split.
  { unfold M2Records.well_formed.
    cbn [M2.features M2.audio_segments M2.labels].
    split; [exact Hlen |]. split; assumption. }
  split; [split; constructor |].
  repeat (split; [reflexivity |]).
  rewrite <- Hlen. simpl. lia.
Qed.

Lemma m2_run_consistent (script : list Z) :
  forall env : M2.ApneaDetectionEnv,
    M2Records.well_formed env ->
    M2Records.consistent env ->
    (M2.current_segment_idx env < length (M2.audio_segments env))%nat ->
    exists env' outs,
      M2.run_episode env script = Ok (env', outs) /\
      M2Records.well_formed env' /\
      M2Records.consistent env' /\
      M2.audio_segments env' = M2.audio_segments env /\
      M2.labels env' = M2.labels env /\
      (length outs <= length script)%nat /\
      Forall (fun out => M2.sr_truncated out = false) outs /\
      (M2.current_segment_idx env' <= length (M2.audio_segments env))%nat.
Proof.
  induction script as [| action script IH]; intros env Hwf Hcons Hcur.
  - exists env, []. split; [reflexivity |].
    repeat (split; [first [assumption | reflexivity | constructor] |]). lia.
  - destruct (m2_step_consistent env action Hwf Hcons Hcur)
      as [env1 [out [Hstep [Hwf1 [Hcons1 [Ha1 [Hl1 [Htr [Hnd [Hwd _]]]]]]]]]].
    cbn [M2.run_episode]. rewrite Hstep. cbn [bind].
    destruct (M2.sr_done out) eqn:Ed.
    + exists env1, [out]. split; [reflexivity |].
      split; [exact Hwf1 |]. split; [exact Hcons1 |].
      split; [exact Ha1 |]. split; [exact Hl1 |].
      split; [simpl; lia |].
      split; [constructor; [exact Htr | constructor] |].
      destruct (Z.eq_dec action 0) as [E0 | N0];
        [destruct (Hwd (or_introl E0)) as [Hc _]; lia |].
      destruct (Z.eq_dec action 1) as [E1 | N1];
        [destruct (Hwd (or_intror E1)) as [Hc _]; lia |].
      destruct (m2_step_returns env action) as [e [o [r [dn [Hs [_ [_ [_ Hc]]]]]]]].
      * destruct Hwf as [H _]. exact H.
      * destruct Hwf as [_ [H _]]. exact H.
      * intro K. contradiction.
      * rewrite Hstep in Hs. inversion Hs; subst e.
        destruct Hc as [[K _] | [[K _] | [[_ [_ [_ He]]] | [_ [_ [_ [_ [_ He]]]]]]]];
          try contradiction; subst env1; simpl; lia.
    + destruct (Hnd eq_refl) as [Hcur1 _].
      destruct (IH env1 Hwf1 Hcons1 Hcur1)
        as [env' [outs [Hrun [Hwf' [Hcons' [Ha' [Hl' [Hlo [Hft Hc']]]]]]]]].
      rewrite Hrun. cbn [bind]. exists env', (out :: outs).
      split; [reflexivity |]. split; [exact Hwf' |]. split; [exact Hcons' |].
      split; [congruence |]. split; [congruence |].
      split; [simpl; lia |].
      split; [constructor; assumption |].
      rewrite <- Ha1. exact Hc'.
Qed.

Lemma m2_sorted_below (c : nat) (ds : list M2.Diagnosis) :
  StronglySorted (fun a b => (M2.dg_segment_idx a < M2.dg_segment_idx b)%nat) ds ->
  forall lo : nat,
    Forall (fun d => (lo <= M2.dg_segment_idx d < c)%nat) ds ->
    (length ds <= c - lo)%nat.
Proof.
  induction 1 as [| a l Hs IH Ha]; intros lo Hall.
  - simpl. lia.
  - inversion Hall as [| x xs Hx Hrest]; subst.
    assert (Hl : Forall (fun d => (S (M2.dg_segment_idx a)
                                   <= M2.dg_segment_idx d < c)%nat) l).
    { rewrite Forall_forall in *. intros d Hd.
      specialize (Ha d Hd). specialize (Hrest d Hd). lia. }
    specialize (IH (S (M2.dg_segment_idx a)) Hl). simpl. lia.
Qed.

(** From [reset], whatever actions follow (also values that are no action),
    the episode loop of [demo.py] and of the training callback raises
    nothing on an environment with a spectrogram per segment and a label
    for every segment.  Every entry of [diagnosed_segments] carries the
    label of its own segment, the confidence 0.7 and the reward of the two;
    the entries come in increasing order of segment, so there are never
    more of them than segments the cursor has passed; the cursor does not
    leave the record, and no step returns [truncated]. *)
Theorem model2_diagnoses_follow_the_record
    (env : M2.ApneaDetectionEnv) (script : list Z) :
  M2Records.well_formed env ->
  exists env0 obs info env' outs,
    M2.reset env = Ok (env0, (obs, info)) /\
    M2.run_episode env0 script = Ok (env', outs) /\
    M2Records.consistent env' /\
    (length outs <= length script)%nat /\
    Forall (fun out => M2.sr_truncated out = false) outs /\
    (length (M2.diagnosed_segments env') <= M2.current_segment_idx env')%nat /\
    (M2.current_segment_idx env' <= length (M2.audio_segments env))%nat.
Proof.
  intro Hwf.
  destruct (m2_reset_ok env Hwf)
    as [env0 [obs [Hreset [_ [Hwf0 [Hcons0 [Hc0 [_ [_ [Ha0 [_ Hpos]]]]]]]]]]].
  assert (Hcur0 : (M2.current_segment_idx env0 < length (M2.audio_segments env0))%nat)
    by (rewrite Hc0, Ha0; exact Hpos).
  destruct (m2_run_consistent script env0 Hwf0 Hcons0 Hcur0)
    as [env' [outs [Hrun [_ [Hcons' [_ [_ [Hlo [Hft Hc']]]]]]]]].
  exists env0, obs, (M2.mkResetInfo 0 (length (M2.audio_segments env)) 0 false),
         env', outs.
  split; [exact Hreset |]. split; [exact Hrun |]. split; [exact Hcons' |].
  split; [exact Hlo |]. split; [exact Hft |].
  split; [| rewrite <- Ha0; exact Hc'].
  destruct Hcons' as [Hall Hsorted].
  assert (H := m2_sorted_below (M2.current_segment_idx env')
                 (M2.diagnosed_segments env') Hsorted 0).
  rewrite Nat.sub_0_r in H. apply H.
  revert Hall. apply Forall_impl. intros d [_ [_ [_ H4]]]. lia.
Qed.

Lemma model2_diagnoses_follow_the_record_witness :
  exists env0 obs info env' outs,
    M2.reset Examples.m2_ready = Ok (env0, (obs, info)) /\
    M2.run_episode env0 [1; 0; 7; 1]%Z = Ok (env', outs) /\
    M2Records.consistent env' /\
    (length outs <= length [1; 0; 7; 1]%Z)%nat /\
    Forall (fun out => M2.sr_truncated out = false) outs /\
    (length (M2.diagnosed_segments env') <= M2.current_segment_idx env')%nat /\
    (M2.current_segment_idx env'
     <= length (M2.audio_segments Examples.m2_ready))%nat.
Proof.
  apply (model2_diagnoses_follow_the_record Examples.m2_ready [1; 0; 7; 1]%Z).
  split; [reflexivity |]. split; [discriminate |]. simpl. lia.
Defined.

(** ** The results of a model-2 episode *)

Lemma sort_repeat (c : Q) (n : nat) : Np.sort (repeat c n) = repeat c n.
Proof.
  unfold Np.sort. induction n as [| n IH]; [reflexivity |].
  cbn [repeat fold_right]. rewrite IH.
  destruct n as [| n]; [reflexivity |].
  cbn [repeat Np.insert_sorted].
  assert (E : Np.le c c = true) by (apply le_true_iff; apply Qle_refl).
  rewrite E. reflexivity.
Qed.

Lemma nth_repeat_lt (c d : Q) (n k : nat) :
  (k < n)%nat -> nth k (repeat c n) d = c.
Proof.
  revert k. induction n as [| n IH]; intros k H; [lia |].
  destruct k as [| k]; [reflexivity |]. simpl. apply IH. lia.
Qed.

Lemma median_repeat (c : Q) (n : nat) :
  (0 < n)%nat -> Np.median (repeat c n) == c.
Proof.
  intro Hn. unfold Np.median. cbv zeta.
  rewrite sort_repeat, repeat_length.
  assert (H2 : (n / 2 < n)%nat) by (apply Nat.div_lt; lia).
  destruct (Nat.even n).
  - rewrite !nth_repeat_lt by lia. field.
  - rewrite nth_repeat_lt by lia. reflexivity.
Qed.

Lemma map_constant {A B : Type} (f : A -> B) (c : B) (xs : list A) :
  Forall (fun x => f x = c) xs -> map f xs = repeat c (length xs).
Proof.
  induction 1 as [| x xs Hx _ IH]; [reflexivity |].
  simpl. rewrite Hx, IH. reflexivity.
Qed.

Lemma in_bin_repeat (c lo hi : Q) (n : nat) :
  Np.in_bin (repeat c n) lo hi = repeat (Np.gt c lo && Np.le c hi) n.
Proof.
  unfold Np.in_bin. induction n as [| n IH]; [reflexivity |].
  simpl. rewrite IH. reflexivity.
Qed.

Lemma count_true_repeat (b : bool) (n : nat) :
  Np.count_true (repeat b n) = if b then n else 0%nat.
Proof.
  unfold Np.count_true. induction n as [| n IH]; [destruct b; reflexivity |].
  destruct b; simpl in *; rewrite IH; reflexivity.
Qed.

Lemma select_repeat_true {A : Type} (n : nat) (xs : list A) :
  length xs = n -> Np.select (repeat true n) xs = xs.
Proof.
  intro H. subst n. induction xs as [| x xs IH]; [reflexivity |].
  simpl. rewrite IH. reflexivity.
Qed.

Lemma sum_repeat (c : Q) (n : nat) :
  Np.sum (repeat c n) == Np.float_of_len n * c.
Proof.
  unfold Np.sum, Np.float_of_len. induction n as [| n IH].
  - simpl. ring.
  - cbn [repeat fold_right]. rewrite IH, Nat2Z.inj_succ.
    unfold Z.succ. rewrite inject_Z_plus. change (inject_Z 1) with 1. ring.
Qed.

Lemma mean_repeat (c : Q) (n : nat) :
  (0 < n)%nat -> Np.mean (repeat c n) == c.
Proof.
  intro Hn. unfold Np.mean. rewrite sum_repeat, repeat_length.
  assert (Hpos := float_of_len_pos n Hn). field. lra.
Qed.

(** With one confidence for all the samples, each bin that holds the
    confidence adds the number of samples times the distance between the
    mean label and the confidence, and the other bins add nothing. *)
Lemma m2_ece_loop_constant (c : Q) (labels : list Z) :
  (0 < length labels)%nat ->
  forall (bins : list (Q * Q)) (ece : Q),
    exists ece',
      M2.ece_loop bins labels (repeat c (length labels)) ece = Ok ece' /\
      ece' == ece
              + Np.float_of_len
                  (length (filter (fun b => Np.gt c (fst b) && Np.le c (snd b))
                                  bins))
                * (Np.float_of_len (length labels)
                   * Qabs (Np.float_of_int (Np.isum labels)
                           / Np.float_of_len (length labels) - c)).
Proof.
  intro Hn. set (n := length labels) in *.
  induction bins as [| [lo hi] bins IH]; intro ece.
  - exists ece. split; [reflexivity |]. cbn [filter length].
    change (Np.float_of_len 0) with 0. ring.
  - cbn [M2.ece_loop filter fst snd]. cbv zeta.
    rewrite in_bin_repeat, count_true_repeat.
    destruct (Np.gt c lo && Np.le c hi) eqn:E.
    + assert (Hlt : Nat.ltb 0 n = true) by (apply Nat.ltb_lt; exact Hn).
      rewrite Hlt.
      rewrite (mask_index_ok labels) by (rewrite repeat_length; reflexivity).
      cbn [bind].
      rewrite (mask_index_ok (repeat c n))
        by (rewrite !repeat_length; reflexivity).
      cbn [bind].
      rewrite (select_repeat_true n labels eq_refl).
      rewrite (select_repeat_true n (repeat c n) (repeat_length c n)).
      match goal with
      | |- context [M2.ece_loop bins labels (repeat c n) ?e] =>
          destruct (IH e) as [ece' [Hrun Heq]]
      end.
      exists ece'. split; [exact Hrun |]. rewrite Heq.
      cbn [length]. 
      assert (Hmean := mean_repeat c n Hn).
      assert (Habs : Qabs (Np.float_of_int (Np.isum labels) / Np.float_of_len n
                           - Np.mean (repeat c n))
                     == Qabs (Np.float_of_int (Np.isum labels) / Np.float_of_len n
                              - c)).
      { apply Qabs_wd. rewrite Hmean. reflexivity. }
      rewrite Habs.
      assert (Hs : Np.float_of_len (S (length (filter
                      (fun b => Np.gt c (fst b) && Np.le c (snd b)) bins)))
                   == 1 + Np.float_of_len (length (filter
                      (fun b => Np.gt c (fst b) && Np.le c (snd b)) bins))).
      { apply (float_of_len_add 1). }
      rewrite Hs. ring.
    + change (Nat.ltb 0 0) with false. cbv iota.
      destruct (IH ece) as [ece' [Hrun Heq]].
      exists ece'. split; [exact Hrun | exact Heq].
Qed.

Lemma m2_reward_sum (ds : list M2.Diagnosis) :
  Forall (fun d =>
            (M2.dg_label d = 0%Z \/ M2.dg_label d = 1%Z) /\
            M2.dg_reward d
            = M2.diagnose_reward M2.placeholder_confidence (M2.dg_label d)) ds ->
  Np.sum (map M2.dg_reward ds)
  == 1.4 * inject_Z (Np.isum (map M2.dg_label ds))
     - 0.49 * Np.float_of_len (length ds) /\
  (0 <= Np.isum (map M2.dg_label ds) <= Z.of_nat (length ds))%Z.
Proof.
  unfold Np.sum, Np.isum, Np.float_of_len.
  induction 1 as [| d ds [Hl Hr] _ [IH1 IH2]].
  - simpl. split; [reflexivity | lia].
  - cbn [map fold_right length]. rewrite Hr, IH1.
    rewrite Nat2Z.inj_succ. unfold Z.succ. rewrite !inject_Z_plus.
    change (inject_Z 1) with 1.
    destruct Hl as [-> | ->].
    + split; [| lia].
      unfold M2.diagnose_reward, M2.placeholder_confidence, Np.float_of_int.
      cbv zeta. change (inject_Z 0) with 0. ring.
    + split; [| lia].
      unfold M2.diagnose_reward, M2.placeholder_confidence, Np.float_of_int.
      cbv zeta. change (inject_Z 1) with 1. ring.
Qed.

Lemma m2_calculate_ece_constant (labels : list Z) :
  (0 < length labels)%nat ->
  exists ece,
    M2._calculate_ece labels (repeat M2.placeholder_confidence (length labels)) 10
    = Ok ece /\
    ece == Qabs (Np.float_of_int (Np.isum labels) / Np.float_of_len (length labels)
                 - M2.placeholder_confidence).
Proof.
  intro Hn. unfold M2._calculate_ece. cbv zeta.
  destruct (m2_ece_loop_constant M2.placeholder_confidence labels Hn
              (Np.bins_of (Np.linspace01 10)) 0.0) as [e [Hrun He]].
  rewrite Hrun. cbn [bind].
  destruct (Nat.eqb (length labels) 0) eqn:E0;
    [apply Nat.eqb_eq in E0; lia |].
  eexists. split; [reflexivity |].
  assert (Hone : length (filter
                           (fun b => Np.gt M2.placeholder_confidence (fst b)
                                     && Np.le M2.placeholder_confidence (snd b))
                           (Np.bins_of (Np.linspace01 10))) = 1%nat)
    by (vm_compute; reflexivity).
  rewrite Hone in He. rewrite He.
  assert (Hpos := float_of_len_pos _ Hn).
  change (Np.float_of_len 1) with 1. field. lra.
Qed.

Lemma m2_results_ok (env : M2.ApneaDetectionEnv) :
  M2Records.consistent env ->
  M2.diagnosed_segments env <> [] ->
  exists r,
    M2.get_episode_results env = Ok (M2.Results r) /\
    M2.er_total_segments r = length (M2.diagnosed_segments env) /\
    (M2.er_apnea_count r + M2.er_normal_count r)%Z
    = Z.of_nat (M2.er_total_segments r) /\
    M2.er_severity r
    = Np.float_of_int (M2.er_apnea_count r)
      / Np.float_of_len (M2.er_total_segments r) /\
    M2.er_median_confidence r == 0.7 /\
    M2.er_ece r == Qabs (M2.er_severity r - 0.7) /\
    M2.er_diagnosed_segments r = M2.diagnosed_segments env /\
    (Forall (fun l => l = 0%Z \/ l = 1%Z) (M2.labels env) ->
     0 <= M2.er_severity r <= 1 /\
     M2.er_mean_reward r == 1.4 * M2.er_severity r - 0.49).
Proof.
  intros [Hall _] Hne.
  unfold M2.get_episode_results.
  destruct (M2.diagnosed_segments env) as [| d0 ds0] eqn:Eds; [contradiction |].
  cbv zeta. rewrite <- Eds in *. set (ds := M2.diagnosed_segments env) in *.
  assert (Hn : (0 < length ds)%nat) by (rewrite Eds; simpl; lia).
  assert (Hconf : map M2.dg_confidence ds
                  = repeat M2.placeholder_confidence (length (map M2.dg_label ds))).
  { rewrite length_map. apply map_constant.
    revert Hall. apply Forall_impl. intros d [_ [H _]]. exact H. }
  assert (Hn' : (0 < length (map M2.dg_label ds))%nat)
    by (rewrite length_map; exact Hn).
  destruct (m2_calculate_ece_constant (map M2.dg_label ds) Hn') as [ece [Hece He]].
  rewrite Hconf, Hece. cbn [bind].
  eexists. split; [reflexivity |].
  cbn [M2.er_total_segments M2.er_apnea_count M2.er_normal_count M2.er_severity
       M2.er_median_confidence M2.er_ece M2.er_mean_reward
       M2.er_diagnosed_segments].
  split; [reflexivity |]. split; [lia |]. split; [reflexivity |].
  split.
  { rewrite length_map. apply (median_repeat M2.placeholder_confidence _ Hn). }
  split.
  { rewrite He, length_map. reflexivity. }
  split; [reflexivity |].
  intro Hlabels.
  assert (Hds : Forall (fun d =>
                          (M2.dg_label d = 0%Z \/ M2.dg_label d = 1%Z) /\
                          M2.dg_reward d
                          = M2.diagnose_reward M2.placeholder_confidence
                                               (M2.dg_label d)) ds).
  { revert Hall. apply Forall_impl. intros d [H1 [_ [H3 _]]].
    split; [| exact H3].
    rewrite Forall_forall in Hlabels. apply Hlabels.
    apply (nth_error_In _ _ H1). }
  destruct (m2_reward_sum ds Hds) as [Hsum [Hlo Hhi]].
  assert (Hpos := float_of_len_pos _ Hn).
  assert (Hcount : 0 <= Np.float_of_int (Np.isum (map M2.dg_label ds))
                   /\ Np.float_of_int (Np.isum (map M2.dg_label ds))
                      <= Np.float_of_len (length ds)).
  { unfold Np.float_of_int, Np.float_of_len. change 0 with (inject_Z 0).
    rewrite <- !Zle_Qle. lia. }
  split.
  - split.
    + apply Qle_shift_div_l; [exact Hpos | lra].
    + apply Qle_shift_div_r; [exact Hpos | lra].
  - unfold Np.mean. rewrite length_map, Hsum. unfold Np.float_of_int.
    field. lra.
Qed.

(** What [get_episode_results] reports after an episode with at least one
    DIAGNOSE: [total_segments] is the number of diagnosed segments, which
    [apnea_count] and [normal_count] split; [severity] is the fraction of
    diagnosed segments labelled apnea; [median_confidence] is the
    placeholder 0.7; and [ece], all confidences falling in one bin, is the
    distance between [severity] and 0.7.  With labels in {0, 1},
    [severity] is in [[0, 1]] and [mean_reward] is [1.4 * severity - 0.49]:
    a DIAGNOSE earns 0.91 on an apnea segment and -0.49 on a normal one. *)
Theorem model2_results_of_an_episode (env : M2.ApneaDetectionEnv) :
  M2Records.consistent env ->
  M2.diagnosed_segments env <> [] ->
  exists r,
    M2.get_episode_results env = Ok (M2.Results r) /\
    M2.er_total_segments r = length (M2.diagnosed_segments env) /\
    (M2.er_apnea_count r + M2.er_normal_count r)%Z
    = Z.of_nat (M2.er_total_segments r) /\
    M2.er_severity r
    = Np.float_of_int (M2.er_apnea_count r)
      / Np.float_of_len (M2.er_total_segments r) /\
    M2.er_median_confidence r == 0.7 /\
    M2.er_ece r == Qabs (M2.er_severity r - 0.7) /\
    M2.er_diagnosed_segments r = M2.diagnosed_segments env /\
    (Forall (fun l => l = 0%Z \/ l = 1%Z) (M2.labels env) ->
     0 <= M2.er_severity r <= 1 /\
     M2.er_mean_reward r == 1.4 * M2.er_severity r - 0.49).
Proof. apply m2_results_ok. Qed.

Lemma model2_results_of_an_episode_witness :
  exists r,
    M2.get_episode_results
      (M2.mkEnv [[0; 0]; [1; 1]; [2; 2]] [0; 1; 1]%Z 10.0 16000 3
         [M2.mkDiagnosis 0 0 0.7 (M2.diagnose_reward 0.7 0);
          M2.mkDiagnosis 2 1 0.7 (M2.diagnose_reward 0.7 1)]
         false [[[1]]; [[2]]; [[3]]])
    = Ok (M2.Results r) /\
    M2.er_total_segments r = 2%nat /\
    (M2.er_apnea_count r + M2.er_normal_count r)%Z
    = Z.of_nat (M2.er_total_segments r) /\
    M2.er_severity r
    = Np.float_of_int (M2.er_apnea_count r)
      / Np.float_of_len (M2.er_total_segments r) /\
    M2.er_median_confidence r == 0.7 /\
    M2.er_ece r == Qabs (M2.er_severity r - 0.7) /\
    M2.er_diagnosed_segments r
    = [M2.mkDiagnosis 0 0 0.7 (M2.diagnose_reward 0.7 0);
       M2.mkDiagnosis 2 1 0.7 (M2.diagnose_reward 0.7 1)] /\
    (Forall (fun l => l = 0%Z \/ l = 1%Z) [0; 1; 1]%Z ->
     0 <= M2.er_severity r <= 1 /\
     M2.er_mean_reward r == 1.4 * M2.er_severity r - 0.49).
Proof.
  apply (model2_results_of_an_episode
           (M2.mkEnv [[0; 0]; [1; 1]; [2; 2]] [0; 1; 1]%Z 10.0 16000 3
              [M2.mkDiagnosis 0 0 0.7 (M2.diagnose_reward 0.7 0);
               M2.mkDiagnosis 2 1 0.7 (M2.diagnose_reward 0.7 1)]
              false [[[1]]; [[2]]; [[3]]])).
  - split.
    + constructor; [repeat split; simpl; lia |].
      constructor; [repeat split; simpl; lia | constructor].
    + repeat constructor.
  - discriminate.
Defined.

(** ** The evaluation of an episode by the model-2 agent *)

Lemma np_sum_app (xs ys : list Q) :
  Np.sum (xs ++ ys) == Np.sum xs + Np.sum ys.
Proof.
  unfold Np.sum. induction xs as [| x xs IH]; simpl; [ring |].
  rewrite IH. ring.
Qed.

Lemma m2_loop_returns (predict : M2.spectrogram -> Z * Q) (fuel : nat) :
  (forall obs, fst (predict obs) = 0%Z \/ fst (predict obs) = 1%Z
               \/ fst (predict obs) = 2%Z) ->
  forall (env : M2.ApneaDetectionEnv) (obs : M2.spectrogram) (total_reward : Q)
         (episode_length : nat) (predictions : list M2Agent.Prediction),
    M2Records.well_formed env ->
    M2Records.consistent env ->
    (M2.current_segment_idx env < length (M2.audio_segments env))%nat ->
    M2.escalated env = false ->
    (length (M2.audio_segments env) - M2.current_segment_idx env <= fuel)%nat ->
    exists env' total_reward' n predictions',
      M2Agent.episode_loop predict fuel env obs total_reward episode_length
                           predictions
      = Ok (Some (env', (total_reward', n, predictions'))) /\
      M2Records.consistent env' /\
      M2.audio_segments env' = M2.audio_segments env /\
      (episode_length < n)%nat /\
      (n <= episode_length
            + (length (M2.audio_segments env) - M2.current_segment_idx env))%nat /\
      exists new_diagnoses new_predictions,
        M2.diagnosed_segments env' = M2.diagnosed_segments env ++ new_diagnoses /\
        predictions' = predictions ++ new_predictions /\
        map M2Agent.pr_reward new_predictions = map M2.dg_reward new_diagnoses /\
        Forall (fun p => M2Agent.pr_action p = 1%Z) new_predictions /\
        total_reward'
        == total_reward + Np.sum (map M2.dg_reward new_diagnoses)
           + (if M2.escalated env' then -0.1 else 0).
Proof.
  intro Hpolicy.
  induction fuel as [| fuel IH];
    intros env obs total len preds Hwf Hcons Hcur Hesc Hfuel; [lia |].
  cbn [M2Agent.episode_loop].
  specialize (Hpolicy obs) as Hact.
  destruct (predict obs) as [action confidence]. cbn [fst] in Hact.
  destruct (m2_step_consistent env action Hwf Hcons Hcur)
    as [env1 [out [Hstep [Hwf1 [Hcons1 [Ha1 [Hl1 [_ [Hnd [Hwd [H2 [_ [Hn1 H1]]]]]]]]]]]]].
  rewrite Hstep. cbn [bind]. cbv zeta.
  assert (Hnew : exists new_ds new_ps,
             M2.diagnosed_segments env1 = M2.diagnosed_segments env ++ new_ds /\
             (if Z.eqb action 1
              then preds ++ [M2Agent.mkPrediction action confidence (M2.sr_reward out)]
              else preds) = preds ++ new_ps /\
             map M2Agent.pr_reward new_ps = map M2.dg_reward new_ds /\
             Forall (fun p => M2Agent.pr_action p = 1%Z) new_ps /\
             M2.sr_reward out
             == Np.sum (map M2.dg_reward new_ds)
                + (if M2.escalated env1 then -0.1 else 0)).
  { destruct (Z.eq_dec action 1) as [E1 | N1].
    - subst action. destruct (H1 eq_refl) as [d [Hd [_ Hr]]].
      destruct (Hwd (or_intror eq_refl)) as [_ He]. rewrite He, Hesc.
      exists [d], [M2Agent.mkPrediction 1 confidence (M2.sr_reward out)].
      split; [exact Hd |]. split; [reflexivity |].
      split; [simpl; rewrite Hr; reflexivity |].
      split; [constructor; [reflexivity | constructor] |].
      rewrite Hr. unfold Np.sum. simpl. ring.
    - destruct (Hn1 N1) as [Hd Hr].
      assert (E : Z.eqb action 1 = false) by (apply Z.eqb_neq; exact N1).
      rewrite E. exists [], [].
      split; [rewrite app_nil_r; exact Hd |].
      split; [rewrite app_nil_r; reflexivity |].
      split; [reflexivity |]. split; [constructor |].
      destruct (Z.eq_dec action 2) as [E2 | N2].
      + destruct (H2 E2) as [_ [He Hrw]]. rewrite He, Hrw.
        unfold Np.sum. simpl. ring.
      + rewrite (Hr N2).
        assert (E0 : action = 0%Z) by (destruct Hact as [K | [K | K]]; congruence).
        destruct (Hwd (or_introl E0)) as [_ He]. rewrite He, Hesc.
        unfold Np.sum. simpl. ring. }
  destruct Hnew as [new_ds [new_ps [Hds [Hps [Hmap [Hfa Hrw]]]]]].
  rewrite Hps.
  destruct (M2.sr_done out) eqn:Ed.
  - exists env1, (total + M2.sr_reward out), (S len), (preds ++ new_ps).
    split; [reflexivity |]. split; [exact Hcons1 |]. split; [exact Ha1 |].
    split; [lia |]. split; [lia |].
    exists new_ds, new_ps. split; [exact Hds |]. split; [reflexivity |].
    split; [exact Hmap |]. split; [exact Hfa |].
    rewrite Hrw. ring.
  - destruct (Hnd eq_refl) as [Hcur1 Hesc1].
    assert (Hmove : M2.current_segment_idx env1 = S (M2.current_segment_idx env)).
    { destruct Hact as [K | [K | K]].
      - apply (Hwd (or_introl K)).
      - apply (Hwd (or_intror K)).
      - destruct (H2 K) as [Hdone _]. congruence. }
    assert (Hesc' : M2.escalated env1 = false) by congruence.
    assert (Hfuel' : (length (M2.audio_segments env1)
                      - M2.current_segment_idx env1 <= fuel)%nat)
      by (rewrite Ha1, Hmove; lia).
    destruct (IH env1 (M2.sr_obs out) (total + M2.sr_reward out) (S len)
                 (preds ++ new_ps) Hwf1 Hcons1 Hcur1 Hesc' Hfuel')
      as [env' [total' [n [preds' [Hloop [Hcons' [Ha' [Hlo [Hhi
          [ds2 [ps2 [Hds2 [Hps2 [Hmap2 [Hfa2 Htot]]]]]]]]]]]]]]].
    exists env', total', n, preds'.
    split; [exact Hloop |]. split; [exact Hcons' |].
    split; [congruence |]. split; [lia |].
    split; [rewrite Ha1, Hmove in Hhi; lia |].
    exists (new_ds ++ ds2), (new_ps ++ ps2).
    split; [rewrite Hds2, Hds, app_assoc; reflexivity |].
    split; [rewrite Hps2, app_assoc; reflexivity |].
    split; [rewrite !map_app, Hmap, Hmap2; reflexivity |].
    split; [apply Forall_app; split; assumption |].
    rewrite Htot, map_app, np_sum_app, Hrw. rewrite Hesc'. ring.
Qed.

(** With a policy that only chooses WAIT, DIAGNOSE or ESCALATE,
    [evaluate_episode] returns on an environment with a spectrogram per
    segment and a label for every segment: its loop [while not done] ends
    after at least one and at most as many steps as there are segments.
    The list [predictions] has one entry per diagnosed segment, with the
    reward the environment recorded for it (and the confidence of the
    policy, not the recorded one); [total_reward] is the sum of those
    rewards, less 0.1 when the episode ended by ESCALATE.  The training
    history grows by one reward and one length, and by one calibration
    error and one median confidence, 0.7, only when the episode had a
    DIAGNOSE. *)
Theorem model2_evaluation_of_an_episode
    (predict : M2.spectrogram -> Z * Q) (fuel : nat)
    (history : M2Agent.TrainingHistory) (env : M2.ApneaDetectionEnv) :
  (forall obs, fst (predict obs) = 0%Z \/ fst (predict obs) = 1%Z
               \/ fst (predict obs) = 2%Z) ->
  M2Records.well_formed env ->
  (length (M2.audio_segments env) <= fuel)%nat ->
  exists history' env' ev,
    M2Agent.evaluate_episode predict fuel history env
    = Ok (Some (history', env', ev)) /\
    (1 <= M2Agent.ev_episode_length ev <= length (M2.audio_segments env))%nat /\
    M2.get_episode_results env' = Ok (M2Agent.ev_episode_results ev) /\
    map M2Agent.pr_reward (M2Agent.ev_predictions ev)
    = map M2.dg_reward (M2.diagnosed_segments env') /\
    Forall (fun p => M2Agent.pr_action p = 1%Z) (M2Agent.ev_predictions ev) /\
    M2Agent.ev_total_reward ev
    == Np.sum (map M2.dg_reward (M2.diagnosed_segments env'))
       + (if M2.escalated env' then -0.1 else 0) /\
    M2Agent.th_episode_rewards history'
    = M2Agent.th_episode_rewards history ++ [M2Agent.ev_total_reward ev] /\
    M2Agent.th_episode_lengths history'
    = M2Agent.th_episode_lengths history ++ [M2Agent.ev_episode_length ev] /\
    M2Agent.th_training_timesteps history'
    = M2Agent.th_training_timesteps history ++ [M2Agent.ev_episode_length ev] /\
    (M2.diagnosed_segments env' = [] ->
     M2Agent.ev_episode_results ev = M2.EmptyDict /\
     M2Agent.th_ece_scores history' = M2Agent.th_ece_scores history /\
     M2Agent.th_confidence_scores history'
     = M2Agent.th_confidence_scores history) /\
    (M2.diagnosed_segments env' <> [] ->
     exists r,
       M2Agent.ev_episode_results ev = M2.Results r /\
       M2Agent.th_ece_scores history'
       = M2Agent.th_ece_scores history ++ [M2.er_ece r] /\
       M2Agent.th_confidence_scores history'
       = M2Agent.th_confidence_scores history ++ [M2.er_median_confidence r] /\
       M2.er_median_confidence r == 0.7).
Proof.
  intros Hpolicy Hwf Hfuel.
  destruct (m2_reset_ok env Hwf)
    as [env0 [obs [Hreset [_ [Hwf0 [Hcons0 [Hc0 [Hd0 [He0 [Ha0 [_ Hpos]]]]]]]]]]].
  assert (Hcur0 : (M2.current_segment_idx env0 < length (M2.audio_segments env0))%nat)
    by (rewrite Hc0, Ha0; exact Hpos).
  assert (Hfuel0 : (length (M2.audio_segments env0)
                    - M2.current_segment_idx env0 <= fuel)%nat)
    by (rewrite Hc0, Ha0; lia).
  destruct (m2_loop_returns predict fuel Hpolicy env0 obs 0 0%nat []
              Hwf0 Hcons0 Hcur0 He0 Hfuel0)
    as [env' [total [n [preds [Hloop [Hcons' [Ha' [Hlo [Hhi
        [ds [ps [Hds [Hps [Hmap [Hfa Htot]]]]]]]]]]]]]]].
  rewrite Hd0 in Hds. cbn [app] in Hds, Hps. subst preds.
  rewrite <- Hds in Hmap, Htot. clear Hds ds.
  rewrite Hc0, Ha0, Nat.sub_0_r in Hhi. cbn [Nat.add] in Hhi.
  unfold M2Agent.evaluate_episode. rewrite Hreset. cbn [bind]. cbv zeta.
  rewrite Hloop. cbn [bind].
  destruct (M2.diagnosed_segments env') as [| d0 ds0] eqn:Eds.
  - assert (Hres : M2.get_episode_results env' = Ok M2.EmptyDict)
      by (unfold M2.get_episode_results; rewrite Eds; reflexivity).
    rewrite Hres. cbn [bind].
    eexists. eexists. eexists. split; [reflexivity |].
    cbn [M2Agent.ev_episode_length M2Agent.ev_episode_results
         M2Agent.ev_predictions M2Agent.ev_total_reward
         M2Agent.th_episode_rewards M2Agent.th_episode_lengths
         M2Agent.th_training_timesteps M2Agent.th_ece_scores
         M2Agent.th_confidence_scores].
    split; [lia |]. split; [exact Hres |].
    try rewrite Eds in Hmap. try rewrite Eds in Htot. rewrite ?Eds.
    split; [exact Hmap |]. split; [exact Hfa |].
    split; [rewrite Htot; ring |].
    repeat (split; [reflexivity |]).
    split; [intros _; repeat split |].
    intro K. contradiction.
  - assert (Hne : M2.diagnosed_segments env' <> []) by (rewrite Eds; discriminate).
    destruct (m2_results_ok env' Hcons' Hne) as [r [Hres [_ [_ [_ [Hmed _]]]]]].
    rewrite Hres. cbn [bind].
    eexists. eexists. eexists. split; [reflexivity |].
    cbn [M2Agent.ev_episode_length M2Agent.ev_episode_results
         M2Agent.ev_predictions M2Agent.ev_total_reward
         M2Agent.th_episode_rewards M2Agent.th_episode_lengths
         M2Agent.th_training_timesteps M2Agent.th_ece_scores
         M2Agent.th_confidence_scores].
    split; [lia |]. split; [exact Hres |].
    try rewrite Eds in Hmap. try rewrite Eds in Htot. rewrite ?Eds.
    split; [exact Hmap |]. split; [exact Hfa |].
    split; [rewrite Htot; ring |].
    repeat (split; [reflexivity |]).
    split; [intro K; discriminate |].
    intros _. exists r. repeat split. exact Hmed.
Qed.

Lemma model2_evaluation_of_an_episode_witness :
  exists history' env' ev,
    M2Agent.evaluate_episode (fun _ => (1%Z, 0.9)) 3
      (M2Agent.mkTrainingHistory [] [] [] [] []) Examples.m2_ready
    = Ok (Some (history', env', ev)) /\
    (1 <= M2Agent.ev_episode_length ev
     <= length (M2.audio_segments Examples.m2_ready))%nat /\
    M2.get_episode_results env' = Ok (M2Agent.ev_episode_results ev) /\
    map M2Agent.pr_reward (M2Agent.ev_predictions ev)
    = map M2.dg_reward (M2.diagnosed_segments env') /\
    Forall (fun p => M2Agent.pr_action p = 1%Z) (M2Agent.ev_predictions ev) /\
    M2Agent.ev_total_reward ev
    == Np.sum (map M2.dg_reward (M2.diagnosed_segments env'))
       + (if M2.escalated env' then -0.1 else 0) /\
    M2Agent.th_episode_rewards history' = [] ++ [M2Agent.ev_total_reward ev] /\
    M2Agent.th_episode_lengths history' = [] ++ [M2Agent.ev_episode_length ev] /\
    M2Agent.th_training_timesteps history'
    = [] ++ [M2Agent.ev_episode_length ev] /\
    (M2.diagnosed_segments env' = [] ->
     M2Agent.ev_episode_results ev = M2.EmptyDict /\
     M2Agent.th_ece_scores history' = [] /\
     M2Agent.th_confidence_scores history' = []) /\
    (M2.diagnosed_segments env' <> [] ->
     exists r,
       M2Agent.ev_episode_results ev = M2.Results r /\
       M2Agent.th_ece_scores history' = [] ++ [M2.er_ece r] /\
       M2Agent.th_confidence_scores history' = [] ++ [M2.er_median_confidence r] /\
       M2.er_median_confidence r == 0.7).
Proof.
  apply (model2_evaluation_of_an_episode (fun _ => (1%Z, 0.9)) 3
           (M2Agent.mkTrainingHistory [] [] [] [] []) Examples.m2_ready).
  - intro obs. right. left. reflexivity.
  - split; [reflexivity |]. split; [discriminate |]. simpl. lia.
  - simpl. lia.
Defined.

(** ** The wrapper over several patients *)

Lemma contains_iff {V : Type} (d : list (string * V)) (key : string) :
  Np.contains d key = true <-> In key (Np.keys d).
Proof.
  unfold Np.contains. rewrite existsb_exists. split.
  - intros [k [Hin Heq]]. apply String.eqb_eq in Heq. subst. exact Hin.
  - intro Hin. exists key. split; [exact Hin | apply String.eqb_refl].
Qed.

(** [reset_patient] raises [ValueError] for an id that [get_patient_ids]
    does not list, and for an id it lists it returns a new environment on
    the segments and labels of that patient, with one spectrogram per
    segment, the cursor at 0 and nothing diagnosed, and records the patient
    and the environment as the current ones.  The environment is fit for
    an episode as soon as the patient has a segment and a label for every
    segment. *)
Theorem wrapper_resets_the_listed_patients
    (mel_spectrogram_db : M2.audio -> Z -> M2.spectrogram)
    (w : M2.ApneaDetectionEnvWrapper) (patient_id : string) :
  (~ In patient_id (M2.get_patient_ids w) ->
   M2.reset_patient mel_spectrogram_db w patient_id = Raise ValueError) /\
  (In patient_id (M2.get_patient_ids w) ->
   exists patient_info env w',
     M2.reset_patient mel_spectrogram_db w patient_id = Ok (w', env) /\
     In (patient_id, patient_info) (M2.w_patient_data w) /\
     M2.w_current_patient w' = Some patient_id /\
     M2.w_current_env w' = Some env /\
     M2.w_patient_data w' = M2.w_patient_data w /\
     M2.audio_segments env = M2.pi_segments patient_info /\
     M2.labels env = M2.pi_labels patient_info /\
     M2.current_segment_idx env = 0%nat /\
     M2.diagnosed_segments env = [] /\
     M2.escalated env = false /\
     length (M2.features env) = length (M2.pi_segments patient_info) /\
     (M2.pi_segments patient_info <> [] ->
      (length (M2.pi_segments patient_info)
       <= length (M2.pi_labels patient_info))%nat ->
      M2Records.well_formed env)).
Proof.
  unfold M2.get_patient_ids. split.
  - intro Hnot. unfold M2.reset_patient.
    destruct (Np.contains (M2.w_patient_data w) patient_id) eqn:E.
    + apply contains_iff in E. contradiction.
    + reflexivity.
  - intro Hin. unfold M2.reset_patient.
    rewrite (proj2 (contains_iff _ _) Hin). cbn [negb].
    destruct (getitem_of_key _ _ Hin) as [info Hget].
    rewrite Hget. cbn [bind]. cbv zeta.
    exists info. eexists. eexists. split; [reflexivity |].
    split; [apply getitem_In; exact Hget |].
    cbn [M2.w_current_patient M2.w_current_env M2.w_patient_data].
    unfold M2.init.
    cbn [M2.audio_segments M2.labels M2.current_segment_idx
         M2.diagnosed_segments M2.escalated M2.features].
    repeat (split; [reflexivity |]).
    assert (Hlen : length (M2._extract_features mel_spectrogram_db
                             (M2.pi_segments info) 10.0 16000)
                   = length (M2.pi_segments info))
      by (unfold M2._extract_features; apply length_map).
    split; [exact Hlen |].
    intros Hne Hlab. unfold M2Records.well_formed.
    cbn [M2.audio_segments M2.labels M2.features].
    split; [exact Hlen |]. split; [| exact Hlab].
    intro K. rewrite K in Hlen. simpl in Hlen.
    destruct (M2.pi_segments info); [contradiction | discriminate].
Qed.

Lemma wrapper_resets_the_listed_patients_witness :
  M2.reset_patient (fun _ _ => [[0]])
    (M2.wrapper_init [("p1"%string, M2.mkPatientInfo [[0; 0]] [1]%Z)])
    "p2"%string
  = Raise ValueError /\
  exists patient_info env w',
    M2.reset_patient (fun _ _ => [[0]])
      (M2.wrapper_init [("p1"%string, M2.mkPatientInfo [[0; 0]] [1]%Z)])
      "p1"%string
    = Ok (w', env) /\
    In ("p1"%string, patient_info)
       [("p1"%string, M2.mkPatientInfo [[0; 0]] [1]%Z)] /\
    M2.w_current_patient w' = Some "p1"%string /\
    M2.w_current_env w' = Some env /\
    M2.w_patient_data w' = [("p1"%string, M2.mkPatientInfo [[0; 0]] [1]%Z)] /\
    M2.audio_segments env = M2.pi_segments patient_info /\
    M2.labels env = M2.pi_labels patient_info /\
    M2.current_segment_idx env = 0%nat /\
    M2.diagnosed_segments env = [] /\
    M2.escalated env = false /\
    length (M2.features env) = length (M2.pi_segments patient_info) /\
    (M2.pi_segments patient_info <> [] ->
     (length (M2.pi_segments patient_info)
      <= length (M2.pi_labels patient_info))%nat ->
     M2Records.well_formed env).
Proof.
  split.
  - apply (proj1 (wrapper_resets_the_listed_patients (fun _ _ => [[0]])
                    (M2.wrapper_init [("p1"%string, M2.mkPatientInfo [[0; 0]] [1]%Z)])
                    "p2"%string)).
    simpl. intros [K | K]; [discriminate | contradiction].
  - apply (proj2 (wrapper_resets_the_listed_patients (fun _ _ => [[0]])
                    (M2.wrapper_init [("p1"%string, M2.mkPatientInfo [[0; 0]] [1]%Z)])
                    "p1"%string)).
    simpl. left. reflexivity.
Defined.

(** ** The segments handed to the feature extraction *)

Lemma nth_firstn_lt {A : Type} (d : A) (n : nat) :
  forall (l : list A) (i : nat), (i < n)%nat -> nth i (firstn n l) d = nth i l d.
Proof.
  induction n as [| n IH]; intros l i H; [lia |].
  destruct l as [| x l]; [reflexivity |].
  destruct i as [| i]; [reflexivity |]. simpl. apply IH. lia.
Qed.

Lemma nth_repeat_default {A : Type} (c : A) (n i : nat) : nth i (repeat c n) c = c.
Proof.
  revert i. induction n as [| n IH]; intro i; [destruct i; reflexivity |].
  destruct i as [| i]; [reflexivity | simpl; apply IH].
Qed.

Lemma fit_length_spec (segment : M2.audio) (target_length : Z) :
  ((0 <= target_length)%Z ->
   length (M2.fit_length segment target_length) = Z.to_nat target_length /\
   forall i, (i < Z.to_nat target_length)%nat ->
             nth i (M2.fit_length segment target_length) 0 = nth i segment 0) /\
  ((target_length < 0)%Z ->
   M2.fit_length segment target_length
   = firstn (length segment - Z.to_nat (- target_length)) segment).
Proof.
  unfold M2.fit_length. split.
  - intro Hpos.
    destruct (Z.ltb (Z.of_nat (length segment)) target_length) eqn:E1.
    + apply Z.ltb_lt in E1. split.
      * rewrite length_app, repeat_length. lia.
      * intros i Hi. destruct (Nat.lt_ge_cases i (length segment)) as [H | H].
        -- apply app_nth1. exact H.
        -- rewrite app_nth2 by exact H. rewrite nth_repeat_default.
           symmetry. apply nth_overflow. exact H.
    + apply Z.ltb_ge in E1.
      destruct (Z.ltb target_length (Z.of_nat (length segment))) eqn:E2.
      * apply Z.ltb_lt in E2.
        assert (E3 : Z.leb 0 target_length = true) by (apply Z.leb_le; exact Hpos).
        rewrite E3. split.
        -- rewrite length_firstn. lia.
        -- intros i Hi. apply nth_firstn_lt. exact Hi.
      * apply Z.ltb_ge in E2. split; [lia | reflexivity].
  - intro Hneg.
    assert (E1 : Z.ltb (Z.of_nat (length segment)) target_length = false)
      by (apply Z.ltb_ge; lia).
    assert (E2 : Z.ltb target_length (Z.of_nat (length segment)) = true)
      by (apply Z.ltb_lt; lia).
    assert (E3 : Z.leb 0 target_length = false) by (apply Z.leb_gt; exact Hneg).
    rewrite E1, E2, E3. reflexivity.
Qed.

(** [_extract_features] computes one spectrogram per segment, each from a
    segment of exactly [int(segment_duration * sample_rate)] samples when
    that number is not negative: the samples of the segment up to that
    length, followed by zeros when the segment is shorter.  With a negative
    target the slice drops that many samples from the end of the segment
    instead.  The target is the truncation of the rounded float product (28
    for 0.29 seconds at 100 samples per second); the duration is at most
    [2 ^ 20] seconds and the rate at most [2 ^ 32], so that the product of
    two integers is below [2 ^ 53]. *)
Theorem segments_are_fitted_to_the_target_length
    (mel_spectrogram_db : M2.audio -> Z -> M2.spectrogram)
    (audio_segments : list M2.audio) (segment_duration : Q) (sample_rate : Z) :
  Qabs segment_duration <= 2 ^ 20 ->
  (Z.abs sample_rate <= 2 ^ 32)%Z ->
  let target_length :=
    Np.int_of_float (Np.mul64 segment_duration (Np.float_of_int sample_rate)) in
  exists fitted,
    M2._extract_features mel_spectrogram_db audio_segments
                         segment_duration sample_rate
    = map (fun segment => mel_spectrogram_db segment sample_rate) fitted /\
    length fitted = length audio_segments /\
    forall k segment,
      nth_error audio_segments k = Some segment ->
      exists f,
        nth_error fitted k = Some f /\
        ((0 <= target_length)%Z ->
         length f = Z.to_nat target_length /\
         forall i, (i < Z.to_nat target_length)%nat -> nth i f 0 = nth i segment 0) /\
        ((target_length < 0)%Z ->
         f = firstn (length segment - Z.to_nat (- target_length)) segment).
Proof.
  intros _ _ target_length.
  exists (map (fun segment => M2.fit_length segment target_length) audio_segments).
  split; [unfold M2._extract_features; rewrite map_map; reflexivity |].
  split; [apply length_map |].
  intros k segment Hk.
  exists (M2.fit_length segment target_length).
  split; [rewrite nth_error_map, Hk; reflexivity |].
  apply fit_length_spec.
Qed.

Lemma segments_are_fitted_to_the_target_length_witness :
  let target_length :=
    Np.int_of_float (Np.mul64 0.29 (Np.float_of_int 100)) in
  exists fitted,
    M2._extract_features (fun segment _ => [segment])
                         [[1; 2; 3]; repeat 7 30] 0.29 100
    = map (fun segment => [segment]) fitted /\
    length fitted = length [[1; 2; 3]; repeat 7 30] /\
    forall k segment,
      nth_error [[1; 2; 3]; repeat 7 30] k = Some segment ->
      exists f,
        nth_error fitted k = Some f /\
        ((0 <= target_length)%Z ->
         length f = Z.to_nat target_length /\
         forall i, (i < Z.to_nat target_length)%nat -> nth i f 0 = nth i segment 0) /\
        ((target_length < 0)%Z ->
         f = firstn (length segment - Z.to_nat (- target_length)) segment).
Proof.
  apply (segments_are_fitted_to_the_target_length
           (fun segment _ => [segment]) [[1; 2; 3]; repeat 7 30] 0.29 100).
  - vm_compute. discriminate.
  - vm_compute. discriminate.
Defined.

(** The target length of the default segments, and one that the rounding of
    the product decides: [0.29 * 100] is the float just below 29. *)
Example target_length_of_a_rounded_product :
  Np.int_of_float (Np.mul64 10.0 (Np.float_of_int 16000)) = 160000%Z /\
  Np.int_of_float (Np.mul64 0.29 (Np.float_of_int 100)) = 28%Z /\
  M2Loader.segment_length (M2Loader.init 8000 2.01) = 16079%Z.
Proof. repeat split; vm_compute; reflexivity. Qed.

(** * Properties of the v1 data loader *)

(** ** The splits by patient *)

Lemma slice_three {A : Type} (l : list A) (a b : Z) :
  (0 <= a)%Z -> (0 <= b)%Z ->
  Np.slice l None (Some a) ++ Np.slice l (Some a) (Some (a + b)%Z)
  ++ Np.slice l (Some (a + b)%Z) None = l.
Proof.
  intros Ha Hb. unfold Np.slice, Np.clamp_index. cbv zeta.
  assert (Ea : Z.ltb a 0 = false) by (apply Z.ltb_ge; exact Ha).
  assert (Eab : Z.ltb (a + b) 0 = false) by (apply Z.ltb_ge; lia).
  rewrite Ea, Eab.
  set (a' := Nat.min (Z.to_nat a) (length l)).
  set (c' := Nat.min (Z.to_nat (a + b)) (length l)).
  assert (Hac : (a' <= c')%nat) by (unfold a', c'; lia).
  assert (Hc : (c' <= length l)%nat) by (unfold c'; lia).
  rewrite Nat.sub_0_r. cbn [skipn].
  rewrite (firstn_all2 (skipn c' l)) by (rewrite length_skipn; lia).
  rewrite <- (firstn_skipn a' l) at 4. f_equal.
  rewrite <- (firstn_skipn (c' - a') (skipn a' l)) at 2. f_equal.
  rewrite skipn_skipn. f_equal. lia.
Qed.

Lemma NoDup_app_disjoint {A : Type} (l1 l2 : list A) :
  NoDup (l1 ++ l2) -> forall x, In x l1 -> ~ In x l2.
Proof.
  induction l1 as [| y l1 IH]; intros Hnd x Hin; [contradiction |].
  simpl in Hnd. inversion Hnd as [| z l Hnotin Hrest]; subst.
  destruct Hin as [-> | Hin].
  - intro K. apply Hnotin. apply in_or_app. right. exact K.
  - apply IH; assumption.
Qed.

Lemma NoDup_app_right {A : Type} (l1 l2 : list A) :
  NoDup (l1 ++ l2) -> NoDup l2.
Proof.
  induction l1 as [| y l1 IH]; intro H; [exact H |].
  simpl in H. inversion H; subst. apply IH. assumption.
Qed.

(** [create_patient_wise_splits] raises [ValueError] when the float sum of
    the three ratios is further than the float [1e-6] from 1.0, the
    distance being computed in floats too.  Otherwise, for ratios that are
    not negative, the three lists it returns are consecutive pieces of the
    shuffled patient ids: together they hold every patient of [data]
    exactly once, so no patient is in two splits.  This does not depend on
    the values [int(n_patients * ratio)] takes.  The ratios are at most
    [2 ^ 20] and there are fewer than [2 ^ 53] patients, so that every float
    is finite and a sum of integer ratios is exact. *)
Theorem splits_isolate_the_patients
    (shuffle : list string -> list string)
    (data : list (string * V1Loader.PatientRecord))
    (train_ratio val_ratio test_ratio : Q) :
  (forall l, Permutation l (shuffle l)) ->
  NoDup (Np.keys data) ->
  (Z.of_nat (length data) < 2 ^ 53)%Z ->
  0 <= train_ratio <= 2 ^ 20 -> 0 <= val_ratio <= 2 ^ 20 ->
  Qabs test_ratio <= 2 ^ 20 ->
  let deviation :=
    Qabs (Np.sub64 (Np.add64 (Np.add64 train_ratio val_ratio) test_ratio) 1.0) in
  (Np.double 1e-6 < deviation ->
   V1Loader.create_patient_wise_splits shuffle data train_ratio val_ratio test_ratio
   = Raise ValueError) /\
  (deviation <= Np.double 1e-6 ->
   exists train_patients val_patients test_patients,
     V1Loader.create_patient_wise_splits shuffle data
                                         train_ratio val_ratio test_ratio
     = Ok (train_patients, val_patients, test_patients) /\
     train_patients ++ val_patients ++ test_patients = shuffle (Np.keys data) /\
     Permutation (Np.keys data) (train_patients ++ val_patients ++ test_patients) /\
     (forall p, In p train_patients -> ~ In p val_patients /\ ~ In p test_patients) /\
     (forall p, In p val_patients -> ~ In p test_patients)).
Proof.
  intros Hperm Hnd _ [Htrain _] [Hval _] _.
  unfold V1Loader.create_patient_wise_splits. cbv zeta. split.
  - intro Hbad. apply gt_true_iff in Hbad. rewrite Hbad. reflexivity.
  - intro Hgood. apply gt_false_iff in Hgood. rewrite Hgood.
    set (n_train := Np.int_of_float
                      (Np.mul64 (Np.float_of_len (length (Np.keys data)))
                                train_ratio)).
    set (n_val := Np.int_of_float
                    (Np.mul64 (Np.float_of_len (length (Np.keys data)))
                              val_ratio)).
    assert (Hint : forall x : Q, 0 <= x -> (0 <= Np.int_of_float x)%Z).
    { intros [num den] Hx. unfold Np.int_of_float. cbn [Qnum Qden].
      apply Z.quot_pos; [| lia]. unfold Qle in Hx. simpl in Hx. lia. }
    assert (Hn := float_of_len_nonneg (length (Np.keys data))).
    assert (Hmul : forall a b : Q, 0 <= a -> 0 <= b -> 0 <= Np.mul64 a b).
    { intros a b Ha Hb. unfold Np.mul64. apply double_nonneg.
      apply Qmult_le_0_compat; apply double_nonneg; assumption. }
    assert (H1 : (0 <= n_train)%Z) by (apply Hint, Hmul; assumption).
    assert (H2 : (0 <= n_val)%Z) by (apply Hint, Hmul; assumption).
    eexists. eexists. eexists. split; [reflexivity |].
    assert (Heq := slice_three (shuffle (Np.keys data)) n_train n_val H1 H2).
    split; [exact Heq |].
    split; [rewrite Heq; apply Hperm |].
    assert (Hnd' : NoDup (shuffle (Np.keys data)))
      by (apply (Permutation_NoDup (Hperm _) Hnd)).
    rewrite <- Heq in Hnd'.
    split.
    + intros p Hp.
      assert (K := NoDup_app_disjoint _ _ Hnd' p Hp).
      split; intro Hin; apply K; apply in_or_app; [left | right]; exact Hin.
    + intros p Hp. apply NoDup_app_right in Hnd'.
      apply (NoDup_app_disjoint _ _ Hnd' p Hp).
Qed.

Lemma splits_isolate_the_patients_witness :
  exists train_patients val_patients test_patients,
    V1Loader.create_patient_wise_splits (@rev string)
      [("p1"%string, V1Loader.mkPatientRecord [[1]] [1]%Z 1 0);
       ("p2"%string, V1Loader.mkPatientRecord [[2]] [0]%Z 0 1);
       ("p3"%string, V1Loader.mkPatientRecord [[3]] [0]%Z 0 1);
       ("p4"%string, V1Loader.mkPatientRecord [[4]] [1]%Z 1 0)]
      0.7 0.15 0.15
    = Ok (train_patients, val_patients, test_patients) /\
    train_patients ++ val_patients ++ test_patients
    = rev ["p1"%string; "p2"%string; "p3"%string; "p4"%string] /\
    Permutation ["p1"%string; "p2"%string; "p3"%string; "p4"%string]
                (train_patients ++ val_patients ++ test_patients) /\
    (forall p, In p train_patients -> ~ In p val_patients /\ ~ In p test_patients) /\
    (forall p, In p val_patients -> ~ In p test_patients).
Proof.
  apply (proj2 (splits_isolate_the_patients (@rev string)
                  [("p1"%string, V1Loader.mkPatientRecord [[1]] [1]%Z 1 0);
                   ("p2"%string, V1Loader.mkPatientRecord [[2]] [0]%Z 0 1);
                   ("p3"%string, V1Loader.mkPatientRecord [[3]] [0]%Z 0 1);
                   ("p4"%string, V1Loader.mkPatientRecord [[4]] [1]%Z 1 0)]
                  0.7 0.15 0.15
                  (fun l => Permutation_rev l)
                  ltac:(repeat constructor; simpl; intuition discriminate)
                  ltac:(reflexivity)
                  ltac:(split; vm_compute; discriminate)
                  ltac:(split; vm_compute; discriminate)
                  ltac:(vm_compute; discriminate))).
  vm_compute. discriminate.
Defined.

(** The rounding decides the test of the ratios: 0.6, 0.2 and 0.200001 add
    up to 1.000001 exactly, which is not further than 1e-6 from 1, and the
    float expression is further than the float [1e-6] from 1.0, so that the
    call raises. *)
Example ratios_off_by_a_rounding :
  Qabs (0.6 + 0.2 + 0.200001 - 1.0) <= 1e-6 /\
  Np.double 1e-6
  < Qabs (Np.sub64 (Np.add64 (Np.add64 0.6 0.2) 0.200001) 1.0) /\
  V1Loader.create_patient_wise_splits (@rev string)
    [("p1"%string, V1Loader.mkPatientRecord [[1]] [1]%Z 1 0)]
    0.6 0.2 0.200001
  = Raise ValueError.
Proof.
  split; [vm_compute; discriminate |].
  split; vm_compute; reflexivity.
Qed.

(** ** From the loader to the environment and back *)

Lemma loader_record (width : nat) (data : list (string * V1Loader.PatientRecord))
    (p : string) :
  V1Loader.records_ok width data ->
  Np.contains data p = true ->
  exists r,
    Np.getitem data p = Ok r /\
    V1Loader.features_of data p = V1Loader.rec_features r /\
    V1Loader.labels_of data p = V1Loader.rec_labels r /\
    V1Loader.rec_features r <> [] /\
    length (V1Loader.rec_labels r) = length (V1Loader.rec_features r) /\
    Forall (fun row => length row = width) (V1Loader.rec_features r).
Proof.
  intros Hok Hc. apply contains_iff in Hc.
  destruct (getitem_of_key data p Hc) as [r Hget].
  exists r. split; [exact Hget |].
  unfold V1Loader.features_of, V1Loader.labels_of. rewrite Hget.
  split; [reflexivity |]. split; [reflexivity |].
  apply getitem_In in Hget. unfold V1Loader.records_ok in Hok.
  rewrite Forall_forall in Hok. apply (Hok (p, r) Hget).
Qed.

Lemma collect_spec (width : nat) (data : list (string * V1Loader.PatientRecord)) :
  V1Loader.records_ok width data ->
  forall (patient_list : list string)
         (all_features : list (list V1.feature_vector))
         (all_labels : list (list Z)) (all_patient_ids : list string),
    V1Loader.collect data patient_list all_features all_labels all_patient_ids
    = Ok (all_features
            ++ map (V1Loader.features_of data)
                   (filter (Np.contains data) patient_list),
          all_labels
            ++ map (V1Loader.labels_of data)
                   (filter (Np.contains data) patient_list),
          all_patient_ids
            ++ concat (map (fun p => repeat p (length (V1Loader.features_of data p)))
                           (filter (Np.contains data) patient_list))).
Proof.
  intro Hok. induction patient_list as [| p pl IH]; intros F L I.
  - simpl. rewrite !app_nil_r. reflexivity.
  - cbn [V1Loader.collect filter].
    destruct (Np.contains data p) eqn:Ec.
    + destruct (loader_record width data p Hok Ec) as [r [Hget [Hf [Hl _]]]].
      rewrite Hget. cbn [bind]. cbv zeta. rewrite IH.
      cbn [map concat]. rewrite Hf, Hl, <- !app_assoc. reflexivity.
    + apply IH.
Qed.

Lemma select_app {A : Type} (m1 m2 : list bool) (x1 x2 : list A) :
  length m1 = length x1 ->
  Np.select (m1 ++ m2) (x1 ++ x2) = Np.select m1 x1 ++ Np.select m2 x2.
Proof.
  revert x1. induction m1 as [| b m1 IH]; intros [| x x1] H;
    try discriminate; [reflexivity |].
  injection H as H. cbn [app Np.select]. rewrite (IH x1 H).
  destruct b; reflexivity.
Qed.

Lemma select_repeat {A : Type} (b : bool) (n : nat) (xs : list A) :
  length xs = n -> Np.select (repeat b n) xs = if b then xs else [].
Proof.
  intro H. subst n. induction xs as [| x xs IH]; [destruct b; reflexivity |].
  cbn [length repeat Np.select]. rewrite IH. destruct b; reflexivity.
Qed.

Lemma select_blocks {A : Type} (f : string -> list A) (n : string -> nat)
    (q : string) (ps : list string) :
  NoDup ps ->
  (forall p, In p ps -> length (f p) = n p) ->
  Np.select (map (fun pid => String.eqb pid q)
                 (concat (map (fun p => repeat p (n p)) ps)))
            (concat (map f ps))
  = if in_dec string_dec q ps then f q else [].
Proof.
  induction 1 as [| x rest Hnotin Hnd IH]; intro Hlen.
  - reflexivity.
  - cbn [map concat]. rewrite map_app, map_repeat.
    rewrite select_app
      by (rewrite repeat_length; symmetry; apply Hlen; left; reflexivity).
    rewrite select_repeat by (apply Hlen; left; reflexivity).
    rewrite IH by (intros p Hp; apply Hlen; right; exact Hp).
    destruct (String.eqb x q) eqn:E.
    + apply String.eqb_eq in E. subst x.
      destruct (in_dec string_dec q rest) as [K | K]; [contradiction |].
      destruct (in_dec string_dec q (q :: rest)) as [K' | K'].
      * apply app_nil_r.
      * exfalso. apply K'. left. reflexivity.
    + apply String.eqb_neq in E.
      destruct (in_dec string_dec q rest) as [K | K];
        destruct (in_dec string_dec q (x :: rest)) as [K' | K'];
        try reflexivity.
      * exfalso. apply K'. right. exact K.
      * exfalso. destruct K' as [K' | K']; contradiction.
Qed.

Lemma blocks_length {A : Type} (f : string -> list A) (n : string -> nat)
    (ps : list string) :
  (forall p, In p ps -> length (f p) = n p) ->
  length (concat (map f ps)) = length (concat (map (fun p => repeat p (n p)) ps)).
Proof.
  induction ps as [| x rest IH]; intro H; [reflexivity |].
  cbn [map concat]. rewrite !length_app, repeat_length.
  rewrite (H x (or_introl eq_refl)), IH; [reflexivity |].
  intros p Hp. apply H. right. exact Hp.
Qed.

Lemma blocks_In (n : string -> nat) (q : string) (ps : list string) :
  In q ps -> (0 < n q)%nat ->
  In q (concat (map (fun p => repeat p (n p)) ps)).
Proof.
  intros Hin Hpos. apply in_concat. exists (repeat q (n q)). split.
  - apply in_map_iff. exists q. split; [reflexivity | exact Hin].
  - destruct (n q); [lia | left; reflexivity].
Qed.

Lemma vstack_same_width (width : nat) (arrays : list (list V1.feature_vector)) :
  arrays <> [] ->
  Forall (Forall (fun row => length row = width)) arrays ->
  V1Loader.vstack arrays = Ok (concat arrays).
Proof.
  intros Hne Hall. unfold V1Loader.vstack.
  destruct arrays as [| a arrays]; [contradiction |]. cbv zeta.
  assert (Hrows : Forall (fun row => length row = width) (concat (a :: arrays))).
  { apply Forall_concat. exact Hall. }
  destruct (concat (a :: arrays)) as [| row rows] eqn:E; [reflexivity |].
  assert (Hrow : length row = width) by (inversion Hrows; assumption).
  assert (Hb : forallb (fun r => Nat.eqb (length r) (length row)) (row :: rows) = true).
  { apply forallb_forall. intros r Hr. rewrite Forall_forall in Hrows.
    apply Nat.eqb_eq. rewrite Hrow. apply Hrows. exact Hr. }
  rewrite Hb. reflexivity.
Qed.

(** [prepare_features_from_preprocessed] raises [ValueError] when none of
    the listed patients is in [data].  Otherwise, on records with at least
    one sample, as many labels as samples and samples of one width, and for
    a list without repetition, it returns three arrays of one length:
    the constructor of the environment accepts them, and the environment
    it builds holds, for every listed patient of [data], exactly the
    samples and the labels the loader read for that patient. *)
Theorem prepared_arrays_rebuild_the_patients
    (data : list (string * V1Loader.PatientRecord)) (patient_list : list string)
    (width n_features : nat) (mode : string) (max_episode_length : Z) :
  V1Loader.records_ok width data ->
  NoDup patient_list ->
  ((forall p, In p patient_list -> ~ In p (Np.keys data)) ->
   V1Loader.prepare_features_from_preprocessed data patient_list
   = Raise ValueError) /\
  ((exists p, In p patient_list /\ In p (Np.keys data)) ->
   exists features labels patient_ids env,
     V1Loader.prepare_features_from_preprocessed data patient_list
     = Ok (features, labels, patient_ids) /\
     length features = length patient_ids /\
     length labels = length patient_ids /\
     V1.init features n_features labels patient_ids mode max_episode_length
     = Ok env /\
     forall p, In p patient_list -> In p (Np.keys data) ->
       exists pd,
         Np.getitem (V1.patient_data env) p = Ok pd /\
         V1.pd_features pd = V1Loader.features_of data p /\
         V1.pd_labels pd = V1Loader.labels_of data p).
Proof.
  intros Hok Hnd.
  unfold V1Loader.prepare_features_from_preprocessed.
  rewrite (collect_spec width data Hok). cbn [bind app].
  set (ps := filter (Np.contains data) patient_list).
  assert (Hps : forall p, In p ps <-> In p patient_list /\ In p (Np.keys data)).
  { intro p. unfold ps. rewrite filter_In, contains_iff. reflexivity. }
  split.
  - intro Hnone. destruct ps as [| p ps'] eqn:E; [reflexivity |].
    exfalso. destruct (proj1 (Hps p) (or_introl eq_refl)) as [H1 H2].
    apply (Hnone p H1 H2).
  - intros [p0 [Hp0 Hk0]].
    assert (Hin0 : In p0 ps) by (apply Hps; split; assumption).
    assert (Hndps : NoDup ps) by (apply NoDup_filter; exact Hnd).
    assert (Hrec : forall p, In p ps ->
               V1Loader.features_of data p <> [] /\
               length (V1Loader.labels_of data p)
               = length (V1Loader.features_of data p) /\
               Forall (fun row => length row = width) (V1Loader.features_of data p)).
    { intros p Hp. apply Hps in Hp. destruct Hp as [_ Hk].
      apply contains_iff in Hk.
      destruct (loader_record width data p Hok Hk)
        as [r [_ [Hf [Hl [H1 [H2 H3]]]]]].
      rewrite Hf, Hl. repeat split; assumption. }
    set (n := fun p => length (V1Loader.features_of data p)).
    set (ids := concat (map (fun p => repeat p (n p)) ps)).
    destruct (map (V1Loader.features_of data) ps) as [| a arrays] eqn:Emap.
    { destruct ps; [contradiction | discriminate]. }
    rewrite <- Emap.
    assert (Hstack : V1Loader.vstack (map (V1Loader.features_of data) ps)
                     = Ok (concat (map (V1Loader.features_of data) ps))).
    { apply (vstack_same_width width).
      - rewrite Emap. discriminate.
      - apply Forall_map. apply Forall_forall. intros p Hp.
        apply (Hrec p Hp). }
    rewrite Hstack. cbn [bind]. cbv zeta.
    set (features := concat (map (V1Loader.features_of data) ps)).
    set (labels := concat (map (V1Loader.labels_of data) ps)).
    assert (Hlf : length features = length ids).
    { apply blocks_length. intros p _. reflexivity. }
    assert (Hll : length labels = length ids).
    { apply blocks_length. intros p Hp. apply (Hrec p Hp). }
    destruct (v1_organize_total features labels ids (or_intror (conj Hlf Hll)))
      as [pdata [Horg Hkeys]].
    exists features, labels, ids.
    eexists. split; [reflexivity |]. split; [exact Hlf |]. split; [exact Hll |].
    split; [unfold V1.init; rewrite Horg; reflexivity |].
    cbn [V1.patient_data].
    intros p Hp Hk.
    assert (Hpin : In p ps) by (apply Hps; split; assumption).
    assert (Hpids : In p ids).
    { apply blocks_In; [exact Hpin |]. unfold n.
      destruct (Hrec p Hpin) as [Hne _].
      destruct (V1Loader.features_of data p); [contradiction | simpl; lia]. }
    assert (Hpk : In p (Np.keys pdata))
      by (rewrite Hkeys; apply nodup_In; exact Hpids).
    destruct (getitem_of_key pdata p Hpk) as [pd Hpd].
    exists pd. split; [exact Hpd |].
    destruct (v1_organize_entries _ _ _ _ Horg) as [_ Hall].
    rewrite Forall_forall in Hall.
    specialize (Hall (p, pd) (getitem_In _ _ _ Hpd)).
    cbv zeta in Hall. cbn [fst snd] in Hall.
    destruct Hall as [_ [_ [Ef [El _]]]].
    rewrite Ef, El. unfold features, labels, ids.
    rewrite (select_blocks (V1Loader.features_of data) n p ps Hndps)
      by (intros q _; reflexivity).
    rewrite (select_blocks (V1Loader.labels_of data) n p ps Hndps)
      by (intros q Hq; apply (Hrec q Hq)).
    destruct (in_dec string_dec p ps) as [K | K]; [| contradiction].
    split; reflexivity.
Qed.

Lemma prepared_arrays_rebuild_the_patients_witness :
  exists features labels patient_ids env,
    V1Loader.prepare_features_from_preprocessed
      [("p1"%string, V1Loader.mkPatientRecord [[1; 1]; [2; 2]] [1; 0]%Z 1 1);
       ("p2"%string, V1Loader.mkPatientRecord [[3; 3]] [0]%Z 0 1)]
      ["p2"%string; "p9"%string; "p1"%string]
    = Ok (features, labels, patient_ids) /\
    length features = length patient_ids /\
    length labels = length patient_ids /\
    V1.init features 2 labels patient_ids "train"%string 100 = Ok env /\
    forall p,
      In p ["p2"%string; "p9"%string; "p1"%string] ->
      In p (Np.keys
              [("p1"%string, V1Loader.mkPatientRecord [[1; 1]; [2; 2]] [1; 0]%Z 1 1);
               ("p2"%string, V1Loader.mkPatientRecord [[3; 3]] [0]%Z 0 1)]) ->
      exists pd,
        Np.getitem (V1.patient_data env) p = Ok pd /\
        V1.pd_features pd
        = V1Loader.features_of
            [("p1"%string, V1Loader.mkPatientRecord [[1; 1]; [2; 2]] [1; 0]%Z 1 1);
             ("p2"%string, V1Loader.mkPatientRecord [[3; 3]] [0]%Z 0 1)] p /\
        V1.pd_labels pd
        = V1Loader.labels_of
            [("p1"%string, V1Loader.mkPatientRecord [[1; 1]; [2; 2]] [1; 0]%Z 1 1);
             ("p2"%string, V1Loader.mkPatientRecord [[3; 3]] [0]%Z 0 1)] p.
Proof.
  apply (proj2 (prepared_arrays_rebuild_the_patients
                  [("p1"%string, V1Loader.mkPatientRecord [[1; 1]; [2; 2]] [1; 0]%Z 1 1);
                   ("p2"%string, V1Loader.mkPatientRecord [[3; 3]] [0]%Z 0 1)]
                  ["p2"%string; "p9"%string; "p1"%string] 2 2 "train"%string 100
                  ltac:(repeat constructor; discriminate)
                  ltac:(repeat constructor; simpl; intuition discriminate))).
  exists "p1"%string. split; simpl; auto.
Defined.

(** * Properties of the model-2 audio preprocessor *)

Lemma range0_one_step (n : Z) :
  (0 < n)%Z -> M2Loader.range0 n n = Ok [0%Z].
Proof.
  intro Hn. unfold M2Loader.range0.
  assert (E0 : Z.eqb n 0 = false) by (apply Z.eqb_neq; lia).
  assert (E1 : Z.ltb 0 n = true) by (apply Z.ltb_lt; exact Hn).
  rewrite E0, E1. cbv zeta.
  assert (Hq : ((n + n - 1) / n = 1)%Z).
  { symmetry. apply (Z.div_unique (n + n - 1) n 1 (n - 1)); lia. }
  rewrite Hq. reflexivity.
Qed.

Lemma range0_backwards (stop step : Z) :
  (0 <= stop)%Z -> (step < 0)%Z -> M2Loader.range0 stop step = Ok [].
Proof.
  intros Hs Hn. unfold M2Loader.range0.
  assert (E0 : Z.eqb step 0 = false) by (apply Z.eqb_neq; lia).
  assert (E1 : Z.ltb 0 step = false) by (apply Z.ltb_ge; lia).
  rewrite E0, E1. cbv zeta.
  assert (Hq : ((stop + step + 1) / step <= 0)%Z).
  { assert (H := Z.mul_div_ge (stop + step + 1) step Hn). nia. }
  replace (Z.to_nat ((stop + step + 1) / step)) with 0%nat by lia.
  reflexivity.
Qed.

Lemma slice_all {A : Type} (l : list A) (n : Z) :
  Z.of_nat (length l) = n ->
  Np.slice l (Some 0%Z) (Some (0 + n)%Z) = l.
Proof.
  intro H. unfold Np.slice, Np.clamp_index. cbv zeta.
  change (Z.ltb 0 0) with false. cbv iota.
  assert (E : Z.ltb (0 + n) 0 = false) by (apply Z.ltb_ge; lia).
  rewrite E. change (Z.to_nat 0) with 0%nat.
  rewrite Nat.min_0_l, Nat.sub_0_r. cbn [skipn].
  apply firstn_all2. lia.
Qed.

(** [segment_audio] cuts nothing into several segments: [preprocess_audio]
    has already padded or cut the whole recording to one segment length, so
    for a positive segment length the result is that one segment, of
    exactly [segment_length] samples, whatever the length of the recording.
    A zero segment length raises [ZeroDivisionError], and a negative one
    gives no segment. *)
Theorem segment_audio_yields_one_segment
    (resample : M2.audio -> Z -> Z -> M2.audio)
    (self : M2Loader.AudioPreprocessor) (audio : M2.audio) (sr : Z) :
  (M2Loader.segment_length self = 0%Z ->
   M2Loader.segment_audio resample self audio sr = Raise ZeroDivisionError) /\
  ((0 < M2Loader.segment_length self)%Z ->
   M2Loader.segment_audio resample self audio sr
   = Ok [M2Loader.preprocess_audio resample self audio sr] /\
   Z.of_nat (length (M2Loader.preprocess_audio resample self audio sr))
   = M2Loader.segment_length self) /\
  ((M2Loader.segment_length self < 0)%Z ->
   M2Loader.segment_audio resample self audio sr = Ok []).
Proof.
  unfold M2Loader.segment_audio. cbv zeta.
  set (a := M2Loader.preprocess_audio resample self audio sr).
  set (L := M2Loader.segment_length self).
  split; [| split].
  - intro H0. rewrite H0. reflexivity.
  - intro Hpos.
    assert (Hlen : Z.of_nat (length a) = L).
    { unfold a, M2Loader.preprocess_audio. cbv zeta. fold L.
      match goal with
      | |- context [M2.fit_length ?x L] =>
          destruct (proj1 (fit_length_spec x L) ltac:(lia)) as [H _]
      end.
      rewrite H. lia. }
    split; [| exact Hlen].
    assert (E0 : Z.eqb L 0 = false) by (apply Z.eqb_neq; lia).
    rewrite E0, Hlen, (range0_one_step L Hpos). cbn [bind fold_left].
    rewrite (slice_all a L Hlen), Hlen, Z.eqb_refl. reflexivity.
  - intro Hneg.
    assert (E0 : Z.eqb L 0 = false) by (apply Z.eqb_neq; lia).
    rewrite E0, (range0_backwards (Z.of_nat (length a)) L (Nat2Z.is_nonneg _) Hneg).
    reflexivity.
Qed.

Lemma segment_audio_yields_one_segment_witness :
  M2Loader.segment_audio (fun audio _ _ => audio) (M2Loader.init 2 2.0)
                         [1; 2; 3; 4; 5; 6; 7; 8; 9] 2
  = Ok [M2Loader.preprocess_audio (fun audio _ _ => audio) (M2Loader.init 2 2.0)
          [1; 2; 3; 4; 5; 6; 7; 8; 9] 2] /\
  Z.of_nat (length (M2Loader.preprocess_audio (fun audio _ _ => audio)
                      (M2Loader.init 2 2.0) [1; 2; 3; 4; 5; 6; 7; 8; 9] 2))
  = M2Loader.segment_length (M2Loader.init 2 2.0).
Proof.
  apply (proj1 (proj2 (segment_audio_yields_one_segment
                         (fun audio _ _ => audio) (M2Loader.init 2 2.0)
                         [1; 2; 3; 4; 5; 6; 7; 8; 9] 2))).
  reflexivity.
Defined.

(** * How the model-2 evaluation of an episode fails *)

Lemma m2_loop_stalls (predict : M2.spectrogram -> Z * Q) :
  (forall obs, fst (predict obs) <> 0%Z /\ fst (predict obs) <> 1%Z
               /\ fst (predict obs) <> 2%Z) ->
  forall (fuel : nat) (env : M2.ApneaDetectionEnv) (obs : M2.spectrogram)
         (total_reward : Q) (episode_length : nat)
         (predictions : list M2Agent.Prediction),
    length (M2.features env) = length (M2.audio_segments env) ->
    M2.features env <> [] ->
    (M2.current_segment_idx env < length (M2.audio_segments env))%nat ->
    M2Agent.episode_loop predict fuel env obs total_reward episode_length
                         predictions
    = Ok None.
Proof.
  intro Hpolicy.
  induction fuel as [| fuel IH]; intros env obs total len preds Hlen Hne Hcur;
    [reflexivity |].
  cbn [M2Agent.episode_loop].
  specialize (Hpolicy obs) as [N0 [N1 N2]].
  destruct (predict obs) as [action confidence]. cbn [fst] in *.
  destruct (m2_step_returns env action Hlen Hne ltac:(intro K; contradiction))
    as [env' [o [r [dn [Hstep [_ [_ [_ Hc]]]]]]]].
  destruct Hc as [[K _] | [[K _] | [[K _] | [_ [_ [_ [Hd [_ He]]]]]]]];
    try contradiction.
  subst env' dn. rewrite Hstep. cbn [bind]. cbv zeta.
  cbn [M2.sr_done]. 
  assert (E : Nat.leb (length (M2.audio_segments env)) (M2.current_segment_idx env)
              || false = false).
  { rewrite orb_false_r. apply Nat.leb_gt. exact Hcur. }
  rewrite E. apply IH; assumption.
Qed.

Lemma m2_loop_runs_out_of_labels (predict : M2.spectrogram -> Z * Q) :
  (forall obs, fst (predict obs) = 1%Z) ->
  forall (k fuel : nat) (env : M2.ApneaDetectionEnv) (obs : M2.spectrogram)
         (total_reward : Q) (episode_length : nat)
         (predictions : list M2Agent.Prediction),
    length (M2.features env) = length (M2.audio_segments env) ->
    M2.features env <> [] ->
    (length (M2.labels env) < length (M2.audio_segments env))%nat ->
    (M2.current_segment_idx env + k = length (M2.labels env))%nat ->
    (k < fuel)%nat ->
    M2Agent.episode_loop predict fuel env obs total_reward episode_length
                         predictions
    = Raise IndexError.
Proof.
  intro Hpolicy.
  induction k as [| k IH];
    intros fuel env obs total len preds Hlen Hne Hshort Hk Hfuel;
    (destruct fuel as [| fuel]; [lia |]);
    cbn [M2Agent.episode_loop];
    specialize (Hpolicy obs) as Hact;
    destruct (predict obs) as [action confidence]; cbn [fst] in Hact;
    subst action.
  - rewrite m2_step_diagnose_past_labels by lia. reflexivity.
  - destruct (m2_step_returns env 1 Hlen Hne ltac:(intros _; lia))
      as [env' [o [r [dn [Hstep [Hf [Ha [Hl Hc]]]]]]]].
    destruct Hc as [[K _] | [[_ [Hd [l [_ [_ He]]]]] | [[K _] | [_ [K _]]]]];
      try discriminate; try (exfalso; apply K; reflexivity).
    rewrite Hstep. cbn [bind]. cbv zeta. cbn [M2.sr_done].
    assert (Hcur' : M2.current_segment_idx env' = S (M2.current_segment_idx env))
      by (rewrite He; reflexivity).
    assert (E : Nat.leb (length (M2.audio_segments env'))
                        (M2.current_segment_idx env') || dn = false).
    { rewrite Hd, orb_false_r. apply Nat.leb_gt. rewrite Ha, Hcur'. lia. }
    rewrite E. apply IH.
    + rewrite Hf, Ha. exact Hlen.
    + rewrite Hf. exact Hne.
    + rewrite Hl, Ha. exact Hshort.
    + rewrite Hl, Hcur'. lia.
    + lia.
Qed.

(** Three ways in which [evaluate_episode] does not return a report.  On an
    environment without any segment, [reset] raises [IndexError].  With a
    policy whose actions are never 0, 1 or 2 the environment does not move
    and the loop [while not done] is still running after any number of
    iterations.  With fewer labels than segments and a policy that always
    chooses DIAGNOSE, the DIAGNOSE of the first segment without a label
    raises [IndexError]. *)
Theorem model2_evaluation_failures
    (predict : M2.spectrogram -> Z * Q) (fuel : nat)
    (history : M2Agent.TrainingHistory) (env : M2.ApneaDetectionEnv) :
  (M2.features env = [] ->
   M2Agent.evaluate_episode predict fuel history env = Raise IndexError) /\
  (M2Records.well_formed env ->
   (forall obs, fst (predict obs) <> 0%Z /\ fst (predict obs) <> 1%Z
                /\ fst (predict obs) <> 2%Z) ->
   M2Agent.evaluate_episode predict fuel history env = Ok None) /\
  (length (M2.features env) = length (M2.audio_segments env) ->
   M2.features env <> [] ->
   (length (M2.labels env) < length (M2.audio_segments env))%nat ->
   (forall obs, fst (predict obs) = 1%Z) ->
   (length (M2.labels env) < fuel)%nat ->
   M2Agent.evaluate_episode predict fuel history env = Raise IndexError).
Proof.
  split; [| split].
  - intro Hnil. unfold M2Agent.evaluate_episode, M2.reset.
    rewrite Hnil. reflexivity.
  - intros Hwf Hpolicy.
    destruct (m2_reset_ok env Hwf)
      as [env0 [obs [Hreset [_ [[Hl0 [Hn0 _]] [_ [Hc0 [_ [_ [Ha0 [_ Hpos]]]]]]]]]]].
    unfold M2Agent.evaluate_episode. rewrite Hreset. cbn [bind]. cbv zeta.
    rewrite (m2_loop_stalls predict Hpolicy fuel env0 obs 0 0%nat [] Hl0 Hn0)
      by (rewrite Hc0, Ha0; exact Hpos).
    reflexivity.
  - intros Hlen Hne Hshort Hpolicy Hfuel.
    set (env0 := M2.mkEnv (M2.audio_segments env) (M2.labels env)
                   (M2.segment_duration env) (M2.sample_rate env) 0 [] false
                   (M2.features env)).
    assert (Hreset : exists obs info, M2.reset env = Ok (env0, (obs, info))).
    { unfold M2.reset, Np.index.
      destruct (M2.features env) as [| f fs] eqn:Ef; [contradiction |].
      cbn [nth_error bind]. unfold env0. rewrite ?Ef.
      eexists. eexists. reflexivity. }
    destruct Hreset as [obs [info Hreset]].
    unfold M2Agent.evaluate_episode. rewrite Hreset. cbn [bind]. cbv zeta.
    rewrite (m2_loop_runs_out_of_labels predict Hpolicy (length (M2.labels env))
               fuel env0 obs 0 0%nat [] Hlen Hne Hshort eq_refl Hfuel).
    reflexivity.
Qed.

Lemma model2_evaluation_failures_witness :
  M2Agent.evaluate_episode (fun _ => (1%Z, 0.9)) 5
    (M2Agent.mkTrainingHistory [] [] [] [] [])
    (M2.mkEnv [] [] 10.0 16000 0 [] false [])
  = Raise IndexError /\
  M2Agent.evaluate_episode (fun _ => (3%Z, 0.9)) 5
    (M2Agent.mkTrainingHistory [] [] [] [] []) Examples.m2_ready
  = Ok None /\
  M2Agent.evaluate_episode (fun _ => (1%Z, 0.9)) 5
    (M2Agent.mkTrainingHistory [] [] [] [] [])
    (M2.mkEnv [[0; 0]; [1; 1]; [2; 2]] [0; 1]%Z 10.0 16000 0 [] false
              [[[1]]; [[2]]; [[3]]])
  = Raise IndexError.
Proof.
  split; [| split].
  - apply (proj1 (model2_evaluation_failures (fun _ => (1%Z, 0.9)) 5
                    (M2Agent.mkTrainingHistory [] [] [] [] [])
                    (M2.mkEnv [] [] 10.0 16000 0 [] false []))).
    reflexivity.
  - apply (proj1 (proj2 (model2_evaluation_failures (fun _ => (3%Z, 0.9)) 5
                           (M2Agent.mkTrainingHistory [] [] [] [] [])
                           Examples.m2_ready))).
    + split; [reflexivity |]. split; [discriminate |]. simpl. lia.
    + intro obs. simpl. repeat split; discriminate.
  - apply (proj2 (proj2 (model2_evaluation_failures (fun _ => (1%Z, 0.9)) 5
                           (M2Agent.mkTrainingHistory [] [] [] [] [])
                           (M2.mkEnv [[0; 0]; [1; 1]; [2; 2]] [0; 1]%Z 10.0 16000
                                     0 [] false [[[1]]; [[2]]; [[3]]])))).
    + reflexivity.
    + discriminate.
    + simpl. lia.
    + intro obs. reflexivity.
    + simpl. lia.
Defined.

(** * Properties of the normalisation of features *)




























Example minmax_replay_of_a_constant_column :
  Utils.normalize_features (fun _ => 1) [[1; 5]; [3; 5]] "minmax"
  = Ok ([[Some (0 / 2); Some (0 / 1)]; [Some (2 / 2); Some (0 / 1)]],
        [("min"%string, [1; 5]); ("max"%string, [3; 5])]) /\
  Utils.apply_normalization [[1; 5]; [3; 5]]
    [("min"%string, [1; 5]); ("max"%string, [3; 5])] "minmax"
  = Ok [[Some (0 / 2); None]; [Some (2 / 2); None]].
Proof. split; vm_compute; reflexivity. Qed.
